(** * cad-editor: the scene-editing core, embedded and verified

    A shallow embedding of the scene codec ([src/utils/ioUtils.jsx]), the
    geometry builders ([src/utils/shapeUtils.jsx]) and the event handlers of
    the canvas component ([ThreeCanvas]: picking, extrusion, deletion,
    grouping, history; sketching, transformations, the keyboard, export
    and import).

    Conventions of the embedding.
    - A JavaScript number is an IEEE-754 binary64 value: Rocq's primitive
      [float].  A slot that JavaScript lets hold [undefined] or [null]
      besides a number is a [jsnum].
    - Live THREE objects are shared mutable objects: they live in a heap
      (a list indexed by allocation order) and every reference to one
      ([objectsRef], the selection, the multi-selection set, the children
      of a group) is its heap index.
    - Handlers run in a state-and-exception monad [M]: a [throw] keeps the
      state reached so far, as a JavaScript exception does.
    - THREE.js itself is outside the repository.  Its geometry constructors
      and [Number.prototype.toFixed] are the methods of the class [ThreeJS];
      the raycaster, the camera projection and the DOM rectangle are inputs
      of the handlers ([Viewport]).  Rendering-only effects ([scene.add],
      [scene.remove], [dispose], highlight overlays, [console.log]) are
      left out; [console.warn], [console.error] and [window.dispatchEvent]
      are logged in the state.
    - [scene.attach] rewrites the local transform of the child with the
      matrix arithmetic of THREE.js: it is the method of the class
      [SceneGraph].
    - The refs of the pointer tools and the local variables of the orbit
      control are the record [Tools]; with the state of the scene they make
      a [Canvas], and the listeners of the component run in the monad [MC]
      over it.  The camera orbit itself ([onMouseMove], the wheel) only
      moves the camera, which the handlers see through [Viewport]. *)

From Stdlib Require Import List Ascii String ZArith Bool Arith Lia Floats DecimalString Permutation.
Import ListNotations.
Open Scope string_scope.
Open Scope list_scope.

Set Implicit Arguments.
Set Warnings "-inexact-float".

(* ===================================================================== *)
(** ** JavaScript numbers and scalar slots *)
(* ===================================================================== *)

Module JS.

(** The content of a numeric slot of a JavaScript object. *)
Inductive jsnum : Type :=
| Undefined
| Null
| Num (v : float).

(** ToBoolean on a number: [0], [-0] and [NaN] are falsy. *)
Definition truthy_float (v : float) : bool :=
  negb (PrimFloat.is_zero v || PrimFloat.is_nan v).

Definition truthy (v : jsnum) : bool :=
  match v with
  | Num x => truthy_float x
  | Undefined | Null => false
  end.

(** [v || d] *)
Definition or_else (v : jsnum) (d : float) : jsnum :=
  if truthy v then v else Num d.

(** A default parameter [p = d]: taken only for [undefined]. *)
Definition default_param (v : jsnum) (d : float) : jsnum :=
  match v with
  | Undefined => Num d
  | _ => v
  end.

(** ToNumber: [undefined] is [NaN], [null] is [0]. *)
Definition ToNumber (v : jsnum) : float :=
  match v with
  | Undefined => PrimFloat.nan
  | Null => PrimFloat.zero
  | Num x => x
  end.

(** [Math.max] and [Math.min] on two numbers. *)
Definition Math_max (a b : float) : float :=
  if PrimFloat.is_nan a || PrimFloat.is_nan b then PrimFloat.nan
  else if PrimFloat.ltb a b then b
  else if PrimFloat.ltb b a then a
  else if PrimFloat.get_sign a then b else a.

Definition Math_min (a b : float) : float :=
  if PrimFloat.is_nan a || PrimFloat.is_nan b then PrimFloat.nan
  else if PrimFloat.ltb a b then a
  else if PrimFloat.ltb b a then b
  else if PrimFloat.get_sign a then a else b.

Definition Math_PI : float := 3.141592653589793%float.

(** What [JSON.parse (JSON.stringify v)] makes of a numeric member: a
    non-finite number is written as [null], [-0] is written as [0], an
    [undefined] member is dropped (and reads back as [undefined]). *)
Definition json_number (v : jsnum) : jsnum :=
  match v with
  | Undefined => Undefined
  | Null => Null
  | Num x =>
      if PrimFloat.is_finite x
      then (if PrimFloat.is_zero x then Num PrimFloat.zero else Num x)
      else Null
  end.

(** The numbers [JSON] text carries unchanged: [0] and the finite
    numbers other than [0] and [-0]. *)
Definition json_stable (v : jsnum) : Prop :=
  match v with
  | Num x => x = PrimFloat.zero \/
             (PrimFloat.is_finite x = true /\ PrimFloat.is_zero x = false)
  | Undefined | Null => False
  end.

(** The members [JSON] text carries unchanged: a stable number, [null],
    or no member at all. *)
Definition json_fixed (v : jsnum) : Prop :=
  match v with
  | Num _ => json_stable v
  | Undefined | Null => True
  end.

(** The values [v || 0] leaves alone. *)
Definition zero_or_truthy (v : jsnum) : Prop :=
  v = Num PrimFloat.zero \/ truthy v = true.

End JS.
Import JS.

(* ===================================================================== *)
(** ** Vectors *)
(* ===================================================================== *)

(** An [{x, y, z}] triple whose members are whatever was assigned:
    [Object3D.position], [.rotation], [.scale], a sketch centre, and the
    triples of a scene document. *)
Record Vector3 : Type := vec3 { vx : jsnum; vy : jsnum; vz : jsnum }.

(** [new THREE.Vector3(x, y, z)]: each parameter defaults to [0]. *)
Definition newVector3 (a b c : jsnum) : Vector3 :=
  vec3 (default_param a 0) (default_param b 0) (default_param c 0).

(** A THREE.Vector3 that holds numbers: vertices of a geometry buffer and
    everything computed from them. *)
Record Vec3 : Type := pt { px : float; py : float; pz : float }.

Module Vec.
Local Open Scope float_scope.

Definition zero : Vec3 := pt 0 0 0.
Definition add (a b : Vec3) : Vec3 := pt (px a + px b) (py a + py b) (pz a + pz b).
Definition sub (a b : Vec3) : Vec3 := pt (px a - px b) (py a - py b) (pz a - pz b).
Definition multiplyScalar (a : Vec3) (s : float) : Vec3 :=
  pt (px a * s) (py a * s) (pz a * s).
Definition cross (a b : Vec3) : Vec3 :=
  pt (py a * pz b - pz a * py b)
     (pz a * px b - px a * pz b)
     (px a * py b - py a * px b).
Definition length (a : Vec3) : float :=
  PrimFloat.sqrt (px a * px a + py a * py a + pz a * pz a).
(** [divideScalar (length () || 1)] *)
Definition normalize (a : Vec3) : Vec3 :=
  let l := length a in
  multiplyScalar a (1 / (if truthy_float l then l else 1)).
Definition distanceTo (a b : Vec3) : float :=
  let dx := px a - px b in
  let dy := py a - py b in
  let dz := pz a - pz b in
  PrimFloat.sqrt (dx * dx + dy * dy + dz * dz).
Definition ofVector3 (v : Vector3) : Vec3 :=
  pt (ToNumber (vx v)) (ToNumber (vy v)) (ToNumber (vz v)).
Definition toVector3 (v : Vec3) : Vector3 :=
  vec3 (Num (px v)) (Num (py v)) (Num (pz v)).
End Vec.

(** A THREE.Vector2 of numbers (screen pixels). *)
Record Vec2 : Type := pt2 { p2x : float; p2y : float }.

(* ===================================================================== *)
(** ** THREE.js: what the repository takes from the library *)
(* ===================================================================== *)

(** A THREE.BufferGeometry: the [position] and [normal] attributes and the
    optional index. *)
Record BufferGeometry : Type := {
  attr_position : option (list Vec3);
  attr_normal : option (list Vec3);
  geo_index : option (list nat)
}.

(** A THREE.Shape: the path commands issued on it. *)
Inductive PathCmd : Type :=
| moveTo (x y : float)
| lineTo (x y : float)
| absarc (x y radius startAngle endAngle : float) (clockwise : bool).

Definition Shape2D : Type := list PathCmd.

Record ExtrudeSettings : Type := {
  depth : jsnum;
  bevelEnabled : bool
}.

(** The library calls whose results the repository only stores or hands
    back to the library. *)
Class ThreeJS : Type := {
  BoxGeometry : jsnum -> jsnum -> jsnum -> BufferGeometry;
  SphereGeometry : jsnum -> jsnum -> jsnum -> BufferGeometry;
  CylinderGeometry : jsnum -> jsnum -> jsnum -> jsnum -> BufferGeometry;
  ExtrudeGeometry : Shape2D -> ExtrudeSettings -> BufferGeometry;
  (** [x.toFixed(digits)] *)
  toFixed : float -> nat -> string
}.

(** [THREE.Color]: the colour is kept as the hexadecimal value [getHex]
    returns.  [setHex] keeps the low 24 bits of its argument. *)
Definition Color_setHex (hex : Z) : Z := Z.land hex 16777215.

Inductive Side : Type := FrontSide | DoubleSide.

Record Material : Type := {
  color : Z;
  side : Side
}.

(** [new THREE.MeshStandardMaterial({ color })] *)
Definition MeshStandardMaterial (c : Z) : Material :=
  {| color := Color_setHex c; side := FrontSide |}.

(* ===================================================================== *)
(** ** Faces and edges ([shapeUtils.jsx]) *)
(* ===================================================================== *)

Record Face : Type := {
  f_center : Vec3;
  f_normal : Vec3;
  f_vertices : list Vec3;
  f_area : float;
  f_size : float
}.

Record Edge : Type := {
  e_start : Vec3;
  e_end : Vec3
}.

(** [positions.getX(i)], [getY], [getZ] wrapped in a [new THREE.Vector3]:
    past the end of the buffer, or at an [undefined] index, the three reads
    are [undefined] and the constructor's defaults give the origin. *)
Definition getVertex (positions : list Vec3) (i : option nat) : Vec3 :=
  match i with
  | Some n => nth n positions Vec.zero
  | None => Vec.zero
  end.

(** The index triples [(getX(i), getX(i+1), getX(i+2))] for
    [i = 0, 3, 6, ... < index.count]. *)
Fixpoint indexTriples (ix : list nat) : list (option nat * option nat * option nat) :=
  match ix with
  | [] => []
  | a :: [] => [(Some a, None, None)]
  | a :: b :: [] => [(Some a, Some b, None)]
  | a :: b :: c :: rest => (Some a, Some b, Some c) :: indexTriples rest
  end.

(** The triples [(3t, 3t+1, 3t+2)] of a non-indexed geometry,
    [t < floor(count / 3)]. *)
Definition sequentialTriples (count : nat) : list (option nat * option nat * option nat) :=
  map (fun t => (Some (3 * t), Some (3 * t + 1), Some (3 * t + 2))) (seq 0 (count / 3)).

(** The triangles the two loops of [createFacesFromGeometry] and
    [createEdgesFromGeometry] visit. *)
Definition triangleTriples (positions : list Vec3) (index : option (list nat))
  : list (option nat * option nat * option nat) :=
  match index with
  | Some ix => if Nat.leb 3 (List.length ix) then indexTriples ix
               else sequentialTriples (List.length positions)
  | None => sequentialTriples (List.length positions)
  end.

Section Builders.
Context {three : ThreeJS}.

Definition edgeKey (a b : Vec3) : string :=
  (toFixed (px a) 3 ++ "," ++ toFixed (py a) 3 ++ "," ++ toFixed (pz a) 3 ++ "-" ++
   toFixed (px b) 3 ++ "," ++ toFixed (py b) 3 ++ "," ++ toFixed (pz b) 3)%string.

(** [edgeMap.has(key)] on a [Map] kept in insertion order. *)
Definition Map_has (m : list (string * Edge)) (k : string) : bool :=
  existsb (fun kv => String.eqb (fst kv) k) m.

Definition addEdge (m : list (string * Edge)) (start end_ : Vec3) : list (string * Edge) :=
  let key1 := edgeKey start end_ in
  let key2 := edgeKey end_ start in
  if negb (Map_has m key1) && negb (Map_has m key2)
  then m ++ [(key1, {| e_start := start; e_end := end_ |})]
  else m.

Definition pushTriangleEdges (positions : list Vec3) (m : list (string * Edge))
           (t : option nat * option nat * option nat) : list (string * Edge) :=
  let '(i0, i1, i2) := t in
  let v0 := getVertex positions i0 in
  let v1 := getVertex positions i1 in
  let v2 := getVertex positions i2 in
  addEdge (addEdge (addEdge m v0 v1) v1 v2) v2 v0.

Definition createEdgesFromGeometry (geometry : BufferGeometry) : list Edge :=
  match attr_position geometry with
  | None => []
  | Some positions =>
      map snd (fold_left (pushTriangleEdges positions)
                         (triangleTriples positions (geo_index geometry)) [])
  end.

Definition pushFace (positions : list Vec3) (normals : option (list Vec3))
           (t : option nat * option nat * option nat) : Face :=
  let '(i0, i1, i2) := t in
  let v0 := getVertex positions i0 in
  let v1 := getVertex positions i1 in
  let v2 := getVertex positions i2 in
  let normal :=
    match normals with
    | Some ns => getVertex ns i0
    | None => Vec.normalize (Vec.cross (Vec.sub v1 v0) (Vec.sub v2 v0))
    end in
  let center :=
    Vec.multiplyScalar (Vec.add (Vec.add (Vec.add Vec.zero v0) v1) v2) (1 / 3)%float in
  let area := (Vec.length (Vec.cross (Vec.sub v0 v1) (Vec.sub v1 v2)) / 2)%float in
  {| f_center := center;
     f_normal := Vec.normalize normal;
     f_vertices := [v0; v1; v2];
     f_area := area;
     f_size := Math_max (Math_max (Vec.distanceTo v0 v1) (Vec.distanceTo v1 v2))
                        (Vec.distanceTo v2 v0) |}.

Definition createFacesFromGeometry (geometry : BufferGeometry) : list Face :=
  match attr_position geometry with
  | None => []
  | Some positions =>
      map (pushFace positions (attr_normal geometry))
          (triangleTriples positions (geo_index geometry))
  end.

End Builders.

(* ===================================================================== *)
(** ** The data model: sketches, shapes, scene documents *)
(* ===================================================================== *)

(** A sketch object.  The same members describe a committed sketch of the
    sketch list, the [sketchData] kept by an extruded shape, and a record
    of the [sketches] array of a scene document; a member the object does
    not have is [None] or [Undefined]. *)
Record Sketch : Type := {
  sk_id : option nat;
  sk_type : option string;
  sk_start : option Vector3;
  sk_end : option Vector3;
  sk_width : jsnum;
  sk_height : jsnum;
  sk_radius : jsnum;
  sk_center : option Vector3
}.

Record Dimensions : Type := {
  dim_width : jsnum;
  dim_height : jsnum;
  dim_depth : jsnum
}.

(** [Object3D.userData] *)
Record UserData : Type := {
  ud_type : option string;
  ud_dimensions : option Dimensions;
  ud_radius : jsnum;
  ud_height : jsnum;
  ud_extrusionHeight : jsnum;
  ud_sketchData : option Sketch;
  ud_faces : option (list Face);
  ud_edges : option (list Edge)
}.

Definition emptyUserData : UserData :=
  {| ud_type := None; ud_dimensions := None; ud_radius := Undefined;
     ud_height := Undefined; ud_extrusionHeight := Undefined;
     ud_sketchData := None; ud_faces := None; ud_edges := None |}.

(** A live THREE.Object3D: a [THREE.Mesh] (geometry and material) or a
    [THREE.Group] (neither).  [children] are heap references. *)
Record Object3D : Type := {
  isGroup : bool;
  position : Vector3;
  rotation : Vector3;
  scale : Vector3;
  material : option Material;
  geometry : option BufferGeometry;
  userData : UserData;
  children : list nat
}.

Definition set_position (p : Vector3) (o : Object3D) : Object3D :=
  {| isGroup := isGroup o; position := p; rotation := rotation o; scale := scale o;
     material := material o; geometry := geometry o; userData := userData o;
     children := children o |}.

Definition set_rotation (r : Vector3) (o : Object3D) : Object3D :=
  {| isGroup := isGroup o; position := position o; rotation := r; scale := scale o;
     material := material o; geometry := geometry o; userData := userData o;
     children := children o |}.

Definition set_scale (k : Vector3) (o : Object3D) : Object3D :=
  {| isGroup := isGroup o; position := position o; rotation := rotation o; scale := k;
     material := material o; geometry := geometry o; userData := userData o;
     children := children o |}.

Definition set_material (m : option Material) (o : Object3D) : Object3D :=
  {| isGroup := isGroup o; position := position o; rotation := rotation o; scale := scale o;
     material := m; geometry := geometry o; userData := userData o;
     children := children o |}.

Definition set_userData (u : UserData) (o : Object3D) : Object3D :=
  {| isGroup := isGroup o; position := position o; rotation := rotation o; scale := scale o;
     material := material o; geometry := geometry o; userData := u;
     children := children o |}.

Definition set_children (c : list nat) (o : Object3D) : Object3D :=
  {| isGroup := isGroup o; position := position o; rotation := rotation o; scale := scale o;
     material := material o; geometry := geometry o; userData := userData o;
     children := c |}.

(** [new THREE.Mesh(geometry, material)] *)
Definition newMesh (g : BufferGeometry) (m : Material) : Object3D :=
  {| isGroup := false;
     position := vec3 (Num 0) (Num 0) (Num 0);
     rotation := vec3 (Num 0) (Num 0) (Num 0);
     scale := vec3 (Num 1) (Num 1) (Num 1);
     material := Some m; geometry := Some g;
     userData := emptyUserData; children := [] |}.

(** [new THREE.Group()] *)
Definition newGroup : Object3D :=
  {| isGroup := true;
     position := vec3 (Num 0) (Num 0) (Num 0);
     rotation := vec3 (Num 0) (Num 0) (Num 0);
     scale := vec3 (Num 1) (Num 1) (Num 1);
     material := None; geometry := None;
     userData := emptyUserData; children := [] |}.

(** *** The persisted scene document *)

Record MaterialData : Type := { md_color : option Z }.

Record ObjData : Type := {
  od_id : nat;
  od_type : option string;
  od_position : option Vector3;
  od_rotation : option Vector3;
  od_scale : option Vector3;
  od_material : option MaterialData;
  od_dimensions : option Dimensions;
  od_radius : jsnum;
  od_height : jsnum;
  od_extrusionHeight : jsnum;
  od_sketchData : option Sketch
}.

Record SceneData : Type := {
  sd_version : option string;
  sd_objects : option (list ObjData);
  sd_sketches : option (list Sketch)
}.

(* ===================================================================== *)
(** ** Shape builders ([shapeUtils.jsx]) *)
(* ===================================================================== *)

Section Shapes.
Context {three : ThreeJS}.

Definition createBox (width height depth : jsnum) : Object3D :=
  let width := default_param width 1 in
  let height := default_param height 1 in
  let depth := default_param depth 1 in
  let geometry := BoxGeometry width height depth in
  let material := MeshStandardMaterial 2200782 (* 0x2194ce *) in
  set_userData
    {| ud_type := Some "box";
       ud_dimensions := Some {| dim_width := width; dim_height := height; dim_depth := depth |};
       ud_radius := Undefined; ud_height := Undefined;
       ud_extrusionHeight := Undefined; ud_sketchData := None;
       ud_faces := Some (createFacesFromGeometry geometry);
       ud_edges := Some (createEdgesFromGeometry geometry) |}
    (newMesh geometry material).

Definition createSphere (radius segments : jsnum) : Object3D :=
  let radius := default_param radius 0.7 in
  let segments := default_param segments 32 in
  let geometry := SphereGeometry radius segments segments in
  let material := MeshStandardMaterial 13378074 (* 0xcc221a *) in
  set_userData
    {| ud_type := Some "sphere";
       ud_dimensions := None;
       ud_radius := radius; ud_height := Undefined;
       ud_extrusionHeight := Undefined; ud_sketchData := None;
       ud_faces := Some (createFacesFromGeometry geometry);
       ud_edges := Some (createEdgesFromGeometry geometry) |}
    (newMesh geometry material).

Definition createCylinder (radius height segments : jsnum) : Object3D :=
  let radius := default_param radius 0.5 in
  let height := default_param height 1 in
  let segments := default_param segments 32 in
  let geometry := CylinderGeometry radius radius height segments in
  let material := MeshStandardMaterial 2280567 (* 0x22cc77 *) in
  set_userData
    {| ud_type := Some "cylinder";
       ud_dimensions := None;
       ud_radius := radius; ud_height := height;
       ud_extrusionHeight := Undefined; ud_sketchData := None;
       ud_faces := Some (createFacesFromGeometry geometry);
       ud_edges := Some (createEdgesFromGeometry geometry) |}
    (newMesh geometry material).

Definition updateShapeGeometry (shape : Object3D) : Object3D :=
  match geometry shape with
  | None => shape
  | Some g =>
      let u := userData shape in
      set_userData
        {| ud_type := ud_type u; ud_dimensions := ud_dimensions u;
           ud_radius := ud_radius u; ud_height := ud_height u;
           ud_extrusionHeight := ud_extrusionHeight u;
           ud_sketchData := ud_sketchData u;
           ud_faces := Some (createFacesFromGeometry g);
           ud_edges := Some (createEdgesFromGeometry g) |}
        shape
  end.

End Shapes.

(* ===================================================================== *)
(** ** The state of the canvas component *)
(* ===================================================================== *)

(** What the primary selection refers to.  A face or an edge is an element
    of the [faces] or [edges] array of exactly one live shape; the handlers
    set its [parentObject] to that shape at the moment they select it, so
    the reference carries the owner and the position in the array. *)
Inductive Entity : Type :=
| ShapeRef (object : nat)
| FaceRef (parentObject : nat) (faceIndex : nat)
| EdgeRef (parentObject : nat) (edgeIndex : nat).

(** The strings ['shape'], ['face'], ['edge']. *)
Inductive SelType : Type := TShape | TFace | TEdge.

(** A history snapshot: the string [JSON.stringify] produced, kept as the
    document [JSON.parse] reads back from it. *)
Definition Snapshot : Type := SceneData.

Inductive LogEntry : Type :=
| console_warn (msg : string) (arg : option string)
| console_error (msg : string).

(** [window.dispatchEvent(new CustomEvent(name, { detail }))] *)
Inductive Notification : Type :=
| selectionChanged (entity : option Entity) (type : option SelType)
| sketchesUpdated (detail : list Sketch).

(** The refs and React state of [ThreeCanvas], the heap of live objects,
    and the two output logs. *)
Record State : Type := {
  heap : list Object3D;
  objectsRef : list nat;
  sketchesRef : list Sketch;
  selectedEntity : option Entity;
  selectedType : option SelType;
  sketchTool : option string;
  selectedEntityRef : option Entity;
  selectedTypeRef : option SelType;
  sketchModeRef : bool;
  sketchToolRef : option string;
  isDraggingRef : bool;
  pendingShapeTypeRef : option string;
  undoStackRef : list Snapshot;
  redoStackRef : list Snapshot;
  multiSelectedRef : list nat;
  console : list LogEntry;
  events : list Notification
}.

Definition set_heap (v : list Object3D) (s : State) : State :=
  {| heap := v; objectsRef := objectsRef s; sketchesRef := sketchesRef s; selectedEntity :=
     selectedEntity s; selectedType := selectedType s; sketchTool := sketchTool s;
     selectedEntityRef := selectedEntityRef s; selectedTypeRef := selectedTypeRef s;
     sketchModeRef := sketchModeRef s; sketchToolRef := sketchToolRef s; isDraggingRef :=
     isDraggingRef s; pendingShapeTypeRef := pendingShapeTypeRef s; undoStackRef :=
     undoStackRef s; redoStackRef := redoStackRef s; multiSelectedRef := multiSelectedRef s;
     console := console s; events := events s |}.

Definition set_objectsRef (v : list nat) (s : State) : State :=
  {| heap := heap s; objectsRef := v; sketchesRef := sketchesRef s; selectedEntity :=
     selectedEntity s; selectedType := selectedType s; sketchTool := sketchTool s;
     selectedEntityRef := selectedEntityRef s; selectedTypeRef := selectedTypeRef s;
     sketchModeRef := sketchModeRef s; sketchToolRef := sketchToolRef s; isDraggingRef :=
     isDraggingRef s; pendingShapeTypeRef := pendingShapeTypeRef s; undoStackRef :=
     undoStackRef s; redoStackRef := redoStackRef s; multiSelectedRef := multiSelectedRef s;
     console := console s; events := events s |}.

Definition set_sketchesRef (v : list Sketch) (s : State) : State :=
  {| heap := heap s; objectsRef := objectsRef s; sketchesRef := v; selectedEntity :=
     selectedEntity s; selectedType := selectedType s; sketchTool := sketchTool s;
     selectedEntityRef := selectedEntityRef s; selectedTypeRef := selectedTypeRef s;
     sketchModeRef := sketchModeRef s; sketchToolRef := sketchToolRef s; isDraggingRef :=
     isDraggingRef s; pendingShapeTypeRef := pendingShapeTypeRef s; undoStackRef :=
     undoStackRef s; redoStackRef := redoStackRef s; multiSelectedRef := multiSelectedRef s;
     console := console s; events := events s |}.

Definition set_selectedEntity (v : option Entity) (s : State) : State :=
  {| heap := heap s; objectsRef := objectsRef s; sketchesRef := sketchesRef s;
     selectedEntity := v; selectedType := selectedType s; sketchTool := sketchTool s;
     selectedEntityRef := selectedEntityRef s; selectedTypeRef := selectedTypeRef s;
     sketchModeRef := sketchModeRef s; sketchToolRef := sketchToolRef s; isDraggingRef :=
     isDraggingRef s; pendingShapeTypeRef := pendingShapeTypeRef s; undoStackRef :=
     undoStackRef s; redoStackRef := redoStackRef s; multiSelectedRef := multiSelectedRef s;
     console := console s; events := events s |}.

Definition set_selectedType (v : option SelType) (s : State) : State :=
  {| heap := heap s; objectsRef := objectsRef s; sketchesRef := sketchesRef s;
     selectedEntity := selectedEntity s; selectedType := v; sketchTool := sketchTool s;
     selectedEntityRef := selectedEntityRef s; selectedTypeRef := selectedTypeRef s;
     sketchModeRef := sketchModeRef s; sketchToolRef := sketchToolRef s; isDraggingRef :=
     isDraggingRef s; pendingShapeTypeRef := pendingShapeTypeRef s; undoStackRef :=
     undoStackRef s; redoStackRef := redoStackRef s; multiSelectedRef := multiSelectedRef s;
     console := console s; events := events s |}.

Definition set_sketchTool (v : option string) (s : State) : State :=
  {| heap := heap s; objectsRef := objectsRef s; sketchesRef := sketchesRef s;
     selectedEntity := selectedEntity s; selectedType := selectedType s; sketchTool := v;
     selectedEntityRef := selectedEntityRef s; selectedTypeRef := selectedTypeRef s;
     sketchModeRef := sketchModeRef s; sketchToolRef := sketchToolRef s; isDraggingRef :=
     isDraggingRef s; pendingShapeTypeRef := pendingShapeTypeRef s; undoStackRef :=
     undoStackRef s; redoStackRef := redoStackRef s; multiSelectedRef := multiSelectedRef s;
     console := console s; events := events s |}.

Definition set_selectedEntityRef (v : option Entity) (s : State) : State :=
  {| heap := heap s; objectsRef := objectsRef s; sketchesRef := sketchesRef s;
     selectedEntity := selectedEntity s; selectedType := selectedType s; sketchTool :=
     sketchTool s; selectedEntityRef := v; selectedTypeRef := selectedTypeRef s;
     sketchModeRef := sketchModeRef s; sketchToolRef := sketchToolRef s; isDraggingRef :=
     isDraggingRef s; pendingShapeTypeRef := pendingShapeTypeRef s; undoStackRef :=
     undoStackRef s; redoStackRef := redoStackRef s; multiSelectedRef := multiSelectedRef s;
     console := console s; events := events s |}.

Definition set_selectedTypeRef (v : option SelType) (s : State) : State :=
  {| heap := heap s; objectsRef := objectsRef s; sketchesRef := sketchesRef s;
     selectedEntity := selectedEntity s; selectedType := selectedType s; sketchTool :=
     sketchTool s; selectedEntityRef := selectedEntityRef s; selectedTypeRef := v;
     sketchModeRef := sketchModeRef s; sketchToolRef := sketchToolRef s; isDraggingRef :=
     isDraggingRef s; pendingShapeTypeRef := pendingShapeTypeRef s; undoStackRef :=
     undoStackRef s; redoStackRef := redoStackRef s; multiSelectedRef := multiSelectedRef s;
     console := console s; events := events s |}.

Definition set_sketchModeRef (v : bool) (s : State) : State :=
  {| heap := heap s; objectsRef := objectsRef s; sketchesRef := sketchesRef s;
     selectedEntity := selectedEntity s; selectedType := selectedType s; sketchTool :=
     sketchTool s; selectedEntityRef := selectedEntityRef s; selectedTypeRef :=
     selectedTypeRef s; sketchModeRef := v; sketchToolRef := sketchToolRef s; isDraggingRef
     := isDraggingRef s; pendingShapeTypeRef := pendingShapeTypeRef s; undoStackRef :=
     undoStackRef s; redoStackRef := redoStackRef s; multiSelectedRef := multiSelectedRef s;
     console := console s; events := events s |}.

Definition set_sketchToolRef (v : option string) (s : State) : State :=
  {| heap := heap s; objectsRef := objectsRef s; sketchesRef := sketchesRef s;
     selectedEntity := selectedEntity s; selectedType := selectedType s; sketchTool :=
     sketchTool s; selectedEntityRef := selectedEntityRef s; selectedTypeRef :=
     selectedTypeRef s; sketchModeRef := sketchModeRef s; sketchToolRef := v; isDraggingRef
     := isDraggingRef s; pendingShapeTypeRef := pendingShapeTypeRef s; undoStackRef :=
     undoStackRef s; redoStackRef := redoStackRef s; multiSelectedRef := multiSelectedRef s;
     console := console s; events := events s |}.

Definition set_isDraggingRef (v : bool) (s : State) : State :=
  {| heap := heap s; objectsRef := objectsRef s; sketchesRef := sketchesRef s;
     selectedEntity := selectedEntity s; selectedType := selectedType s; sketchTool :=
     sketchTool s; selectedEntityRef := selectedEntityRef s; selectedTypeRef :=
     selectedTypeRef s; sketchModeRef := sketchModeRef s; sketchToolRef := sketchToolRef s;
     isDraggingRef := v; pendingShapeTypeRef := pendingShapeTypeRef s; undoStackRef :=
     undoStackRef s; redoStackRef := redoStackRef s; multiSelectedRef := multiSelectedRef s;
     console := console s; events := events s |}.

Definition set_pendingShapeTypeRef (v : option string) (s : State) : State :=
  {| heap := heap s; objectsRef := objectsRef s; sketchesRef := sketchesRef s;
     selectedEntity := selectedEntity s; selectedType := selectedType s; sketchTool :=
     sketchTool s; selectedEntityRef := selectedEntityRef s; selectedTypeRef :=
     selectedTypeRef s; sketchModeRef := sketchModeRef s; sketchToolRef := sketchToolRef s;
     isDraggingRef := isDraggingRef s; pendingShapeTypeRef := v; undoStackRef :=
     undoStackRef s; redoStackRef := redoStackRef s; multiSelectedRef := multiSelectedRef s;
     console := console s; events := events s |}.

Definition set_undoStackRef (v : list Snapshot) (s : State) : State :=
  {| heap := heap s; objectsRef := objectsRef s; sketchesRef := sketchesRef s;
     selectedEntity := selectedEntity s; selectedType := selectedType s; sketchTool :=
     sketchTool s; selectedEntityRef := selectedEntityRef s; selectedTypeRef :=
     selectedTypeRef s; sketchModeRef := sketchModeRef s; sketchToolRef := sketchToolRef s;
     isDraggingRef := isDraggingRef s; pendingShapeTypeRef := pendingShapeTypeRef s;
     undoStackRef := v; redoStackRef := redoStackRef s; multiSelectedRef := multiSelectedRef
     s; console := console s; events := events s |}.

Definition set_redoStackRef (v : list Snapshot) (s : State) : State :=
  {| heap := heap s; objectsRef := objectsRef s; sketchesRef := sketchesRef s;
     selectedEntity := selectedEntity s; selectedType := selectedType s; sketchTool :=
     sketchTool s; selectedEntityRef := selectedEntityRef s; selectedTypeRef :=
     selectedTypeRef s; sketchModeRef := sketchModeRef s; sketchToolRef := sketchToolRef s;
     isDraggingRef := isDraggingRef s; pendingShapeTypeRef := pendingShapeTypeRef s;
     undoStackRef := undoStackRef s; redoStackRef := v; multiSelectedRef := multiSelectedRef
     s; console := console s; events := events s |}.

Definition set_multiSelectedRef (v : list nat) (s : State) : State :=
  {| heap := heap s; objectsRef := objectsRef s; sketchesRef := sketchesRef s;
     selectedEntity := selectedEntity s; selectedType := selectedType s; sketchTool :=
     sketchTool s; selectedEntityRef := selectedEntityRef s; selectedTypeRef :=
     selectedTypeRef s; sketchModeRef := sketchModeRef s; sketchToolRef := sketchToolRef s;
     isDraggingRef := isDraggingRef s; pendingShapeTypeRef := pendingShapeTypeRef s;
     undoStackRef := undoStackRef s; redoStackRef := redoStackRef s; multiSelectedRef := v;
     console := console s; events := events s |}.

Definition set_console (v : list LogEntry) (s : State) : State :=
  {| heap := heap s; objectsRef := objectsRef s; sketchesRef := sketchesRef s;
     selectedEntity := selectedEntity s; selectedType := selectedType s; sketchTool :=
     sketchTool s; selectedEntityRef := selectedEntityRef s; selectedTypeRef :=
     selectedTypeRef s; sketchModeRef := sketchModeRef s; sketchToolRef := sketchToolRef s;
     isDraggingRef := isDraggingRef s; pendingShapeTypeRef := pendingShapeTypeRef s;
     undoStackRef := undoStackRef s; redoStackRef := redoStackRef s; multiSelectedRef :=
     multiSelectedRef s; console := v; events := events s |}.

Definition set_events (v : list Notification) (s : State) : State :=
  {| heap := heap s; objectsRef := objectsRef s; sketchesRef := sketchesRef s;
     selectedEntity := selectedEntity s; selectedType := selectedType s; sketchTool :=
     sketchTool s; selectedEntityRef := selectedEntityRef s; selectedTypeRef :=
     selectedTypeRef s; sketchModeRef := sketchModeRef s; sketchToolRef := sketchToolRef s;
     isDraggingRef := isDraggingRef s; pendingShapeTypeRef := pendingShapeTypeRef s;
     undoStackRef := undoStackRef s; redoStackRef := redoStackRef s; multiSelectedRef :=
     multiSelectedRef s; console := console s; events := v |}.

Definition initialState : State :=
  {| heap := []; objectsRef := []; sketchesRef := [];
     selectedEntity := None; selectedType := None; sketchTool := None;
     selectedEntityRef := None; selectedTypeRef := None;
     sketchModeRef := false; sketchToolRef := None; isDraggingRef := false;
     pendingShapeTypeRef := None; undoStackRef := []; redoStackRef := [];
     multiSelectedRef := []; console := []; events := [] |}.

(* ===================================================================== *)
(** ** Handlers as state transformers that may throw *)
(* ===================================================================== *)

Inductive Error : Type :=
| TypeError (msg : string)
| DanglingReference (r : nat).

Inductive Outcome (A : Type) : Type :=
| Ok (a : A)
| Throw (e : Error).
Arguments Throw {A} e.

Definition M (A : Type) : Type := State -> Outcome A * State.

Definition ret {A} (a : A) : M A := fun s => (Ok a, s).

Definition bind {A B} (m : M A) (k : A -> M B) : M B :=
  fun s =>
    match m s with
    | (Ok a, s') => k a s'
    | (Throw e, s') => (Throw e, s')
    end.

Definition throw {A} (e : Error) : M A := fun s => (Throw e, s).

(** [try { body } catch (e) { handler e }] *)
Definition try_catch {A} (body : M A) (handler : Error -> M A) : M A :=
  fun s =>
    match body s with
    | (Ok a, s') => (Ok a, s')
    | (Throw e, s') => handler e s'
    end.

Definition get : M State := fun s => (Ok s, s).
Definition gets {A} (f : State -> A) : M A := fun s => (Ok (f s), s).
Definition modify (f : State -> State) : M unit := fun s => (Ok tt, f s).

Declare Scope js_scope.
Delimit Scope js_scope with js.
Notation "x <- m ;; k" := (bind m (fun x => k))
  (at level 61, m at next level, right associativity) : js_scope.
Notation "m ;; k" := (bind m (fun _ => k))
  (at level 61, right associativity) : js_scope.
Open Scope js_scope.

(** [forEach]: the callback runs on each element in order; a throw ends
    the loop. *)
Fixpoint forEach {A} (l : list A) (f : A -> M unit) : M unit :=
  match l with
  | [] => ret tt
  | a :: rest => f a ;; forEach rest f
  end.

Definition when (b : bool) (m : M unit) : M unit := if b then m else ret tt.

(** A live object is reached through its reference. *)
Definition deref (r : nat) : M Object3D :=
  fun s =>
    match nth_error (heap s) r with
    | Some o => (Ok o, s)
    | None => (Throw (DanglingReference r), s)
    end.

(** The object a constructor returned enters the heap when the handler
    first publishes it. *)
Definition alloc (o : Object3D) : M nat :=
  fun s => (Ok (List.length (heap s)), set_heap (heap s ++ [o]) s).

Definition log (e : LogEntry) : M unit :=
  modify (fun s => set_console (console s ++ [e]) s).

Definition dispatchEvent (n : Notification) : M unit :=
  modify (fun s => set_events (events s ++ [n]) s).

(** [array.push(x)] and [array.pop()] on the arrays held in refs. *)
Definition push {A} (l : list A) (x : A) : list A := l ++ [x].
Definition pop {A} (l : list A) : option A * list A :=
  match rev l with
  | [] => (None, l)
  | x :: r => (Some x, rev r)
  end.

(** [array.includes(x)], [set.has(x)] on references. *)
Definition includes (l : list nat) (x : nat) : bool := existsb (Nat.eqb x) l.

(* ===================================================================== *)
(** ** The scene codec ([ioUtils.jsx]) *)
(* ===================================================================== *)

(** [t === name] on a member that may be missing. *)
Definition type_is (t : option string) (name : string) : bool :=
  match t with
  | Some x => String.eqb x name
  | None => false
  end.

(** [t || d] on a string member: the empty string is falsy. *)
Definition string_or (t : option string) (d : string) : string :=
  match t with
  | Some EmptyString | None => d
  | Some x => x
  end.

(** [{ x: c.x || 0, y: c.y || 0, z: c.z || 0 }] *)
Definition centerData (c : Vector3) : Vector3 :=
  vec3 (or_else (vx c) 0) (or_else (vy c) 0) (or_else (vz c) 0).

Definition defaultDimensions : Dimensions :=
  {| dim_width := Num 1; dim_height := Num 1; dim_depth := Num 1 |}.

(** The [sketchData] member written for an extruded shape. *)
Definition serializeSketchData (sd : Sketch) : Sketch :=
  {| sk_id := None;
     sk_type := sk_type sd;
     sk_start := None; sk_end := None;
     sk_width := sk_width sd;
     sk_height := sk_height sd;
     sk_radius := sk_radius sd;
     sk_center := option_map centerData (sk_center sd) |}.

(** The callback of [objects.forEach] in [saveSceneToJSON]. *)
Definition serializeObject (index : nat) (obj : Object3D) : M ObjData :=
  match material obj with
  | None => throw (TypeError "Cannot read properties of undefined (reading 'color')")
  | Some mat =>
      let u := userData obj in
      let objData (dimensions : option Dimensions) (radius height extrusionHeight : jsnum)
                  (sketchData : option Sketch) :=
        {| od_id := index;
           od_type := Some (string_or (ud_type u) "unknown");
           od_position := Some (position obj);
           od_rotation := Some (rotation obj);
           od_scale := Some (scale obj);
           od_material := Some {| md_color := Some (color mat) |};
           od_dimensions := dimensions;
           od_radius := radius;
           od_height := height;
           od_extrusionHeight := extrusionHeight;
           od_sketchData := sketchData |} in
      if type_is (ud_type u) "box" then
        ret (objData (Some match ud_dimensions u with
                           | Some d => d
                           | None => defaultDimensions
                           end)
                     Undefined Undefined Undefined None)
      else if type_is (ud_type u) "sphere" then
        ret (objData None (or_else (ud_radius u) 0.7) Undefined Undefined None)
      else if type_is (ud_type u) "cylinder" then
        ret (objData None (or_else (ud_radius u) 0.5) (or_else (ud_height u) 1) Undefined None)
      else if type_is (ud_type u) "extruded" then
        ret (objData None Undefined Undefined (or_else (ud_extrusionHeight u) 2)
                     (option_map serializeSketchData (ud_sketchData u)))
      else
        ret (objData None Undefined Undefined Undefined None)
  end.

Fixpoint serializeObjects (index : nat) (objects : list nat) : M (list ObjData) :=
  match objects with
  | [] => ret []
  | r :: rest =>
      obj <- deref r ;;
      objData <- serializeObject index obj ;;
      others <- serializeObjects (S index) rest ;;
      ret (objData :: others)
  end.

(** The callback of [sketches.forEach] in [saveSceneToJSON]. *)
Definition serializeSketch (index : nat) (sketch : Sketch) : Sketch :=
  if type_is (sk_type sketch) "rectangle" then
    {| sk_id := Some index; sk_type := sk_type sketch;
       sk_start := None; sk_end := None;
       sk_width := sk_width sketch; sk_height := sk_height sketch;
       sk_radius := Undefined;
       sk_center := option_map centerData (sk_center sketch) |}
  else if type_is (sk_type sketch) "circle" then
    {| sk_id := Some index; sk_type := sk_type sketch;
       sk_start := None; sk_end := None;
       sk_width := Undefined; sk_height := Undefined;
       sk_radius := sk_radius sketch;
       sk_center := option_map centerData (sk_center sketch) |}
  else
    {| sk_id := Some index; sk_type := sk_type sketch;
       sk_start := None; sk_end := None;
       sk_width := Undefined; sk_height := Undefined;
       sk_radius := Undefined; sk_center := None |}.

Fixpoint serializeSketches (index : nat) (sketches : list Sketch) : list Sketch :=
  match sketches with
  | [] => []
  | k :: rest => serializeSketch index k :: serializeSketches (S index) rest
  end.

Definition saveSceneToJSON (objects : list nat) (sketches : list Sketch) : M SceneData :=
  objs <- serializeObjects 0 objects ;;
  ret {| sd_version := Some "1.0";
         sd_objects := Some objs;
         sd_sketches := Some (serializeSketches 0 sketches) |}.

(** *** [JSON.parse (JSON.stringify document)] *)

Definition json_vector (v : Vector3) : Vector3 :=
  vec3 (json_number (vx v)) (json_number (vy v)) (json_number (vz v)).

Definition json_dimensions (d : Dimensions) : Dimensions :=
  {| dim_width := json_number (dim_width d);
     dim_height := json_number (dim_height d);
     dim_depth := json_number (dim_depth d) |}.

Definition json_sketch (k : Sketch) : Sketch :=
  {| sk_id := sk_id k; sk_type := sk_type k;
     sk_start := option_map json_vector (sk_start k);
     sk_end := option_map json_vector (sk_end k);
     sk_width := json_number (sk_width k);
     sk_height := json_number (sk_height k);
     sk_radius := json_number (sk_radius k);
     sk_center := option_map json_vector (sk_center k) |}.

Definition json_object (d : ObjData) : ObjData :=
  {| od_id := od_id d; od_type := od_type d;
     od_position := option_map json_vector (od_position d);
     od_rotation := option_map json_vector (od_rotation d);
     od_scale := option_map json_vector (od_scale d);
     od_material := od_material d;
     od_dimensions := option_map json_dimensions (od_dimensions d);
     od_radius := json_number (od_radius d);
     od_height := json_number (od_height d);
     od_extrusionHeight := json_number (od_extrusionHeight d);
     od_sketchData := option_map json_sketch (od_sketchData d) |}.

Definition JSON_parse_stringify (d : SceneData) : SceneData :=
  {| sd_version := sd_version d;
     sd_objects := option_map (map json_object) (sd_objects d);
     sd_sketches := option_map (map json_sketch) (sd_sketches d) |}.

(** *** Loading *)

Section Codec.
Context {three : ThreeJS}.
Local Open Scope float_scope.

Definition rectangleShape (width height : jsnum) : Shape2D :=
  let w := ToNumber width in
  let h := ToNumber height in
  [ moveTo (- w / 2) (- h / 2);
    lineTo (w / 2) (- h / 2);
    lineTo (w / 2) (h / 2);
    lineTo (- w / 2) (h / 2);
    lineTo (- w / 2) (- h / 2) ].

Definition circleShape (radius : jsnum) : Shape2D :=
  [ absarc 0 0 (ToNumber radius) 0 (Math_PI * 2) false ].

(** The mesh both [recreateExtrudedShape] and [handleExtrude] build from
    a 2D outline, before its [userData] is filled. *)
Definition extrudedMesh (shape2D : Shape2D) (height : jsnum) : Object3D :=
  newMesh (ExtrudeGeometry shape2D {| depth := height; bevelEnabled := false |})
          (MeshStandardMaterial 43520 (* 0x00aa00 *)).

Definition extrudedUserData (height : jsnum) (sketchData : Sketch) : UserData :=
  {| ud_type := Some "extruded"; ud_dimensions := None;
     ud_radius := Undefined; ud_height := Undefined;
     ud_extrusionHeight := height;
     ud_sketchData := Some sketchData;
     ud_faces := None; ud_edges := None |}.

(** Returns [None] for JavaScript's [null]. *)
Definition recreateExtrudedShape (objData : ObjData) : M (option Object3D) :=
  match od_sketchData objData with
  | None => throw (TypeError "Cannot read properties of undefined (reading 'type')")
  | Some sketchData =>
      let height := or_else (od_extrusionHeight objData) 2 in
      let shape2D :=
        if type_is (sk_type sketchData) "rectangle"
        then Some (rectangleShape (sk_width sketchData) (sk_height sketchData))
        else if type_is (sk_type sketchData) "circle"
        then Some (circleShape (sk_radius sketchData))
        else None in
      match shape2D with
      | None => ret None
      | Some shape2D =>
          ret (Some (updateShapeGeometry
                       (set_userData (extrudedUserData height sketchData)
                                     (extrudedMesh shape2D height))))
      end
  end.

(** [if (objData.material && objData.material.color)
      shape.material.color.setHex(objData.material.color)] *)
Definition applyColor (md : option MaterialData) (shape : Object3D) : Object3D :=
  match md with
  | Some {| md_color := Some c |} =>
      if Z.eqb c 0 then shape
      else match material shape with
           | Some m => set_material (Some {| color := Color_setHex c; side := side m |}) shape
           | None => shape
           end
  | _ => shape
  end.

(** [v.set(x, y, z)] on a [THREE.Vector3]: the library keeps the [z] the
    vector has when the third argument is [undefined]
    ([if (z === undefined) z = this.z]); [x] and [y] are assigned as they
    are given. *)
Definition Vector3_set (x y z : jsnum) (v : Vector3) : Vector3 :=
  vec3 x y (match z with
            | Undefined => vz v
            | _ => z
            end).

(** The transforms of a record: [shape.position.set(...)],
    [shape.rotation.set(...)] (a [THREE.Euler], which assigns its three
    arguments as they are) and [shape.scale.set(...)], each on the members
    [x], [y], [z] of the member of the record, then the colour. *)
Definition applyTransforms (objData : ObjData) (shape : Object3D) : Object3D :=
  let shape := match od_position objData with
               | Some p => set_position (Vector3_set (vx p) (vy p) (vz p) (position shape)) shape
               | None => shape
               end in
  let shape := match od_rotation objData with
               | Some r => set_rotation r shape
               | None => shape
               end in
  let shape := match od_scale objData with
               | Some k => set_scale (Vector3_set (vx k) (vy k) (vz k) (scale shape)) shape
               | None => shape
               end in
  applyColor (od_material objData) shape.

(** The [switch (objData.type)]: [inl shape] (possibly [null]) for the
    four known kinds, [inr tt] for the [default] branch. *)
Definition constructShape (objData : ObjData) : M (option Object3D + unit) :=
  if type_is (od_type objData) "box" then
    let dims := match od_dimensions objData with
                | Some d => d
                | None => defaultDimensions
                end in
    ret (inl (Some (createBox (dim_width dims) (dim_height dims) (dim_depth dims))))
  else if type_is (od_type objData) "sphere" then
    ret (inl (Some (createSphere (or_else (od_radius objData) 0.7) Undefined)))
  else if type_is (od_type objData) "cylinder" then
    ret (inl (Some (createCylinder (or_else (od_radius objData) 0.5)
                                   (or_else (od_height objData) 1) Undefined)))
  else if type_is (od_type objData) "extruded" then
    shape <- recreateExtrudedShape objData ;;
    ret (inl shape)
  else
    ret (inr tt).

(** The callback of [data.objects.forEach] in [loadSceneFromJSON]. *)
Definition loadObject (objData : ObjData) : M unit :=
  made <- constructShape objData ;;
  match made with
  | inr _ =>
      log (console_warn "Unknown object type:" (od_type objData))
  | inl None =>
      (* [shape] is [null]: the first member access on it throws, at the
         latest the [shape.geometry] of [updateShapeGeometry] *)
      throw (TypeError "Cannot read properties of null")
  | inl (Some shape) =>
      let shape := updateShapeGeometry (applyTransforms objData shape) in
      r <- alloc shape ;;
      modify (fun s => set_objectsRef (push (objectsRef s) r) s)
  end.

(** The callback of [data.sketches.forEach] in [loadSceneFromJSON]. *)
Definition loadSketch (sketchData : Sketch) : M unit :=
  let sketch (width height radius : jsnum) (center : option Vector3) :=
    {| sk_id := None; sk_type := sk_type sketchData;
       sk_start := None; sk_end := None;
       sk_width := width; sk_height := height; sk_radius := radius;
       sk_center := center |} in
  sketch <-
    (if type_is (sk_type sketchData) "rectangle" then
       match sk_center sketchData with
       | None => throw (TypeError "Cannot read properties of undefined (reading 'x')")
       | Some c =>
           ret (sketch (sk_width sketchData) (sk_height sketchData) Undefined
                       (Some (newVector3 (vx c) (vy c) (vz c))))
       end
     else if type_is (sk_type sketchData) "circle" then
       match sk_center sketchData with
       | None => throw (TypeError "Cannot read properties of undefined (reading 'x')")
       | Some c =>
           ret (sketch Undefined Undefined (sk_radius sketchData)
                       (Some (newVector3 (vx c) (vy c) (vz c))))
       end
     else
       ret (sketch Undefined Undefined Undefined None)) ;;
  modify (fun s => set_sketchesRef (push (sketchesRef s) sketch) s).

Definition loadSceneFromJSON (data : SceneData) : M unit :=
  modify (set_objectsRef []) ;;
  modify (set_sketchesRef []) ;;
  match sd_objects data with
  | Some objects => forEach objects loadObject
  | None => ret tt
  end ;;
  match sd_sketches data with
  | Some sketches => forEach sketches loadSketch
  | None => ret tt
  end.

End Codec.

(* ===================================================================== *)
(** ** The canvas handlers ([ThreeCanvas]) *)
(* ===================================================================== *)

(** The members of a pointer event the handlers read. *)
Record MouseEvent : Type := {
  ctrlKey : bool;
  metaKey : bool;
  shiftKey : bool;
  clientX : float;
  clientY : float
}.

(** An entry of [raycaster.intersectObjects(objectsRef.current, true)]:
    the object hit, followed by its [parent] chain up to (not including)
    the scene, and the triangle index when the hit is on a mesh. *)
Record Intersection : Type := {
  hit_object : nat;
  hit_ancestors : list nat;
  hit_faceIndex : option Z
}.

(** What the browser, the camera and the raycaster answer while one
    pointer event is handled. *)
Record Viewport : Type := {
  (** [renderer.domElement.getBoundingClientRect()] *)
  rect_left : float;
  rect_top : float;
  rect_width : float;
  rect_height : float;
  (** the point [getMouseOnPlane(event)] returns, [None] for [null] *)
  mouseOnPlane : option Vec3;
  recursiveIntersects : list Intersection;
  (** [v.clone().applyMatrix4(obj.matrixWorld)] *)
  applyMatrixWorld : nat -> Vec3 -> Vec3;
  (** [v.clone().project(camera)] *)
  project : Vec3 -> Vec3
}.

Definition truthy_string (t : option string) : bool :=
  match t with
  | Some EmptyString | None => false
  | Some _ => true
  end.

(** The multi-selection [Set]: insertion-ordered, without repetition. *)
Definition Set_add (set : list nat) (x : nat) : list nat :=
  if includes set x then set else set ++ [x].

Definition Set_delete (set : list nat) (x : nat) : list nat :=
  filter (fun y => negb (Nat.eqb y x)) set.

(** [array.splice(i, 1)] *)
Definition splice1 {A} (l : list A) (i : nat) : list A :=
  firstn i l ++ skipn (S i) l.

Definition EDGE_SELECTION_PIXEL_THRESHOLD : float := 3%float.

Section Picking.
Variable view : Viewport.
Variable event : MouseEvent.
Local Open Scope float_scope.

(** The body of the loop over [obj.userData.edges]: the length of the
    edge in world space, *)
Definition edgeLength (obj : nat) (edge : Edge) : float :=
  let edgeStart := applyMatrixWorld view obj (e_start edge) in
  let edgeEnd := applyMatrixWorld view obj (e_end edge) in
  let edgeVec := Vec.sub edgeEnd edgeStart in
  Vec.length edgeVec.

(** the distance in pixels from the pointer to the projected segment, *)
Definition distancePx (obj : nat) (edge : Edge) : float :=
  let edgeStart := applyMatrixWorld view obj (e_start edge) in
  let edgeEnd := applyMatrixWorld view obj (e_end edge) in
  let startNDC := project view edgeStart in
  let endNDC := project view edgeEnd in
  let startPx := pt2 ((px startNDC + 1) * 0.5 * rect_width view)
                     ((- py startNDC + 1) * 0.5 * rect_height view) in
  let endPx := pt2 ((px endNDC + 1) * 0.5 * rect_width view)
                   ((- py endNDC + 1) * 0.5 * rect_height view) in
  let mousePx := pt2 (clientX event - rect_left view) (clientY event - rect_top view) in
  let ab := pt2 (p2x endPx - p2x startPx) (p2y endPx - p2y startPx) in
  let ap := pt2 (p2x mousePx - p2x startPx) (p2y mousePx - p2y startPx) in
  let abLenSq := p2x ab * p2x ab + p2y ab * p2y ab in
  let t := if 0 <? abLenSq then (p2x ap * p2x ab + p2y ap * p2y ab) / abLenSq else 0 in
  let t := Math_max 0 (Math_min 1 t) in
  let closestPx := pt2 (p2x startPx + p2x ab * t) (p2y startPx + p2y ab * t) in
  let dx := p2x closestPx - p2x mousePx in
  let dy := p2y closestPx - p2y mousePx in
  PrimFloat.sqrt (dx * dx + dy * dy).

(** and the [continue] on a degenerate edge: [None] when the edge is
    skipped ([edgeLength < 0.001]), its [distancePx] otherwise. *)
Definition edgeDistancePx (obj : nat) (edge : Edge) : option float :=
  if edgeLength obj edge <? 0.001 then None
  else Some (distancePx obj edge).

(** [for (const edge of obj.userData.edges)], from the edge at position
    [i] on, with the loop variables [closestEdgeDistance] and [selected]
    (the position of the selected edge). *)
Fixpoint edgeLoop (obj : nat) (edges : list Edge) (i : nat)
         (closestEdgeDistance : float) (selected : option nat) : float * option nat :=
  match edges with
  | [] => (closestEdgeDistance, selected)
  | edge :: rest =>
      match edgeDistancePx obj edge with
      | None => edgeLoop obj rest (S i) closestEdgeDistance selected
      | Some distancePx =>
          if (distancePx <=? EDGE_SELECTION_PIXEL_THRESHOLD) &&
             (distancePx <? closestEdgeDistance)
          then edgeLoop obj rest (S i) distancePx (Some i)
          else edgeLoop obj rest (S i) closestEdgeDistance selected
      end
  end.

(** The walk from the nearest hit up its parent chain to the first
    member of [objectsRef]. *)
Definition candidateOf (objects : list nat) : option nat :=
  match recursiveIntersects view with
  | [] => None
  | hit :: _ => find (includes objects) (hit_object hit :: hit_ancestors hit)
  end.

(** Steps 1 to 3 of [handleSelection]: what the ray resolves to. *)
Definition resolvePick (candidateObject : nat) (obj : Object3D)
  : Entity * SelType :=
  let isFaceSelectionMode := ctrlKey event || metaKey event in
  let faceHit :=
    if isFaceSelectionMode then
      match ud_faces (userData obj), recursiveIntersects view with
      | Some faces, intersect :: _ =>
          match hit_faceIndex intersect with
          | Some faceIndex =>
              if (0 <=? faceIndex)%Z && (faceIndex <? Z.of_nat (List.length faces))%Z
              then Some (FaceRef candidateObject (Z.to_nat faceIndex))
              else None
          | None => None
          end
      | _, _ => None
      end
    else None in
  match faceHit with
  | Some selected => (selected, TFace)
  | None =>
      let edgeHit :=
        if negb isFaceSelectionMode then
          match ud_edges (userData obj) with
          | Some edges =>
              if Nat.ltb 0 (List.length edges)
              then snd (edgeLoop candidateObject edges 0 PrimFloat.infinity None)
              else None
          | None => None
          end
        else None in
      match edgeHit with
      | Some i => (EdgeRef candidateObject i, TEdge)
      | None => (ShapeRef candidateObject, TShape)
      end
  end.

End Picking.

(** [parent.attach(child)] moves [child] under [parent] and rewrites the
    position, rotation and scale of the child so that its world transform
    is kept; THREE.js computes the three with [Matrix4.decompose].
    [reattached old child] is what [scene.attach(child)] writes into
    [child] when its former parent is [old]; [attached parent child] is
    what [parent.attach(child)] writes into a [child] that was a child of
    the scene or of nothing, as the shapes of a multi-selection are, for a
    [parent] that is a child of the scene. *)
Class SceneGraph : Type := {
  reattached : Object3D -> Object3D -> Vector3 * Vector3 * Vector3;
  attached : Object3D -> Object3D -> Vector3 * Vector3 * Vector3
}.

Section Handlers.
Context {three : ThreeJS} {graph : SceneGraph}.

(** *** History helpers *)

Definition snapshotScene : M (option Snapshot) :=
  try_catch
    (s <- get ;;
     sceneData <- saveSceneToJSON (objectsRef s) (sketchesRef s) ;;
     ret (Some (JSON_parse_stringify sceneData)))
    (fun e => log (console_error "Snapshot failed") ;; ret None).

(** [setSelectedEntity(null); setSelectedType(null);
     selectedEntityRef.current = null; selectedTypeRef.current = null] *)
Definition clearSelection : M unit :=
  modify (set_selectedEntity None) ;;
  modify (set_selectedType None) ;;
  modify (set_selectedEntityRef None) ;;
  modify (set_selectedTypeRef None).

Definition select (entity : Entity) (type : SelType) : M unit :=
  modify (set_selectedEntity (Some entity)) ;;
  modify (set_selectedType (Some type)) ;;
  modify (set_selectedEntityRef (Some entity)) ;;
  modify (set_selectedTypeRef (Some type)).

Definition restoreSceneFromSnapshot (snapshot : Snapshot) : M unit :=
  try_catch
    (loadSceneFromJSON snapshot ;;
     clearSelection ;;
     dispatchEvent (selectionChanged None None) ;;
     s <- get ;;
     dispatchEvent (sketchesUpdated (sketchesRef s)))
    (fun e => log (console_error "Restore failed")).

Definition pushHistory : M unit :=
  snap <- snapshotScene ;;
  match snap with
  | Some snap =>
      modify (fun s => set_undoStackRef (push (undoStackRef s) snap) s) ;;
      modify (set_redoStackRef [])
  | None => ret tt
  end.

Definition undoHandler : M unit :=
  s <- get ;;
  match pop (undoStackRef s) with
  | (Some snap, rest) =>
      modify (set_undoStackRef rest) ;;
      current <- snapshotScene ;;
      match current with
      | Some current => modify (fun s => set_redoStackRef (push (redoStackRef s) current) s)
      | None => ret tt
      end ;;
      restoreSceneFromSnapshot snap
  | (None, _) => ret tt
  end.

Definition redoHandler : M unit :=
  s <- get ;;
  match pop (redoStackRef s) with
  | (Some snap, rest) =>
      modify (set_redoStackRef rest) ;;
      current <- snapshotScene ;;
      match current with
      | Some current => modify (fun s => set_undoStackRef (push (undoStackRef s) current) s)
      | None => ret tt
      end ;;
      restoreSceneFromSnapshot snap
  | (None, _) => ret tt
  end.

(** *** Shape creation *)

Definition handleShapeCreation (type : string) : M unit :=
  s <- get ;;
  if sketchModeRef s then ret tt
  else modify (set_pendingShapeTypeRef (Some type)).

Definition createShapeHandler (detail : string) : M unit :=
  pushHistory ;;
  handleShapeCreation detail.

Definition createShapeAtPosition (type : string) (position : Vec3) : M unit :=
  let made :=
    if String.eqb type "box" then Some (createBox Undefined Undefined Undefined, 0.5%float)
    else if String.eqb type "sphere" then Some (createSphere Undefined Undefined, 0.7%float)
    else if String.eqb type "cylinder" then
      Some (createCylinder Undefined Undefined Undefined, 0.5%float)
    else None in
  match made with
  | None => log (console_error "Unknown shape type:")
  | Some (shape, yPos) =>
      let shape := set_position (vec3 (Num (px position)) (Num yPos) (Num (pz position))) shape in
      r <- alloc shape ;;
      modify (fun s => set_objectsRef (push (objectsRef s) r) s) ;;
      modify (set_selectedEntity (Some (ShapeRef r))) ;;
      modify (set_selectedType (Some TShape)) ;;
      dispatchEvent (selectionChanged (Some (ShapeRef r)) (Some TShape))
  end.

(** *** Selection *)

Definition handleSelection (view : Viewport) (event : MouseEvent) : M unit :=
  s <- get ;;
  if isDraggingRef s then ret tt
  else if sketchModeRef s && truthy_string (sketchToolRef s) then ret tt
  else
    let isMultiMode := shiftKey event in
    let pending := if truthy_string (pendingShapeTypeRef s) then pendingShapeTypeRef s else None in
    match pending, mouseOnPlane view with
    | Some shapeType, Some pos =>
        modify (set_pendingShapeTypeRef None) ;;
        createShapeAtPosition shapeType pos
    | _, _ =>
        when (truthy_string (pendingShapeTypeRef s)) (modify (set_pendingShapeTypeRef None)) ;;
        match candidateOf view (objectsRef s) with
        | Some candidateObject =>
            obj <- deref candidateObject ;;
            let '(selected, selectedType) := resolvePick view event candidateObject obj in
            (if isMultiMode then
               let shapeToToggle := candidateObject in
               (match selectedEntityRef s with
                | Some (ShapeRef primary) =>
                    when (includes (objectsRef s) primary && negb (includes (multiSelectedRef s) primary))
                         (modify (fun s => set_multiSelectedRef (Set_add (multiSelectedRef s) primary) s))
                | _ => ret tt
                end) ;;
               modify (fun s =>
                         set_multiSelectedRef
                           (if includes (multiSelectedRef s) shapeToToggle
                            then Set_delete (multiSelectedRef s) shapeToToggle
                            else Set_add (multiSelectedRef s) shapeToToggle) s) ;;
               select (ShapeRef shapeToToggle) TShape
             else
               modify (set_multiSelectedRef []) ;;
               select selected selectedType) ;;
            dispatchEvent (selectionChanged (Some selected) (Some selectedType))
        | None =>
            modify (set_selectedEntity None) ;;
            modify (set_selectedType None) ;;
            dispatchEvent (selectionChanged None None)
        end
    end.

(** *** Extrusion *)

Definition handleExtrude (sketchIndex : Z) (height : jsnum) : M unit :=
  let height := default_param height 2 in
  s <- get ;;
  if (sketchIndex <? 0)%Z || (sketchIndex >=? Z.of_nat (List.length (sketchesRef s)))%Z
  then ret tt
  else
    pushHistory ;;
    s <- get ;;
    match nth_error (sketchesRef s) (Z.to_nat sketchIndex) with
    | None => throw (TypeError "Cannot read properties of undefined (reading 'type')")
    | Some sketch =>
        let place (shape2D : Shape2D) : M (option Object3D) :=
          match sk_center sketch with
          | None => throw (TypeError "Cannot read properties of undefined (reading 'x')")
          | Some center =>
              ret (Some (set_position
                           (vec3 (vx center) (Num (ToNumber height / 2)%float) (vz center))
                           (extrudedMesh shape2D height)))
          end in
        made <-
          (if type_is (sk_type sketch) "rectangle"
           then place (rectangleShape (sk_width sketch) (sk_height sketch))
           else if type_is (sk_type sketch) "circle"
           then place (circleShape (sk_radius sketch))
           else ret None) ;;
        match made with
        | None => ret tt
        | Some shape =>
            let shape := updateShapeGeometry
                           (set_userData (extrudedUserData height sketch) shape) in
            let shape :=
              match material shape with
              | Some m => set_material (Some {| color := color m; side := DoubleSide |}) shape
              | None => shape
              end in
            r <- alloc shape ;;
            modify (fun s => set_objectsRef (push (objectsRef s) r) s) ;;
            modify (fun s => set_sketchesRef (splice1 (sketchesRef s) (Z.to_nat sketchIndex)) s) ;;
            s <- get ;;
            dispatchEvent (sketchesUpdated (sketchesRef s)) ;;
            modify (set_sketchTool None) ;;
            modify (set_sketchToolRef None) ;;
            select (ShapeRef r) TShape ;;
            dispatchEvent (selectionChanged (Some (ShapeRef r)) (Some TShape))
        end
    end.

Definition extrudeHandler (index : Z) (height : jsnum) : M unit :=
  handleExtrude index height.

(** *** Deletion: [handleKeyDown] on the keys [Delete] and [Backspace]
    (outside a text field) *)

Definition handleKeyDown_delete : M unit :=
  s <- get ;;
  match selectedEntityRef s, selectedTypeRef s with
  | Some selected, Some TShape =>
      pushHistory ;;
      modify (fun s =>
                set_objectsRef
                  (filter (fun obj => match selected with
                                      | ShapeRef r => negb (Nat.eqb obj r)
                                      | _ => true
                                      end)
                          (objectsRef s)) s) ;;
      clearSelection ;;
      dispatchEvent (selectionChanged None None)
  | _, _ => ret tt
  end.

(** *** Grouping *)

Definition modifyObject (r : nat) (f : Object3D -> Object3D) : M unit :=
  obj <- deref r ;;
  modify (fun s => set_heap (firstn r (heap s) ++ [f obj] ++ skipn (S r) (heap s)) s).

(** The object at a reference rewritten in place.  Every reference the
    program holds is to an object; on a number that is the reference of
    none, nothing is rewritten. *)
Definition rewriteObject (r : nat) (f : Object3D -> Object3D) : M unit :=
  modify (fun s => match nth_error (heap s) r with
                   | Some obj => set_heap (firstn r (heap s) ++ [f obj] ++ skipn (S r) (heap s)) s
                   | None => s
                   end).

(** What [parent.attach(o)] makes of [o]: its position, rotation and
    scale are rewritten, the rest of it is kept. *)
Definition attachedTo (parent o : Object3D) : Object3D :=
  let '(p, r, k) := attached parent o in
  set_scale k (set_rotation r (set_position p o)).

Definition groupSelectedHandler : M unit :=
  s <- get ;;
  when (Nat.ltb (List.length (multiSelectedRef s)) 2)
       (match selectedEntityRef s with
        | Some (ShapeRef primary) =>
            when (includes (objectsRef s) primary && negb (includes (multiSelectedRef s) primary))
                 (modify (fun s => set_multiSelectedRef (Set_add (multiSelectedRef s) primary) s))
        | _ => ret tt
        end) ;;
  s <- get ;;
  if Nat.ltb (List.length (multiSelectedRef s)) 2 then ret tt
  else
    group <- alloc (set_userData
                      {| ud_type := Some "group"; ud_dimensions := None;
                         ud_radius := Undefined; ud_height := Undefined;
                         ud_extrusionHeight := Undefined; ud_sketchData := None;
                         ud_faces := None; ud_edges := None |}
                      newGroup) ;;
    pushHistory ;;
    s <- get ;;
    forEach (multiSelectedRef s)
            (fun obj =>
               (* [group.attach(obj)] *)
               parent <- deref group ;;
               rewriteObject obj (attachedTo parent) ;;
               modifyObject group (fun g => set_children (children g ++ [obj]) g) ;;
               modify (fun s => set_objectsRef
                                  (filter (fun o => negb (Nat.eqb o obj)) (objectsRef s)) s)) ;;
    modify (fun s => set_objectsRef (push (objectsRef s) group) s) ;;
    modify (set_multiSelectedRef []) ;;
    select (ShapeRef group) TShape ;;
    dispatchEvent (selectionChanged (Some (ShapeRef group)) (Some TShape)).

(** *** Import: the [reader.onload] callback, on the result of
    [JSON.parse] ([None] when the text does not parse) *)

Definition importHandler (parsed : option SceneData) : M unit :=
  try_catch
    (match parsed with
     | None => throw (TypeError "SyntaxError: JSON.parse")
     | Some data =>
         loadSceneFromJSON data ;;
         modify (set_selectedEntity None) ;;
         modify (set_selectedType None) ;;
         dispatchEvent (selectionChanged None None) ;;
         s <- get ;;
         dispatchEvent (sketchesUpdated (sketchesRef s))
     end)
    (fun e => log (console_error "Failed to import scene:")).

End Handlers.

(** *** The [useEffect]s that copy React state into the refs

    After a handler changed [selectedEntity], [selectedType] or
    [sketchTool], the component re-renders and the matching effect assigns
    the new value to the ref. *)

Definition Entity_eqb (a b : Entity) : bool :=
  match a, b with
  | ShapeRef x, ShapeRef y => Nat.eqb x y
  | FaceRef x i, FaceRef y j => Nat.eqb x y && Nat.eqb i j
  | EdgeRef x i, EdgeRef y j => Nat.eqb x y && Nat.eqb i j
  | _, _ => false
  end.

Definition SelType_eqb (a b : SelType) : bool :=
  match a, b with
  | TShape, TShape | TFace, TFace | TEdge, TEdge => true
  | _, _ => false
  end.

Definition option_eqb {A} (eqb : A -> A -> bool) (a b : option A) : bool :=
  match a, b with
  | Some x, Some y => eqb x y
  | None, None => true
  | _, _ => false
  end.

Definition syncRefs (before after : State) : State :=
  let s := after in
  let s := if option_eqb Entity_eqb (selectedEntity before) (selectedEntity after)
           then s else set_selectedEntityRef (selectedEntity after) s in
  let s := if option_eqb SelType_eqb (selectedType before) (selectedType after)
           then s else set_selectedTypeRef (selectedType after) s in
  let s := if option_eqb String.eqb (sketchTool before) (sketchTool after)
           then s else set_sketchToolRef (sketchTool after) s in
  s.

(** One event: the handler runs, then the effects. *)
Definition dispatch {A} (handler : M A) (s : State) : State :=
  syncRefs s (snd (handler s)).

(* ===================================================================== *)
(** ** More window listeners of the canvas: export, sketch editing,
       ungrouping *)
(* ===================================================================== *)

Definition set_sk_end (v : option Vector3) (k : Sketch) : Sketch :=
  {| sk_id := sk_id k; sk_type := sk_type k; sk_start := sk_start k; sk_end := v;
     sk_width := sk_width k; sk_height := sk_height k; sk_radius := sk_radius k;
     sk_center := sk_center k |}.

Definition set_sk_width (v : jsnum) (k : Sketch) : Sketch :=
  {| sk_id := sk_id k; sk_type := sk_type k; sk_start := sk_start k; sk_end := sk_end k;
     sk_width := v; sk_height := sk_height k; sk_radius := sk_radius k;
     sk_center := sk_center k |}.

Definition set_sk_height (v : jsnum) (k : Sketch) : Sketch :=
  {| sk_id := sk_id k; sk_type := sk_type k; sk_start := sk_start k; sk_end := sk_end k;
     sk_width := sk_width k; sk_height := v; sk_radius := sk_radius k;
     sk_center := sk_center k |}.

Definition set_sk_radius (v : jsnum) (k : Sketch) : Sketch :=
  {| sk_id := sk_id k; sk_type := sk_type k; sk_start := sk_start k; sk_end := sk_end k;
     sk_width := sk_width k; sk_height := sk_height k; sk_radius := v;
     sk_center := sk_center k |}.

Definition set_sk_center (v : option Vector3) (k : Sketch) : Sketch :=
  {| sk_id := sk_id k; sk_type := sk_type k; sk_start := sk_start k; sk_end := sk_end k;
     sk_width := sk_width k; sk_height := sk_height k; sk_radius := sk_radius k;
     sk_center := v |}.

(** [Number.isFinite(v) && v > 0] *)
Definition isFinitePositive (v : jsnum) : bool :=
  match v with
  | Num x => PrimFloat.is_finite x && PrimFloat.ltb 0 x
  | Undefined | Null => false
  end.

(** The array [l] after a member of its element [i] was assigned: the
    element is replaced by its new value [x]. *)
Definition assigned {A} (l : list A) (i : nat) (x : A) : list A :=
  firstn i l ++ x :: skipn (S i) l.

(** [parent.remove(child)]: the first occurrence leaves the array. *)
Fixpoint removeChild (l : list nat) (x : nat) : list nat :=
  match l with
  | [] => []
  | y :: rest => if Nat.eqb y x then rest else y :: removeChild rest x
  end.

Section Listeners.
Context {three : ThreeJS} {graph : SceneGraph}.

(** [exportHandler]: the result is the content of the downloaded file, as
    the document a JSON parser reads from it; [None] when the export
    failed.  The [alert] is left out. *)
Definition exportHandler : M (option SceneData) :=
  try_catch
    (s <- get ;;
     data <- saveSceneToJSON (objectsRef s) (sketchesRef s) ;;
     ret (Some (JSON_parse_stringify data)))
    (fun error => log (console_error "Export failed:") ;; ret None).

(** [setSketchModeHandler].  The React state [sketchMode] is written here
    only, together with the ref, so that its effect copies into the ref the
    value the ref already has: the state is not kept. *)
Definition setSketchModeHandler (detail : bool) : M unit :=
  modify (set_sketchModeRef detail).

Definition setSketchToolHandler (detail : option string) : M unit :=
  modify (set_sketchTool detail) ;;
  modify (set_sketchToolRef detail).

(** [updateSketchHandler], on the members [index], [width], [height] and
    [radius] of [e.detail || {}]. *)
Definition updateSketchHandler (index : option Z) (width height radius : jsnum) : M unit :=
  s <- get ;;
  match index with
  | None => ret tt
  | Some index =>
      if (index <? 0)%Z || (index >=? Z.of_nat (List.length (sketchesRef s)))%Z
      then ret tt
      else
        pushHistory ;;
        s <- get ;;
        match nth_error (sketchesRef s) (Z.to_nat index) with
        | None => ret tt
        | Some sketch =>
            let sketch :=
              if type_is (sk_type sketch) "rectangle" then
                let sketch := if isFinitePositive width then set_sk_width width sketch
                              else sketch in
                if isFinitePositive height then set_sk_height height sketch else sketch
              else if type_is (sk_type sketch) "circle" then
                if isFinitePositive radius then set_sk_radius radius sketch else sketch
              else sketch in
            modify (fun s => set_sketchesRef (assigned (sketchesRef s) (Z.to_nat index) sketch) s) ;;
            (* the new visualisation mesh: [mesh.position.copy(sketch.center)] *)
            (if type_is (sk_type sketch) "rectangle" || type_is (sk_type sketch) "circle" then
               match sk_center sketch with
               | None => throw (TypeError "Cannot read properties of undefined (reading 'x')")
               | Some _ => ret tt
               end
             else ret tt) ;;
            s <- get ;;
            dispatchEvent (sketchesUpdated (sketchesRef s))
        end
  end.

(** [ungroupSelectedHandler].  A face or an edge is a plain object and a
    mesh is no [THREE.Group]: the handler returns at its guard on them. *)
Definition ungroupSelectedHandler : M unit :=
  s <- get ;;
  match selectedEntityRef s with
  | Some (ShapeRef entity) =>
      group <- deref entity ;;
      if negb (isGroup group) then ret tt
      else
        pushHistory ;;
        forEach (children group)
                (fun child =>
                   (* [scene.attach(child)] *)
                   parent <- deref entity ;;
                   modifyObject child
                     (fun o => let '(p, r, k) := reattached parent o in
                               set_scale k (set_rotation r (set_position p o))) ;;
                   modifyObject entity (fun g => set_children (removeChild (children g) child) g) ;;
                   modify (fun s => set_objectsRef (push (objectsRef s) child) s)) ;;
        modify (fun s => set_objectsRef
                           (filter (fun o => negb (Nat.eqb o entity)) (objectsRef s)) s) ;;
        clearSelection ;;
        dispatchEvent (selectionChanged None None)
  | _ => ret tt
  end.

End Listeners.

(* ===================================================================== *)
(** ** Pointer and keyboard handlers

    The refs these handlers use besides those of [State], and the local
    variables of the orbit control. *)
(* ===================================================================== *)

(** [transformStartRef.current].  The [pointer] member is a point of the
    ground plane for a translation and [{ x: clientX, y: clientY }] for a
    rotation or a scaling: a triple whose [z] is [undefined] then. *)
Record TransformStart : Type := {
  pointer : option Vector3;
  entityPosition : option Vector3;
  entityRotationY : jsnum;
  entityScale : option Vector3
}.

Record Tools : Type := {
  transformModeRef : option string;
  isTransformDraggingRef : bool;
  transformStartRef : TransformStart;
  transformEntityRef : option Entity;
  dragStartRef : option Vec3;
  currentSketchRef : option Sketch;
  isMouseDown : bool;
  isDragging : bool;
  previousMousePosition : Vec2;
  mouseDownPosition : Vec2
}.

Definition set_transformModeRef (v : option string) (t : Tools) : Tools :=
  {| transformModeRef := v; isTransformDraggingRef := isTransformDraggingRef t;
     transformStartRef := transformStartRef t; transformEntityRef := transformEntityRef t;
     dragStartRef := dragStartRef t; currentSketchRef := currentSketchRef t;
     isMouseDown := isMouseDown t; isDragging := isDragging t;
     previousMousePosition := previousMousePosition t;
     mouseDownPosition := mouseDownPosition t |}.

Definition set_isTransformDraggingRef (v : bool) (t : Tools) : Tools :=
  {| transformModeRef := transformModeRef t; isTransformDraggingRef := v;
     transformStartRef := transformStartRef t; transformEntityRef := transformEntityRef t;
     dragStartRef := dragStartRef t; currentSketchRef := currentSketchRef t;
     isMouseDown := isMouseDown t; isDragging := isDragging t;
     previousMousePosition := previousMousePosition t;
     mouseDownPosition := mouseDownPosition t |}.

Definition set_transformStartRef (v : TransformStart) (t : Tools) : Tools :=
  {| transformModeRef := transformModeRef t; isTransformDraggingRef := isTransformDraggingRef t;
     transformStartRef := v; transformEntityRef := transformEntityRef t;
     dragStartRef := dragStartRef t; currentSketchRef := currentSketchRef t;
     isMouseDown := isMouseDown t; isDragging := isDragging t;
     previousMousePosition := previousMousePosition t;
     mouseDownPosition := mouseDownPosition t |}.

Definition set_transformEntityRef (v : option Entity) (t : Tools) : Tools :=
  {| transformModeRef := transformModeRef t; isTransformDraggingRef := isTransformDraggingRef t;
     transformStartRef := transformStartRef t; transformEntityRef := v;
     dragStartRef := dragStartRef t; currentSketchRef := currentSketchRef t;
     isMouseDown := isMouseDown t; isDragging := isDragging t;
     previousMousePosition := previousMousePosition t;
     mouseDownPosition := mouseDownPosition t |}.

Definition set_dragStartRef (v : option Vec3) (t : Tools) : Tools :=
  {| transformModeRef := transformModeRef t; isTransformDraggingRef := isTransformDraggingRef t;
     transformStartRef := transformStartRef t; transformEntityRef := transformEntityRef t;
     dragStartRef := v; currentSketchRef := currentSketchRef t;
     isMouseDown := isMouseDown t; isDragging := isDragging t;
     previousMousePosition := previousMousePosition t;
     mouseDownPosition := mouseDownPosition t |}.

Definition set_currentSketchRef (v : option Sketch) (t : Tools) : Tools :=
  {| transformModeRef := transformModeRef t; isTransformDraggingRef := isTransformDraggingRef t;
     transformStartRef := transformStartRef t; transformEntityRef := transformEntityRef t;
     dragStartRef := dragStartRef t; currentSketchRef := v;
     isMouseDown := isMouseDown t; isDragging := isDragging t;
     previousMousePosition := previousMousePosition t;
     mouseDownPosition := mouseDownPosition t |}.

(** The four assignments at the end of [onMouseDown] and the three of
    [onMouseUp]. *)
Definition set_orbit (down dragging : bool) (previous start : Vec2) (t : Tools) : Tools :=
  {| transformModeRef := transformModeRef t; isTransformDraggingRef := isTransformDraggingRef t;
     transformStartRef := transformStartRef t; transformEntityRef := transformEntityRef t;
     dragStartRef := dragStartRef t; currentSketchRef := currentSketchRef t;
     isMouseDown := down; isDragging := dragging;
     previousMousePosition := previous;
     mouseDownPosition := start |}.

Definition initialTools : Tools :=
  {| transformModeRef := None; isTransformDraggingRef := false;
     transformStartRef := {| pointer := None; entityPosition := None;
                             entityRotationY := Num 0; entityScale := None |};
     transformEntityRef := None;
     dragStartRef := None; currentSketchRef := None;
     isMouseDown := false; isDragging := false;
     previousMousePosition := pt2 0 0; mouseDownPosition := pt2 0 0 |}.

(** The whole of the component: the state of the scene and the tools. *)
Record Canvas : Type := { core : State; tools : Tools }.

Definition initialCanvas : Canvas := {| core := initialState; tools := initialTools |}.

Definition MC (A : Type) : Type := Canvas -> Outcome A * Canvas.

Definition retC {A} (a : A) : MC A := fun c => (Ok a, c).

Definition bindC {A B} (m : MC A) (k : A -> MC B) : MC B :=
  fun c =>
    match m c with
    | (Ok a, c') => k a c'
    | (Throw e, c') => (Throw e, c')
    end.

Definition throwC {A} (e : Error) : MC A := fun c => (Throw e, c).

(** A handler of the scene state, run inside the component. *)
Definition liftM {A} (m : M A) : MC A :=
  fun c =>
    let '(r, s) := m (core c) in
    (r, {| core := s; tools := tools c |}).

Definition getS : MC State := liftM get.
Definition modifyS (f : State -> State) : MC unit := liftM (modify f).
Definition getT : MC Tools := fun c => (Ok (tools c), c).
Definition modifyT (f : Tools -> Tools) : MC unit :=
  fun c => (Ok tt, {| core := core c; tools := f (tools c) |}).

Declare Scope canvas_scope.
Delimit Scope canvas_scope with canvas.
Notation "x <- m ;; k" := (bindC m (fun x => k))
  (at level 61, m at next level, right associativity) : canvas_scope.
Notation "m ;; k" := (bindC m (fun _ => k))
  (at level 61, right associativity) : canvas_scope.

(** The members of a keyboard event the handler reads. *)
Record KeyEvent : Type := {
  target_tagName : string;
  key : string;
  key_ctrlKey : bool;
  key_metaKey : bool;
  key_shiftKey : bool
}.

(** [String.prototype.toLowerCase] on the letters [A] to [Z]; every key
    name the handler compares with is made of these. *)
Definition lower (c : ascii) : ascii :=
  let n := nat_of_ascii c in
  if Nat.leb 65 n && Nat.leb n 90 then ascii_of_nat (n + 32) else c.

Fixpoint toLowerCase (s : string) : string :=
  match s with
  | EmptyString => EmptyString
  | String c rest => String (lower c) (toLowerCase rest)
  end.

(** [v.add(d)], [v.multiplyScalar(k)] on a vector whose members are
    whatever was assigned: each member is converted by the arithmetic. *)
Definition Vector3_add (v : Vector3) (d : Vec3) : Vector3 :=
  vec3 (Num (ToNumber (vx v) + px d)) (Num (ToNumber (vy v) + py d))
       (Num (ToNumber (vz v) + pz d)).

Definition Vector3_multiplyScalar (v : Vector3) (k : float) : Vector3 :=
  vec3 (Num (ToNumber (vx v) * k)) (Num (ToNumber (vy v) * k)) (Num (ToNumber (vz v) * k)).

(** Whether the face or edge [entity] is an element of the [faces]
    (if [inFaces]) or [edges] (if [inEdges]) array of the object at [r]. *)
Definition owns (inFaces inEdges : bool) (entity : Entity) (r : nat) (obj : Object3D) : bool :=
  match entity with
  | FaceRef parentObject i =>
      inFaces && Nat.eqb r parentObject &&
      match ud_faces (userData obj) with
      | Some faces => Nat.ltb i (List.length faces)
      | None => false
      end
  | EdgeRef parentObject i =>
      inEdges && Nat.eqb r parentObject &&
      match ud_edges (userData obj) with
      | Some edges => Nat.ltb i (List.length edges)
      | None => false
      end
  | ShapeRef _ => false
  end.

(** [objectsRef.current.find(obj => ... .includes(entity))] *)
Definition findOwner (inFaces inEdges : bool) (entity : Entity) (s : State) : option nat :=
  find (fun r => match nth_error (heap s) r with
                 | Some obj => owns inFaces inEdges entity r obj
                 | None => false
                 end)
       (objectsRef s).

Definition isSome {A} (o : option A) : bool :=
  match o with
  | Some _ => true
  | None => false
  end.

Section CanvasHandlers.
Context {three : ThreeJS}.
Local Open Scope canvas_scope.
Local Open Scope float_scope.

(** [setTransformModeHandler].  As for [sketchMode], the React state
    [transformMode] is always assigned together with its ref (here and in
    the mode keys of [handleKeyDown]) and is not kept. *)
Definition setTransformModeHandler (detail : option string) : MC unit :=
  modifyT (set_transformModeRef detail).

(** *** Drawing a sketch *)

Definition handleSketchStart (view : Viewport) : MC unit :=
  s <- getS ;;
  if negb (sketchModeRef s) || negb (truthy_string (sketchToolRef s)) then retC tt
  else
    match mouseOnPlane view with
    | None => retC tt
    | Some pos =>
        modifyS (set_isDraggingRef true) ;;
        modifyT (set_dragStartRef (Some pos)) ;;
        if type_is (sketchToolRef s) "rectangle" then
          modifyT (set_currentSketchRef
                     (Some {| sk_id := None; sk_type := Some "rectangle";
                              sk_start := Some (Vec.toVector3 pos);
                              sk_end := Some (Vec.toVector3 pos);
                              sk_width := Undefined; sk_height := Undefined;
                              sk_radius := Undefined; sk_center := None |}))
        else if type_is (sketchToolRef s) "circle" then
          modifyT (set_currentSketchRef
                     (Some {| sk_id := None; sk_type := Some "circle";
                              sk_start := None; sk_end := None;
                              sk_width := Undefined; sk_height := Undefined;
                              sk_radius := Num 0;
                              sk_center := Some (Vec.toVector3 pos) |}))
        else retC tt
    end.

Definition handleSketchMove (view : Viewport) : MC unit :=
  s <- getS ;;
  t <- getT ;;
  match isDraggingRef s, currentSketchRef t with
  | true, Some current =>
      match mouseOnPlane view with
      | None => retC tt
      | Some pos =>
          if type_is (sk_type current) "rectangle" then
            modifyT (set_currentSketchRef (Some (set_sk_end (Some (Vec.toVector3 pos)) current))) ;;
            match dragStartRef t with
            | None => throwC (TypeError "Cannot read properties of null (reading 'x')")
            | Some _ => retC tt
            end
          else if type_is (sk_type current) "circle" then
            match dragStartRef t with
            | None => throwC (TypeError "Cannot read properties of null (reading 'distanceTo')")
            | Some start =>
                let radius := Vec.distanceTo start pos in
                modifyT (set_currentSketchRef (Some (set_sk_radius (Num radius) current)))
            end
          else retC tt
      end
  | _, _ => retC tt
  end.

Definition handleSketchEnd (view : Viewport) : MC unit :=
  s <- getS ;;
  t <- getT ;;
  match isDraggingRef s, currentSketchRef t with
  | true, Some current =>
      match mouseOnPlane view with
      | None => retC tt
      | Some pos =>
          liftM pushHistory ;;
          (if type_is (sk_type current) "rectangle" then
             match dragStartRef t with
             | None => throwC (TypeError "Cannot read properties of null (reading 'x')")
             | Some start =>
                 let width := PrimFloat.abs (px pos - px start) in
                 let height := PrimFloat.abs (pz pos - pz start) in
                 if (0.01 <? width) && (0.01 <? height) then
                   let sketch :=
                     set_sk_center
                       (Some (vec3 (Num ((px start + px pos) / 2)) (Num 0)
                                   (Num ((pz start + pz pos) / 2))))
                       (set_sk_height (Num height) (set_sk_width (Num width) current)) in
                   modifyS (fun s => set_sketchesRef (push (sketchesRef s) sketch) s) ;;
                   s <- getS ;;
                   liftM (dispatchEvent (sketchesUpdated (sketchesRef s)))
                 else retC tt
             end
           else if type_is (sk_type current) "circle" then
             match dragStartRef t with
             | None => throwC (TypeError "Cannot read properties of null (reading 'distanceTo')")
             | Some start =>
                 let radius := Vec.distanceTo start pos in
                 if 0.01 <? radius then
                   let sketch :=
                     set_sk_center (Some (Vec.toVector3 start))
                                   (set_sk_radius (Num radius) current) in
                   modifyS (fun s => set_sketchesRef (push (sketchesRef s) sketch) s) ;;
                   s <- getS ;;
                   liftM (dispatchEvent (sketchesUpdated (sketchesRef s)))
                 else retC tt
             end
           else retC tt) ;;
          modifyS (set_isDraggingRef false) ;;
          modifyT (set_dragStartRef None) ;;
          modifyT (set_currentSketchRef None)
      end
  | _, _ => retC tt
  end.

(** *** Transformations *)

Definition applyTransformation (entity : Entity) (type : string) (delta : Vec3) : M unit :=
  (s <- get ;;
   if String.eqb type "translate" then
     match selectedTypeRef s with
     | Some TShape =>
         match entity with
         | ShapeRef r => modifyObject r (fun o => set_position (Vector3_add (position o) delta) o)
         | _ => throw (TypeError "Cannot read properties of undefined (reading 'add')")
         end
     | Some TFace =>
         match findOwner true false entity s with
         | Some parentShape =>
             modifyObject parentShape (fun o => set_position (Vector3_add (position o) delta) o)
         | None => ret tt
         end
     | Some TEdge =>
         match findOwner false true entity s with
         | Some parentShape =>
             modifyObject parentShape (fun o => set_position (Vector3_add (position o) delta) o)
         | None => ret tt
         end
     | None => ret tt
     end
   else if String.eqb type "rotate" then
     match selectedTypeRef s with
     | Some TShape =>
         match entity with
         | ShapeRef r =>
             modifyObject r (fun o => set_rotation
                                        (vec3 (vx (rotation o))
                                              (Num (ToNumber (vy (rotation o)) + py delta))
                                              (vz (rotation o))) o)
         | _ => throw (TypeError "Cannot read properties of undefined (reading 'y')")
         end
     | _ => ret tt
     end
   else if String.eqb type "scale" then
     match selectedTypeRef s with
     | Some TShape =>
         match entity with
         | ShapeRef r =>
             modifyObject r (fun o => set_scale
                                        (Vector3_multiplyScalar (scale o) (1 + px delta * 0.1)) o)
         | _ => throw (TypeError "Cannot read properties of undefined (reading 'multiplyScalar')")
         end
     | _ => ret tt
     end
   else ret tt)%js.

(** *** Pointer events on the canvas element *)

Definition handlePointerDown (view : Viewport) (event : MouseEvent) : MC unit :=
  s <- getS ;;
  t <- getT ;;
  match (if truthy_string (transformModeRef t) then selectedEntityRef s else None) with
  | Some selected =>
      liftM pushHistory ;;
      let parentShape := findOwner true true selected s in
      let target :=
        match selectedTypeRef s, parentShape with
        | Some TFace, Some parentShape | Some TEdge, Some parentShape => ShapeRef parentShape
        | _, _ => selected
        end in
      modifyT (set_transformEntityRef (Some target)) ;;
      match selectedTypeRef s, parentShape with
      | Some TShape, _ => retC tt
      | _, Some parentShape => liftM (select (ShapeRef parentShape) TShape)
      | _, None => retC tt
      end ;;
      if type_is (transformModeRef t) "translate" then
        match mouseOnPlane view with
        | None => retC tt
        | Some start =>
            modifyT (set_isTransformDraggingRef true) ;;
            modifyT (fun t => set_transformStartRef
                                {| pointer := Some (Vec.toVector3 start);
                                   entityPosition := entityPosition (transformStartRef t);
                                   entityRotationY := entityRotationY (transformStartRef t);
                                   entityScale := entityScale (transformStartRef t) |} t) ;;
            match target with
            | ShapeRef r =>
                obj <- liftM (deref r) ;;
                modifyT (fun t => set_transformStartRef
                                    {| pointer := pointer (transformStartRef t);
                                       entityPosition := Some (position obj);
                                       entityRotationY := entityRotationY (transformStartRef t);
                                       entityScale := entityScale (transformStartRef t) |} t)
            | _ => throwC (TypeError "Cannot read properties of undefined (reading 'clone')")
            end
        end
      else if type_is (transformModeRef t) "rotate" then
        modifyT (set_isTransformDraggingRef true) ;;
        modifyT (fun t => set_transformStartRef
                            {| pointer := Some (vec3 (Num (clientX event)) (Num (clientY event))
                                                     Undefined);
                               entityPosition := entityPosition (transformStartRef t);
                               entityRotationY := entityRotationY (transformStartRef t);
                               entityScale := entityScale (transformStartRef t) |} t) ;;
        match target with
        | ShapeRef r =>
            obj <- liftM (deref r) ;;
            modifyT (fun t => set_transformStartRef
                                {| pointer := pointer (transformStartRef t);
                                   entityPosition := entityPosition (transformStartRef t);
                                   entityRotationY := vy (rotation obj);
                                   entityScale := entityScale (transformStartRef t) |} t)
        | _ => throwC (TypeError "Cannot read properties of undefined (reading 'y')")
        end
      else if type_is (transformModeRef t) "scale" then
        modifyT (set_isTransformDraggingRef true) ;;
        modifyT (fun t => set_transformStartRef
                            {| pointer := Some (vec3 (Num (clientX event)) (Num (clientY event))
                                                     Undefined);
                               entityPosition := entityPosition (transformStartRef t);
                               entityRotationY := entityRotationY (transformStartRef t);
                               entityScale := entityScale (transformStartRef t) |} t) ;;
        match target with
        | ShapeRef r =>
            obj <- liftM (deref r) ;;
            modifyT (fun t => set_transformStartRef
                                {| pointer := pointer (transformStartRef t);
                                   entityPosition := entityPosition (transformStartRef t);
                                   entityRotationY := entityRotationY (transformStartRef t);
                                   entityScale := Some (scale obj) |} t)
        | _ => throwC (TypeError "Cannot read properties of undefined (reading 'clone')")
        end
      else retC tt
  | None =>
      if sketchModeRef s && truthy_string (sketchToolRef s)
      then handleSketchStart view
      else liftM (handleSelection view event)
  end.

Definition handlePointerMove (view : Viewport) (event : MouseEvent) : MC unit :=
  s <- getS ;;
  t <- getT ;;
  match (if isTransformDraggingRef t then selectedEntityRef s else None) with
  | Some selected =>
      let target := match transformEntityRef t with
                    | Some target => target
                    | None => selected
                    end in
      let start := transformStartRef t in
      if type_is (transformModeRef t) "translate" then
        match mouseOnPlane view, pointer start with
        | Some current, Some from =>
            let delta := pt (px current - ToNumber (vx from)) (py current - ToNumber (vy from))
                            (pz current - ToNumber (vz from)) in
            match entityPosition start with
            | None => throwC (TypeError "Cannot read properties of null (reading 'clone')")
            | Some base =>
                let newPos := Vector3_add base (pt (px delta) 0 (pz delta)) in
                match target with
                | ShapeRef r => liftM (modifyObject r (set_position newPos))
                | _ => throwC (TypeError "Cannot read properties of undefined (reading 'copy')")
                end
            end
        | _, _ => retC tt
        end
      else if type_is (transformModeRef t) "rotate" then
        match pointer start with
        | None => throwC (TypeError "Cannot read properties of null (reading 'x')")
        | Some from =>
            let dx := clientX event - ToNumber (vx from) in
            let angle := dx * 0.02 in
            match target with
            | ShapeRef r =>
                liftM (modifyObject r
                         (fun o => set_rotation
                                     (vec3 (vx (rotation o))
                                           (Num (ToNumber (entityRotationY start) + angle))
                                           (vz (rotation o))) o))
            | _ => throwC (TypeError "Cannot set properties of undefined (setting 'y')")
            end
        end
      else if type_is (transformModeRef t) "scale" then
        match pointer start with
        | None => throwC (TypeError "Cannot read properties of null (reading 'y')")
        | Some from =>
            let dy := clientY event - ToNumber (vy from) in
            let factor := Math_max 0.01 (1 + dy * (-0.01)) in
            match entityScale start, target with
            | Some baseScale, ShapeRef r =>
                liftM (modifyObject r
                         (set_scale (vec3 (Num (ToNumber (vx baseScale) * factor))
                                          (Num (ToNumber (vy baseScale) * factor))
                                          (Num (ToNumber (vz baseScale) * factor)))))
            | _, _ => throwC (TypeError "Cannot read properties of undefined")
            end
        end
      else retC tt
  | None =>
      if sketchModeRef s && isDraggingRef s then handleSketchMove view else retC tt
  end.

Definition handlePointerUp (view : Viewport) : MC unit :=
  t <- getT ;;
  if isTransformDraggingRef t then
    modifyT (set_isTransformDraggingRef false) ;;
    modifyT (set_transformEntityRef None)
  else
    s <- getS ;;
    (if sketchModeRef s && isDraggingRef s then handleSketchEnd view else retC tt) ;;
    modifyS (set_isDraggingRef false).

(** *** The mouse listeners of the orbit control *)

Definition onMouseDown (button : Z) (view : Viewport) (e : MouseEvent) : MC unit :=
  if Z.eqb button 0 then
    s <- getS ;;
    t <- getT ;;
    if truthy_string (pendingShapeTypeRef s) then liftM (handleSelection view e)
    else if (sketchModeRef s && truthy_string (sketchToolRef s)) ||
            (truthy_string (transformModeRef t) && isSome (selectedEntityRef s))
    then retC tt
    else
      liftM (handleSelection view e) ;;
      modifyT (set_orbit true false (pt2 (clientX e) (clientY e)) (pt2 (clientX e) (clientY e)))
  else retC tt.

Definition onMouseUp : MC unit :=
  modifyT (fun t => set_orbit false false (previousMousePosition t) (pt2 0 0) t).

(** *** The keyboard *)

(** The statements after [event.preventDefault(); pushHistory();] in the
    three transformation branches of [handleKeyDown]. *)
Definition keyTransform (selected : Entity) (mode : string) (transformDelta : Vec3) : MC unit :=
  if 0 <? Vec.length transformDelta then
    liftM pushHistory ;;
    liftM (applyTransformation selected mode transformDelta)
  else retC tt.

Definition toggleMode (mode : string) : MC unit :=
  t <- getT ;;
  let newMode := if type_is (transformModeRef t) mode then None else Some mode in
  modifyT (set_transformModeRef newMode) ;;
  (* [window.dispatchEvent(new CustomEvent('setTransformMode', ...))] *)
  setTransformModeHandler newMode.

Definition handleKeyDown (event : KeyEvent) : MC unit :=
  if String.eqb (target_tagName event) "INPUT" || String.eqb (target_tagName event) "TEXTAREA"
  then retC tt
  else
    let key := toLowerCase (key event) in
    let isCtrl := key_ctrlKey event || key_metaKey event in
    if isCtrl && String.eqb key "z" then liftM undoHandler
    else if isCtrl && (String.eqb key "y" || (String.eqb key "z" && key_shiftKey event))
    then liftM redoHandler
    else if String.eqb key "g" then toggleMode "translate"
    else if String.eqb key "r" then toggleMode "rotate"
    else if String.eqb key "s" then toggleMode "scale"
    else if String.eqb key "delete" || String.eqb key "backspace" then liftM handleKeyDown_delete
    else
      s <- getS ;;
      t <- getT ;;
      match (if truthy_string (transformModeRef t) then selectedEntityRef s else None) with
      | Some selected =>
          let delta := 0.1 in
          if type_is (transformModeRef t) "translate" then
            keyTransform selected "translate"
              (if String.eqb key "arrowup" || String.eqb key "w" then pt 0 delta 0
               else if String.eqb key "arrowdown" || String.eqb key "s" then pt 0 (- delta) 0
               else if String.eqb key "arrowleft" || String.eqb key "a" then pt (- delta) 0 0
               else if String.eqb key "arrowright" || String.eqb key "d" then pt delta 0 0
               else if String.eqb key "q" then pt 0 0 delta
               else if String.eqb key "e" then pt 0 0 (- delta)
               else Vec.zero)
          else if type_is (transformModeRef t) "rotate" then
            keyTransform selected "rotate"
              (if String.eqb key "arrowleft" || String.eqb key "a" then pt 0 (-0.2) 0
               else if String.eqb key "arrowright" || String.eqb key "d" then pt 0 0.2 0
               else Vec.zero)
          else if type_is (transformModeRef t) "scale" then
            keyTransform selected "scale"
              (if String.eqb key "arrowup" || String.eqb key "w" then pt 0.1 0.1 0.1
               else if String.eqb key "arrowdown" || String.eqb key "s" then pt (-0.1) (-0.1) (-0.1)
               else Vec.zero)
          else retC tt
      | None => retC tt
      end.

End CanvasHandlers.

(** *** The events the component listens to *)

Inductive Event : Type :=
| createShape (detail : string)
| setTransformMode (detail : option string)
| setSketchMode (detail : bool)
| setSketchTool (detail : option string)
| extrude (index : Z) (height : jsnum)
| exportScene
| importScene (parsed : option SceneData)
| undo
| redo
| groupSelected
| ungroupSelected
| updateSketch (index : option Z) (width height radius : jsnum)
| pointerdown (view : Viewport) (event : MouseEvent)
| pointermove (view : Viewport) (event : MouseEvent)
| pointerup (view : Viewport)
| mousedown (button : Z) (view : Viewport) (event : MouseEvent)
| mouseup
| keydown (event : KeyEvent).

Section Component.
Context {three : ThreeJS} {graph : SceneGraph}.
Local Open Scope canvas_scope.

Definition listener (e : Event) : MC unit :=
  match e with
  | createShape detail => liftM (createShapeHandler detail)
  | setTransformMode detail => setTransformModeHandler detail
  | setSketchMode detail => liftM (setSketchModeHandler detail)
  | setSketchTool detail => liftM (setSketchToolHandler detail)
  | extrude index height => liftM (extrudeHandler index height)
  | exportScene => liftM exportHandler ;; retC tt
  | importScene parsed => liftM (importHandler parsed)
  | undo => liftM undoHandler
  | redo => liftM redoHandler
  | groupSelected => liftM groupSelectedHandler
  | ungroupSelected => liftM ungroupSelectedHandler
  | updateSketch index width height radius =>
      liftM (updateSketchHandler index width height radius)
  | pointerdown view event => handlePointerDown view event
  | pointermove view event => handlePointerMove view event
  | pointerup view => handlePointerUp view
  | mousedown button view event => onMouseDown button view event
  | mouseup => onMouseUp
  | keydown event => handleKeyDown event
  end.

(** One event: its listener runs (an exception it does not catch ends it
    and leaves the state it reached), then the effects copy the React state
    into the refs. *)
Definition step (c : Canvas) (e : Event) : Canvas :=
  let c' := snd (listener e c) in
  {| core := syncRefs (core c) (core c'); tools := tools c' |}.

Definition run (events : list Event) : Canvas := fold_left step events initialCanvas.

End Component.

(* ===================================================================== *)
(** ** A sample of the library interface

    A small, executable implementation of [ThreeJS], used where a closed
    example has to run the handlers: a box is the 8-corner, 12-triangle
    solid; a sphere is an octahedron; a cylinder is a square prism; an
    extrusion is the prism over the corner points of the outline.  The
    tessellations of THREE.js are finer; the handlers only store them. *)
(* ===================================================================== *)

Module Sample.
Local Open Scope float_scope.

Definition boxIndex : list nat :=
  [0; 1; 2;  0; 2; 3;    4; 6; 5;  4; 7; 6;
   0; 4; 5;  0; 5; 1;    1; 5; 6;  1; 6; 2;
   2; 6; 7;  2; 7; 3;    3; 7; 4;  3; 4; 0]%nat.

Definition prism (xmin xmax ymin ymax zmin zmax : float) : BufferGeometry :=
  {| attr_position :=
       Some [ pt xmin ymin zmin; pt xmax ymin zmin; pt xmax ymax zmin; pt xmin ymax zmin;
              pt xmin ymin zmax; pt xmax ymin zmax; pt xmax ymax zmax; pt xmin ymax zmax ];
     attr_normal := None;
     geo_index := Some boxIndex |}.

Definition box (w h d : jsnum) : BufferGeometry :=
  let w := ToNumber w in
  let h := ToNumber h in
  let d := ToNumber d in
  prism (- w / 2) (w / 2) (- h / 2) (h / 2) (- d / 2) (d / 2).

Definition octahedron (r : float) : BufferGeometry :=
  {| attr_position :=
       Some [ pt r 0 0; pt (- r) 0 0; pt 0 r 0; pt 0 (- r) 0; pt 0 0 r; pt 0 0 (- r) ];
     attr_normal := None;
     geo_index := Some [ 0; 2; 4;  2; 1; 4;  1; 3; 4;  3; 0; 4;
                         2; 0; 5;  1; 2; 5;  3; 1; 5;  0; 3; 5 ]%nat |}.

Definition sphere (r ws hs : jsnum) : BufferGeometry := octahedron (ToNumber r).

Definition cylinder (rTop rBottom h segments : jsnum) : BufferGeometry :=
  let r := ToNumber rTop in
  let h := ToNumber h in
  prism (- r) r (- h / 2) (h / 2) (- r) r.

(** The bounding rectangle of the outline, swept along [z]. *)
Definition extrude (shape : Shape2D) (settings : ExtrudeSettings) : BufferGeometry :=
  let d := ToNumber (depth settings) in
  match shape with
  | moveTo x y :: _ => prism x (- x) y (- y) 0 d
  | absarc x y r _ _ _ :: _ => prism (x - r) (x + r) (y - r) (y + r) 0 d
  | _ => {| attr_position := Some []; attr_normal := None; geo_index := None |}
  end.

(** [toFixed] for finite numbers below [1e21]: the magnitude times
    [10^digits], rounded half up, printed with [digits] decimals. *)
Definition scaled (m : positive) (e : Z) (digits : nat) : N :=
  let v := (Z.pos m * 10 ^ Z.of_nat digits)%Z in
  if (0 <=? e)%Z then Z.to_N (v * 2 ^ e)
  else Z.to_N ((2 * v + 2 ^ (- e)) / 2 ^ (- e + 1)).

Fixpoint zeros (n : nat) : string :=
  match n with
  | O => EmptyString
  | S k => String "0"%char (zeros k)
  end.

Definition decimals (n : N) (digits : nat) : string :=
  let raw := NilZero.string_of_uint (N.to_uint n) in
  let padded := (zeros (S digits - String.length raw) ++ raw)%string in
  let whole := (String.length padded - digits)%nat in
  if Nat.eqb digits 0 then padded
  else (substring 0 whole padded ++ "." ++ substring whole digits padded)%string.

Definition fixed (x : float) (digits : nat) : string :=
  match Prim2SF x with
  | S754_nan => "NaN"
  | S754_infinity sign => if sign then "-Infinity" else "Infinity"
  | S754_zero _ => decimals 0 digits
  | S754_finite sign m e =>
      ((if sign then "-" else EmptyString) ++ decimals (scaled m e digits) digits)%string
  end.

Definition three : ThreeJS :=
  {| BoxGeometry := box;
     SphereGeometry := sphere;
     CylinderGeometry := cylinder;
     ExtrudeGeometry := extrude;
     toFixed := fixed |}.

End Sample.

(** A scene graph in which attaching leaves the local transform of the
    child as it is: the case of parents whose world matrix is the
    identity, on a child whose transform [Matrix4.decompose] gives back. *)
Definition stillGraph : SceneGraph :=
  {| reattached := fun _ child => (position child, rotation child, scale child);
     attached := fun _ child => (position child, rotation child, scale child) |}.

Example sample_toFixed :
  Sample.fixed 0.5%float 3 = "0.500" /\
  Sample.fixed (-12.34567)%float 3 = "-12.346" /\
  Sample.fixed 0.0005%float 3 = "0.001" /\
  Sample.fixed (-0)%float 3 = "0.000".
Proof. repeat split; vm_compute; reflexivity. Qed.

Example sample_box_faces_edges :
  let b := createBox (three := Sample.three) Undefined Undefined Undefined in
  option_map (@List.length _) (ud_faces (userData b)) = Some 12%nat /\
  option_map (@List.length _) (ud_edges (userData b)) = Some 18%nat.
Proof. split; vm_compute; reflexivity. Qed.

(* ===================================================================== *)
(** * Verification *)
(* ===================================================================== *)

(** ** Running a handler *)

Lemma bind_Ok {A B} (m : M A) (k : A -> M B) s a s' :
  m s = (Ok a, s') -> bind m k s = k a s'.
Proof. unfold bind. intros ->. reflexivity. Qed.

Lemma bind_Throw {A B} (m : M A) (k : A -> M B) s e s' :
  m s = (Throw e, s') -> bind m k s = (Throw e, s').
Proof. unfold bind. intros ->. reflexivity. Qed.

Lemma pop_push {A} (l : list A) (x : A) : pop (push l x) = (Some x, l).
Proof.
  unfold pop, push. rewrite rev_app_distr. simpl. now rewrite rev_involutive.
Qed.

Lemma pop_nil {A} : pop (@nil A) = (None, []).
Proof. reflexivity. Qed.

(** Serialisation reads the heap and nothing else: whatever it returns,
    the state is the one it started from. *)
Lemma serializeObject_state index obj s :
  snd (serializeObject index obj s) = s.
Proof.
  unfold serializeObject.
  destruct (material obj); [|reflexivity].
  repeat match goal with |- context [if ?c then _ else _] => destruct c end; reflexivity.
Qed.

Lemma serializeObjects_state objects : forall index s,
  snd (serializeObjects index objects s) = s.
Proof.
  induction objects as [|r rest IH]; intros index s; simpl; [reflexivity|].
  unfold bind, deref.
  destruct (nth_error (heap s) r) as [obj|]; [|reflexivity].
  pose proof (serializeObject_state index obj s) as Hs.
  destruct (serializeObject index obj s) as [[d|e] s1]; simpl in Hs; subst s1; [|reflexivity].
  pose proof (IH (S index) s) as Hr.
  destruct (serializeObjects (S index) rest s) as [[ds|e] s2]; simpl in Hr; subst s2; reflexivity.
Qed.

Lemma saveSceneToJSON_state objects sketches s :
  snd (saveSceneToJSON objects sketches s) = s.
Proof.
  unfold saveSceneToJSON, bind.
  pose proof (serializeObjects_state objects 0 s) as Hs.
  destruct (serializeObjects 0 objects s) as [[ds|e] s1]; simpl in Hs; subst s1; reflexivity.
Qed.

(** [snapshotScene] either returns the normalised document and leaves the
    state alone, or returns [null] after logging the failure. *)
Lemma snapshotScene_Ok s d :
  fst (saveSceneToJSON (objectsRef s) (sketchesRef s) s) = Ok d ->
  snapshotScene s = (Ok (Some (JSON_parse_stringify d)), s).
Proof.
  intros H. unfold snapshotScene, try_catch, bind, get.
  pose proof (saveSceneToJSON_state (objectsRef s) (sketchesRef s) s) as Hs.
  destruct (saveSceneToJSON (objectsRef s) (sketchesRef s) s) as [[d'|e] s1];
    simpl in *; subst s1; [|discriminate].
  now inversion H.
Qed.

Lemma snapshotScene_Throw s e :
  fst (saveSceneToJSON (objectsRef s) (sketchesRef s) s) = Throw e ->
  snapshotScene s =
  (Ok None, set_console (console s ++ [console_error "Snapshot failed"]) s).
Proof.
  intros H. unfold snapshotScene, try_catch, bind, get.
  pose proof (saveSceneToJSON_state (objectsRef s) (sketchesRef s) s) as Hs.
  destruct (saveSceneToJSON (objectsRef s) (sketchesRef s) s) as [[d'|e'] s1];
    simpl in *; subst s1; [discriminate|].
  reflexivity.
Qed.

(** ** C7: extrusion of a non-existent index *)

(** C7. For every index that is negative or not less than the length of
    the sketch list, [handleExtrude] returns at its guard: the whole state
    (entity store, sketch list, selection, both history stacks, and every
    other ref) is the state it was called in. *)
Theorem handleExtrude_out_of_range {three : ThreeJS} (s : State) (sketchIndex : Z) (height : jsnum) :
  (sketchIndex < 0 \/ Z.of_nat (List.length (sketchesRef s)) <= sketchIndex)%Z ->
  handleExtrude sketchIndex height s = (Ok tt, s).
Proof.
  intros H. unfold handleExtrude, bind, get.
  replace ((sketchIndex <? 0)%Z || (sketchIndex >=? Z.of_nat (List.length (sketchesRef s)))%Z)
    with true; [reflexivity|].
  symmetry. apply orb_true_iff.
  destruct H as [H|H]; [left; now apply Z.ltb_lt | right; apply Z.geb_le; lia].
Qed.

(** A sketch list of two sketches, asked to extrude index 2 and index -1. *)
Definition twoCircles : State :=
  set_sketchesRef
    [ {| sk_id := None; sk_type := Some "circle"; sk_start := None; sk_end := None;
         sk_width := Undefined; sk_height := Undefined; sk_radius := Num 1;
         sk_center := Some (vec3 (Num 0) (Num 0) (Num 0)) |};
      {| sk_id := None; sk_type := Some "circle"; sk_start := None; sk_end := None;
         sk_width := Undefined; sk_height := Undefined; sk_radius := Num 2;
         sk_center := Some (vec3 (Num 3) (Num 0) (Num 3)) |} ]
    initialState.

Lemma handleExtrude_out_of_range_witness :
  handleExtrude (three := Sample.three) 2 (Num 1) twoCircles = (Ok tt, twoCircles) /\
  handleExtrude (three := Sample.three) (-1) (Num 1) twoCircles = (Ok tt, twoCircles).
Proof.
  split.
  - apply (@handleExtrude_out_of_range Sample.three twoCircles 2 (Num 1)). right. simpl. lia.
  - apply (@handleExtrude_out_of_range Sample.three twoCircles (-1) (Num 1)). left. lia.
Defined.

(** ** C8: a snapshot that fails is not pushed *)

(** C8. Whenever serialising the scene throws, [pushHistory] completes
    normally and leaves the undo stack and the redo stack as they were:
    nothing is pushed and the redo stack is not cleared. *)
Theorem pushHistory_failed_snapshot (s : State) (e : Error) :
  fst (saveSceneToJSON (objectsRef s) (sketchesRef s) s) = Throw e ->
  fst (pushHistory s) = Ok tt /\
  undoStackRef (snd (pushHistory s)) = undoStackRef s /\
  redoStackRef (snd (pushHistory s)) = redoStackRef s.
Proof.
  intros H. unfold pushHistory.
  erewrite bind_Ok by (apply (@snapshotScene_Throw s e); exact H).
  repeat split.
Qed.

(** ** What loading does to a state

    Every step of [loadSceneFromJSON] after the two resets only appends:
    shapes to the heap (and their references to [objectsRef]), sketches to
    [sketchesRef], entries to the console.  What is appended does not
    depend on the state the step starts from, so a step is described by
    its run from [initialState]. *)

Definition loadEffect (shapes : list Object3D) (sketches : list Sketch)
           (logs : list LogEntry) (s : State) : State :=
  set_console (console s ++ logs)
    (set_sketchesRef (sketchesRef s ++ sketches)
       (set_objectsRef (objectsRef s ++ seq (List.length (heap s)) (List.length shapes))
          (set_heap (heap s ++ shapes) s))).

Lemma loadEffect_nil s : loadEffect [] [] [] s = s.
Proof. destruct s. unfold loadEffect. simpl. now rewrite !app_nil_r. Qed.

Lemma loadEffect_compose a1 b1 c1 a2 b2 c2 s :
  loadEffect a2 b2 c2 (loadEffect a1 b1 c1 s) = loadEffect (a1 ++ a2) (b1 ++ b2) (c1 ++ c2) s.
Proof.
  destruct s. unfold loadEffect. simpl.
  rewrite !length_app, seq_app, <- !app_assoc. reflexivity.
Qed.

Lemma seq_from (a n : nat) : seq a n = map (Nat.add a) (seq 0 n).
Proof.
  induction a as [|a IH].
  - symmetry. erewrite map_ext; [apply map_id | reflexivity].
  - rewrite <- seq_shift, IH, map_map. reflexivity.
Qed.

Definition is_mesh (o : Object3D) : Prop := material o <> None.

Definition framed {A} (m : M A) : Prop :=
  (forall s, m s = (fst (m initialState),
                    loadEffect (heap (snd (m initialState)))
                               (sketchesRef (snd (m initialState)))
                               (console (snd (m initialState))) s)) /\
  Forall is_mesh (heap (snd (m initialState))).

Lemma framed_run {A} (m : M A) s :
  framed m ->
  m s = (fst (m initialState),
         loadEffect (heap (snd (m initialState))) (sketchesRef (snd (m initialState)))
                    (console (snd (m initialState))) s).
Proof. intros [H _]. apply H. Qed.

Lemma framed_ret {A} (a : A) : framed (ret a).
Proof. split; [intros s; simpl; now rewrite loadEffect_nil | constructor]. Qed.

Lemma framed_throw {A} (e : Error) : framed (@throw A e).
Proof. split; [intros s; simpl; now rewrite loadEffect_nil | constructor]. Qed.

Lemma framed_log (e : LogEntry) : framed (log e).
Proof.
  split; [|constructor]. intros s. destruct s. unfold log, modify, loadEffect. simpl.
  now rewrite !app_nil_r.
Qed.

Lemma framed_publish (shape : Object3D) :
  is_mesh shape ->
  framed (r <- alloc shape ;; modify (fun s => set_objectsRef (push (objectsRef s) r) s)).
Proof.
  intros Hm. split; [|repeat constructor; exact Hm].
  intros s. destruct s. unfold bind, alloc, modify, push, loadEffect. simpl.
  now rewrite !app_nil_r.
Qed.

Lemma framed_pushSketch (sketch : Sketch) :
  framed (modify (fun s => set_sketchesRef (push (sketchesRef s) sketch) s)).
Proof.
  split; [|constructor]. intros s. destruct s. unfold modify, push, loadEffect. simpl.
  now rewrite !app_nil_r.
Qed.

Lemma framed_bind {A B} (m : M A) (k : A -> M B) :
  framed m -> (forall a, fst (m initialState) = Ok a -> framed (k a)) -> framed (bind m k).
Proof.
  intros [Hm Mm] Hk.
  assert (E0 : snd (m initialState) =
               loadEffect (heap (snd (m initialState))) (sketchesRef (snd (m initialState)))
                          (console (snd (m initialState))) initialState).
  { pose proof (Hm initialState) as H0.
    destruct (m initialState) as [r0 s0]. simpl in *. now inversion H0. }
  destruct (m initialState) as [[a|e] s1] eqn:E1; simpl in *.
  - destruct (Hk a eq_refl) as [Hka Mka].
    assert (R0 : bind m k initialState = k a s1) by (unfold bind; now rewrite E1).
    split.
    + intros s. unfold bind at 1. rewrite (Hm s).
      rewrite R0. rewrite (Hka s1). simpl. rewrite Hka.
      f_equal. apply loadEffect_compose.
    + rewrite R0, (Hka s1). simpl. rewrite E0. unfold loadEffect at 1. simpl.
      apply Forall_app. split; [| exact Mka].
      unfold loadEffect. simpl. exact Mm.
  - assert (R0 : bind m k initialState = (Throw e, s1)) by (unfold bind; now rewrite E1).
    split.
    + intros s. unfold bind at 1. rewrite (Hm s). now rewrite R0.
    + now rewrite R0.
Qed.

Lemma framed_forEach {A} (f : A -> M unit) (l : list A) :
  (forall a, framed (f a)) -> framed (forEach l f).
Proof.
  intros Hf. induction l as [|a l IH]; simpl.
  - apply framed_ret.
  - apply framed_bind; [apply Hf | intros _ _; exact IH].
Qed.

(** A computation that only reads is framed. *)
Lemma framed_pure {A} (m : M A) :
  (forall s, m s = (fst (m initialState), s)) -> framed m.
Proof.
  intros H. split.
  - intros s. rewrite (H s). f_equal.
    rewrite (H initialState). simpl. now rewrite loadEffect_nil.
  - rewrite (H initialState). constructor.
Qed.

Section LoadFacts.
Context {three : ThreeJS}.

Lemma updateShapeGeometry_material shape :
  material (updateShapeGeometry shape) = material shape.
Proof. unfold updateShapeGeometry. now destruct (geometry shape). Qed.

Lemma applyColor_mesh md shape : is_mesh shape -> is_mesh (applyColor md shape).
Proof.
  unfold applyColor, is_mesh. intros H.
  destruct md as [[[c|]]|]; try exact H.
  destruct (Z.eqb c 0); [exact H|].
  destruct (material shape); [discriminate | now elim H].
Qed.

Lemma applyTransforms_mesh od shape : is_mesh shape -> is_mesh (applyTransforms od shape).
Proof.
  intros H. unfold applyTransforms. apply applyColor_mesh.
  destruct (od_position od), (od_rotation od), (od_scale od); exact H.
Qed.

Lemma recreateExtrudedShape_pure od s :
  recreateExtrudedShape od s = (fst (recreateExtrudedShape od initialState), s).
Proof.
  unfold recreateExtrudedShape.
  destruct (od_sketchData od) as [sd|]; [|reflexivity].
  destruct (type_is (sk_type sd) "rectangle"); [reflexivity|].
  destruct (type_is (sk_type sd) "circle"); reflexivity.
Qed.

Lemma recreateExtrudedShape_mesh od s shape s' :
  recreateExtrudedShape od s = (Ok (Some shape), s') -> is_mesh shape.
Proof.
  unfold recreateExtrudedShape.
  destruct (od_sketchData od) as [sd|]; [|discriminate].
  destruct (type_is (sk_type sd) "rectangle");
    [| destruct (type_is (sk_type sd) "circle"); [|discriminate]];
    intros H; inversion H; subst; unfold is_mesh;
    rewrite updateShapeGeometry_material; discriminate.
Qed.

Lemma constructShape_pure od s :
  constructShape od s = (fst (constructShape od initialState), s).
Proof.
  unfold constructShape.
  destruct (type_is (od_type od) "box"); [reflexivity|].
  destruct (type_is (od_type od) "sphere"); [reflexivity|].
  destruct (type_is (od_type od) "cylinder"); [reflexivity|].
  destruct (type_is (od_type od) "extruded"); [|reflexivity].
  unfold bind.
  rewrite (recreateExtrudedShape_pure od s), (recreateExtrudedShape_pure od initialState).
  destruct (fst (recreateExtrudedShape od initialState)); reflexivity.
Qed.

Lemma constructShape_mesh od s shape s' :
  constructShape od s = (Ok (inl (Some shape)), s') -> is_mesh shape.
Proof.
  unfold constructShape.
  destruct (type_is (od_type od) "box");
    [intros H; inversion H; subst; discriminate|].
  destruct (type_is (od_type od) "sphere");
    [intros H; inversion H; subst; discriminate|].
  destruct (type_is (od_type od) "cylinder");
    [intros H; inversion H; subst; discriminate|].
  destruct (type_is (od_type od) "extruded"); [|discriminate].
  unfold bind.
  destruct (recreateExtrudedShape od s) as [[[sh|]|e] s1] eqn:E; try discriminate.
  intros H. inversion H; subst. eapply recreateExtrudedShape_mesh; eassumption.
Qed.

Lemma framed_loadObject od : framed (loadObject od).
Proof.
  unfold loadObject. apply framed_bind.
  - apply framed_pure. apply constructShape_pure.
  - intros [[shape|]|[]] H.
    + apply framed_publish. unfold is_mesh.
      rewrite updateShapeGeometry_material. apply applyTransforms_mesh.
      destruct (constructShape od initialState) as [r s1] eqn:E. simpl in H. subst r.
      eapply constructShape_mesh; eassumption.
    + apply framed_throw.
    + apply framed_log.
Qed.

Lemma framed_loadSketch sd : framed (loadSketch sd).
Proof.
  unfold loadSketch. apply framed_bind.
  - destruct (type_is (sk_type sd) "rectangle");
      [| destruct (type_is (sk_type sd) "circle")];
      try destruct (sk_center sd);
      first [apply framed_ret | apply framed_throw].
  - intros k _. apply framed_pushSketch.
Qed.

(** [loadSceneFromJSON] after its two resets. *)
Definition loadEntries (data : SceneData) : M unit :=
  match sd_objects data with
  | Some objects => forEach objects loadObject
  | None => ret tt
  end ;;
  match sd_sketches data with
  | Some sketches => forEach sketches loadSketch
  | None => ret tt
  end.

Lemma framed_loadEntries data : framed (loadEntries data).
Proof.
  unfold loadEntries. apply framed_bind.
  - destruct (sd_objects data); [apply framed_forEach, framed_loadObject | apply framed_ret].
  - intros _ _.
    destruct (sd_sketches data); [apply framed_forEach, framed_loadSketch | apply framed_ret].
Qed.

Lemma loadSceneFromJSON_resets data s :
  loadSceneFromJSON data s = loadEntries data (set_sketchesRef [] (set_objectsRef [] s)).
Proof. reflexivity. Qed.

(** The frame property of loading: from any state, the outcome and what
    is built are those of a load into the empty scene; the objects and
    sketches the store held are dropped first. *)
Lemma loadSceneFromJSON_frame data s :
  loadSceneFromJSON data s =
  (fst (loadSceneFromJSON data initialState),
   loadEffect (heap (snd (loadSceneFromJSON data initialState)))
              (sketchesRef (snd (loadSceneFromJSON data initialState)))
              (console (snd (loadSceneFromJSON data initialState)))
              (set_sketchesRef [] (set_objectsRef [] s))).
Proof.
  rewrite !loadSceneFromJSON_resets.
  change (set_sketchesRef [] (set_objectsRef [] initialState)) with initialState.
  apply framed_run, framed_loadEntries.
Qed.

Lemma loadSceneFromJSON_meshes data :
  Forall is_mesh (heap (snd (loadSceneFromJSON data initialState))).
Proof.
  rewrite loadSceneFromJSON_resets.
  change (set_sketchesRef [] (set_objectsRef [] initialState)) with initialState.
  apply framed_loadEntries.
Qed.

End LoadFacts.

(* ===================================================================== *)
(** ** C10: a load that throws midway leaves a replaced store *)
(* ===================================================================== *)

Section LoadFailure.
Context {three : ThreeJS}.

Lemma loadSketch_without_center bad s :
  type_is (sk_type bad) "rectangle" || type_is (sk_type bad) "circle" = true ->
  sk_center bad = None ->
  exists e, loadSketch bad s = (Throw e, s).
Proof.
  intros Ht Hc. unfold loadSketch, bind. rewrite Hc.
  destruct (type_is (sk_type bad) "rectangle"); [eexists; reflexivity|].
  destruct (type_is (sk_type bad) "circle"); [eexists; reflexivity|discriminate].
Qed.

Lemma forEach_loadSketch_throws before bad after :
  type_is (sk_type bad) "rectangle" || type_is (sk_type bad) "circle" = true ->
  sk_center bad = None ->
  forall s, exists e, fst (forEach (before ++ bad :: after) loadSketch s) = Throw e.
Proof.
  intros Ht Hc. induction before as [|k before IH]; intros s; simpl.
  - destruct (@loadSketch_without_center bad s Ht Hc) as [e He].
    exists e. unfold bind. now rewrite He.
  - unfold bind. destruct (loadSketch k s) as [[[]|e] s1].
    + apply IH.
    + now exists e.
Qed.

Lemma loadEntries_throws data before bad after :
  sd_sketches data = Some (before ++ bad :: after) ->
  type_is (sk_type bad) "rectangle" || type_is (sk_type bad) "circle" = true ->
  sk_center bad = None ->
  forall s, exists e, fst (loadEntries data s) = Throw e.
Proof.
  intros Hd Ht Hc s. unfold loadEntries. rewrite Hd. unfold bind at 1.
  destruct (match sd_objects data with
            | Some objects => forEach objects loadObject
            | None => ret tt
            end s) as [[[]|e] s1].
  - apply forEach_loadSketch_throws; assumption.
  - now exists e.
Qed.

End LoadFailure.

(** C10. [loadSceneFromJSON] empties the store before it builds anything.
    For every document whose [sketches] array holds a rectangle or circle
    record without a [center], and from every state, the load throws; the
    store it leaves holds none of the objects and sketches it held before
    (every reference in [objectsRef] is to an object built by this load,
    and both lists are those the same load leaves in an empty scene), so
    the replacement is not atomic. *)
Theorem loadSceneFromJSON_not_atomic {three : ThreeJS}
        (s : State) (data : SceneData) (before after : list Sketch) (bad : Sketch) :
  sd_sketches data = Some (before ++ bad :: after) ->
  type_is (sk_type bad) "rectangle" || type_is (sk_type bad) "circle" = true ->
  sk_center bad = None ->
  exists e s',
    loadSceneFromJSON data s = (Throw e, s') /\
    (forall r, In r (objectsRef s') -> List.length (heap s) <= r) /\
    (forall r, In r (objectsRef s) -> r < List.length (heap s) -> ~ In r (objectsRef s')) /\
    objectsRef s' = map (Nat.add (List.length (heap s)))
                        (objectsRef (snd (loadSceneFromJSON data initialState))) /\
    sketchesRef s' = sketchesRef (snd (loadSceneFromJSON data initialState)).
Proof.
  intros Hd Ht Hc.
  destruct (@loadEntries_throws three data before bad after Hd Ht Hc initialState) as [e He].
  assert (F0 := loadSceneFromJSON_frame data initialState).
  assert (Fs := loadSceneFromJSON_frame data s).
  change (fst (loadSceneFromJSON data initialState)) with (fst (loadEntries data initialState)) in *.
  rewrite He in *.
  destruct (loadSceneFromJSON data initialState) as [r0 s0]. simpl in *.
  inversion F0 as [[Hr Hs0]]. clear F0.
  exists e. eexists. split; [exact Fs|].
  assert (Hobj : forall n, In n (seq (List.length (heap s)) (List.length (heap s0))) ->
                           List.length (heap s) <= n).
  { intros n Hn. apply in_seq in Hn. lia. }
  destruct s; simpl in *.
  repeat split.
  - exact Hobj.
  - intros r _ Hlt Hin. apply Hobj in Hin. lia.
  - rewrite Hs0. simpl. apply seq_from.
Qed.

(* ===================================================================== *)
(** ** A session: two shapes, a multi-selection *)
(* ===================================================================== *)

Module Session.

Definition three : ThreeJS := Sample.three.

(** A pointer position over the ground plane at [(x, 0, z)], with no
    shape under it. *)
Definition ground (x z : float) : Viewport :=
  {| rect_left := 0; rect_top := 0; rect_width := 800; rect_height := 600;
     mouseOnPlane := Some (pt x 0 z);
     recursiveIntersects := [];
     applyMatrixWorld := fun _ v => v;
     project := fun v => v |}.

(** A pointer position over triangle [faceIndex] of the top-level shape
    [obj], all of whose edges project 500 pixels away from the pointer. *)
Definition body (obj : nat) (faceIndex : Z) : Viewport :=
  {| rect_left := 0; rect_top := 0; rect_width := 800; rect_height := 600;
     mouseOnPlane := Some (pt 0 0 0);
     recursiveIntersects :=
       [ {| hit_object := obj; hit_ancestors := []; hit_faceIndex := Some faceIndex |} ];
     applyMatrixWorld := fun _ v => v;
     project := fun _ => pt 0 0 0 |}.

Definition plain : MouseEvent :=
  {| ctrlKey := false; metaKey := false; shiftKey := false; clientX := 100; clientY := 0 |}.

Definition shift : MouseEvent :=
  {| ctrlKey := false; metaKey := false; shiftKey := true; clientX := 100; clientY := 0 |}.

(** Create a box and place it at the origin; create a sphere and place it
    at [(3, 0, 0)]. *)
Definition boxPending : State := dispatch (createShapeHandler "box") initialState.
Definition boxPlaced : State := dispatch (handleSelection (three := three) (ground 0 0) plain) boxPending.
Definition spherePending : State := dispatch (createShapeHandler "sphere") boxPlaced.
Definition twoShapes : State :=
  dispatch (handleSelection (three := three) (ground 3 0) plain) spherePending.

(** Click the box, then shift-click the sphere (one run of
    [handleSelection] each). *)
Definition boxSelected : State :=
  dispatch (handleSelection (three := three) (body 0 0) plain) twoShapes.
Definition bothSelected : State :=
  dispatch (handleSelection (three := three) (body 1 0) shift) boxSelected.

(** Group the two. *)
Definition grouped : State := dispatch (groupSelectedHandler (graph := stillGraph)) bothSelected.

Example twoShapes_store :
  objectsRef twoShapes = [0; 1]%nat /\
  option_map (fun o => ud_type (userData o)) (nth_error (heap twoShapes) 0) = Some (Some "box") /\
  option_map (fun o => ud_type (userData o)) (nth_error (heap twoShapes) 1) = Some (Some "sphere") /\
  List.length (undoStackRef twoShapes) = 2%nat.
Proof. vm_compute. repeat split. Qed.

Example bothSelected_selection :
  objectsRef bothSelected = [0; 1]%nat /\
  multiSelectedRef bothSelected = [0; 1]%nat /\
  selectedEntityRef bothSelected = Some (ShapeRef 1) /\
  selectedTypeRef bothSelected = Some TShape.
Proof. vm_compute. repeat split. Qed.

(** Grouping empties the multi-selection set. *)
Example grouped_store :
  objectsRef grouped = [2]%nat /\
  multiSelectedRef grouped = [] /\
  option_map children (nth_error (heap grouped) 2) = Some [0; 1]%nat /\
  selectedEntityRef grouped = Some (ShapeRef 2).
Proof. vm_compute. repeat split. Qed.

End Session.

(* ===================================================================== *)
(** ** C4: the multi-selection set and the entity store *)
(* ===================================================================== *)

(** C4 (the code departs from it). With shapes 0 and 1 in the
    multi-selection set and shape 1 the primary selection, the Delete key
    removes shape 1 from the entity store and leaves it in the
    multi-selection set. *)
Theorem delete_leaves_shape_in_multiSelection :
  objectsRef Session.bothSelected = [0; 1]%nat /\
  multiSelectedRef Session.bothSelected = [0; 1]%nat /\
  selectedEntityRef Session.bothSelected = Some (ShapeRef 1) /\
  objectsRef (dispatch handleKeyDown_delete Session.bothSelected) = [0]%nat /\
  multiSelectedRef (dispatch handleKeyDown_delete Session.bothSelected) = [0; 1]%nat.
Proof. vm_compute. repeat split. Qed.

(** Undo has the same effect: the store is rebuilt from the snapshot, the
    set keeps the references to the objects it replaced. *)
Example undo_leaves_shapes_in_multiSelection :
  objectsRef (dispatch (undoHandler (three := Session.three)) Session.bothSelected) = [2]%nat /\
  multiSelectedRef (dispatch (undoHandler (three := Session.three)) Session.bothSelected) = [0; 1]%nat.
Proof. vm_compute. repeat split. Qed.

(* ===================================================================== *)
(** ** C5: a click without shift and the multi-selection set *)
(* ===================================================================== *)

(** The click that selects something empties the set. *)
Lemma handleSelection_hit_clears_multiSelection {three : ThreeJS}
      (view : Viewport) (event : MouseEvent) (s : State) (candidateObject : nat) (obj : Object3D) :
  isDraggingRef s = false ->
  sketchModeRef s && truthy_string (sketchToolRef s) = false ->
  truthy_string (pendingShapeTypeRef s) = false ->
  shiftKey event = false ->
  candidateOf view (objectsRef s) = Some candidateObject ->
  nth_error (heap s) candidateObject = Some obj ->
  multiSelectedRef (snd (handleSelection view event s)) = [].
Proof.
  intros Hd Hk Hp Hs Hc Ho. unfold handleSelection, bind, get.
  rewrite Hd, Hk, Hp, Hs, Hc. simpl.
  unfold deref. rewrite Ho.
  destruct (resolvePick view event candidateObject obj) as [selected selectedType].
  reflexivity.
Qed.

(** C5 (the code departs from it). With shapes 0 and 1 in the
    multi-selection set, a click without shift that hits nothing clears
    the primary selection and leaves both shapes in the set. *)
Theorem miss_click_keeps_multiSelection :
  multiSelectedRef Session.bothSelected = [0; 1]%nat /\
  selectedEntity (dispatch (handleSelection (three := Session.three) (Session.ground 9 9) Session.plain)
                           Session.bothSelected) = None /\
  multiSelectedRef (dispatch (handleSelection (three := Session.three) (Session.ground 9 9) Session.plain)
                             Session.bothSelected) = [0; 1]%nat.
Proof. vm_compute. repeat split. Qed.

(* ===================================================================== *)
(** ** C9: entries of unknown type *)
(* ===================================================================== *)

(** An object entry of unknown type is skipped with a warning. *)
Lemma loadObject_unknown_type {three : ThreeJS} (objData : ObjData) (s : State) :
  type_is (od_type objData) "box" = false ->
  type_is (od_type objData) "sphere" = false ->
  type_is (od_type objData) "cylinder" = false ->
  type_is (od_type objData) "extruded" = false ->
  loadObject objData s =
  (Ok tt, set_console (console s ++ [console_warn "Unknown object type:" (od_type objData)]) s).
Proof.
  intros H1 H2 H3 H4. unfold loadObject, constructShape. rewrite H1, H2, H3, H4. reflexivity.
Qed.

(** A sketch entry of unknown type is appended to the sketch list, and
    nothing is logged. *)
Lemma loadSketch_unknown_type {three : ThreeJS} (sketchData : Sketch) (s : State) :
  type_is (sk_type sketchData) "rectangle" = false ->
  type_is (sk_type sketchData) "circle" = false ->
  loadSketch sketchData s =
  (Ok tt,
   set_sketchesRef
     (sketchesRef s ++
      [ {| sk_id := None; sk_type := sk_type sketchData; sk_start := None; sk_end := None;
           sk_width := Undefined; sk_height := Undefined; sk_radius := Undefined;
           sk_center := None |} ]) s).
Proof. intros H1 H2. unfold loadSketch. rewrite H1, H2. reflexivity. Qed.

Definition triangleDocument : SceneData :=
  {| sd_version := Some "1.0";
     sd_objects := Some [];
     sd_sketches :=
       Some [ {| sk_id := Some 0%nat; sk_type := Some "triangle";
                 sk_start := None; sk_end := None;
                 sk_width := Undefined; sk_height := Undefined; sk_radius := Undefined;
                 sk_center := None |} ] |}.

(** C9 (the code departs from it). Loading a document whose only sketch
    record has the unknown type ["triangle"] completes normally, logs no
    warning and leaves that record in the sketch list. *)
Theorem unknown_sketch_type_is_kept :
  fst (loadSceneFromJSON (three := Sample.three) triangleDocument initialState) = Ok tt /\
  console (snd (loadSceneFromJSON (three := Sample.three) triangleDocument initialState)) = [] /\
  map sk_type (sketchesRef (snd (loadSceneFromJSON (three := Sample.three) triangleDocument initialState)))
  = [Some "triangle"].
Proof. vm_compute. repeat split. Qed.

(** A group in the store makes serialisation throw (a [THREE.Group] has no
    material), so a history push in the grouped session is a failed one. *)
Lemma pushHistory_failed_snapshot_witness :
  fst (pushHistory Session.grouped) = Ok tt /\
  undoStackRef (snd (pushHistory Session.grouped)) = undoStackRef Session.grouped /\
  redoStackRef (snd (pushHistory Session.grouped)) = redoStackRef Session.grouped.
Proof.
  apply (@pushHistory_failed_snapshot Session.grouped
           (TypeError "Cannot read properties of undefined (reading 'color')")).
  vm_compute. reflexivity.
Defined.

(** A document with one box and a rectangle sketch that lacks its centre,
    loaded over the two shapes of the session. *)
Definition rectangleWithoutCenter : Sketch :=
  {| sk_id := Some 0%nat; sk_type := Some "rectangle"; sk_start := None; sk_end := None;
     sk_width := Num 2; sk_height := Num 3; sk_radius := Undefined; sk_center := None |}.

Definition brokenDocument : SceneData :=
  {| sd_version := Some "1.0";
     sd_objects :=
       Some [ {| od_id := 0; od_type := Some "box";
                 od_position := Some (vec3 (Num 1) (Num 0.5) (Num 1));
                 od_rotation := Some (vec3 (Num 0) (Num 0) (Num 0));
                 od_scale := Some (vec3 (Num 1) (Num 1) (Num 1));
                 od_material := Some {| md_color := Some 2200782%Z |};
                 od_dimensions := Some defaultDimensions;
                 od_radius := Undefined; od_height := Undefined;
                 od_extrusionHeight := Undefined; od_sketchData := None |} ];
     sd_sketches := Some [rectangleWithoutCenter] |}.

Lemma loadSceneFromJSON_not_atomic_witness :
  exists e s',
    loadSceneFromJSON (three := Sample.three) brokenDocument Session.twoShapes = (Throw e, s') /\
    (forall r, In r (objectsRef s') -> List.length (heap Session.twoShapes) <= r) /\
    (forall r, In r (objectsRef Session.twoShapes) ->
               r < List.length (heap Session.twoShapes) -> ~ In r (objectsRef s')) /\
    objectsRef s' =
      map (Nat.add (List.length (heap Session.twoShapes)))
          (objectsRef (snd (loadSceneFromJSON (three := Sample.three) brokenDocument initialState))) /\
    sketchesRef s' =
      sketchesRef (snd (loadSceneFromJSON (three := Sample.three) brokenDocument initialState)).
Proof.
  apply (@loadSceneFromJSON_not_atomic Sample.three Session.twoShapes brokenDocument
           [] [] rectangleWithoutCenter); reflexivity.
Defined.

Example brokenDocument_run :
  fst (loadSceneFromJSON (three := Sample.three) brokenDocument Session.twoShapes)
  = Throw (TypeError "Cannot read properties of undefined (reading 'x')") /\
  objectsRef (snd (loadSceneFromJSON (three := Sample.three) brokenDocument Session.twoShapes)) = [2]%nat /\
  sketchesRef (snd (loadSceneFromJSON (three := Sample.three) brokenDocument Session.twoShapes)) = [].
Proof. vm_compute. repeat split. Qed.

(* ===================================================================== *)
(** ** C6: extrusion consumes its sketch *)
(* ===================================================================== *)

(** A history push completes normally and touches the two stacks and the
    console only. *)
Lemma pushHistory_frame (s : State) :
  exists undo redo logs,
    pushHistory s = (Ok tt, set_console logs (set_redoStackRef redo (set_undoStackRef undo s))).
Proof.
  unfold pushHistory.
  destruct (fst (saveSceneToJSON (objectsRef s) (sketchesRef s) s)) as [d|e] eqn:E.
  - erewrite bind_Ok by (apply snapshotScene_Ok; exact E).
    exists (push (undoStackRef s) (JSON_parse_stringify d)), [], (console s).
    destruct s; reflexivity.
  - erewrite bind_Ok by (apply (@snapshotScene_Throw s e); exact E).
    exists (undoStackRef s), (redoStackRef s), (console s ++ [console_error "Snapshot failed"]).
    destruct s; reflexivity.
Qed.

Lemma splice1_length {A} (l : list A) (i : nat) :
  i < List.length l -> S (List.length (splice1 l i)) = List.length l.
Proof.
  intros H. unfold splice1. rewrite length_app, length_firstn, length_skipn. lia.
Qed.

Lemma splice1_In {A} (l : list A) (i : nat) (x : A) :
  In x (splice1 l i) -> exists j, j <> i /\ nth_error l j = Some x.
Proof.
  unfold splice1. intros H. apply in_app_or in H. destruct H as [H|H].
  - apply In_nth_error in H. destruct H as [j Hj].
    rewrite nth_error_firstn in Hj.
    destruct (Nat.ltb j i) eqn:E; [|discriminate].
    apply Nat.ltb_lt in E. exists j. split; [lia | exact Hj].
  - apply In_nth_error in H. destruct H as [j Hj].
    rewrite nth_error_skipn in Hj.
    exists (S i + j). split; [lia | exact Hj].
Qed.

(** C6, as the code has it. For every rectangle or circle sketch at index
    [i] of the sketch list and every height [h], [handleExtrude i h]
    completes normally; the sketch list becomes the list without its entry
    at [i] (one shorter, the others in order), and no remaining sketch
    equals the consumed one provided no other entry of the list did;
    exactly one shape is added to the store, tagged ['extruded'], keeping
    the sketch and [h]; and that shape becomes the primary selection. *)
Theorem handleExtrude_consumes_sketch {three : ThreeJS}
        (s : State) (i : nat) (h : float) (sketch : Sketch) (center : Vector3) :
  nth_error (sketchesRef s) i = Some sketch ->
  type_is (sk_type sketch) "rectangle" || type_is (sk_type sketch) "circle" = true ->
  sk_center sketch = Some center ->
  exists shape s',
    handleExtrude (Z.of_nat i) (Num h) s = (Ok tt, s') /\
    sketchesRef s' = firstn i (sketchesRef s) ++ skipn (S i) (sketchesRef s) /\
    S (List.length (sketchesRef s')) = List.length (sketchesRef s) /\
    ((forall j, j <> i -> nth_error (sketchesRef s) j <> Some sketch) ->
     ~ In sketch (sketchesRef s')) /\
    heap s' = heap s ++ [shape] /\
    objectsRef s' = objectsRef s ++ [List.length (heap s)] /\
    ud_type (userData shape) = Some "extruded" /\
    ud_sketchData (userData shape) = Some sketch /\
    ud_extrusionHeight (userData shape) = Num h /\
    selectedEntityRef s' = Some (ShapeRef (List.length (heap s))) /\
    selectedTypeRef s' = Some TShape /\
    selectedEntity s' = Some (ShapeRef (List.length (heap s))) /\
    selectedType s' = Some TShape.
Proof.
  intros Hn Ht Hc.
  assert (Hi : i < List.length (sketchesRef s)).
  { apply nth_error_Some. rewrite Hn. discriminate. }
  destruct (pushHistory_frame s) as (undo & redo & logs & Hp).
  unfold handleExtrude, bind at 1, get.
  replace ((Z.of_nat i <? 0)%Z || (Z.of_nat i >=? Z.of_nat (List.length (sketchesRef s)))%Z)
    with false
    by (symmetry; apply orb_false_iff; split;
        [apply Z.ltb_ge | rewrite Z.geb_leb; apply Z.leb_gt]; lia).
  unfold bind at 1. rewrite Hp. unfold bind at 1, get.
  rewrite Nat2Z.id.
  replace (sketchesRef (set_console logs (set_redoStackRef redo (set_undoStackRef undo s))))
    with (sketchesRef s) by (destruct s; reflexivity).
  rewrite Hn, Hc.
  destruct (type_is (sk_type sketch) "rectangle") eqn:Er;
    [| destruct (type_is (sk_type sketch) "circle") eqn:Ec; [|discriminate]].
  all: eexists; eexists; split; [destruct s; reflexivity|]; destruct s; simpl in *;
    repeat split; try reflexivity;
    first [ apply (splice1_length sketchesRef0 Hi)
          | intros Hu Hin; apply splice1_In in Hin; destruct Hin as (j & Hj & Hx);
            exact (Hu j Hj Hx)
          | unfold updateShapeGeometry; simpl; reflexivity ].
Qed.

Lemma handleExtrude_consumes_sketch_witness :
  exists shape s',
    handleExtrude (three := Sample.three) 0 (Num 1) twoCircles = (Ok tt, s') /\
    sketchesRef s' = firstn 0 (sketchesRef twoCircles) ++ skipn 1 (sketchesRef twoCircles) /\
    S (List.length (sketchesRef s')) = List.length (sketchesRef twoCircles) /\
    ((forall j, j <> 0%nat ->
                nth_error (sketchesRef twoCircles) j <> nth_error (sketchesRef twoCircles) 0) ->
     ~ In (nth 0 (sketchesRef twoCircles) rectangleWithoutCenter) (sketchesRef s')) /\
    heap s' = heap twoCircles ++ [shape] /\
    objectsRef s' = objectsRef twoCircles ++ [List.length (heap twoCircles)] /\
    ud_type (userData shape) = Some "extruded" /\
    ud_sketchData (userData shape) = nth_error (sketchesRef twoCircles) 0 /\
    ud_extrusionHeight (userData shape) = Num 1 /\
    selectedEntityRef s' = Some (ShapeRef (List.length (heap twoCircles))) /\
    selectedTypeRef s' = Some TShape /\
    selectedEntity s' = Some (ShapeRef (List.length (heap twoCircles))) /\
    selectedType s' = Some TShape.
Proof.
  apply (@handleExtrude_consumes_sketch Sample.three twoCircles 0 1
           (nth 0 (sketchesRef twoCircles) rectangleWithoutCenter)
           (vec3 (Num 0) (Num 0) (Num 0))); reflexivity.
Defined.

(** Two records of the same 2 by 3 rectangle, imported into an empty
    scene: the sketch list holds the same profile twice. *)
Definition square : Sketch :=
  {| sk_id := None; sk_type := Some "rectangle"; sk_start := None; sk_end := None;
     sk_width := Num 2; sk_height := Num 3; sk_radius := Undefined;
     sk_center := Some (vec3 (Num 1) (Num 0) (Num 1.5)) |}.

Definition twoSquaresDocument : SceneData :=
  {| sd_version := Some "1.0"; sd_objects := Some [];
     sd_sketches := Some [square; square] |}.

Definition twoSquares : State :=
  dispatch (importHandler (three := Sample.three) (Some twoSquaresDocument)) initialState.

(** C6, as stated, fails: after [extrude(0, 1)] on a list that holds the
    consumed profile twice, the list is one shorter and a sketch of the
    resulting list still matches the consumed profile. *)
Lemma extrude_leaves_matching_sketch :
  sketchesRef twoSquares = [square; square] /\
  fst (handleExtrude (three := Sample.three) 0 (Num 1) twoSquares) = Ok tt /\
  sketchesRef (snd (handleExtrude (three := Sample.three) 0 (Num 1) twoSquares)) = [square] /\
  In square (sketchesRef (snd (handleExtrude (three := Sample.three) 0 (Num 1) twoSquares))).
Proof. vm_compute. repeat split. now left. Qed.

(* ===================================================================== *)
(** ** C2: picking priority *)
(* ===================================================================== *)

(** The order of binary64 numbers, from the specification of the
    primitive comparisons. *)
Module FloatOrder.

Ltac sf_cases :=
  unfold SFltb, SFleb, SFcompare;
  repeat match goal with
         | x : spec_float |- _ => destruct x
         end;
  repeat match goal with
         | b : bool |- _ => destruct b
         end;
  try discriminate; try reflexivity;
  change (Pos.compare_cont Eq) with Pos.compare;
  repeat match goal with
         | |- context [Z.compare ?a ?b] => destruct (Z.compare_spec a b)
         | |- context [Pos.compare ?a ?b] => destruct (Pos.compare_spec a b)
         end;
  simpl; try discriminate; try reflexivity; intros; exfalso; lia.

Lemma SFltb_trans x y z : SFltb x y = true -> SFltb y z = true -> SFltb x z = true.
Proof. sf_cases. Qed.

Lemma SFltb_leb_trans x y z : SFltb x y = true -> SFleb y z = true -> SFleb x z = true.
Proof. sf_cases. Qed.

Lemma SFleb_ltb_trans x y z : SFleb x y = true -> SFltb y z = true -> SFltb x z = true.
Proof. sf_cases. Qed.

Lemma SFltb_irrefl x : SFltb x x = false.
Proof. sf_cases. Qed.

Lemma ltb_trans (x y z : float) :
  PrimFloat.ltb x y = true -> PrimFloat.ltb y z = true -> PrimFloat.ltb x z = true.
Proof. rewrite !ltb_spec. apply SFltb_trans. Qed.

Lemma ltb_leb_trans (x y z : float) :
  PrimFloat.ltb x y = true -> PrimFloat.leb y z = true -> PrimFloat.leb x z = true.
Proof. rewrite !ltb_spec, !leb_spec. apply SFltb_leb_trans. Qed.

Lemma leb_ltb_trans (x y z : float) :
  PrimFloat.leb x y = true -> PrimFloat.ltb y z = true -> PrimFloat.ltb x z = true.
Proof. rewrite !ltb_spec, !leb_spec. apply SFleb_ltb_trans. Qed.

Lemma ltb_irrefl (x : float) : PrimFloat.ltb x x = false.
Proof. rewrite ltb_spec. apply SFltb_irrefl. Qed.

Lemma within_threshold_lt_infinity (d : float) :
  PrimFloat.leb d EDGE_SELECTION_PIXEL_THRESHOLD = true ->
  PrimFloat.ltb d PrimFloat.infinity = true.
Proof. intros H. eapply leb_ltb_trans; [exact H | reflexivity]. Qed.

End FloatOrder.

Section EdgeLoop.
Variable view : Viewport.
Variable event : MouseEvent.
Variable obj : nat.
Variable all : list Edge.

Let dist := edgeDistancePx view event obj.
Let within (d : float) := PrimFloat.leb d EDGE_SELECTION_PIXEL_THRESHOLD = true.

(** The loop invariant: no edge seen so far that is within the threshold
    is strictly nearer than [closestEdgeDistance]; [selected], when set,
    is the position of an edge within the threshold whose distance is
    [closestEdgeDistance]. *)
Definition edgeLoop_inv (seen : list Edge) (closest : float) (selected : option nat) : Prop :=
  (forall e d, In e seen -> dist e = Some d -> within d -> PrimFloat.ltb d closest = false) /\
  match selected with
  | None => closest = PrimFloat.infinity
  | Some k => exists e d, nth_error all k = Some e /\ dist e = Some d /\ closest = d /\ within d
  end.

Lemma edgeLoop_invariant (edges : list Edge) :
  forall seen closest selected,
    all = seen ++ edges ->
    edgeLoop_inv seen closest selected ->
    edgeLoop_inv all
      (fst (edgeLoop view event obj edges (List.length seen) closest selected))
      (snd (edgeLoop view event obj edges (List.length seen) closest selected)).
Proof.
  induction edges as [|edge rest IH]; intros seen closest selected Hall Hinv.
  - simpl. rewrite app_nil_r in Hall. now subst.
  - assert (Hall' : all = (seen ++ [edge]) ++ rest) by (now rewrite <- app_assoc).
    assert (Hlen : List.length (seen ++ [edge]) = S (List.length seen))
      by (rewrite length_app; simpl; lia).
    assert (Hnth : nth_error all (List.length seen) = Some edge).
    { rewrite Hall, nth_error_app2 by lia. now rewrite Nat.sub_diag. }
    destruct Hinv as [Hmin Hsel].
    simpl. fold dist. destruct (dist edge) as [d|] eqn:Ed.
    + destruct (PrimFloat.leb d EDGE_SELECTION_PIXEL_THRESHOLD) eqn:Ew; simpl.
      * destruct (PrimFloat.ltb d closest) eqn:El.
        -- rewrite <- Hlen. apply IH; [exact Hall'|]. split.
           ++ intros e d' Hin He Hw. apply in_app_or in Hin. destruct Hin as [Hin|[<-|[]]].
              ** destruct (PrimFloat.ltb d' d) eqn:E'; [|reflexivity].
                 rewrite <- (Hmin e d' Hin He Hw). symmetry.
                 eapply FloatOrder.ltb_trans; eassumption.
              ** rewrite Ed in He. inversion He; subst. apply FloatOrder.ltb_irrefl.
           ++ exists edge, d. repeat split; assumption.
        -- rewrite <- Hlen. apply IH; [exact Hall'|]. split; [|exact Hsel].
           intros e d' Hin He Hw. apply in_app_or in Hin. destruct Hin as [Hin|[<-|[]]].
           ++ eapply Hmin; eassumption.
           ++ rewrite Ed in He. inversion He; subst. exact El.
      * rewrite <- Hlen. apply IH; [exact Hall'|]. split; [|exact Hsel].
        intros e d' Hin He Hw. apply in_app_or in Hin. destruct Hin as [Hin|[<-|[]]].
        -- eapply Hmin; eassumption.
        -- rewrite Ed in He. inversion He; subst. unfold within in Hw. congruence.
    + rewrite <- Hlen. apply IH; [exact Hall'|]. split; [|exact Hsel].
      intros e d' Hin He Hw. apply in_app_or in Hin. destruct Hin as [Hin|[<-|[]]].
      * eapply Hmin; eassumption.
      * congruence.
Qed.

(** When some edge that is not skipped is within the threshold, the loop
    selects an edge within the threshold than which no edge of the shape
    that is not skipped is strictly nearer. *)
Lemma edgeLoop_selects_nearest (near : Edge) (dnear : float) :
  In near all -> dist near = Some dnear -> within dnear ->
  exists i edge d,
    snd (edgeLoop view event obj all 0 PrimFloat.infinity None) = Some i /\
    nth_error all i = Some edge /\ dist edge = Some d /\ within d /\
    forall edge' d', In edge' all -> dist edge' = Some d' -> PrimFloat.ltb d' d = false.
Proof.
  intros Hin Hd Hw.
  pose proof (@edgeLoop_invariant all [] PrimFloat.infinity None eq_refl) as H.
  simpl in H.
  destruct H as [Hmin Hsel].
  { split; [intros e d []|reflexivity]. }
  destruct (snd (edgeLoop view event obj all 0 PrimFloat.infinity None)) as [i|].
  - destruct Hsel as (edge & d & Hn & He & Hc & Hwd).
    exists i, edge, d. repeat split; try assumption.
    intros edge' d' Hin' He'.
    destruct (PrimFloat.leb d' EDGE_SELECTION_PIXEL_THRESHOLD) eqn:Ew'.
    + rewrite <- Hc. eapply Hmin; eassumption.
    + destruct (PrimFloat.ltb d' d) eqn:El; [|reflexivity].
      rewrite <- Ew'. symmetry. eapply FloatOrder.ltb_leb_trans; eassumption.
  - exfalso. specialize (Hmin near dnear Hin Hd Hw). rewrite Hsel in Hmin.
    rewrite (FloatOrder.within_threshold_lt_infinity Hw) in Hmin. discriminate.
Qed.

End EdgeLoop.

(** C2, as the code has it. The pick is made ([handleSelection] is past
    its guards, nothing is pending) on a ray whose nearest hit resolves to
    the store member [candidateObject], at triangle [faceIndex] of its face
    list, while some edge of that shape whose world-space length is not
    below [0.001] projects within 3 pixels of the pointer.  Then a click
    with no modifier selects an edge of that shape: one that is not
    skipped, is within 3 pixels, and than which no edge of the shape that
    is not skipped is strictly nearer.  A ctrl or cmd click (without shift)
    on the same ray selects the face at [faceIndex], not an edge. *)
Theorem picking_priority {three : ThreeJS}
        (view : Viewport) (plain ctrl : MouseEvent) (s : State)
        (candidateObject : nat) (obj : Object3D)
        (faces : list Face) (edges : list Edge)
        (hit : Intersection) (others : list Intersection) (faceIndex : Z) (near : Edge) :
  isDraggingRef s = false ->
  sketchModeRef s && truthy_string (sketchToolRef s) = false ->
  truthy_string (pendingShapeTypeRef s) = false ->
  recursiveIntersects view = hit :: others ->
  hit_faceIndex hit = Some faceIndex ->
  candidateOf view (objectsRef s) = Some candidateObject ->
  nth_error (heap s) candidateObject = Some obj ->
  ud_faces (userData obj) = Some faces ->
  (0 <= faceIndex < Z.of_nat (List.length faces))%Z ->
  ud_edges (userData obj) = Some edges ->
  In near edges ->
  PrimFloat.ltb (edgeLength view candidateObject near) 0.001 = false ->
  PrimFloat.leb (distancePx view plain candidateObject near) EDGE_SELECTION_PIXEL_THRESHOLD = true ->
  ctrlKey plain = false -> metaKey plain = false -> shiftKey plain = false ->
  ctrlKey ctrl || metaKey ctrl = true -> shiftKey ctrl = false ->
  (exists i edge,
      selectedEntityRef (snd (handleSelection view plain s)) = Some (EdgeRef candidateObject i) /\
      selectedTypeRef (snd (handleSelection view plain s)) = Some TEdge /\
      nth_error edges i = Some edge /\
      PrimFloat.ltb (edgeLength view candidateObject edge) 0.001 = false /\
      PrimFloat.leb (distancePx view plain candidateObject edge)
                    EDGE_SELECTION_PIXEL_THRESHOLD = true /\
      forall edge',
        In edge' edges ->
        PrimFloat.ltb (edgeLength view candidateObject edge') 0.001 = false ->
        PrimFloat.ltb (distancePx view plain candidateObject edge')
                      (distancePx view plain candidateObject edge) = false) /\
  selectedEntityRef (snd (handleSelection view ctrl s))
  = Some (FaceRef candidateObject (Z.to_nat faceIndex)) /\
  selectedTypeRef (snd (handleSelection view ctrl s)) = Some TFace.
Proof.
  intros Hd Hk Hp Hr Hf Hc Ho Hfaces Hfi Hedges Hin Hlen Hnear Pc Pm Ps Cc Cs.
  split.
  - (* the plain click *)
    destruct (@edgeLoop_selects_nearest view plain candidateObject edges near
                (distancePx view plain candidateObject near) Hin) as (i & edge & d & Hl & Hn & He & Hw & Hmin).
    { unfold edgeDistancePx. now rewrite Hlen. }
    { exact Hnear. }
    assert (Hedge : PrimFloat.ltb (edgeLength view candidateObject edge) 0.001 = false /\
                    d = distancePx view plain candidateObject edge).
    { unfold edgeDistancePx in He.
      destruct (PrimFloat.ltb (edgeLength view candidateObject edge) 0.001);
        [discriminate | inversion He; now split]. }
    destruct Hedge as [Hel ->].
    exists i, edge.
    assert (Hpick : resolvePick view plain candidateObject obj = (EdgeRef candidateObject i, TEdge)).
    { unfold resolvePick. rewrite Pc, Pm, Hedges. simpl.
      destruct edges as [|e0 es]; [destruct Hin|].
      change (Nat.ltb 0 (List.length (e0 :: es))) with true. cbv iota.
      now rewrite Hl. }
    unfold handleSelection, bind, get. rewrite Hd, Hk, Hp, Ps, Hc. simpl.
    unfold deref. rewrite Ho, Hpick.
    repeat split; try assumption; try reflexivity.
    intros edge' Hin' Hlen'. apply (Hmin edge' _ Hin').
    unfold edgeDistancePx. now rewrite Hlen'.
  - (* the ctrl / cmd click *)
    assert (Hpick : resolvePick view ctrl candidateObject obj
                    = (FaceRef candidateObject (Z.to_nat faceIndex), TFace)).
    { unfold resolvePick. rewrite Cc, Hfaces, Hr, Hf.
      replace ((0 <=? faceIndex)%Z && (faceIndex <? Z.of_nat (List.length faces))%Z) with true;
        [reflexivity|].
      symmetry. apply andb_true_iff. split; [apply Z.leb_le | apply Z.ltb_lt]; lia. }
    unfold handleSelection, bind, get. rewrite Hd, Hk, Hp, Cs, Hc. simpl.
    unfold deref. rewrite Ho, Hpick. split; reflexivity.
Qed.

Module PickExamples.

(** The box of the session seen straight on: an orthographic view that
    maps the unit square of the box to a 400 by 300 pixel rectangle, the
    ray hitting triangle 0 of the box. *)
Definition front : Viewport :=
  {| rect_left := 0; rect_top := 0; rect_width := 800; rect_height := 600;
     mouseOnPlane := None;
     recursiveIntersects :=
       [ {| hit_object := 0; hit_ancestors := []; hit_faceIndex := Some 0%Z |} ];
     applyMatrixWorld := fun _ v => v;
     project := fun v => pt (px v) (py v) 0 |}.

(** One pixel below the projected bottom edge of the box. *)
Definition plain : MouseEvent :=
  {| ctrlKey := false; metaKey := false; shiftKey := false; clientX := 300; clientY := 451 |}.

Definition ctrl : MouseEvent :=
  {| ctrlKey := true; metaKey := false; shiftKey := false; clientX := 300; clientY := 451 |}.

Definition box : Object3D := nth 0 (heap Session.twoShapes) newGroup.

Definition boxFaces : list Face :=
  match ud_faces (userData box) with Some l => l | None => [] end.

Definition boxEdges : list Edge :=
  match ud_edges (userData box) with Some l => l | None => [] end.

Definition bottomEdge : Edge :=
  {| e_start := pt (-0.5) (-0.5) (-0.5); e_end := pt 0.5 (-0.5) (-0.5) |}.

Example bottomEdge_distance :
  nth_error boxEdges 0 = Some bottomEdge /\
  distancePx front plain 0 bottomEdge = 1%float.
Proof. vm_compute. split; reflexivity. Qed.

(** A scene document with one unit box at the origin, scaled by [1e-4],
    and the session that imports it into the empty scene. *)
Definition tinyBoxDocument : SceneData :=
  {| sd_version := Some "1.0";
     sd_objects :=
       Some [ {| od_id := 0; od_type := Some "box";
                 od_position := Some (vec3 (Num 0) (Num 0) (Num 0));
                 od_rotation := Some (vec3 (Num 0) (Num 0) (Num 0));
                 od_scale := Some (vec3 (Num 0.0001) (Num 0.0001) (Num 0.0001));
                 od_material := Some {| md_color := Some 2200782%Z |};
                 od_dimensions := Some {| dim_width := Num 1; dim_height := Num 1;
                                          dim_depth := Num 1 |};
                 od_radius := Undefined; od_height := Undefined;
                 od_extrusionHeight := Undefined; od_sketchData := None |} ];
     sd_sketches := Some [] |}.

Definition tinyBoxImported : State :=
  dispatch (importHandler (three := Sample.three) (Some tinyBoxDocument)) initialState.

Definition tinyBox : Object3D := nth 0 (heap tinyBoxImported) newGroup.

Definition tinyBoxEdges : list Edge :=
  match ud_edges (userData tinyBox) with Some l => l | None => [] end.

(** The tiny box seen straight on by the camera of [front], the pointer
    over it: the world matrix of the box is its scale (it sits at the
    origin, unrotated), so every edge is [1e-4] long in world space and
    projects within a fiftieth of a pixel of the centre of the canvas. *)
Definition close : Viewport :=
  {| rect_left := 0; rect_top := 0; rect_width := 800; rect_height := 600;
     mouseOnPlane := None;
     recursiveIntersects :=
       [ {| hit_object := 0; hit_ancestors := []; hit_faceIndex := Some 0%Z |} ];
     applyMatrixWorld := fun _ v => Vec.multiplyScalar v 0.0001;
     project := fun v => pt (px v) (py v) 0 |}.

(** The centre of the canvas. *)
Definition centre : MouseEvent :=
  {| ctrlKey := false; metaKey := false; shiftKey := false; clientX := 400; clientY := 300 |}.

End PickExamples.

Lemma picking_priority_witness :
  (exists i edge,
      selectedEntityRef (snd (handleSelection (three := Sample.three) PickExamples.front
                                              PickExamples.plain Session.twoShapes))
      = Some (EdgeRef 0 i) /\
      selectedTypeRef (snd (handleSelection (three := Sample.three) PickExamples.front
                                            PickExamples.plain Session.twoShapes))
      = Some TEdge /\
      nth_error PickExamples.boxEdges i = Some edge /\
      PrimFloat.ltb (edgeLength PickExamples.front 0 edge) 0.001 = false /\
      PrimFloat.leb (distancePx PickExamples.front PickExamples.plain 0 edge)
                    EDGE_SELECTION_PIXEL_THRESHOLD = true /\
      forall edge',
        In edge' PickExamples.boxEdges ->
        PrimFloat.ltb (edgeLength PickExamples.front 0 edge') 0.001 = false ->
        PrimFloat.ltb (distancePx PickExamples.front PickExamples.plain 0 edge')
                      (distancePx PickExamples.front PickExamples.plain 0 edge) = false) /\
  selectedEntityRef (snd (handleSelection (three := Sample.three) PickExamples.front
                                          PickExamples.ctrl Session.twoShapes))
  = Some (FaceRef 0 (Z.to_nat 0)) /\
  selectedTypeRef (snd (handleSelection (three := Sample.three) PickExamples.front
                                        PickExamples.ctrl Session.twoShapes))
  = Some TFace.
Proof.
  apply (@picking_priority Sample.three PickExamples.front PickExamples.plain PickExamples.ctrl
           Session.twoShapes 0 PickExamples.box PickExamples.boxFaces PickExamples.boxEdges
           {| hit_object := 0; hit_ancestors := []; hit_faceIndex := Some 0%Z |} [] 0%Z
           PickExamples.bottomEdge);
    try (vm_compute; reflexivity).
  - split; [lia | vm_compute; reflexivity].
  - vm_compute. left. reflexivity.
Defined.

(** C2, as stated, fails.  The store holds one box, at the origin and
    scaled by [1e-4]; the ray hits a face of it, and every edge of the box
    projects within 3 pixels of the pointer (the bottom edge a fiftieth of
    a pixel away).  Yet the click with no modifier selects the whole
    shape: every edge is shorter than [0.001] in world space, and skipped
    as degenerate. *)
Lemma degenerate_edges_are_not_picked :
  objectsRef PickExamples.tinyBoxImported = [0%nat] /\
  nth_error (heap PickExamples.tinyBoxImported) 0 = Some PickExamples.tinyBox /\
  position PickExamples.tinyBox = vec3 (Num 0) (Num 0) (Num 0) /\
  rotation PickExamples.tinyBox = vec3 (Num 0) (Num 0) (Num 0) /\
  scale PickExamples.tinyBox = vec3 (Num 0.0001) (Num 0.0001) (Num 0.0001) /\
  candidateOf PickExamples.close (objectsRef PickExamples.tinyBoxImported) = Some 0%nat /\
  ud_edges (userData PickExamples.tinyBox) = Some PickExamples.tinyBoxEdges /\
  In PickExamples.bottomEdge PickExamples.tinyBoxEdges /\
  PrimFloat.leb (distancePx PickExamples.close PickExamples.centre 0 PickExamples.bottomEdge)
                0.02 = true /\
  forallb (fun edge => PrimFloat.leb (distancePx PickExamples.close PickExamples.centre 0 edge)
                                     EDGE_SELECTION_PIXEL_THRESHOLD)
          PickExamples.tinyBoxEdges = true /\
  forallb (fun edge => PrimFloat.ltb (edgeLength PickExamples.close 0 edge) 0.001)
          PickExamples.tinyBoxEdges = true /\
  option_map (@List.length Face) (ud_faces (userData PickExamples.tinyBox)) = Some 12%nat /\
  selectedEntityRef (snd (handleSelection (three := Sample.three) PickExamples.close
                                          PickExamples.centre PickExamples.tinyBoxImported))
  = Some (ShapeRef 0) /\
  selectedTypeRef (snd (handleSelection (three := Sample.three) PickExamples.close
                                        PickExamples.centre PickExamples.tinyBoxImported))
  = Some TShape.
Proof. vm_compute. repeat split. now left. Qed.

(* ===================================================================== *)
(** ** C1: the round trip through the scene document *)
(* ===================================================================== *)

(** *** What is observable of a store *)

(** The outline a sketch describes, by kind. *)
Inductive Profile : Type :=
| RectangleProfile (width height : jsnum) (center : option Vector3)
| CircleProfile (radius : jsnum) (center : option Vector3)
| OtherProfile (type : option string).

Definition profile (k : Sketch) : Profile :=
  if type_is (sk_type k) "rectangle"
  then RectangleProfile (sk_width k) (sk_height k) (sk_center k)
  else if type_is (sk_type k) "circle"
  then CircleProfile (sk_radius k) (sk_center k)
  else OtherProfile (sk_type k).

(** The kind-specific parameters of a shape. *)
Inductive KindData : Type :=
| BoxData (dimensions : option Dimensions)
| SphereData (radius : jsnum)
| CylinderData (radius height : jsnum)
| ExtrudedData (extrusionHeight : jsnum) (source : option Profile)
| NoData.

Definition kindData (u : UserData) : KindData :=
  if type_is (ud_type u) "box" then BoxData (ud_dimensions u)
  else if type_is (ud_type u) "sphere" then SphereData (ud_radius u)
  else if type_is (ud_type u) "cylinder" then CylinderData (ud_radius u) (ud_height u)
  else if type_is (ud_type u) "extruded"
  then ExtrudedData (ud_extrusionHeight u) (option_map profile (ud_sketchData u))
  else NoData.

(** Kind, dimensions, transform, colour and extrusion data of a shape. *)
Record Observed : Type := {
  obs_kind : option string;
  obs_data : KindData;
  obs_position : Vector3;
  obs_rotation : Vector3;
  obs_scale : Vector3;
  obs_color : option Z
}.

Definition observe (o : Object3D) : Observed :=
  {| obs_kind := ud_type (userData o);
     obs_data := kindData (userData o);
     obs_position := position o;
     obs_rotation := rotation o;
     obs_scale := scale o;
     obs_color := option_map color (material o) |}.

(** The entity store as an observer sees it: the shapes of [objectsRef] in
    order, and the profiles of the sketch list in order. *)
Definition observeStore (s : State) : list (option Observed) * list Profile :=
  (map (fun r => option_map observe (nth_error (heap s) r)) (objectsRef s),
   map profile (sketchesRef s)).

(** *** The stores the codec carries *)

(** A centre that [{ x: c.x || 0, ... }] leaves alone. *)
Definition stable_center (c : Vector3) : Prop :=
  zero_or_truthy (vx c) /\ zero_or_truthy (vy c) /\ zero_or_truthy (vz c).

Definition is_outline (k : Sketch) : Prop :=
  sk_type k = Some "rectangle" \/ sk_type k = Some "circle".

(** A shape of one of the four kinds the codec writes and reads, with the
    members its builder gives it, none of them a value that [||], a
    default parameter or [Vector3.set] replaces (the [z] of a position or
    a scale is [undefined] on no shape the program makes: the constructor
    and [set] never store one). *)
Definition serializable (o : Object3D) : Prop :=
  (exists m, material o = Some m /\ (0 < color m < 16777216)%Z) /\
  (vz (position o) <> Undefined /\ vz (scale o) <> Undefined) /\
  let u := userData o in
  ((ud_type u = Some "box" /\
    exists d, ud_dimensions u = Some d /\
              dim_width d <> Undefined /\ dim_height d <> Undefined /\ dim_depth d <> Undefined) \/
   (ud_type u = Some "sphere" /\ truthy (ud_radius u) = true) \/
   (ud_type u = Some "cylinder" /\ truthy (ud_radius u) = true /\ truthy (ud_height u) = true) \/
   (ud_type u = Some "extruded" /\ truthy (ud_extrusionHeight u) = true /\
    exists sd, ud_sketchData u = Some sd /\ is_outline sd /\
               match sk_center sd with Some c => stable_center c | None => True end)).

(** A committed sketch: a rectangle or a circle has its centre, stable
    under [|| 0]. *)
Definition serializable_sketch (k : Sketch) : Prop :=
  type_is (sk_type k) "rectangle" || type_is (sk_type k) "circle" = true ->
  exists c, sk_center k = Some c /\ stable_center c.

Definition serializable_store (s : State) : Prop :=
  (forall r, In r (objectsRef s) -> exists o, nth_error (heap s) r = Some o /\ serializable o) /\
  (forall k, In k (sketchesRef s) -> serializable_sketch k).

(** *** Scalars *)

Lemma or_else_truthy v d : truthy v = true -> or_else v d = v.
Proof. unfold or_else. now intros ->. Qed.

Lemma or_else_stable v : zero_or_truthy v -> or_else v 0 = v.
Proof. intros [->|H]; [reflexivity | now apply or_else_truthy]. Qed.

Lemma default_param_defined v d : v <> Undefined -> default_param v d = v.
Proof. destruct v; [now intros [] | reflexivity | reflexivity]. Qed.

Lemma truthy_defined v : truthy v = true -> v <> Undefined.
Proof. destruct v; [discriminate | discriminate | discriminate]. Qed.

Lemma zero_or_truthy_defined v : zero_or_truthy v -> v <> Undefined.
Proof. intros [->|H]; [discriminate | now apply truthy_defined]. Qed.

Lemma centerData_stable c : stable_center c -> centerData c = c.
Proof.
  intros (Hx & Hy & Hz). destruct c as [x y z]. unfold centerData. simpl in *.
  now rewrite !or_else_stable.
Qed.

Lemma newVector3_stable c : stable_center c -> newVector3 (vx c) (vy c) (vz c) = c.
Proof.
  intros (Hx & Hy & Hz). destruct c as [x y z]. unfold newVector3. simpl in *.
  now rewrite !default_param_defined by (now apply zero_or_truthy_defined).
Qed.

Lemma Color_setHex_in_range c : (0 <= c < 16777216)%Z -> Color_setHex c = c.
Proof.
  intros H. unfold Color_setHex. change 16777215%Z with (Z.ones 24).
  rewrite Z.land_ones by lia. apply Z.mod_small. exact H.
Qed.

(** *** One shape, one sketch *)

Section RoundTrip.
Context {three : ThreeJS}.

Lemma publish_run (shape : Object3D) (s : State) :
  (r <- alloc shape ;; modify (fun s => set_objectsRef (push (objectsRef s) r) s)) s
  = (Ok tt, loadEffect [shape] [] [] s).
Proof.
  destruct s. unfold bind, alloc, modify, push, loadEffect. simpl. now rewrite !app_nil_r.
Qed.

Lemma pushSketch_run (sketch : Sketch) (s : State) :
  modify (fun s => set_sketchesRef (push (sketchesRef s) sketch) s) s
  = (Ok tt, loadEffect [] [sketch] [] s).
Proof.
  destruct s. unfold modify, push, loadEffect. simpl. now rewrite !app_nil_r.
Qed.

(** The entry [d] loads, from any state, as one new shape that is
    observably [o]. *)
Definition loads_as (d : ObjData) (o : Object3D) : Prop :=
  exists shape,
    (forall s, loadObject d s = (Ok tt, loadEffect [shape] [] [] s)) /\
    observe shape = observe o.

Definition loads_sketch_as (d : Sketch) (k : Sketch) : Prop :=
  exists sketch,
    (forall s, loadSketch d s = (Ok tt, loadEffect [] [sketch] [] s)) /\
    profile sketch = profile k.

Lemma observe_updateShapeGeometry shape :
  observe (updateShapeGeometry shape) = observe shape.
Proof.
  unfold updateShapeGeometry. destruct (geometry shape); reflexivity.
Qed.

Lemma profile_serializeSketchData sd :
  match sk_center sd with Some c => stable_center c | None => True end ->
  profile (serializeSketchData sd) = profile sd.
Proof.
  intros H. unfold profile, serializeSketchData. simpl.
  destruct (sk_center sd) as [c|]; simpl; [rewrite (centerData_stable H)|]; reflexivity.
Qed.

Lemma serializeObject_roundtrip (index : nat) (o : Object3D) (s : State) :
  serializable o ->
  exists d, serializeObject index o s = (Ok d, s) /\ loads_as d o.
Proof.
  intros [(m & Hm & Hc) [[Hpz Hsz] Hk]]. unfold serializeObject. rewrite Hm.
  assert (Hc0 : Z.eqb (color m) 0 = false) by (apply Z.eqb_neq; lia).
  assert (Hhex : Color_setHex (color m) = color m) by (apply Color_setHex_in_range; lia).
  destruct o as [grp [posx posy posz] rot [sclx scly sclz] mat geo u ch]. simpl in *. subst mat.
  assert (Hpos : forall v, Vector3_set posx posy posz v = vec3 posx posy posz)
    by (intros v; destruct posz; [now elim Hpz | reflexivity | reflexivity]).
  assert (Hscl : forall v, Vector3_set sclx scly sclz v = vec3 sclx scly sclz)
    by (intros v; destruct sclz; [now elim Hsz | reflexivity | reflexivity]).
  destruct Hk as [(Ht & d & Hd & Hw & Hh & Hdp)
                 |[(Ht & Hr)
                 |[(Ht & Hr & Hh)
                 |(Ht & Hh & sd & Hsd & Hout & Hcen)]]];
    rewrite Ht; simpl.
  - (* box *)
    rewrite Hd. eexists. split; [reflexivity|].
    eexists. split.
    + intros s'. unfold loadObject, constructShape. simpl.
      unfold bind at 1. simpl. apply publish_run.
    + rewrite observe_updateShapeGeometry.
      unfold observe, kindData, applyTransforms, applyColor. simpl.
      rewrite ?Hpos, ?Hscl.
      rewrite Hc0. simpl. rewrite Hhex, !Ht, Hd. simpl.
      rewrite !default_param_defined by assumption.
      destruct d; reflexivity.
  - (* sphere *)
    eexists. split; [reflexivity|].
    eexists. split.
    + intros s'. unfold loadObject, constructShape. simpl.
      unfold bind at 1. simpl. apply publish_run.
    + rewrite observe_updateShapeGeometry.
      unfold observe, kindData, applyTransforms, applyColor. simpl.
      rewrite ?Hpos, ?Hscl.
      rewrite Hc0. simpl. rewrite Hhex, !Ht. simpl.
      rewrite !(@or_else_truthy (ud_radius u) _ Hr).
      rewrite default_param_defined by (now apply truthy_defined).
      reflexivity.
  - (* cylinder *)
    eexists. split; [reflexivity|].
    eexists. split.
    + intros s'. unfold loadObject, constructShape. simpl.
      unfold bind at 1. simpl. apply publish_run.
    + rewrite observe_updateShapeGeometry.
      unfold observe, kindData, applyTransforms, applyColor. simpl.
      rewrite ?Hpos, ?Hscl.
      rewrite Hc0. simpl. rewrite Hhex, !Ht. simpl.
      rewrite !(@or_else_truthy (ud_radius u) _ Hr), !(@or_else_truthy (ud_height u) _ Hh).
      rewrite !default_param_defined by (now apply truthy_defined).
      reflexivity.
  - (* extruded *)
    rewrite Hsd. simpl. eexists. split; [reflexivity|].
    assert (Hshape : exists shape2D,
               (if type_is (sk_type sd) "rectangle"
                then Some (rectangleShape (sk_width sd) (sk_height sd))
                else if type_is (sk_type sd) "circle"
                     then Some (circleShape (sk_radius sd))
                     else None) = Some shape2D).
    { destruct Hout as [-> | ->]; simpl; eexists; reflexivity. }
    destruct Hshape as [shape2D Hshape].
    eexists. split.
    + intros s'. unfold loadObject, constructShape. simpl.
      unfold bind at 1, bind at 1, recreateExtrudedShape. simpl.
      rewrite Hshape. simpl. apply publish_run.
    + rewrite observe_updateShapeGeometry.
      unfold observe, kindData, applyTransforms, applyColor. simpl.
      rewrite ?Hpos, ?Hscl.
      rewrite Hc0. simpl. rewrite Hhex, !Ht, Hsd. simpl.
      rewrite !(@or_else_truthy (ud_extrusionHeight u) _ Hh).
      rewrite profile_serializeSketchData by exact Hcen.
      reflexivity.
Qed.

End RoundTrip.

#[local] Arguments centerData : simpl never.
#[local] Arguments newVector3 : simpl never.

Section RoundTripStore.
Context {three : ThreeJS}.

Lemma serializeSketch_roundtrip (index : nat) (k : Sketch) :
  serializable_sketch k -> loads_sketch_as (serializeSketch index k) k.
Proof.
  intros Hk. unfold serializable_sketch in Hk. unfold loads_sketch_as, serializeSketch.
  destruct (type_is (sk_type k) "rectangle") eqn:Er;
    [| destruct (type_is (sk_type k) "circle") eqn:Ec].
  - destruct (Hk eq_refl) as (c & Hc & Hs). rewrite Hc. simpl.
    eexists. split.
    + intros s. unfold loadSketch. simpl. rewrite Er. unfold bind. simpl. apply pushSketch_run.
    + unfold profile. simpl. rewrite Er, Hc.
      destruct Hs as (Hx & Hy & Hz). rewrite !or_else_stable by assumption.
      rewrite newVector3_stable by (repeat split; assumption). reflexivity.
  - destruct (Hk eq_refl) as (c & Hc & Hs). rewrite Hc. simpl.
    eexists. split.
    + intros s. unfold loadSketch. simpl. rewrite Er, Ec. unfold bind. simpl.
      apply pushSketch_run.
    + unfold profile. simpl. rewrite Er, Ec, Hc.
      destruct Hs as (Hx & Hy & Hz). rewrite !or_else_stable by assumption.
      rewrite newVector3_stable by (repeat split; assumption). reflexivity.
  - eexists. split.
    + intros s. unfold loadSketch. simpl. rewrite Er, Ec. unfold bind. simpl.
      apply pushSketch_run.
    + unfold profile. simpl. rewrite Er, Ec. reflexivity.
Qed.

Lemma serializeSketches_roundtrip (sketches : list Sketch) :
  (forall k, In k sketches -> serializable_sketch k) ->
  forall index, Forall2 loads_sketch_as (serializeSketches index sketches) sketches.
Proof.
  induction sketches as [|k rest IH]; intros H index; simpl; constructor.
  - apply serializeSketch_roundtrip, H. now left.
  - apply IH. intros k' Hk'. apply H. now right.
Qed.

Lemma serializeObjects_roundtrip (s : State) (objects : list nat) :
  (forall r, In r objects -> exists o, nth_error (heap s) r = Some o /\ serializable o) ->
  forall index,
  exists ds os,
    serializeObjects index objects s = (Ok ds, s) /\
    Forall2 loads_as ds os /\
    map (fun r => nth_error (heap s) r) objects = map Some os.
Proof.
  induction objects as [|r rest IH]; intros H index.
  - exists [], []. repeat split; constructor.
  - destruct (H r (or_introl eq_refl)) as (o & Ho & Hser).
    destruct (serializeObject_roundtrip index s Hser) as (d & Hd & Hl).
    destruct (IH (fun r' Hr' => H r' (or_intror Hr')) (S index)) as (ds & os & Hds & Hf & Hm).
    exists (d :: ds), (o :: os). repeat split.
    + simpl. unfold bind, deref. rewrite Ho, Hd, Hds. reflexivity.
    + now constructor.
    + simpl. now rewrite Ho, Hm.
Qed.

Lemma forEach_loadObject_roundtrip (ds : list ObjData) (os : list Object3D) :
  Forall2 loads_as ds os ->
  exists shapes,
    (forall s, forEach ds loadObject s = (Ok tt, loadEffect shapes [] [] s)) /\
    map observe shapes = map observe os.
Proof.
  induction 1 as [|d o ds os (shape & Hrun & Hobs) _ (shapes & Hruns & Hobss)].
  - exists []. split; [intros s; simpl; now rewrite loadEffect_nil | reflexivity].
  - exists (shape :: shapes). split.
    + intros s. simpl. unfold bind. rewrite Hrun, Hruns, loadEffect_compose. reflexivity.
    + simpl. now rewrite Hobs, Hobss.
Qed.

Lemma forEach_loadSketch_roundtrip (ds ks : list Sketch) :
  Forall2 loads_sketch_as ds ks ->
  exists sketches,
    (forall s, forEach ds loadSketch s = (Ok tt, loadEffect [] sketches [] s)) /\
    map profile sketches = map profile ks.
Proof.
  induction 1 as [|d k ds ks (sketch & Hrun & Hobs) _ (sketches & Hruns & Hobss)].
  - exists []. split; [intros s; simpl; now rewrite loadEffect_nil | reflexivity].
  - exists (sketch :: sketches). split.
    + intros s. simpl. unfold bind. rewrite Hrun, Hruns, loadEffect_compose. reflexivity.
    + simpl. now rewrite Hobs, Hobss.
Qed.

Lemma lookup_appended (h shapes : list Object3D) :
  map (fun r => nth_error (h ++ shapes) r) (seq (List.length h) (List.length shapes))
  = map Some shapes.
Proof.
  revert h. induction shapes as [|x shapes IH]; intros h; [reflexivity|].
  simpl. rewrite nth_error_app2, Nat.sub_diag by lia. simpl. f_equal.
  specialize (IH (h ++ [x])). rewrite <- app_assoc, length_app in IH. simpl in IH.
  rewrite Nat.add_1_r in IH. exact IH.
Qed.

(** What an observer sees after the store was emptied and [shapes] and
    [sketches] were loaded into it. *)
Lemma observeStore_loadEffect shapes sketches logs (s : State) :
  observeStore (loadEffect shapes sketches logs (set_sketchesRef [] (set_objectsRef [] s)))
  = (map (fun o => Some (observe o)) shapes, map profile sketches).
Proof.
  unfold observeStore. destruct s. simpl. f_equal.
  rewrite <- map_map with (f := fun r => nth_error (heap0 ++ shapes) r)
                          (g := option_map observe).
  rewrite lookup_appended, map_map. reflexivity.
Qed.

(** The round trip, with the load started from any state. *)
Lemma roundtrip_from_any_state (s : State) :
  serializable_store s ->
  exists d shapes sketches,
    saveSceneToJSON (objectsRef s) (sketchesRef s) s = (Ok d, s) /\
    (forall s2, loadSceneFromJSON d s2
                = (Ok tt, loadEffect shapes sketches []
                                     (set_sketchesRef [] (set_objectsRef [] s2)))) /\
    (map (fun o => Some (observe o)) shapes, map profile sketches) = observeStore s.
Proof.
  intros [Hobjs Hsks].
  destruct (serializeObjects_roundtrip s (objectsRef s) Hobjs 0) as (ds & os & Hds & Hf & Hm).
  destruct (forEach_loadObject_roundtrip Hf) as (shapes & Hshapes & Hobs).
  destruct (forEach_loadSketch_roundtrip (serializeSketches_roundtrip _ Hsks 0))
    as (sketches & Hsketches & Hprof).
  eexists. exists shapes, sketches. repeat split.
  - unfold saveSceneToJSON, bind. rewrite Hds. reflexivity.
  - intros s2. rewrite loadSceneFromJSON_resets. unfold loadEntries. simpl.
    unfold bind. rewrite Hshapes, Hsketches, loadEffect_compose.
    now rewrite app_nil_r.
  - unfold observeStore. f_equal; [|exact Hprof].
    rewrite <- map_map with (f := fun r => nth_error (heap s) r)
                            (g := option_map observe).
    rewrite Hm, map_map. simpl.
    rewrite <- (map_map observe Some), <- (map_map observe Some os). now rewrite Hobs.
Qed.

End RoundTripStore.

(** C1, as the code has it. For every entity store whose shapes are
    serialisable boxes, spheres, cylinders and extruded shapes (no group)
    and whose rectangle and circle sketches have a stable centre,
    [saveSceneToJSON] returns a document, and [loadSceneFromJSON] of that
    document, run in any state of the component whatever (the store the
    document replaces need not be the one that was saved), completes
    normally and leaves a store that equals the saved one in every
    observable field: kind, dimensions, position, rotation, scale, colour,
    extrusion height and source profile of each shape, and the profile of
    each sketch, in order. *)
Theorem scene_roundtrip {three : ThreeJS} (s : State) :
  serializable_store s ->
  exists d,
    saveSceneToJSON (objectsRef s) (sketchesRef s) s = (Ok d, s) /\
    forall s2, exists s',
      loadSceneFromJSON d s2 = (Ok tt, s') /\
      observeStore s' = observeStore s.
Proof.
  intros H.
  destruct (roundtrip_from_any_state H) as (d & shapes & sketches & Hsave & Hload & Hobs).
  exists d. split; [exact Hsave|]. intros s2. eexists. split; [apply Hload|].
  rewrite observeStore_loadEffect. exact Hobs.
Qed.

(** A scene with every kind the codec carries: a document with a box, a
    sphere, a cylinder and two circle sketches is imported, then the first
    sketch is extruded. *)
Module Gallery.

Definition circleAt (x z r : float) : Sketch :=
  {| sk_id := None; sk_type := Some "circle"; sk_start := None; sk_end := None;
     sk_width := Undefined; sk_height := Undefined; sk_radius := Num r;
     sk_center := Some (vec3 (Num x) (Num 0) (Num z)) |}.

Definition entry (type : string) (x y z : float) (hex : Z)
           (dimensions : option Dimensions) (radius height : jsnum) : ObjData :=
  {| od_id := 0; od_type := Some type;
     od_position := Some (vec3 (Num x) (Num y) (Num z));
     od_rotation := Some (vec3 (Num 0) (Num 0.4) (Num 0));
     od_scale := Some (vec3 (Num 1) (Num 2) (Num 1));
     od_material := Some {| md_color := Some hex |};
     od_dimensions := dimensions;
     od_radius := radius; od_height := height;
     od_extrusionHeight := Undefined; od_sketchData := None |}.

Definition document : SceneData :=
  {| sd_version := Some "1.0";
     sd_objects :=
       Some [ entry "box" 1 0.5 1 2200782 (Some defaultDimensions) Undefined Undefined;
              entry "sphere" 3 0.7 0 13378074 None (Num 0.7) Undefined;
              entry "cylinder" (-2) 0.5 4 2280567 None (Num 0.5) (Num 1) ];
     sd_sketches := Some [ circleAt 5 5 1; circleAt 0 (-3) 2 ] |}.

Definition imported : State :=
  dispatch (importHandler (three := Sample.three) (Some document)) initialState.

Definition scene : State :=
  dispatch (extrudeHandler (three := Sample.three) 0 (Num 1.5)) imported.

Example scene_store :
  objectsRef scene = [0; 1; 2; 3]%nat /\
  map (fun o => ud_type (userData o)) (heap scene)
  = [Some "box"; Some "sphere"; Some "cylinder"; Some "extruded"] /\
  map sk_radius (sketchesRef scene) = [Num 2] /\
  List.length (undoStackRef scene) = 1%nat.
Proof. vm_compute. repeat split. Qed.

Definition shapeAt (r : nat) : Object3D := nth r (heap scene) newGroup.

Lemma scene_objects : objectsRef scene = [0; 1; 2; 3]%nat.
Proof. vm_compute. reflexivity. Qed.

Lemma scene_sketches : sketchesRef scene = [circleAt 0 (-3) 2].
Proof. vm_compute. reflexivity. Qed.

Lemma scene_serializable : serializable_store scene.
Proof.
  split.
  - intros r Hr. rewrite scene_objects in Hr. exists (shapeAt r).
    destruct Hr as [<-|[<-|[<-|[<-|[]]]]]; (split; [vm_compute; reflexivity|]);
      (split; [eexists; split; [vm_compute; reflexivity | vm_compute; split; reflexivity]|]);
      (split; [vm_compute; split; discriminate|]).
    + left. split; [vm_compute; reflexivity|].
      eexists. split; [vm_compute; reflexivity|]. vm_compute. repeat split; discriminate.
    + right; left. split; vm_compute; reflexivity.
    + right; right; left. repeat split; vm_compute; reflexivity.
    + right; right; right. split; [vm_compute; reflexivity|]. split; [vm_compute; reflexivity|].
      eexists. split; [vm_compute; reflexivity|]. split; [right; reflexivity|].
      vm_compute. repeat split; first [left; reflexivity | right; reflexivity].
  - intros k Hk. rewrite scene_sketches in Hk. destruct Hk as [<-|[]].
    intros _. eexists. split; [reflexivity|].
    vm_compute. repeat split; first [left; reflexivity | right; reflexivity].
Qed.

End Gallery.

Lemma scene_roundtrip_witness :
  exists d,
    saveSceneToJSON (objectsRef Gallery.scene) (sketchesRef Gallery.scene) Gallery.scene
    = (Ok d, Gallery.scene) /\
    forall s2, exists s',
      loadSceneFromJSON (three := Sample.three) d s2 = (Ok tt, s') /\
      observeStore s' = observeStore Gallery.scene.
Proof.
  apply (@scene_roundtrip Sample.three Gallery.scene).
  exact Gallery.scene_serializable.
Defined.

(** C1, as stated, fails on a store that holds a group: a group has no
    material, [saveSceneToJSON] throws on it, and there is no document to
    deserialise. *)
Lemma group_is_not_serialized :
  objectsRef Session.grouped = [2]%nat /\
  option_map (fun o => ud_type (userData o)) (nth_error (heap Session.grouped) 2)
  = Some (Some "group") /\
  fst (saveSceneToJSON (objectsRef Session.grouped) (sketchesRef Session.grouped) Session.grouped)
  = Throw (TypeError "Cannot read properties of undefined (reading 'color')").
Proof. vm_compute. repeat split. Qed.

(* ===================================================================== *)
(** ** C3: undo N times, then redo N times *)
(* ===================================================================== *)

(** A store that [saveSceneToJSON] can serialise: every reference of
    [objectsRef] is to a live mesh. *)
Definition snapshotable (s : State) : Prop :=
  forall r, In r (objectsRef s) -> exists o, nth_error (heap s) r = Some o /\ is_mesh o.

(** What [snapshotScene] returns for a store. *)
Definition snapshotOf (s : State) : option Snapshot :=
  match fst (saveSceneToJSON (objectsRef s) (sketchesRef s) s) with
  | Ok d => Some (JSON_parse_stringify d)
  | Throw _ => None
  end.

Lemma serializeObject_mesh index o s :
  is_mesh o -> exists d, serializeObject index o s = (Ok d, s).
Proof.
  intros H. unfold serializeObject, is_mesh in *.
  destruct (material o); [|now elim H].
  repeat match goal with |- context [if ?c then _ else _] => destruct c end;
    eexists; reflexivity.
Qed.

Lemma serializeObjects_mesh s objects :
  (forall r, In r objects -> exists o, nth_error (heap s) r = Some o /\ is_mesh o) ->
  forall index, exists ds, serializeObjects index objects s = (Ok ds, s).
Proof.
  induction objects as [|r rest IH]; intros H index.
  - now exists [].
  - destruct (H r (or_introl eq_refl)) as (o & Ho & Hm).
    destruct (serializeObject_mesh index s Hm) as (d & Hd).
    destruct (IH (fun r' Hr' => H r' (or_intror Hr')) (S index)) as (ds & Hds).
    exists (d :: ds). simpl. unfold bind, deref. now rewrite Ho, Hd, Hds.
Qed.

Lemma snapshotable_snapshotOf s : snapshotable s -> exists c, snapshotOf s = Some c.
Proof.
  intros H. destruct (serializeObjects_mesh s (objectsRef s) H 0) as (ds & Hds).
  unfold snapshotOf, saveSceneToJSON, bind. rewrite Hds. eexists. reflexivity.
Qed.

(** Serialisation depends on the heap and the two lists only. *)
Lemma serializeObject_fst index o s s' :
  fst (serializeObject index o s) = fst (serializeObject index o s').
Proof.
  unfold serializeObject. destruct (material o); [|reflexivity].
  repeat match goal with |- context [if ?c then _ else _] => destruct c end; reflexivity.
Qed.

Lemma serializeObjects_heap objects : forall index s s',
  heap s = heap s' ->
  fst (serializeObjects index objects s) = fst (serializeObjects index objects s').
Proof.
  induction objects as [|r rest IH]; intros index s s' Hh; simpl; [reflexivity|].
  unfold bind, deref. rewrite <- Hh.
  destruct (nth_error (heap s) r) as [o|]; [|reflexivity].
  pose proof (serializeObject_fst index o s s') as Hf.
  pose proof (serializeObject_state index o s) as Hs.
  pose proof (serializeObject_state index o s') as Hs'.
  destruct (serializeObject index o s) as [[d|e] s1], (serializeObject index o s') as [[d'|e'] s1'];
    simpl in *; subst; try discriminate; [|now inversion Hf].
  inversion Hf; subst d'.
  pose proof (IH (S index) s s' Hh) as Hr.
  pose proof (serializeObjects_state rest (S index) s) as Hrs.
  pose proof (serializeObjects_state rest (S index) s') as Hrs'.
  destruct (serializeObjects (S index) rest s) as [[ds|e] s2],
           (serializeObjects (S index) rest s') as [[ds'|e'] s2'];
    simpl in *; subst; try discriminate; now inversion Hr.
Qed.

Lemma snapshotOf_store s s' :
  heap s = heap s' -> objectsRef s = objectsRef s' -> sketchesRef s = sketchesRef s' ->
  snapshotOf s = snapshotOf s'.
Proof.
  intros Hh Ho Hk. unfold snapshotOf, saveSceneToJSON, bind. rewrite <- Ho, <- Hk.
  pose proof (serializeObjects_heap (objectsRef s) 0 s s' Hh) as Hf.
  destruct (serializeObjects 0 (objectsRef s) s) as [[ds|e] s1],
           (serializeObjects 0 (objectsRef s) s') as [[ds'|e'] s1'];
    simpl in *; try discriminate; [now inversion Hf | reflexivity].
Qed.

Lemma snapshotScene_snapshotOf s c :
  snapshotOf s = Some c -> snapshotScene s = (Ok (Some c), s).
Proof.
  unfold snapshotOf. intros H.
  destruct (fst (saveSceneToJSON (objectsRef s) (sketchesRef s) s)) as [d|e] eqn:E;
    [|discriminate].
  inversion H. now apply snapshotScene_Ok.
Qed.

(** The parts of the state the history handlers act on. *)
Definition historyView (s : State)
  : list Object3D * list nat * list Sketch * list Snapshot * list Snapshot :=
  (heap s, objectsRef s, sketchesRef s, undoStackRef s, redoStackRef s).

Lemma syncRefs_historyView before after :
  historyView (syncRefs before after) = historyView after.
Proof.
  unfold syncRefs.
  repeat match goal with |- context [if ?c then _ else _] => destruct c end;
    destruct after; reflexivity.
Qed.

Section History.
Context {three : ThreeJS}.

(** The shapes and sketches a snapshot restores. *)
Definition restoredShapes (snap : Snapshot) : list Object3D :=
  heap (snd (loadSceneFromJSON snap initialState)).

Definition restoredSketches (snap : Snapshot) : list Sketch :=
  sketchesRef (snd (loadSceneFromJSON snap initialState)).

Definition restoredView (snap : Snapshot) : list (option Observed) * list Profile :=
  (map (fun o => Some (observe o)) (restoredShapes snap),
   map profile (restoredSketches snap)).

(** Restoring replaces the store by what the snapshot holds, whatever
    the store held and whether or not the load runs to its end; the
    stacks are not touched. *)
Lemma restoreSceneFromSnapshot_historyView snap s :
  historyView (snd (restoreSceneFromSnapshot snap s))
  = (heap s ++ restoredShapes snap,
     seq (List.length (heap s)) (List.length (restoredShapes snap)),
     restoredSketches snap,
     undoStackRef s, redoStackRef s).
Proof.
  unfold restoreSceneFromSnapshot, try_catch, bind at 1.
  rewrite (loadSceneFromJSON_frame snap s).
  fold (restoredShapes snap) (restoredSketches snap).
  destruct (fst (loadSceneFromJSON snap initialState)) as [[]|e];
    destruct s; reflexivity.
Qed.

Lemma restored_snapshotable (h : list Object3D) snap (s' : State) :
  heap s' = h ++ restoredShapes snap ->
  objectsRef s' = seq (List.length h) (List.length (restoredShapes snap)) ->
  snapshotable s'.
Proof.
  intros Hh Ho r Hr. rewrite Ho in Hr. apply in_seq in Hr.
  pose proof (loadSceneFromJSON_meshes snap) as Hm. fold (restoredShapes snap) in Hm.
  destruct (nth_error (restoredShapes snap) (r - List.length h)) as [o|] eqn:E.
  - exists o. split.
    + rewrite Hh, nth_error_app2 by lia. exact E.
    + rewrite Forall_forall in Hm. apply Hm. eapply nth_error_In; eassumption.
  - apply nth_error_None in E. lia.
Qed.

Lemma restored_observeStore (h : list Object3D) snap (s' : State) :
  heap s' = h ++ restoredShapes snap ->
  objectsRef s' = seq (List.length h) (List.length (restoredShapes snap)) ->
  sketchesRef s' = restoredSketches snap ->
  observeStore s' = restoredView snap.
Proof.
  intros Hh Ho Hk. unfold observeStore, restoredView. rewrite Hh, Ho, Hk. f_equal.
  rewrite <- map_map with (f := fun r => nth_error (h ++ restoredShapes snap) r)
                          (g := option_map observe).
  rewrite lookup_appended, map_map. reflexivity.
Qed.

(** One undo on a store that can be serialised, with a snapshot to pop. *)
Lemma undo_step (s : State) (older : list Snapshot) (snap current : Snapshot) :
  undoStackRef s = older ++ [snap] ->
  snapshotOf s = Some current ->
  let s' := dispatch undoHandler s in
  undoStackRef s' = older /\
  redoStackRef s' = redoStackRef s ++ [current] /\
  snapshotable s' /\
  observeStore s' = restoredView snap.
Proof.
  intros Hu Hc s'.
  assert (Hv : historyView s'
               = (heap s ++ restoredShapes snap,
                  seq (List.length (heap s)) (List.length (restoredShapes snap)),
                  restoredSketches snap, older, redoStackRef s ++ [current])).
  { unfold s', dispatch. rewrite syncRefs_historyView.
    unfold undoHandler, bind at 1, get. rewrite Hu.
    change (older ++ [snap]) with (push older snap). rewrite pop_push.
    unfold bind at 1, modify. unfold bind at 1.
    rewrite (@snapshotScene_snapshotOf (set_undoStackRef older s) current)
      by (rewrite <- Hc; apply snapshotOf_store; destruct s; reflexivity).
    unfold bind at 1, modify.
    rewrite restoreSceneFromSnapshot_historyView. destruct s; reflexivity. }
  unfold historyView in Hv. inversion Hv as [[Hh Ho Hk Hun Hre]].
  repeat split; try reflexivity.
  - eapply restored_snapshotable; eassumption.
  - eapply restored_observeStore; eassumption.
Qed.

(** One redo, symmetrically. *)
Lemma redo_step (s : State) (newer : list Snapshot) (snap current : Snapshot) :
  redoStackRef s = newer ++ [snap] ->
  snapshotOf s = Some current ->
  let s' := dispatch redoHandler s in
  redoStackRef s' = newer /\
  undoStackRef s' = undoStackRef s ++ [current] /\
  snapshotable s' /\
  observeStore s' = restoredView snap.
Proof.
  intros Hu Hc s'.
  assert (Hv : historyView s'
               = (heap s ++ restoredShapes snap,
                  seq (List.length (heap s)) (List.length (restoredShapes snap)),
                  restoredSketches snap, undoStackRef s ++ [current], newer)).
  { unfold s', dispatch. rewrite syncRefs_historyView.
    unfold redoHandler, bind at 1, get. rewrite Hu.
    change (newer ++ [snap]) with (push newer snap). rewrite pop_push.
    unfold bind at 1, modify. unfold bind at 1.
    rewrite (@snapshotScene_snapshotOf (set_redoStackRef newer s) current)
      by (rewrite <- Hc; apply snapshotOf_store; destruct s; reflexivity).
    unfold bind at 1, modify.
    rewrite restoreSceneFromSnapshot_historyView. destruct s; reflexivity. }
  unfold historyView in Hv. inversion Hv as [[Hh Ho Hk Hun Hre]].
  repeat split; try reflexivity.
  - eapply restored_snapshotable; eassumption.
  - eapply restored_observeStore; eassumption.
Qed.

End History.

(** *** The numbers a snapshot carries *)

Definition json_clean_vector (v : Vector3) : Prop :=
  json_fixed (vx v) /\ json_fixed (vy v) /\ json_fixed (vz v).

Definition json_clean_sketch (k : Sketch) : Prop :=
  json_fixed (sk_width k) /\ json_fixed (sk_height k) /\ json_fixed (sk_radius k) /\
  match sk_center k with Some c => json_clean_vector c | None => True end.

(** Every number the codec writes for the shape survives the passage
    through JSON text: it is finite and is not [-0]. *)
Definition json_clean (o : Object3D) : Prop :=
  json_clean_vector (position o) /\ json_clean_vector (rotation o) /\
  json_clean_vector (scale o) /\
  match ud_dimensions (userData o) with
  | Some d => json_fixed (dim_width d) /\ json_fixed (dim_height d) /\ json_fixed (dim_depth d)
  | None => True
  end /\
  json_fixed (ud_radius (userData o)) /\ json_fixed (ud_height (userData o)) /\
  json_fixed (ud_extrusionHeight (userData o)) /\
  match ud_sketchData (userData o) with
  | Some sd => json_clean_sketch sd
  | None => True
  end.

Definition json_clean_store (s : State) : Prop :=
  (forall r o, In r (objectsRef s) -> nth_error (heap s) r = Some o -> json_clean o) /\
  (forall k, In k (sketchesRef s) -> json_clean_sketch k).

Lemma json_number_fixed v : json_fixed v -> json_number v = v.
Proof.
  destruct v as [| |x]; try reflexivity. simpl.
  intros [->|[Hf Hz]]; [reflexivity|]. now rewrite Hf, Hz.
Qed.

Lemma json_number_or_else v d :
  json_fixed v -> json_stable (Num d) -> json_number (or_else v d) = or_else v d.
Proof.
  intros Hv Hd. unfold or_else. destruct (truthy v).
  - now apply json_number_fixed.
  - now apply (json_number_fixed (Num d)).
Qed.

Lemma json_stable_0 : json_stable (Num 0).
Proof. now left. Qed.

Lemma json_stable_literal x :
  PrimFloat.is_finite x = true -> PrimFloat.is_zero x = false -> json_stable (Num x).
Proof. intros; right; now split. Qed.

Lemma json_vector_clean v : json_clean_vector v -> json_vector v = v.
Proof.
  intros (Hx & Hy & Hz). destruct v. unfold json_vector. simpl in *.
  now rewrite !json_number_fixed.
Qed.

Lemma json_vector_centerData c : json_clean_vector c -> json_vector (centerData c) = centerData c.
Proof.
  intros (Hx & Hy & Hz). destruct c. unfold json_vector, centerData. simpl in *.
  now rewrite !json_number_or_else by (assumption || apply json_stable_0).
Qed.

Lemma json_sketch_serializeSketchData sd :
  json_clean_sketch sd -> json_sketch (serializeSketchData sd) = serializeSketchData sd.
Proof.
  intros (Hw & Hh & Hr & Hc). unfold json_sketch, serializeSketchData. simpl.
  rewrite !json_number_fixed by assumption.
  destruct (sk_center sd); simpl; [rewrite json_vector_centerData by assumption|]; reflexivity.
Qed.

Lemma json_sketch_serializeSketch index k :
  json_clean_sketch k -> json_sketch (serializeSketch index k) = serializeSketch index k.
Proof.
  intros (Hw & Hh & Hr & Hc). unfold json_sketch, serializeSketch.
  destruct (type_is (sk_type k) "rectangle"); [|destruct (type_is (sk_type k) "circle")];
    simpl; rewrite ?json_number_fixed by assumption;
    destruct (sk_center k); simpl; rewrite ?json_vector_centerData by assumption; reflexivity.
Qed.

Lemma json_object_serializeObject index o s d s' :
  json_clean o -> serializeObject index o s = (Ok d, s') -> json_object d = d.
Proof.
  intros (Hp & Hr & Hs & Hd & Hrad & Hh & He & Hsd). unfold serializeObject.
  destruct (material o) as [m|]; [|discriminate].
  assert (H07 : json_stable (Num 0.7)) by (apply json_stable_literal; reflexivity).
  assert (H05 : json_stable (Num 0.5)) by (apply json_stable_literal; reflexivity).
  assert (H1 : json_stable (Num 1)) by (apply json_stable_literal; reflexivity).
  assert (H2 : json_stable (Num 2)) by (apply json_stable_literal; reflexivity).
  repeat match goal with |- context [if ?c then _ else _] => destruct c end;
    intros H; inversion H; subst; clear H; unfold json_object; simpl;
    rewrite !json_vector_clean by assumption;
    rewrite ?json_number_or_else by assumption.
  - destruct (ud_dimensions (userData o)) as [dims|]; simpl.
    + destruct Hd as (H1' & H2' & H3'). unfold json_dimensions.
      rewrite !json_number_fixed by assumption. destruct dims; reflexivity.
    + reflexivity.
  - reflexivity.
  - reflexivity.
  - destruct (ud_sketchData (userData o)) as [sd|]; simpl;
      [rewrite json_sketch_serializeSketchData by assumption|]; reflexivity.
  - reflexivity.
Qed.

Lemma json_objects_serializeObjects s objects :
  (forall r o, In r objects -> nth_error (heap s) r = Some o -> json_clean o) ->
  forall index ds s',
    serializeObjects index objects s = (Ok ds, s') -> map json_object ds = ds.
Proof.
  induction objects as [|r rest IH]; intros H index ds s'; simpl.
  - intros E. inversion E. reflexivity.
  - unfold bind, deref. destruct (nth_error (heap s) r) as [o|] eqn:Eo; [|discriminate].
    pose proof (serializeObject_state index o s) as Hst.
    destruct (serializeObject index o s) as [[d|e] s1] eqn:Ed; [|discriminate].
    simpl in Hst. subst s1.
    destruct (serializeObjects (S index) rest s) as [[ds'|e] s2] eqn:Er; [|discriminate].
    intros E. inversion E; subst. simpl. f_equal.
    + eapply json_object_serializeObject; [|exact Ed]. eapply H; [now left | exact Eo].
    + eapply IH; [|exact Er]. intros r' o' Hr'. apply H. now right.
Qed.

Lemma json_sketches_serializeSketches sketches :
  (forall k, In k sketches -> json_clean_sketch k) ->
  forall index, map json_sketch (serializeSketches index sketches)
                = serializeSketches index sketches.
Proof.
  induction sketches as [|k rest IH]; intros H index; simpl; [reflexivity|].
  rewrite json_sketch_serializeSketch by (apply H; now left).
  rewrite IH by (intros k' Hk'; apply H; now right). reflexivity.
Qed.

(** The document of a store of clean numbers is the one its JSON text
    parses back to. *)
Lemma JSON_parse_stringify_saved s d s' :
  json_clean_store s ->
  saveSceneToJSON (objectsRef s) (sketchesRef s) s = (Ok d, s') ->
  JSON_parse_stringify d = d.
Proof.
  intros [Ho Hk]. unfold saveSceneToJSON, bind.
  destruct (serializeObjects 0 (objectsRef s) s) as [[ds|e] s1] eqn:E; [|discriminate].
  intros H. inversion H; subst. unfold JSON_parse_stringify. simpl.
  rewrite (json_objects_serializeObjects s (objectsRef s) Ho 0 E).
  rewrite json_sketches_serializeSketches by exact Hk. reflexivity.
Qed.

(** *** A handler that leaves the React state alone *)

Lemma Entity_eqb_refl (e : Entity) : Entity_eqb e e = true.
Proof. destruct e; simpl; rewrite ?Nat.eqb_refl; reflexivity. Qed.

(** The effects change nothing after a handler that left the React state
    alone. *)
Lemma syncRefs_unchanged (before after : State) :
  selectedEntity after = selectedEntity before ->
  selectedType after = selectedType before ->
  sketchTool after = sketchTool before ->
  syncRefs before after = after.
Proof.
  intros He Ht Hk. unfold syncRefs. rewrite He, Ht, Hk.
  replace (option_eqb Entity_eqb (selectedEntity before) (selectedEntity before)) with true
    by (destruct (selectedEntity before); simpl; [now rewrite Entity_eqb_refl | reflexivity]).
  replace (option_eqb SelType_eqb (selectedType before) (selectedType before)) with true
    by (now destruct (selectedType before) as [[]|]).
  replace (option_eqb String.eqb (sketchTool before) (sketchTool before)) with true
    by (destruct (sketchTool before); simpl; [now rewrite String.eqb_refl | reflexivity]).
  reflexivity.
Qed.

(** *** Iterating *)

Section UndoRedo.
Context {three : ThreeJS}.

(** The undo command, then the redo command, [n] times each. *)
Definition undoN (n : nat) (s : State) : State := Nat.iter n (dispatch undoHandler) s.
Definition redoN (n : nat) (s : State) : State := Nat.iter n (dispatch redoHandler) s.

Lemma firstn_snoc {A} (l : list A) (m : nat) :
  m < List.length l -> exists x, firstn (S m) l = firstn m l ++ [x].
Proof.
  revert m. induction l as [|a l IH]; intros m H; simpl in H; [lia|].
  destruct m as [|m].
  - exists a. reflexivity.
  - destruct (IH m) as [x Hx]; [lia|]. exists x.
    change (firstn (S (S m)) (a :: l)) with (a :: firstn (S m) l). now rewrite Hx.
Qed.

Lemma serializable_snapshotable s : serializable_store s -> snapshotable s.
Proof.
  intros [H _] r Hr. destruct (H r Hr) as (o & Ho & [(m & Hm & _) _]).
  exists o. split; [exact Ho|]. unfold is_mesh. now rewrite Hm.
Qed.

(** [n] undos with at least [n] snapshots on the undo stack: each pops
    one and pushes one onto the redo stack; the first one pushed is the
    snapshot of the state the undos started from. *)
Lemma undoN_stacks (n : nat) (s : State) :
  snapshotable s ->
  n <= List.length (undoStackRef s) ->
  exists pushed,
    List.length pushed = n /\
    redoStackRef (undoN n s) = redoStackRef s ++ pushed /\
    undoStackRef (undoN n s) = firstn (List.length (undoStackRef s) - n) (undoStackRef s) /\
    snapshotable (undoN n s) /\
    (1 <= n -> hd_error pushed = snapshotOf s).
Proof.
  intros Hs. induction n as [|n IH]; intros Hn.
  - exists []. simpl. rewrite app_nil_r, Nat.sub_0_r, firstn_all.
    repeat split; [exact Hs | lia].
  - destruct IH as (pushed & Hlen & Hredo & Hundo & Hsn & Hhd); [lia|].
    destruct (@firstn_snoc _ (undoStackRef s) (List.length (undoStackRef s) - S n)) as [snap Hsnap];
      [lia|].
    replace (S (List.length (undoStackRef s) - S n)) with (List.length (undoStackRef s) - n)
      in Hsnap by lia.
    rewrite Hsnap in Hundo.
    destruct (snapshotable_snapshotOf Hsn) as [current Hcur].
    destruct (@undo_step three (undoN n s) _ snap current Hundo Hcur) as (Hu' & Hr' & Hs' & _).
    exists (pushed ++ [current]). change (undoN (S n) s) with (dispatch undoHandler (undoN n s)).
    repeat split.
    + rewrite length_app. simpl. lia.
    + rewrite Hr', Hredo, app_assoc. reflexivity.
    + exact Hu'.
    + exact Hs'.
    + intros _. destruct n as [|n].
      * destruct pushed; [|discriminate]. simpl in *. now rewrite <- Hcur.
      * rewrite <- Hhd by lia. destruct pushed; [discriminate | reflexivity].
Qed.

(** As many redos as there are snapshots in [pushed], the top part of
    the redo stack: the last one restores the bottom one. *)
Lemma redoN_restores (pushed : list Snapshot) :
  forall (s : State) (newer : list Snapshot) (first : Snapshot),
    snapshotable s ->
    redoStackRef s = newer ++ pushed ->
    hd_error pushed = Some first ->
    observeStore (redoN (List.length pushed) s) = restoredView first.
Proof.
  induction pushed as [|snap pushed IH] using rev_ind; intros s newer first Hs Hr Hf.
  - discriminate.
  - rewrite length_app, Nat.add_1_r. unfold redoN. rewrite Nat.iter_succ_r.
    fold (redoN (List.length pushed) (dispatch redoHandler s)).
    destruct (snapshotable_snapshotOf Hs) as [current Hcur].
    rewrite app_assoc in Hr.
    destruct (@redo_step three s _ snap current Hr Hcur) as (Hr' & _ & Hs' & Ho').
    destruct pushed as [|c pushed].
    + simpl in *. inversion Hf; subst. exact Ho'.
    + eapply IH; [exact Hs' | exact Hr' | exact Hf].
Qed.

(** ... and they leave on the redo stack what was below [pushed]. *)
Lemma redoN_stack (pushed : list Snapshot) :
  forall (s : State) (newer : list Snapshot),
    snapshotable s ->
    redoStackRef s = newer ++ pushed ->
    redoStackRef (redoN (List.length pushed) s) = newer.
Proof.
  induction pushed as [|snap pushed IH] using rev_ind; intros s newer Hs Hr.
  - simpl. now rewrite app_nil_r in Hr.
  - rewrite length_app, Nat.add_1_r. unfold redoN. rewrite Nat.iter_succ_r.
    fold (redoN (List.length pushed) (dispatch redoHandler s)).
    destruct (snapshotable_snapshotOf Hs) as [current Hcur].
    rewrite app_assoc in Hr.
    destruct (@redo_step three s _ snap current Hr Hcur) as (Hr' & _ & Hs' & _).
    apply IH; [exact Hs' | exact Hr'].
Qed.

(** On an empty stack the command does nothing. *)
Lemma undo_nothing (s : State) : undoStackRef s = [] -> dispatch undoHandler s = s.
Proof.
  intros H. unfold dispatch, undoHandler, bind, get. rewrite H. simpl.
  now apply syncRefs_unchanged.
Qed.

Lemma redo_nothing (s : State) : redoStackRef s = [] -> dispatch redoHandler s = s.
Proof.
  intros H. unfold dispatch, redoHandler, bind, get. rewrite H. simpl.
  now apply syncRefs_unchanged.
Qed.

Lemma iter_nothing {A} (f : A -> A) (x : A) (m : nat) : f x = x -> Nat.iter m f x = x.
Proof. intros H. induction m as [|m IH]; [reflexivity|]. simpl. now rewrite IH. Qed.

(** [n] undos and [n] redos, with [n] snapshots or more to undo. *)
Lemma undo_redo_within (n : nat) (s : State) :
  serializable_store s ->
  json_clean_store s ->
  n <= List.length (undoStackRef s) ->
  observeStore (redoN n (undoN n s)) = observeStore s /\
  redoStackRef (redoN n (undoN n s)) = redoStackRef s.
Proof.
  intros Hser Hjson Hn.
  pose proof (serializable_snapshotable Hser) as Hsnap.
  destruct (undoN_stacks Hsnap Hn) as (pushed & Hlen & Hredo & _ & Hsn & Hhd).
  destruct n as [|n].
  { destruct pushed; [|discriminate]. split; reflexivity. }
  destruct (roundtrip_from_any_state Hser) as (d & shapes & sketches & Hsave & Hload & Hobs).
  assert (Hc : snapshotOf s = Some d).
  { unfold snapshotOf. rewrite Hsave. simpl.
    now rewrite (JSON_parse_stringify_saved Hjson Hsave). }
  assert (Hfirst : hd_error pushed = Some d) by (rewrite Hhd by lia; exact Hc).
  clear Hhd. revert Hsn Hredo. rewrite <- Hlen. intros Hsn Hredo.
  split.
  - rewrite (@redoN_restores pushed _ (redoStackRef s) d Hsn Hredo Hfirst).
    unfold restoredView, restoredShapes, restoredSketches.
    rewrite (Hload initialState). simpl. exact Hobs.
  - exact (@redoN_stack pushed _ (redoStackRef s) Hsn Hredo).
Qed.

(** With nothing to redo at the start, the undos past the bottom of the
    undo stack do nothing, and neither do the redos past the snapshots
    the undos pushed. *)
Lemma undo_redo_beyond (n : nat) (s : State) :
  serializable_store s ->
  json_clean_store s ->
  redoStackRef s = [] ->
  List.length (undoStackRef s) <= n ->
  redoN n (undoN n s)
  = redoN (List.length (undoStackRef s)) (undoN (List.length (undoStackRef s)) s).
Proof.
  intros Hser Hjson Hempty Hn.
  set (k := List.length (undoStackRef s)) in *.
  pose proof (serializable_snapshotable Hser) as Hsnap.
  destruct (@undoN_stacks k s Hsnap (Nat.le_refl _)) as (_ & _ & _ & Hundo & _).
  fold k in Hundo. rewrite Nat.sub_diag in Hundo. simpl in Hundo.
  destruct (@undo_redo_within k s Hser Hjson (Nat.le_refl _)) as [_ Hredo].
  rewrite Hempty in Hredo.
  replace n with ((n - k) + k) by lia.
  unfold undoN, redoN. rewrite !Nat.iter_add.
  fold (undoN k s). rewrite (@iter_nothing _ _ _ (n - k) (@undo_nothing _ Hundo)).
  fold (redoN k (undoN k s)). now rewrite (@iter_nothing _ _ _ (n - k) (@redo_nothing _ Hredo)).
Qed.

End UndoRedo.

(** C3, as the code has it. For every state whose store can be carried by
    a snapshot (serialisable shapes, no group, numbers that survive JSON
    text) and every [n] that is not above the depth of the undo stack, or
    any [n] at all when there is nothing to redo at the start, [n] undos
    followed by [n] redos leave a store observably identical to the
    original: as many shapes and sketches, of the same kinds, with the
    same transforms (and dimensions, colours and profiles). *)
Theorem undo_redo_restores {three : ThreeJS} (n : nat) (s : State) :
  serializable_store s ->
  json_clean_store s ->
  n <= List.length (undoStackRef s) \/ redoStackRef s = [] ->
  observeStore (redoN n (undoN n s)) = observeStore s.
Proof.
  intros Hser Hjson Hn.
  destruct (Nat.le_gt_cases n (List.length (undoStackRef s))) as [Hle|Hgt].
  - exact (proj1 (undo_redo_within Hser Hjson Hle)).
  - destruct Hn as [Hn|Hempty]; [lia|].
    rewrite (@undo_redo_beyond three n s Hser Hjson Hempty) by lia.
    exact (proj1 (undo_redo_within Hser Hjson (Nat.le_refl _))).
Qed.

Lemma Gallery_scene_json_clean : json_clean_store Gallery.scene.
Proof.
  split.
  - intros r o Hr Ho. rewrite Gallery.scene_objects in Hr.
    destruct Hr as [<-|[<-|[<-|[<-|[]]]]];
      apply (nth_error_nth _ _ newGroup) in Ho; subst o;
      vm_compute;
      repeat split; first [ left; reflexivity | right; split; reflexivity ].
  - intros k Hk. rewrite Gallery.scene_sketches in Hk. destruct Hk as [<-|[]].
    vm_compute. repeat split; first [ left; reflexivity | right; split; reflexivity ].
Qed.

Lemma undo_redo_restores_witness :
  observeStore (redoN (three := Sample.three) 1 (undoN (three := Sample.three) 1 Gallery.scene))
  = observeStore Gallery.scene.
Proof.
  apply (@undo_redo_restores Sample.three 1 Gallery.scene).
  - exact Gallery.scene_serializable.
  - exact Gallery_scene_json_clean.
  - left. vm_compute. repeat constructor.
Defined.

(** C3, as stated, fails. The grouped session is reached by the handlers
    and has three snapshots on its undo stack; its store holds one entity,
    the group.  One undo followed by one redo leaves two entities: the
    snapshot taken by the undo fails on the group, nothing is pushed onto
    the redo stack, and the redo finds it empty. *)
Lemma undo_redo_loses_group :
  List.length (undoStackRef Session.grouped) = 3%nat /\
  List.length (fst (observeStore Session.grouped)) = 1%nat /\
  redoStackRef (undoN (three := Sample.three) 1 Session.grouped) = [] /\
  List.length (fst (observeStore (redoN (three := Sample.three) 1
                                        (undoN (three := Sample.three) 1 Session.grouped))))
  = 2%nat.
Proof. vm_compute. repeat split. Qed.

(** With fewer than [n] snapshots on the undo stack and something to
    redo, the redos run ahead of the undos: after one undo of the
    placement of the box (empty store, empty undo stack, one snapshot on
    the redo stack), an undo does nothing and the redo brings the box
    back. *)
Example redo_runs_ahead :
  undoStackRef (dispatch (undoHandler (three := Sample.three)) Session.boxPlaced) = [] /\
  List.length (fst (observeStore (dispatch (undoHandler (three := Sample.three)) Session.boxPlaced)))
  = 0%nat /\
  List.length (fst (observeStore
                      (redoN (three := Sample.three) 1
                             (undoN (three := Sample.three) 1
                                    (dispatch (undoHandler (three := Sample.three))
                                              Session.boxPlaced)))))
  = 1%nat.
Proof. vm_compute. repeat split. Qed.

(* ===================================================================== *)
(** * Further properties of the code *)
(* ===================================================================== *)

(** ** The edge and face builders ([shapeUtils.jsx]) *)

Section EdgeMap.
Context {three : ThreeJS}.

(** The two keys [addEdge] computes for an edge. *)
Definition key1 (e : Edge) : string := edgeKey (e_start e) (e_end e).
Definition key2 (e : Edge) : string := edgeKey (e_end e) (e_start e).

(** The maps [addEdge] builds: every entry went in under its own key, at
    a moment when neither that key nor the key of the reversed edge was
    present. *)
Inductive built : list (string * Edge) -> Prop :=
| built_nil : built []
| built_snoc m e :
    built m -> Map_has m (key1 e) = false -> Map_has m (key2 e) = false ->
    built (m ++ [(key1 e, e)]).

Lemma Map_has_false m k :
  Map_has m k = false <-> forall k' e, In (k', e) m -> k' <> k.
Proof.
  unfold Map_has. split.
  - intros H k' e Hin ->.
    assert (existsb (fun kv => String.eqb (fst kv) k) m = true); [|congruence].
    apply existsb_exists. exists (k, e). split; [exact Hin | apply String.eqb_refl].
  - intros H. destruct (existsb _ m) eqn:E; [|reflexivity].
    apply existsb_exists in E. destruct E as ([k' e] & Hin & Heq). simpl in Heq.
    apply String.eqb_eq in Heq. now elim (H k' e Hin).
Qed.

Lemma Map_has_true m k :
  Map_has m k = true <-> exists e, In (k, e) m.
Proof.
  unfold Map_has. rewrite existsb_exists. split.
  - intros ([k' e] & Hin & Heq). simpl in Heq. apply String.eqb_eq in Heq. subst. now exists e.
  - intros [e Hin]. exists (k, e). split; [exact Hin | apply String.eqb_refl].
Qed.

Lemma built_key m : built m -> forall k e, In (k, e) m -> k = key1 e.
Proof.
  induction 1 as [|m e Hb IH H1 H2]; intros k e' Hin; [destruct Hin|].
  apply in_app_or in Hin. destruct Hin as [Hin|[Heq|[]]].
  - now apply IH.
  - now inversion Heq.
Qed.

Lemma built_addEdge m a b : built m -> built (addEdge m a b).
Proof.
  intros Hb. unfold addEdge.
  destruct (Map_has m (edgeKey a b)) eqn:E1; [exact Hb|].
  destruct (Map_has m (edgeKey b a)) eqn:E2; [exact Hb|]. simpl.
  apply (@built_snoc m {| e_start := a; e_end := b |} Hb); assumption.
Qed.

Lemma built_pushTriangleEdges positions m t : built m -> built (pushTriangleEdges positions m t).
Proof.
  intros Hb. destruct t as [[i0 i1] i2]. unfold pushTriangleEdges.
  do 3 apply built_addEdge. exact Hb.
Qed.

Lemma built_fold positions triples : forall m,
  built m -> built (fold_left (pushTriangleEdges positions) triples m).
Proof.
  induction triples as [|t triples IH]; intros m Hb; [exact Hb|].
  simpl. apply IH. now apply built_pushTriangleEdges.
Qed.

(** In a built map an entry differs, in both of its keys, from the key of
    every entry before it. *)
Lemma built_distinct m :
  built m ->
  forall i j ki ei kj ej,
    i < j -> nth_error m i = Some (ki, ei) -> nth_error m j = Some (kj, ej) ->
    key1 ej <> key1 ei /\ key2 ej <> key1 ei.
Proof.
  induction 1 as [|m e Hb IH H1 H2]; intros i j ki ei kj ej Hij Hi Hj.
  - now destruct i.
  - assert (Hlen : j < List.length (m ++ [(key1 e, e)])).
    { apply nth_error_Some. rewrite Hj. discriminate. }
    rewrite length_app in Hlen. simpl in Hlen.
    destruct (Nat.eq_dec j (List.length m)) as [->|Hne].
    + rewrite nth_error_app2, Nat.sub_diag in Hj by lia. simpl in Hj. inversion Hj; subst.
      rewrite nth_error_app1 in Hi by lia.
      apply nth_error_In in Hi.
      pose proof (built_key Hb _ _ Hi) as Hk. subst ki.
      rewrite Map_has_false in H1, H2.
      split; intros Heq; [exact (H1 _ _ Hi (eq_sym Heq)) | exact (H2 _ _ Hi (eq_sym Heq))].
    + rewrite nth_error_app1 in Hi by lia. rewrite nth_error_app1 in Hj by lia.
      eapply IH; [exact Hij | exact Hi | exact Hj].
Qed.

(** The map only grows. *)
Lemma addEdge_grows m a b k : Map_has m k = true -> Map_has (addEdge m a b) k = true.
Proof.
  intros H. unfold addEdge.
  destruct (negb (Map_has m (edgeKey a b)) && negb (Map_has m (edgeKey b a))); [|exact H].
  unfold Map_has in *. rewrite existsb_app, H. reflexivity.
Qed.

Lemma addEdge_has m a b :
  Map_has (addEdge m a b) (edgeKey a b) = true \/ Map_has (addEdge m a b) (edgeKey b a) = true.
Proof.
  unfold addEdge.
  destruct (Map_has m (edgeKey a b)) eqn:E1; [now left|].
  destruct (Map_has m (edgeKey b a)) eqn:E2; [now right|]. simpl.
  left. unfold Map_has. rewrite existsb_app. simpl. rewrite String.eqb_refl.
  now rewrite orb_true_r.
Qed.

Lemma pushTriangleEdges_grows positions m t k :
  Map_has m k = true -> Map_has (pushTriangleEdges positions m t) k = true.
Proof.
  intros H. destruct t as [[i0 i1] i2]. unfold pushTriangleEdges.
  do 3 apply addEdge_grows. exact H.
Qed.

Lemma fold_grows positions triples : forall m k,
  Map_has m k = true -> Map_has (fold_left (pushTriangleEdges positions) triples m) k = true.
Proof.
  induction triples as [|t triples IH]; intros m k H; [exact H|].
  simpl. apply IH. now apply pushTriangleEdges_grows.
Qed.

(** The three sides of the triangle at an index triple. *)
Definition sides (positions : list Vec3) (t : option nat * option nat * option nat)
  : list (Vec3 * Vec3) :=
  let '(i0, i1, i2) := t in
  let v0 := getVertex positions i0 in
  let v1 := getVertex positions i1 in
  let v2 := getVertex positions i2 in
  [(v0, v1); (v1, v2); (v2, v0)].

Lemma pushTriangleEdges_has positions m t a b :
  In (a, b) (sides positions t) ->
  Map_has (pushTriangleEdges positions m t) (edgeKey a b) = true \/
  Map_has (pushTriangleEdges positions m t) (edgeKey b a) = true.
Proof.
  destruct t as [[i0 i1] i2]. unfold sides, pushTriangleEdges.
  intros [H|[H|[H|[]]]]; inversion H; subst; clear H.
  - destruct (addEdge_has m (getVertex positions i0) (getVertex positions i1)) as [H|H];
      [left|right]; do 2 apply addEdge_grows; exact H.
  - match goal with |- context [addEdge (addEdge ?m' ?a ?b) _ _] =>
      destruct (addEdge_has m' a b) as [H|H] end;
      [left|right]; apply addEdge_grows; exact H.
  - apply addEdge_has.
Qed.

Lemma fold_has positions triples : forall m t a b,
  In t triples -> In (a, b) (sides positions t) ->
  Map_has (fold_left (pushTriangleEdges positions) triples m) (edgeKey a b) = true \/
  Map_has (fold_left (pushTriangleEdges positions) triples m) (edgeKey b a) = true.
Proof.
  induction triples as [|t' triples IH]; intros m t a b Ht Hs; [destruct Ht|].
  simpl. destruct Ht as [->|Ht].
  - destruct (pushTriangleEdges_has positions m t a b Hs) as [H|H];
      [left|right]; now apply fold_grows.
  - eapply IH; eassumption.
Qed.

End EdgeMap.

(** The edge list of a geometry holds no edge twice, in either direction:
    an edge differs from every edge before it in the list, both by its own
    key (the end points printed with three decimals) and by the key of its
    reverse. *)
Theorem createEdgesFromGeometry_distinct {three : ThreeJS}
        (geometry : BufferGeometry) (i j : nat) (ei ej : Edge) :
  i < j ->
  nth_error (createEdgesFromGeometry geometry) i = Some ei ->
  nth_error (createEdgesFromGeometry geometry) j = Some ej ->
  edgeKey (e_start ej) (e_end ej) <> edgeKey (e_start ei) (e_end ei) /\
  edgeKey (e_end ej) (e_start ej) <> edgeKey (e_start ei) (e_end ei).
Proof.
  unfold createEdgesFromGeometry.
  destruct (attr_position geometry) as [positions|]; [|now destruct i].
  intros Hij Hi Hj.
  rewrite nth_error_map in Hi, Hj.
  destruct (nth_error _ i) as [[ki ei']|] eqn:Ei; [|discriminate].
  destruct (nth_error _ j) as [[kj ej']|] eqn:Ej; [|discriminate].
  simpl in Hi, Hj. inversion Hi; inversion Hj; subst.
  eapply (built_distinct (built_fold positions _ built_nil)); eassumption.
Qed.

(** Every side of every triangle the builder visits is in the edge list,
    in one of the two directions, up to the three decimals of the key. *)
Theorem createEdgesFromGeometry_covers {three : ThreeJS}
        (geometry : BufferGeometry) (positions : list Vec3)
        (t : option nat * option nat * option nat) (a b : Vec3) :
  attr_position geometry = Some positions ->
  In t (triangleTriples positions (geo_index geometry)) ->
  In (a, b) (sides positions t) ->
  exists e, In e (createEdgesFromGeometry geometry) /\
            (edgeKey (e_start e) (e_end e) = edgeKey a b \/
             edgeKey (e_start e) (e_end e) = edgeKey b a).
Proof.
  intros Hp Ht Hs. unfold createEdgesFromGeometry. rewrite Hp.
  pose proof (built_fold positions (triangleTriples positions (geo_index geometry)) built_nil) as Hb.
  destruct (fold_has positions _ [] t a b Ht Hs) as [H|H];
    apply Map_has_true in H; destruct H as [e Hin];
    exists e; (split; [apply in_map_iff; eexists; split; [|exact Hin]; reflexivity|]);
    pose proof (built_key Hb _ _ Hin) as Hk; unfold key1 in Hk; [left | right]; now symmetry.
Qed.

Lemma createEdgesFromGeometry_covers_witness :
  exists e, In e (createEdgesFromGeometry (three := Sample.three) (Sample.box (Num 1) (Num 1) (Num 1))) /\
            (edgeKey (three := Sample.three) (e_start e) (e_end e)
             = edgeKey (three := Sample.three) (pt 0.5 0.5 (-0.5)) (pt (-0.5) (-0.5) (-0.5)) \/
             edgeKey (three := Sample.three) (e_start e) (e_end e)
             = edgeKey (three := Sample.three) (pt (-0.5) (-0.5) (-0.5)) (pt 0.5 0.5 (-0.5))).
Proof.
  apply (@createEdgesFromGeometry_covers Sample.three (Sample.box (Num 1) (Num 1) (Num 1))
           [ pt (-0.5) (-0.5) (-0.5); pt 0.5 (-0.5) (-0.5); pt 0.5 0.5 (-0.5); pt (-0.5) 0.5 (-0.5);
             pt (-0.5) (-0.5) 0.5; pt 0.5 (-0.5) 0.5; pt 0.5 0.5 0.5; pt (-0.5) 0.5 0.5 ]%float
           (Some 0, Some 1, Some 2)%nat).
  - vm_compute. reflexivity.
  - vm_compute. left. reflexivity.
  - vm_compute. right. right. left. reflexivity.
Defined.

Lemma createEdgesFromGeometry_distinct_witness :
  let es := createEdgesFromGeometry (three := Sample.three) (Sample.box (Num 1) (Num 1) (Num 1)) in
  let d := {| e_start := Vec.zero; e_end := Vec.zero |} in
  edgeKey (three := Sample.three) (e_start (nth 1 es d)) (e_end (nth 1 es d))
  <> edgeKey (three := Sample.three) (e_start (nth 0 es d)) (e_end (nth 0 es d)) /\
  edgeKey (three := Sample.three) (e_end (nth 1 es d)) (e_start (nth 1 es d))
  <> edgeKey (three := Sample.three) (e_start (nth 0 es d)) (e_end (nth 0 es d)).
Proof.
  cbv zeta.
  apply (@createEdgesFromGeometry_distinct Sample.three (Sample.box (Num 1) (Num 1) (Num 1)) 0 1).
  - lia.
  - vm_compute. reflexivity.
  - vm_compute. reflexivity.
Defined.

Lemma indexTriples_length : forall ix : list nat,
  List.length (indexTriples ix) = (List.length ix + 2) / 3.
Proof.
  fix IH 1. intros [|a [|b [|c rest]]]; try reflexivity.
  change (indexTriples (a :: b :: c :: rest)) with ((Some a, Some b, Some c) :: indexTriples rest).
  simpl List.length. rewrite IH.
  replace (S (S (S (List.length rest))) + 2) with (List.length rest + 2 + 1 * 3) by lia.
  rewrite Nat.div_add by lia. lia.
Qed.

(** The face list has one face per triangle visited, each with three
    vertices.  An index of at least three entries is read in steps of
    three, a last incomplete step included (its missing indices read as
    the origin); a shorter index is ignored and the positions are taken
    three by three; without a [position] attribute there is no face. *)
Theorem createFacesFromGeometry_count {three : ThreeJS} (geometry : BufferGeometry) :
  List.length (createFacesFromGeometry geometry) =
  match attr_position geometry with
  | None => 0
  | Some positions =>
      match geo_index geometry with
      | Some ix => if Nat.leb 3 (List.length ix) then (List.length ix + 2) / 3
                   else List.length positions / 3
      | None => List.length positions / 3
      end
  end /\
  Forall (fun f => List.length (f_vertices f) = 3) (createFacesFromGeometry geometry).
Proof.
  unfold createFacesFromGeometry.
  destruct (attr_position geometry) as [positions|]; [|split; [reflexivity | constructor]].
  split.
  - rewrite length_map. unfold triangleTriples, sequentialTriples.
    destruct (geo_index geometry) as [ix|].
    + destruct (Nat.leb 3 (List.length ix)).
      * apply indexTriples_length.
      * now rewrite length_map, length_seq.
    + now rewrite length_map, length_seq.
  - apply Forall_forall. intros f Hf. apply in_map_iff in Hf.
    destruct Hf as ([[i0 i1] i2] & <- & _). reflexivity.
Qed.

(** ** Saving ([saveSceneToJSON]) *)

Lemma serializeObjects_total (s : State) (objects : list nat) :
  Forall (fun r => r < List.length (heap s)) objects ->
  forall index,
    ((exists ds, fst (serializeObjects index objects s) = Ok ds) <->
     Forall (fun r => exists o, nth_error (heap s) r = Some o /\ material o <> None) objects) /\
    ((exists r o, In r objects /\ nth_error (heap s) r = Some o /\ material o = None) ->
     fst (serializeObjects index objects s)
     = Throw (TypeError "Cannot read properties of undefined (reading 'color')")).
Proof.
  induction 1 as [|r rest Hr Hrest IH]; intros index.
  - split; [split; [constructor | now exists []] | intros (r & o & [] & _)].
  - destruct (nth_error (heap s) r) as [o|] eqn:Eo;
      [|apply nth_error_None in Eo; lia].
    destruct (IH (S index)) as [Hiff Hthrow].
    simpl. unfold bind, deref. rewrite Eo.
    pose proof (serializeObject_state index o s) as Hst.
    destruct (material o) as [m|] eqn:Em.
    + destruct (@serializeObject_mesh index o s) as [d Hd];
        [unfold is_mesh; rewrite Em; discriminate|].
      rewrite Hd.
      pose proof (serializeObjects_state rest (S index) s) as Hst'.
      destruct (serializeObjects (S index) rest s) as [[ds|e] s2] eqn:Er; simpl in *.
      * split; [split|].
        -- intros _. constructor; [exists o; split; [exact Eo | rewrite Em; discriminate]|].
           apply Hiff. now exists ds.
        -- intros _. now eexists.
        -- intros (r' & o' & [<-|Hin] & Ho' & Hm'); [congruence|].
           assert (Ok ds = Throw (TypeError "Cannot read properties of undefined (reading 'color')"))
             by (apply Hthrow; now exists r', o').
           discriminate.
      * split; [split|].
        -- intros [ds Hds]. discriminate.
        -- intros HF. inversion HF; subst. apply Hiff in H2. destruct H2 as [ds Hds]. discriminate.
        -- intros (r' & o' & [<-|Hin] & Ho' & Hm'); [congruence|].
           apply Hthrow. now exists r', o'.
    + unfold serializeObject. rewrite Em. simpl.
      split; [split|].
      * intros [ds Hds]. discriminate.
      * intros HF. inversion HF; subst. destruct H1 as (o' & Ho' & Hm'). congruence.
      * reflexivity.
Qed.

(** Saving reads and never writes: the state is untouched whether it
    returns or throws.  It returns a document exactly when every object of
    the list has a material; an object without one (a [THREE.Group]) makes
    it throw the [TypeError] of reading [material.color]. *)
Theorem saveSceneToJSON_succeeds_iff (s : State) (objects : list nat) (sketches : list Sketch) :
  Forall (fun r => r < List.length (heap s)) objects ->
  snd (saveSceneToJSON objects sketches s) = s /\
  ((exists d, fst (saveSceneToJSON objects sketches s) = Ok d) <->
   Forall (fun r => exists o, nth_error (heap s) r = Some o /\ material o <> None) objects) /\
  ((exists r o, In r objects /\ nth_error (heap s) r = Some o /\ material o = None) ->
   fst (saveSceneToJSON objects sketches s)
   = Throw (TypeError "Cannot read properties of undefined (reading 'color')")).
Proof.
  intros Hlive. split; [apply saveSceneToJSON_state|].
  destruct (@serializeObjects_total s objects Hlive 0) as [Hiff Hthrow].
  unfold saveSceneToJSON, bind.
  destruct (serializeObjects 0 objects s) as [[ds|e] s1] eqn:E; simpl in *.
  - split; [split|].
    + intros _. apply Hiff. now exists ds.
    + intros _. now eexists.
    + intros H. apply Hthrow in H. discriminate.
  - split; [split|].
    + intros [d Hd]. discriminate.
    + intros HF. apply Hiff in HF. destruct HF as [ds Hds]. discriminate.
    + intros H. apply Hthrow in H. now inversion H.
Qed.

Lemma saveSceneToJSON_succeeds_iff_witness :
  snd (saveSceneToJSON (objectsRef Session.grouped) (sketchesRef Session.grouped) Session.grouped)
  = Session.grouped /\
  ((exists d, fst (saveSceneToJSON (objectsRef Session.grouped) (sketchesRef Session.grouped)
                                   Session.grouped) = Ok d) <->
   Forall (fun r => exists o, nth_error (heap Session.grouped) r = Some o /\ material o <> None)
          (objectsRef Session.grouped)) /\
  ((exists r o, In r (objectsRef Session.grouped) /\
                nth_error (heap Session.grouped) r = Some o /\ material o = None) ->
   fst (saveSceneToJSON (objectsRef Session.grouped) (sketchesRef Session.grouped) Session.grouped)
   = Throw (TypeError "Cannot read properties of undefined (reading 'color')")).
Proof.
  apply (@saveSceneToJSON_succeeds_iff Session.grouped (objectsRef Session.grouped)
           (sketchesRef Session.grouped)).
  vm_compute. repeat constructor.
Defined.

Lemma serializeObjects_ids (s : State) (objects : list nat) : forall index ds,
  fst (serializeObjects index objects s) = Ok ds ->
  map od_id ds = seq index (List.length objects).
Proof.
  induction objects as [|r rest IH]; intros index ds; simpl.
  - intros H. inversion H. reflexivity.
  - unfold bind, deref. destruct (nth_error (heap s) r) as [o|]; [|discriminate].
    pose proof (serializeObject_state index o s) as Hst.
    destruct (serializeObject index o s) as [[d|e] s1] eqn:Ed; [|discriminate].
    simpl in Hst. subst s1.
    specialize (IH (S index)).
    destruct (serializeObjects (S index) rest s) as [[ds'|e] s2]; [|discriminate].
    simpl. intros H. inversion H; subst. simpl. f_equal; [|now apply IH].
    unfold serializeObject in Ed. destruct (material o); [|discriminate].
    repeat match type of Ed with context [if ?c then _ else _] => destruct c end;
      inversion Ed; reflexivity.
Qed.

Lemma serializeSketches_ids (sketches : list Sketch) : forall index,
  map sk_id (serializeSketches index sketches) = map Some (seq index (List.length sketches)) /\
  map sk_type (serializeSketches index sketches) = map sk_type sketches.
Proof.
  induction sketches as [|k rest IH]; intros index; [now split|].
  destruct (IH (S index)) as [H1 H2]. simpl. rewrite H1, H2.
  unfold serializeSketch.
  destruct (type_is (sk_type k) "rectangle"); [|destruct (type_is (sk_type k) "circle")];
    now split.
Qed.

(** The document [saveSceneToJSON] returns is of version ['1.0'] and lists
    every object and every sketch once, in the order of the two lists,
    each with its position in the list as [id]; a sketch keeps its
    [type]. *)
Theorem saveSceneToJSON_ids (s : State) (objects : list nat) (sketches : list Sketch)
        (d : SceneData) :
  fst (saveSceneToJSON objects sketches s) = Ok d ->
  sd_version d = Some "1.0" /\
  option_map (map od_id) (sd_objects d) = Some (seq 0 (List.length objects)) /\
  option_map (map sk_id) (sd_sketches d) = Some (map Some (seq 0 (List.length sketches))) /\
  option_map (map sk_type) (sd_sketches d) = Some (map sk_type sketches).
Proof.
  unfold saveSceneToJSON, bind.
  pose proof (serializeObjects_ids s objects 0) as Hids.
  destruct (serializeObjects 0 objects s) as [[ds|e] s1]; [|discriminate].
  simpl. intros H. inversion H; subst. simpl.
  destruct (serializeSketches_ids sketches 0) as [H1 H2].
  rewrite (Hids ds eq_refl), H1, H2. repeat split.
Qed.

Lemma saveSceneToJSON_ids_witness :
  exists d,
    fst (saveSceneToJSON (objectsRef Gallery.scene) (sketchesRef Gallery.scene) Gallery.scene) = Ok d /\
    sd_version d = Some "1.0" /\
    option_map (map od_id) (sd_objects d) = Some [0; 1; 2; 3]%nat /\
    option_map (map sk_id) (sd_sketches d) = Some [Some 0%nat] /\
    option_map (map sk_type) (sd_sketches d) = Some [Some "circle"].
Proof.
  eexists. split; [vm_compute; reflexivity|].
  apply (@saveSceneToJSON_ids Gallery.scene [0; 1; 2; 3]%nat [Gallery.circleAt 0 (-3) 2]).
  vm_compute. reflexivity.
Defined.


(** ** Loading ([loadSceneFromJSON]) *)

(** The four types the [switch] of the loader has a [case] for. *)
Definition known (objData : ObjData) : bool :=
  type_is (od_type objData) "box" || type_is (od_type objData) "sphere" ||
  type_is (od_type objData) "cylinder" || type_is (od_type objData) "extruded".

(** The shape built for a record: of the record's type; its position and
    its scale are what [Vector3.set] makes of the record's on the vector
    of a new mesh (the origin, resp. the unit scale: so [z] stays 0, resp.
    1, where the record gives none), or that vector untouched where the
    record has no such member; its rotation is the record's, or zero. *)
Definition placed (given : option Vector3) (initial : Vector3) : Vector3 :=
  match given with
  | Some v => Vector3_set (vx v) (vy v) (vz v) initial
  | None => initial
  end.

Definition loadedFrom (objData : ObjData) (shape : Object3D) : Prop :=
  ud_type (userData shape) = od_type objData /\
  position shape = placed (od_position objData) (vec3 (Num 0) (Num 0) (Num 0)) /\
  rotation shape = match od_rotation objData with
                   | Some r => r
                   | None => vec3 (Num 0) (Num 0) (Num 0)
                   end /\
  scale shape = placed (od_scale objData) (vec3 (Num 1) (Num 1) (Num 1)).

Definition warnings (objects : list ObjData) : list LogEntry :=
  map (fun objData => console_warn "Unknown object type:" (od_type objData))
      (filter (fun objData => negb (known objData)) objects).

Lemma type_is_eq t name : type_is t name = true -> t = Some name.
Proof.
  destruct t as [x|]; [|discriminate]. simpl. intros H. apply String.eqb_eq in H. now subst.
Qed.

Section LoadKinds.
Context {three : ThreeJS}.

Lemma updateShapeGeometry_frame (sh : Object3D) :
  ud_type (userData (updateShapeGeometry sh)) = ud_type (userData sh) /\
  position (updateShapeGeometry sh) = position sh /\
  rotation (updateShapeGeometry sh) = rotation sh /\
  scale (updateShapeGeometry sh) = scale sh.
Proof.
  unfold updateShapeGeometry. destruct (geometry sh); repeat split.
Qed.

Lemma applyColor_frame (md : option MaterialData) (sh : Object3D) :
  ud_type (userData (applyColor md sh)) = ud_type (userData sh) /\
  position (applyColor md sh) = position sh /\
  rotation (applyColor md sh) = rotation sh /\
  scale (applyColor md sh) = scale sh.
Proof.
  unfold applyColor. destruct md as [[[c|]]|]; try (repeat split; fail).
  destruct (Z.eqb c 0); [repeat split|]. destruct (material sh); repeat split.
Qed.

Lemma applyTransforms_loadedFrom objData shape :
  ud_type (userData shape) = od_type objData ->
  position shape = vec3 (Num 0) (Num 0) (Num 0) ->
  rotation shape = vec3 (Num 0) (Num 0) (Num 0) ->
  scale shape = vec3 (Num 1) (Num 1) (Num 1) ->
  loadedFrom objData (updateShapeGeometry (applyTransforms objData shape)).
Proof.
  intros Ht Hp Hr Hk.
  unfold loadedFrom, applyTransforms, placed.
  match goal with
  | |- context [updateShapeGeometry ?sh] =>
      destruct (updateShapeGeometry_frame sh) as (-> & -> & -> & ->)
  end.
  match goal with
  | |- context [applyColor ?md ?sh] => destruct (applyColor_frame md sh) as (-> & -> & -> & ->)
  end.
  destruct (od_position objData), (od_rotation objData), (od_scale objData); simpl;
    rewrite ?Hp, ?Hr, ?Hk; repeat split; exact Ht.
Qed.

(** One object record: a warning, a shape, or a throw that leaves the
    state as it was. *)
Lemma loadObject_cases objData s :
  (known objData = false /\
   loadObject objData s
   = (Ok tt, loadEffect [] [] [console_warn "Unknown object type:" (od_type objData)] s)) \/
  (known objData = true /\
   exists shape, loadObject objData s = (Ok tt, loadEffect [shape] [] [] s) /\
                 loadedFrom objData shape) \/
  (known objData = true /\ exists e, loadObject objData s = (Throw e, s)).
Proof.
  unfold known, loadObject, constructShape.
  destruct (type_is (od_type objData) "box") eqn:Eb.
  { right; left. split; [reflexivity|]. eexists. split.
    - unfold bind at 1. simpl. apply publish_run.
    - apply applyTransforms_loadedFrom; try reflexivity. symmetry. now apply type_is_eq. }
  destruct (type_is (od_type objData) "sphere") eqn:Es.
  { right; left. split; [reflexivity|]. eexists. split.
    - unfold bind at 1. simpl. apply publish_run.
    - apply applyTransforms_loadedFrom; try reflexivity. symmetry. now apply type_is_eq. }
  destruct (type_is (od_type objData) "cylinder") eqn:Ec.
  { right; left. split; [reflexivity|]. eexists. split.
    - unfold bind at 1. simpl. apply publish_run.
    - apply applyTransforms_loadedFrom; try reflexivity. symmetry. now apply type_is_eq. }
  destruct (type_is (od_type objData) "extruded") eqn:Ee.
  - right. unfold bind at 1, bind at 1, recreateExtrudedShape.
    destruct (od_sketchData objData) as [sd|]; [|right; split; [reflexivity | eexists; reflexivity]].
    destruct (type_is (sk_type sd) "rectangle");
      [| destruct (type_is (sk_type sd) "circle")].
    + left. split; [reflexivity|]. eexists. split; [simpl; apply publish_run|].
      apply applyTransforms_loadedFrom; try reflexivity. symmetry.
      unfold updateShapeGeometry. simpl. now apply type_is_eq.
    + left. split; [reflexivity|]. eexists. split; [simpl; apply publish_run|].
      apply applyTransforms_loadedFrom; try reflexivity. symmetry.
      unfold updateShapeGeometry. simpl. now apply type_is_eq.
    + right. split; [reflexivity | eexists; reflexivity].
  - left. split; [reflexivity|].
    unfold bind, log, modify, loadEffect. destruct s; simpl. now rewrite !app_nil_r.
Qed.

Lemma forEach_loadObject_Ok (objects : list ObjData) : forall s s',
  forEach objects loadObject s = (Ok tt, s') ->
  exists shapes,
    s' = loadEffect shapes [] (warnings objects) s /\
    Forall2 loadedFrom (filter known objects) shapes.
Proof.
  induction objects as [|objData rest IH]; intros s s'; simpl.
  - intros H. inversion H. exists []. split; [now rewrite loadEffect_nil | constructor].
  - unfold bind at 1.
    destruct (loadObject_cases objData s) as [(Hk & ->)|[(Hk & shape & -> & Hl)|(Hk & e & ->)]];
      [| |discriminate]; intros H; apply IH in H; destruct H as (shapes & -> & HF).
    + exists shapes. unfold warnings. simpl. rewrite Hk. simpl.
      split; [now rewrite loadEffect_compose | exact HF].
    + exists (shape :: shapes). unfold warnings. simpl. rewrite Hk. simpl.
      split; [now rewrite loadEffect_compose | now constructor].
Qed.

Lemma loadSketch_cases sketchData s :
  (exists sketch, loadSketch sketchData s = (Ok tt, loadEffect [] [sketch] [] s) /\
                  sk_type sketch = sk_type sketchData) \/
  (exists e, loadSketch sketchData s = (Throw e, s)).
Proof.
  unfold loadSketch.
  destruct (type_is (sk_type sketchData) "rectangle");
    [| destruct (type_is (sk_type sketchData) "circle")];
    try (destruct (sk_center sketchData) as [c|]; [|right; eexists; reflexivity]);
    left; eexists; (split; [unfold bind; simpl; apply pushSketch_run | reflexivity]).
Qed.

Lemma forEach_loadSketch_Ok (sketches : list Sketch) : forall s s',
  forEach sketches loadSketch s = (Ok tt, s') ->
  exists loaded,
    s' = loadEffect [] loaded [] s /\ map sk_type loaded = map sk_type sketches.
Proof.
  induction sketches as [|sketchData rest IH]; intros s s'; simpl.
  - intros H. inversion H. exists []. split; [now rewrite loadEffect_nil | reflexivity].
  - unfold bind at 1.
    destruct (loadSketch_cases sketchData s) as [(sketch & -> & Ht)|(e & ->)]; [|discriminate].
    intros H. apply IH in H. destruct H as (loaded & -> & Hl).
    exists (sketch :: loaded). split; [now rewrite loadEffect_compose|].
    simpl. now rewrite Ht, Hl.
Qed.

End LoadKinds.

Definition objectsOf (data : SceneData) : list ObjData :=
  match sd_objects data with
  | Some objects => objects
  | None => []
  end.

Definition sketchesOf (data : SceneData) : list Sketch :=
  match sd_sketches data with
  | Some sketches => sketches
  | None => []
  end.

(** A load that runs to its end replaces the store by one new shape per
    object record of a known type, in the order of the records, each of
    the record's type, with the rotation the record gives and with the
    position and the scale that [Vector3.set] makes of the record's ([x]
    and [y] as given, [z] as given or, where the record has none, the 0
    of a new mesh's position and the 1 of its scale); it logs one warning
    per record of another type, and nothing else; and it replaces the
    sketch list by one sketch per sketch record, of the record's type,
    whatever that type is. *)
Theorem loadSceneFromJSON_kinds {three : ThreeJS} (data : SceneData) (s s' : State) :
  loadSceneFromJSON data s = (Ok tt, s') ->
  exists shapes,
    heap s' = heap s ++ shapes /\
    objectsRef s' = seq (List.length (heap s)) (List.length shapes) /\
    Forall2 loadedFrom (filter known (objectsOf data)) shapes /\
    console s' = console s ++ warnings (objectsOf data) /\
    map sk_type (sketchesRef s') = map sk_type (sketchesOf data).
Proof.
  rewrite loadSceneFromJSON_resets. unfold loadEntries, bind, objectsOf, sketchesOf.
  set (s0 := set_sketchesRef [] (set_objectsRef [] s)).
  assert (Hobj : forall s1, match sd_objects data with
                            | Some objects => forEach objects loadObject
                            | None => ret tt
                            end s0 = (Ok tt, s1) ->
                 exists shapes,
                   s1 = loadEffect shapes [] (warnings match sd_objects data with
                                                       | Some objects => objects
                                                       | None => []
                                                       end) s0 /\
                   Forall2 loadedFrom (filter known match sd_objects data with
                                                    | Some objects => objects
                                                    | None => []
                                                    end) shapes).
  { intros s1. destruct (sd_objects data) as [objects|].
    - apply forEach_loadObject_Ok.
    - intros H. inversion H. exists []. split; [now rewrite loadEffect_nil | constructor]. }
  destruct (match sd_objects data with
            | Some objects => forEach objects loadObject
            | None => ret tt
            end s0) as [[[]|e] s1]; [|discriminate].
  destruct (Hobj s1 eq_refl) as (shapes & -> & HF). clear Hobj.
  intros Hsk.
  assert (exists loaded,
             s' = loadEffect [] loaded [] (loadEffect shapes [] (warnings match sd_objects data with
                                                       | Some objects => objects
                                                       | None => []
                                                       end) s0) /\
             map sk_type loaded = map sk_type match sd_sketches data with
                                              | Some sketches => sketches
                                              | None => []
                                              end) as (loaded & -> & Hl).
  { destruct (sd_sketches data) as [sketches|].
    - now apply forEach_loadSketch_Ok.
    - inversion Hsk. exists []. split; [now rewrite loadEffect_nil | reflexivity]. }
  exists shapes. rewrite loadEffect_compose. subst s0. destruct s. simpl.
  rewrite !app_nil_r. repeat split; [exact HF | exact Hl].
Qed.

Lemma loadSceneFromJSON_kinds_witness :
  let s' := snd (loadSceneFromJSON (three := Sample.three) Gallery.document Session.twoShapes) in
  exists shapes,
    heap s' = heap Session.twoShapes ++ shapes /\
    objectsRef s' = seq (List.length (heap Session.twoShapes)) (List.length shapes) /\
    Forall2 loadedFrom (filter known (objectsOf Gallery.document)) shapes /\
    console s' = console Session.twoShapes ++ warnings (objectsOf Gallery.document) /\
    map sk_type (sketchesRef s') = map sk_type (sketchesOf Gallery.document).
Proof.
  cbv zeta.
  apply (@loadSceneFromJSON_kinds Sample.three Gallery.document Session.twoShapes).
  vm_compute. reflexivity.
Defined.


(** The record [objData] without its [material] member. *)
Definition withoutMaterial (objData : ObjData) : ObjData :=
  {| od_id := od_id objData; od_type := od_type objData;
     od_position := od_position objData; od_rotation := od_rotation objData;
     od_scale := od_scale objData; od_material := None;
     od_dimensions := od_dimensions objData; od_radius := od_radius objData;
     od_height := od_height objData; od_extrusionHeight := od_extrusionHeight objData;
     od_sketchData := od_sketchData objData |}.

(** The colour [0] (black) of a record is not applied: the record loads
    as the same record without a [material] member does, so a box, a
    sphere or a cylinder comes out in the colour its builder gives it. *)
Theorem loadObject_black {three : ThreeJS} (objData : ObjData) (s : State) :
  od_material objData = Some {| md_color := Some 0%Z |} ->
  loadObject objData s = loadObject (withoutMaterial objData) s /\
  (type_is (od_type objData) "box" || type_is (od_type objData) "sphere" ||
   type_is (od_type objData) "cylinder" = true ->
   exists shape,
     loadObject objData s = (Ok tt, loadEffect [shape] [] [] s) /\
     option_map color (material shape)
     = Some (if type_is (od_type objData) "box" then 2200782%Z
             else if type_is (od_type objData) "sphere" then 13378074%Z
             else 2280567%Z)).
Proof.
  intros Hm.
  assert (Hcol : forall shape, applyTransforms objData shape
                               = applyTransforms (withoutMaterial objData) shape).
  { intros shape. unfold applyTransforms. rewrite Hm. reflexivity. }
  assert (Hmat : forall shape, material (updateShapeGeometry (applyTransforms (withoutMaterial objData) shape))
                               = material shape).
  { intros shape. rewrite updateShapeGeometry_material. unfold applyTransforms. simpl.
    destruct (od_position objData), (od_rotation objData), (od_scale objData); reflexivity. }
  split.
  - unfold loadObject, constructShape, recreateExtrudedShape. simpl.
    destruct (type_is (od_type objData) "box"); [unfold bind; simpl; now rewrite Hcol|].
    destruct (type_is (od_type objData) "sphere"); [unfold bind; simpl; now rewrite Hcol|].
    destruct (type_is (od_type objData) "cylinder"); [unfold bind; simpl; now rewrite Hcol|].
    destruct (type_is (od_type objData) "extruded"); [|reflexivity].
    unfold bind. destruct (od_sketchData objData) as [sd|]; [|reflexivity].
    destruct (type_is (sk_type sd) "rectangle"); [simpl; now rewrite Hcol|].
    destruct (type_is (sk_type sd) "circle"); [simpl; now rewrite Hcol|reflexivity].
  - intros Ht. unfold loadObject, constructShape.
    destruct (type_is (od_type objData) "box");
      [| destruct (type_is (od_type objData) "sphere");
         [| destruct (type_is (od_type objData) "cylinder"); [|discriminate]]];
      (eexists; split; [unfold bind at 1; simpl; apply publish_run|]);
      rewrite Hcol, Hmat; reflexivity.
Qed.

Lemma loadObject_black_witness :
  let black := {| od_id := 0; od_type := Some "sphere"; od_position := None;
                  od_rotation := None; od_scale := None;
                  od_material := Some {| md_color := Some 0%Z |};
                  od_dimensions := None; od_radius := Num 2; od_height := Undefined;
                  od_extrusionHeight := Undefined; od_sketchData := None |} in
  loadObject (three := Sample.three) black initialState
  = loadObject (three := Sample.three) (withoutMaterial black) initialState /\
  (true = true ->
   exists shape,
     loadObject (three := Sample.three) black initialState
     = (Ok tt, loadEffect [shape] [] [] initialState) /\
     option_map color (material shape) = Some 13378074%Z).
Proof.
  cbv zeta.
  apply (@loadObject_black Sample.three
           {| od_id := 0; od_type := Some "sphere"; od_position := None;
              od_rotation := None; od_scale := None;
              od_material := Some {| md_color := Some 0%Z |};
              od_dimensions := None; od_radius := Num 2; od_height := Undefined;
              od_extrusionHeight := Undefined; od_sketchData := None |} initialState).
  reflexivity.
Defined.

Section LoadAbort.
Context {three : ThreeJS}.

Lemma forEach_loadObject_bound (objects : list ObjData) : forall s,
  sketchesRef (snd (forEach objects loadObject s)) = sketchesRef s /\
  List.length (objectsRef (snd (forEach objects loadObject s)))
  <= List.length (objectsRef s) + List.length objects.
Proof.
  induction objects as [|objData rest IH]; intros s; simpl; [split; [reflexivity | lia]|].
  unfold bind.
  destruct (loadObject_cases objData s) as [(Hk & ->)|[(Hk & shape & -> & Hl)|(Hk & e & ->)]].
  - destruct (IH (loadEffect [] [] [console_warn "Unknown object type:" (od_type objData)] s))
      as [H1 H2].
    rewrite H1. split; [destruct s; simpl; now rewrite app_nil_r|].
    etransitivity; [exact H2|]. destruct s; simpl. rewrite !length_app. simpl. lia.
  - destruct (IH (loadEffect [shape] [] [] s)) as [H1 H2].
    rewrite H1. split; [destruct s; simpl; now rewrite app_nil_r|].
    etransitivity; [exact H2|]. destruct s; simpl. rewrite !length_app. simpl. lia.
  - simpl. split; [reflexivity | lia].
Qed.

Lemma forEach_app {A} (f : A -> M unit) (l1 l2 : list A) s :
  forEach (l1 ++ l2) f s =
  match forEach l1 f s with
  | (Ok _, s1) => forEach l2 f s1
  | (Throw e, s1) => (Throw e, s1)
  end.
Proof.
  revert s. induction l1 as [|a l1 IH]; intros s; simpl; [reflexivity|].
  unfold bind. destruct (f a s) as [[[]|e] s1]; [apply IH | reflexivity].
Qed.

End LoadAbort.

(** An [extruded] record that has no [sketchData], or whose [sketchData]
    is neither a rectangle nor a circle, makes the load throw at that
    record: no record after it is read, so the store holds at most the
    shapes of the records before it and the sketch list stays empty. *)
Theorem loadSceneFromJSON_extruded_without_outline {three : ThreeJS}
        (data : SceneData) (before after : list ObjData) (bad : ObjData) (s : State) :
  sd_objects data = Some (before ++ bad :: after) ->
  type_is (od_type bad) "extruded" = true ->
  match od_sketchData bad with
  | None => True
  | Some sketchData => type_is (sk_type sketchData) "rectangle" = false /\
                       type_is (sk_type sketchData) "circle" = false
  end ->
  exists e,
    fst (loadSceneFromJSON data s) = Throw e /\
    sketchesRef (snd (loadSceneFromJSON data s)) = [] /\
    List.length (objectsRef (snd (loadSceneFromJSON data s))) <= List.length before.
Proof.
  intros Hd Ht Hsd.
  assert (Hbad : forall s1, exists e, loadObject bad s1 = (Throw e, s1)).
  { intros s1. unfold loadObject, constructShape.
    assert (E : od_type bad = Some "extruded") by now apply type_is_eq.
    rewrite E. simpl. unfold bind, recreateExtrudedShape.
    destruct (od_sketchData bad) as [sd|]; [|eexists; reflexivity].
    destruct Hsd as [-> ->]. eexists; reflexivity. }
  rewrite loadSceneFromJSON_resets. unfold loadEntries. rewrite Hd.
  set (s0 := set_sketchesRef [] (set_objectsRef [] s)).
  unfold bind at 1 2 3. rewrite forEach_app.
  destruct (forEach_loadObject_bound before s0) as [H1 H2].
  destruct (forEach before loadObject s0) as [[[]|e] s1] eqn:E; simpl in *.
  - destruct (Hbad s1) as [e He]. unfold bind. rewrite He. simpl.
    exists e. repeat split; [exact H1 | exact H2].
  - exists e. repeat split; [exact H1 | exact H2].
Qed.

Lemma loadSceneFromJSON_extruded_without_outline_witness :
  let bad := {| od_id := 1; od_type := Some "extruded"; od_position := None;
                od_rotation := None; od_scale := None; od_material := None;
                od_dimensions := None; od_radius := Undefined; od_height := Undefined;
                od_extrusionHeight := Num 2; od_sketchData := None |} in
  let data := {| sd_version := Some "1.0";
                 sd_objects := Some (objectsOf Gallery.document ++ bad :: objectsOf Gallery.document);
                 sd_sketches := sd_sketches Gallery.document |} in
  exists e,
    fst (loadSceneFromJSON (three := Sample.three) data Session.twoShapes) = Throw e /\
    sketchesRef (snd (loadSceneFromJSON (three := Sample.three) data Session.twoShapes)) = [] /\
    List.length (objectsRef (snd (loadSceneFromJSON (three := Sample.three) data Session.twoShapes)))
    <= List.length (objectsOf Gallery.document).
Proof.
  cbv zeta.
  apply (@loadSceneFromJSON_extruded_without_outline Sample.three _
           (objectsOf Gallery.document) (objectsOf Gallery.document)
           {| od_id := 1; od_type := Some "extruded"; od_position := None;
              od_rotation := None; od_scale := None; od_material := None;
              od_dimensions := None; od_radius := Undefined; od_height := Undefined;
              od_extrusionHeight := Num 2; od_sketchData := None |} Session.twoShapes).
  - reflexivity.
  - reflexivity.
  - exact I.
Defined.

(** ** Import and export *)

(** [importHandler] always completes: a text that does not parse and a
    load that throws are caught and reported on the console.  It never
    touches the undo stack, the redo stack or the multi-selection set, and
    it does not assign the selection refs; every object that was live
    stays in the heap unchanged.  On a text that does not parse the only
    change is the console line. *)
Theorem importHandler_frame {three : ThreeJS} (parsed : option SceneData) (s : State) :
  fst (importHandler parsed s) = Ok tt /\
  undoStackRef (snd (importHandler parsed s)) = undoStackRef s /\
  redoStackRef (snd (importHandler parsed s)) = redoStackRef s /\
  multiSelectedRef (snd (importHandler parsed s)) = multiSelectedRef s /\
  selectedEntityRef (snd (importHandler parsed s)) = selectedEntityRef s /\
  selectedTypeRef (snd (importHandler parsed s)) = selectedTypeRef s /\
  firstn (List.length (heap s)) (heap (snd (importHandler parsed s))) = heap s /\
  (parsed = None ->
   snd (importHandler parsed s)
   = set_console (console s ++ [console_error "Failed to import scene:"]) s).
Proof.
  unfold importHandler, try_catch.
  destruct parsed as [data|].
  - unfold bind. rewrite (loadSceneFromJSON_frame data s).
    destruct (fst (loadSceneFromJSON data initialState)) as [[]|e];
      destruct s; simpl; rewrite firstn_app, firstn_all, Nat.sub_diag; simpl;
      rewrite app_nil_r; repeat split; discriminate.
  - destruct s; simpl. rewrite firstn_all. repeat split.
Qed.


(** ** Grouping and ungrouping *)

(** The members of the multi-selection set the group handler works on:
    with fewer than two members, the primary selection joins the set when
    it is a shape of the store. *)
Definition groupMembers (s : State) : list nat :=
  if Nat.ltb (List.length (multiSelectedRef s)) 2 then
    match selectedEntityRef s with
    | Some (ShapeRef primary) =>
        if includes (objectsRef s) primary && negb (includes (multiSelectedRef s) primary)
        then Set_add (multiSelectedRef s) primary
        else multiSelectedRef s
    | _ => multiSelectedRef s
    end
  else multiSelectedRef s.

Lemma filter_filter_andb {A} (f g : A -> bool) (l : list A) :
  filter f (filter g l) = filter (fun x => g x && f x) l.
Proof.
  induction l as [|a l IH]; [reflexivity|]. simpl.
  destruct (g a); simpl; [destruct (f a)|]; now rewrite IH.
Qed.

(** *** Assigning to one element of the heap *)

Lemma assigned_length {A} (l : list A) (i : nat) (x : A) :
  i < List.length l -> List.length (firstn i l ++ [x] ++ skipn (S i) l) = List.length l.
Proof.
  intros H. rewrite !length_app, length_firstn, length_skipn. simpl. lia.
Qed.

Lemma assigned_same {A} (l : list A) (i : nat) (x : A) :
  i < List.length l -> nth_error (firstn i l ++ [x] ++ skipn (S i) l) i = Some x.
Proof.
  intros H. rewrite nth_error_app2 by (rewrite length_firstn; lia).
  rewrite length_firstn, Nat.min_l, Nat.sub_diag by lia. reflexivity.
Qed.

Lemma assigned_other {A} (l : list A) (i j : nat) (x : A) :
  i < List.length l -> j <> i ->
  nth_error (firstn i l ++ [x] ++ skipn (S i) l) j = nth_error l j.
Proof.
  intros H Hne. destruct (Nat.lt_ge_cases j i) as [Hlt|Hge].
  - rewrite nth_error_app1 by (rewrite length_firstn; lia).
    rewrite nth_error_firstn. replace (Nat.ltb j i) with true by (symmetry; now apply Nat.ltb_lt).
    reflexivity.
  - rewrite nth_error_app2 by (rewrite length_firstn; lia).
    rewrite length_firstn, Nat.min_l by lia.
    destruct (j - i) as [|k] eqn:E; [lia|].
    change (nth_error ([x] ++ skipn (S i) l) (S k)) with (nth_error (skipn (S i) l) k).
    rewrite nth_error_skipn. f_equal. lia.
Qed.

Lemma modifyObject_run (r : nat) (f : Object3D -> Object3D) (s : State) (o : Object3D) :
  nth_error (heap s) r = Some o ->
  modifyObject r f s = (Ok tt, set_heap (firstn r (heap s) ++ [f o] ++ skipn (S r) (heap s)) s).
Proof. intros H. unfold modifyObject, bind, deref, modify. now rewrite H. Qed.

Lemma heap_set_heap (v : list Object3D) (s : State) : heap (set_heap v s) = v.
Proof. reflexivity. Qed.

(** The fields of the state other than the heap and the store. *)
Definition besidesStore (s : State) : State := set_heap [] (set_objectsRef [] s).

(** The shape and the contents of an object, its placement apart. *)
Definition sameShape (o o' : Object3D) : Prop :=
  isGroup o' = isGroup o /\ material o' = material o /\ geometry o' = geometry o /\
  userData o' = userData o /\ children o' = children o.

Lemma sameShape_refl (o : Object3D) : sameShape o o.
Proof. repeat split. Qed.

Lemma sameShape_trans (a b c : Object3D) : sameShape a b -> sameShape b c -> sameShape a c.
Proof. unfold sameShape. intuition congruence. Qed.

Section Group.
Context {graph : SceneGraph}.

Lemma sameShape_attachedTo (parent o : Object3D) : sameShape o (attachedTo parent o).
Proof. unfold sameShape, attachedTo. destruct (attached parent o) as [[p r] k]. repeat split. Qed.

(** The heap after one round of the loop of [groupSelectedHandler], for
    the group at [g] and the member [obj]. *)
Definition attachOne (g obj : nat) (h : list Object3D) : list Object3D :=
  match nth_error h g with
  | None => h
  | Some parent =>
      let h1 := match nth_error h obj with
                | Some o => firstn obj h ++ [attachedTo parent o] ++ skipn (S obj) h
                | None => h
                end in
      match nth_error h1 g with
      | Some grp => firstn g h1 ++ [set_children (children grp ++ [obj]) grp] ++ skipn (S g) h1
      | None => h1
      end
  end.

Definition attachAll (g : nat) (members : list nat) (h : list Object3D) : list Object3D :=
  fold_left (fun h obj => attachOne g obj h) members h.

Lemma attachOne_length (g obj : nat) (h : list Object3D) :
  List.length (attachOne g obj h) = List.length h.
Proof.
  unfold attachOne. destruct (nth_error h g) as [parent|] eqn:Eg; [|reflexivity].
  assert (Hg : g < List.length h) by (apply nth_error_Some; rewrite Eg; discriminate).
  cbv zeta.
  destruct (nth_error h obj) as [o|] eqn:Eo.
  - assert (Ho : obj < List.length h) by (apply nth_error_Some; rewrite Eo; discriminate).
    match goal with |- context [nth_error ?h1 g] => destruct (nth_error h1 g) eqn:E1 end.
    + rewrite assigned_length; rewrite assigned_length; auto.
    + now apply assigned_length.
  - rewrite Eg. now apply assigned_length.
Qed.

Lemma attachOne_other (g obj r : nat) (h : list Object3D) :
  r <> obj -> r <> g -> nth_error (attachOne g obj h) r = nth_error h r.
Proof.
  intros Hro Hrg. unfold attachOne.
  destruct (nth_error h g) as [parent|] eqn:Eg; [|reflexivity].
  assert (Hg : g < List.length h) by (apply nth_error_Some; rewrite Eg; discriminate).
  cbv zeta.
  destruct (nth_error h obj) as [o|] eqn:Eo.
  - assert (Ho : obj < List.length h) by (apply nth_error_Some; rewrite Eo; discriminate).
    match goal with |- context [nth_error ?h1 g] => destruct (nth_error h1 g) eqn:E1 end.
    + rewrite assigned_other by (rewrite ?assigned_length; auto).
      now apply assigned_other.
    + now apply assigned_other.
  - rewrite Eg. now apply assigned_other.
Qed.

Lemma attachOne_group (g obj : nat) (h : list Object3D) (grp : Object3D) :
  nth_error h g = Some grp ->
  exists grp',
    nth_error (attachOne g obj h) g = Some grp' /\
    children grp' = children grp ++ [obj] /\
    isGroup grp' = isGroup grp /\ material grp' = material grp /\
    userData grp' = userData grp /\
    (obj <> g -> grp' = set_children (children grp ++ [obj]) grp).
Proof.
  intros Eg. unfold attachOne. rewrite Eg.
  assert (Hg : g < List.length h) by (apply nth_error_Some; rewrite Eg; discriminate).
  cbv zeta.
  destruct (nth_error h obj) as [o|] eqn:Eo.
  - assert (Ho : obj < List.length h) by (apply nth_error_Some; rewrite Eo; discriminate).
    destruct (Nat.eq_dec obj g) as [->|Hne].
    + rewrite Eg in Eo. inversion Eo; subst o.
      rewrite assigned_same by exact Hg.
      eexists. split; [apply assigned_same; now rewrite assigned_length|].
      destruct (sameShape_attachedTo grp grp) as (Hi & Hm & _ & Hu & Hc).
      simpl. rewrite Hc, Hi, Hm, Hu. repeat split. intros Hx. now destruct Hx.
    + rewrite assigned_other, Eg by auto.
      eexists. split; [apply assigned_same; now rewrite assigned_length|].
      repeat split.
  - rewrite Eg. eexists. split; [now apply assigned_same|]. repeat split.
Qed.

Lemma attachOne_member (g obj : nat) (h : list Object3D) (grp o : Object3D) :
  nth_error h g = Some grp -> obj <> g -> nth_error h obj = Some o ->
  nth_error (attachOne g obj h) obj = Some (attachedTo grp o).
Proof.
  intros Eg Hne Eo. unfold attachOne. rewrite Eg, Eo.
  assert (Hg : g < List.length h) by (apply nth_error_Some; rewrite Eg; discriminate).
  assert (Ho : obj < List.length h) by (apply nth_error_Some; rewrite Eo; discriminate).
  cbv zeta. rewrite assigned_other, Eg by auto.
  rewrite assigned_other by (rewrite ?assigned_length; auto).
  now apply assigned_same.
Qed.

Lemma attachOne_sameShape (g obj r : nat) (h : list Object3D) (o : Object3D) :
  r <> g -> nth_error h r = Some o ->
  exists o', nth_error (attachOne g obj h) r = Some o' /\ sameShape o o'.
Proof.
  intros Hrg Er.
  destruct (nth_error h g) as [grp|] eqn:Eg.
  - destruct (Nat.eq_dec r obj) as [->|Hro].
    + eexists. split; [apply (@attachOne_member g obj h grp o); auto|].
      apply sameShape_attachedTo.
    + exists o. split; [now rewrite attachOne_other | apply sameShape_refl].
  - exists o. unfold attachOne. rewrite Eg. split; [exact Er | apply sameShape_refl].
Qed.

Lemma attachAll_length (g : nat) (members : list nat) : forall h,
  List.length (attachAll g members h) = List.length h.
Proof.
  induction members as [|obj rest IH]; intros h; [reflexivity|].
  unfold attachAll in *. simpl. now rewrite IH, attachOne_length.
Qed.

Lemma attachAll_other (g r : nat) (members : list nat) : forall h,
  ~ In r members -> r <> g -> nth_error (attachAll g members h) r = nth_error h r.
Proof.
  induction members as [|obj rest IH]; intros h Hin Hrg; [reflexivity|].
  unfold attachAll in *. simpl.
  rewrite IH by (auto; intros Hx; apply Hin; now right).
  apply attachOne_other; auto. intros ->. apply Hin. now left.
Qed.

Lemma attachAll_group (g : nat) (members : list nat) : forall h grp,
  nth_error h g = Some grp ->
  exists grp',
    nth_error (attachAll g members h) g = Some grp' /\
    children grp' = children grp ++ members /\
    isGroup grp' = isGroup grp /\ material grp' = material grp /\
    userData grp' = userData grp /\
    (~ In g members -> grp' = set_children (children grp ++ members) grp).
Proof.
  induction members as [|obj rest IH]; intros h grp Eg.
  - exists grp. simpl. rewrite app_nil_r. repeat split; [exact Eg|].
    intros _. now destruct grp.
  - destruct (@attachOne_group g obj h grp Eg) as (grp1 & E1 & Hc1 & Hi1 & Hm1 & Hu1 & Hx1).
    destruct (IH _ _ E1) as (grp' & E' & Hc & Hi & Hm & Hu & Hx).
    exists grp'. unfold attachAll in *. simpl. split; [exact E'|].
    rewrite Hc, Hc1, Hi, Hi1, Hm, Hm1, Hu, Hu1, <- app_assoc. repeat split.
    intros Hin. rewrite Hx by (intros Hy; apply Hin; now right).
    rewrite Hx1 by (intros ->; apply Hin; now left).
    simpl. now rewrite <- app_assoc.
Qed.

Lemma attachAll_sameShape (g r : nat) (members : list nat) : forall h o,
  r <> g -> nth_error h r = Some o ->
  exists o', nth_error (attachAll g members h) r = Some o' /\ sameShape o o'.
Proof.
  induction members as [|obj rest IH]; intros h o Hrg Er.
  - exists o. split; [exact Er | apply sameShape_refl].
  - destruct (@attachOne_sameShape g obj r h o Hrg Er) as (o1 & E1 & S1).
    destruct (IH _ _ Hrg E1) as (o' & E' & S').
    exists o'. split; [exact E' | exact (sameShape_trans S1 S')].
Qed.

(** A member that is in the set once is rewritten once, for the group
    as it is then: with the members before it as its children. *)
Lemma attachAll_member (g r : nat) (before after : list nat) (h : list Object3D)
      (grp o : Object3D) :
  nth_error h g = Some grp -> ~ In g before -> r <> g ->
  ~ In r before -> ~ In r after ->
  nth_error h r = Some o ->
  nth_error (attachAll g (before ++ r :: after) h) r
  = Some (attachedTo (set_children (children grp ++ before) grp) o).
Proof.
  intros Eg Hgb Hrg Hrb Hra Er.
  unfold attachAll. rewrite fold_left_app. simpl.
  fold (attachAll g before h).
  match goal with |- nth_error (fold_left ?f after ?h2) r = _ =>
    change (fold_left f after h2) with (attachAll g after h2) end.
  rewrite attachAll_other by assumption.
  destruct (@attachAll_group g before h grp Eg) as (grp1 & E1 & _ & _ & _ & _ & Hx).
  rewrite Hx in E1 by exact Hgb.
  apply attachOne_member; [exact E1 | exact Hrg |].
  now rewrite attachAll_other.
Qed.

(** One round of the loop of [groupSelectedHandler]. *)
Lemma attach_run (g obj : nat) (s : State) :
  g < List.length (heap s) ->
  (parent <- deref g ;;
   rewriteObject obj (attachedTo parent) ;;
   modifyObject g (fun grp => set_children (children grp ++ [obj]) grp) ;;
   modify (fun s => set_objectsRef
                      (filter (fun o => negb (Nat.eqb o obj)) (objectsRef s)) s)) s
  = (Ok tt,
     set_objectsRef (filter (fun o => negb (Nat.eqb o obj)) (objectsRef s))
                    (set_heap (attachOne g obj (heap s)) s)).
Proof.
  intros Hg.
  destruct (nth_error (heap s) g) as [grp|] eqn:Eg; [|apply nth_error_None in Eg; lia].
  unfold bind at 1. unfold deref at 1. rewrite Eg.
  unfold bind at 1. unfold rewriteObject, modify at 1.
  unfold attachOne. rewrite Eg. cbv zeta.
  destruct (nth_error (heap s) obj) as [o|] eqn:Eo.
  - assert (Ho : obj < List.length (heap s)) by (apply nth_error_Some; rewrite Eo; discriminate).
    match goal with |- context [nth_error ?h1 g] =>
      destruct (nth_error h1 g) as [grp1|] eqn:E1;
      [|apply nth_error_None in E1; rewrite assigned_length in E1 by exact Ho; lia] end.
    unfold bind at 1. erewrite modifyObject_run by (rewrite heap_set_heap; exact E1).
    unfold modify. destruct s; reflexivity.
  - rewrite Eg.
    unfold bind at 1. erewrite modifyObject_run by exact Eg.
    unfold modify. destruct s; reflexivity.
Qed.

(** The loop of [groupSelectedHandler] over the members. *)
Lemma group_loop (g : nat) (members : list nat) : forall (s : State),
  g < List.length (heap s) ->
  forEach members
          (fun obj =>
             parent <- deref g ;;
             rewriteObject obj (attachedTo parent) ;;
             modifyObject g (fun grp => set_children (children grp ++ [obj]) grp) ;;
             modify (fun s => set_objectsRef
                                (filter (fun o => negb (Nat.eqb o obj)) (objectsRef s)) s)) s
  = (Ok tt,
     set_objectsRef (filter (fun o => negb (includes members o)) (objectsRef s))
                    (set_heap (attachAll g members (heap s)) s)).
Proof.
  induction members as [|obj rest IH]; intros s Hg.
  - simpl. unfold ret. f_equal.
    assert (Hf : forall l : list nat, filter (fun _ => true) l = l).
    { induction l as [|a l IHl]; [reflexivity|]. simpl. now rewrite IHl. }
    destruct s; simpl in *. now rewrite Hf.
  - cbn [forEach]. unfold bind at 1.
    rewrite (@attach_run g obj s Hg).
    rewrite IH by (destruct s; simpl in *; now rewrite attachOne_length).
    f_equal. destruct s; unfold set_objectsRef, set_heap, attachAll; simpl. f_equal.
    rewrite filter_filter_andb. apply filter_ext. intros o. unfold includes. simpl.
    now rewrite negb_orb.
Qed.

(** [groupSelectedHandler] after its first [if]. *)
Definition groupSelection : M unit :=
  s <- get ;;
  if Nat.ltb (List.length (multiSelectedRef s)) 2 then ret tt
  else
    group <- alloc (set_userData
                      {| ud_type := Some "group"; ud_dimensions := None;
                         ud_radius := Undefined; ud_height := Undefined;
                         ud_extrusionHeight := Undefined; ud_sketchData := None;
                         ud_faces := None; ud_edges := None |}
                      newGroup) ;;
    pushHistory ;;
    s <- get ;;
    forEach (multiSelectedRef s)
            (fun obj =>
               (* [group.attach(obj)] *)
               parent <- deref group ;;
               rewriteObject obj (attachedTo parent) ;;
               modifyObject group (fun g => set_children (children g ++ [obj]) g) ;;
               modify (fun s => set_objectsRef
                                  (filter (fun o => negb (Nat.eqb o obj)) (objectsRef s)) s)) ;;
    modify (fun s => set_objectsRef (push (objectsRef s) group) s) ;;
    modify (set_multiSelectedRef []) ;;
    select (ShapeRef group) TShape ;;
    dispatchEvent (selectionChanged (Some (ShapeRef group)) (Some TShape)).

Lemma groupSelectedHandler_members (s : State) :
  groupSelectedHandler s = groupSelection (set_multiSelectedRef (groupMembers s) s).
Proof.
  assert (Hs : set_multiSelectedRef (multiSelectedRef s) s = s) by (destruct s; reflexivity).
  unfold groupSelectedHandler, groupMembers. unfold bind at 1, get at 1. unfold bind at 1.
  destruct (Nat.ltb (List.length (multiSelectedRef s)) 2) eqn:E; simpl.
  - destruct (selectedEntityRef s) as [[primary| |]|]; simpl; try (rewrite Hs; reflexivity).
    destruct (includes (objectsRef s) primary && negb (includes (multiSelectedRef s) primary)); simpl.
    + reflexivity.
    + rewrite Hs. reflexivity.
  - rewrite Hs. reflexivity.
Qed.

Lemma set_multiSelectedRef_fields (m : list nat) (s : State) :
  multiSelectedRef (set_multiSelectedRef m s) = m /\
  heap (set_multiSelectedRef m s) = heap s /\
  objectsRef (set_multiSelectedRef m s) = objectsRef s.
Proof. destruct s; repeat split. Qed.

(** The state the group handler returns, with two members or more: the
    state after the history push, with the members attached. *)
Lemma groupSelectedHandler_result (s : State) :
  2 <= List.length (groupMembers s) ->
  exists undo redo logs,
    pushHistory (set_heap (heap s ++ [set_userData
                      {| ud_type := Some "group"; ud_dimensions := None;
                         ud_radius := Undefined; ud_height := Undefined;
                         ud_extrusionHeight := Undefined; ud_sketchData := None;
                         ud_faces := None; ud_edges := None |}
                      newGroup]) (set_multiSelectedRef (groupMembers s) s))
    = (Ok tt, set_console logs
                (set_redoStackRef redo
                   (set_undoStackRef undo
                      (set_heap (heap s ++ [set_userData
                      {| ud_type := Some "group"; ud_dimensions := None;
                         ud_radius := Undefined; ud_height := Undefined;
                         ud_extrusionHeight := Undefined; ud_sketchData := None;
                         ud_faces := None; ud_edges := None |}
                      newGroup]) (set_multiSelectedRef (groupMembers s) s))))) /\
    groupSelectedHandler s
    = (Ok tt,
       set_events (events s ++ [selectionChanged (Some (ShapeRef (List.length (heap s))))
                                                 (Some TShape)])
         (set_selectedType (Some TShape)
            (set_selectedEntity (Some (ShapeRef (List.length (heap s))))
               (set_selectedTypeRef (Some TShape)
                  (set_selectedEntityRef (Some (ShapeRef (List.length (heap s))))
                     (set_multiSelectedRef []
                        (set_objectsRef
                           (filter (fun o => negb (includes (groupMembers s) o)) (objectsRef s)
                            ++ [List.length (heap s)])
                           (set_heap
                              (attachAll (List.length (heap s)) (groupMembers s)
                                 (heap s ++ [set_userData
                      {| ud_type := Some "group"; ud_dimensions := None;
                         ud_radius := Undefined; ud_height := Undefined;
                         ud_extrusionHeight := Undefined; ud_sketchData := None;
                         ud_faces := None; ud_edges := None |}
                      newGroup]))
                              (set_console logs
                                 (set_redoStackRef redo
                                    (set_undoStackRef undo s))))))))))).
Proof.
  intros H. rewrite groupSelectedHandler_members.
  unfold groupSelection, bind at 1, get.
  destruct (set_multiSelectedRef_fields (groupMembers s) s) as (Hm & Hh & Ho). rewrite Hm.
  replace (Nat.ltb (List.length (groupMembers s)) 2) with false
    by (symmetry; apply Nat.ltb_ge; exact H).
  unfold bind at 1, alloc. rewrite Hh.
  match goal with |- context [bind pushHistory ?k ?s1] =>
    destruct (pushHistory_frame s1) as (undo & redo & logs & Hp) end.
  exists undo, redo, logs. split; [exact Hp|].
  unfold bind at 1. rewrite Hp. unfold bind at 1, get. unfold bind at 1.
  rewrite group_loop by (destruct s; simpl; rewrite length_app; simpl; lia).
  destruct s; reflexivity.
Qed.

End Group.

(** With fewer than two members there is nothing to group: the store,
    the heap, the selection and the history stay as they are.  The
    primary selection has joined the multi-selection set, though. *)
Theorem groupSelectedHandler_too_few {graph : SceneGraph} (s : State) :
  List.length (groupMembers s) < 2 ->
  groupSelectedHandler s = (Ok tt, set_multiSelectedRef (groupMembers s) s).
Proof.
  intros H. rewrite groupSelectedHandler_members.
  unfold groupSelection, bind at 1, get.
  destruct (set_multiSelectedRef_fields (groupMembers s) s) as (-> & _ & _).
  apply Nat.ltb_lt in H. rewrite H. reflexivity.
Qed.

Lemma groupSelectedHandler_too_few_witness :
  groupSelectedHandler (graph := stillGraph) Session.boxSelected
  = (Ok tt, set_multiSelectedRef [0%nat] Session.boxSelected).
Proof.
  apply (@groupSelectedHandler_too_few stillGraph Session.boxSelected).
  vm_compute. repeat constructor.
Defined.

Lemma groupSelectedHandler_run {graph : SceneGraph} (s : State) :
  2 <= List.length (groupMembers s) ->
  exists group s',
    groupSelectedHandler s = (Ok tt, s') /\
    List.length (heap s') = S (List.length (heap s)) /\
    nth_error (heap s') (List.length (heap s)) = Some group /\
    isGroup group = true /\ material group = None /\
    ud_type (userData group) = Some "group" /\
    children group = groupMembers s /\
    (forall r, r < List.length (heap s) -> ~ In r (groupMembers s) ->
               nth_error (heap s') r = nth_error (heap s) r) /\
    (forall r o, nth_error (heap s) r = Some o ->
                 exists o', nth_error (heap s') r = Some o' /\ sameShape o o') /\
    ((forall m, In m (groupMembers s) -> m < List.length (heap s)) ->
     forall before r after o,
       groupMembers s = before ++ r :: after -> ~ In r before -> ~ In r after ->
       nth_error (heap s) r = Some o ->
       nth_error (heap s') r = Some (attachedTo (set_children before group) o)) /\
    objectsRef s'
    = filter (fun o => negb (includes (groupMembers s) o)) (objectsRef s) ++ [List.length (heap s)] /\
    multiSelectedRef s' = [] /\
    selectedEntityRef s' = Some (ShapeRef (List.length (heap s))) /\
    selectedTypeRef s' = Some TShape /\
    selectedEntity s' = Some (ShapeRef (List.length (heap s))) /\
    selectedType s' = Some TShape /\
    sketchesRef s' = sketchesRef s.
Proof.
  intros H.
  destruct (groupSelectedHandler_result s H) as (undo & redo & logs & _ & Hrun).
  set (g := List.length (heap s)) in *.
  set (group0 := set_userData
                      {| ud_type := Some "group"; ud_dimensions := None;
                         ud_radius := Undefined; ud_height := Undefined;
                         ud_extrusionHeight := Undefined; ud_sketchData := None;
                         ud_faces := None; ud_edges := None |}
                      newGroup) in *.
  assert (Eg : nth_error (heap s ++ [group0]) g = Some group0).
  { unfold g. now rewrite nth_error_app2, Nat.sub_diag by lia. }
  destruct (@attachAll_group graph g (groupMembers s) _ _ Eg)
    as (group & E' & Hc & Hi & Hm & Hu & Hx).
  assert (Hheap : forall s0 : State, heap
     (set_events (events s ++ [selectionChanged (Some (ShapeRef g)) (Some TShape)])
        (set_selectedType (Some TShape)
           (set_selectedEntity (Some (ShapeRef g))
              (set_selectedTypeRef (Some TShape)
                 (set_selectedEntityRef (Some (ShapeRef g))
                    (set_multiSelectedRef []
                       (set_objectsRef
                          (filter (fun o => negb (includes (groupMembers s) o)) (objectsRef s)
                           ++ [g])
                          (set_heap (attachAll g (groupMembers s) (heap s ++ [group0]))
                             s0)))))))) = attachAll g (groupMembers s) (heap s ++ [group0])).
  { intros s0. destruct s0; reflexivity. }
  exists group. eexists. split; [exact Hrun|].
  rewrite Hheap.
  split; [rewrite attachAll_length, length_app; simpl; lia|].
  split; [exact E'|].
  split; [now rewrite Hi|]. split; [now rewrite Hm|]. split; [now rewrite Hu|].
  split; [now rewrite Hc|].
  split.
  { intros r Hr Hin. rewrite attachAll_other by (auto; unfold g; lia).
    now apply nth_error_app1. }
  split.
  { intros r o Er.
    assert (Hr : r < g) by (apply nth_error_Some; rewrite Er; discriminate).
    apply attachAll_sameShape; [lia|]. now rewrite nth_error_app1. }
  split.
  { intros Hlive before r after o Hsplit Hrb Hra Er.
    assert (Hr : r < g) by (apply nth_error_Some; rewrite Er; discriminate).
    assert (Hng : ~ In g (groupMembers s)) by (intros Hin; apply Hlive in Hin; unfold g in Hin; lia).
    rewrite Hx by exact Hng. rewrite Hsplit.
    rewrite (@attachAll_member graph g r before after _ group0 o); auto.
    - intros Hin. apply Hng. rewrite Hsplit. apply in_or_app. now left.
    - lia.
    - now rewrite nth_error_app1. }
  destruct s; simpl. repeat split.
Qed.

(** With two members or more, the handler makes one new group, the last
    object of the heap, whose children are the members, in the order of
    the set; every member leaves the store and the group is appended to
    it; the set is emptied and the group becomes the primary selection.
    An object that is no member is not touched, nor is the sketch list; a
    member keeps all but its position, rotation and scale, and for a
    member that is in the set once (every member being an object) these
    three are the ones [group.attach] computes for the group as it is
    then, with the members before that one as its children. *)
Theorem groupSelectedHandler_groups {graph : SceneGraph} (s : State) :
  2 <= List.length (groupMembers s) ->
  exists group s',
    groupSelectedHandler s = (Ok tt, s') /\
    List.length (heap s') = S (List.length (heap s)) /\
    nth_error (heap s') (List.length (heap s)) = Some group /\
    isGroup group = true /\ material group = None /\
    ud_type (userData group) = Some "group" /\
    children group = groupMembers s /\
    (forall r, r < List.length (heap s) -> ~ In r (groupMembers s) ->
               nth_error (heap s') r = nth_error (heap s) r) /\
    (forall r o, nth_error (heap s) r = Some o ->
                 exists o', nth_error (heap s') r = Some o' /\ sameShape o o') /\
    ((forall m, In m (groupMembers s) -> m < List.length (heap s)) ->
     forall before r after o,
       groupMembers s = before ++ r :: after -> ~ In r before -> ~ In r after ->
       nth_error (heap s) r = Some o ->
       nth_error (heap s') r = Some (attachedTo (set_children before group) o)) /\
    objectsRef s'
    = filter (fun o => negb (includes (groupMembers s) o)) (objectsRef s) ++ [List.length (heap s)] /\
    multiSelectedRef s' = [] /\
    selectedEntityRef s' = Some (ShapeRef (List.length (heap s))) /\
    selectedTypeRef s' = Some TShape /\
    selectedEntity s' = Some (ShapeRef (List.length (heap s))) /\
    selectedType s' = Some TShape /\
    sketchesRef s' = sketchesRef s.
Proof. exact (@groupSelectedHandler_run graph s). Qed.

Lemma groupSelectedHandler_groups_witness :
  exists group s',
    groupSelectedHandler (graph := stillGraph) Session.bothSelected = (Ok tt, s') /\
    List.length (heap s') = S (List.length (heap Session.bothSelected)) /\
    nth_error (heap s') (List.length (heap Session.bothSelected)) = Some group /\
    isGroup group = true /\ material group = None /\
    ud_type (userData group) = Some "group" /\
    children group = groupMembers Session.bothSelected /\
    (forall r, r < List.length (heap Session.bothSelected) ->
               ~ In r (groupMembers Session.bothSelected) ->
               nth_error (heap s') r = nth_error (heap Session.bothSelected) r) /\
    (forall r o, nth_error (heap Session.bothSelected) r = Some o ->
                 exists o', nth_error (heap s') r = Some o' /\ sameShape o o') /\
    ((forall m, In m (groupMembers Session.bothSelected) ->
                m < List.length (heap Session.bothSelected)) ->
     forall before r after o,
       groupMembers Session.bothSelected = before ++ r :: after ->
       ~ In r before -> ~ In r after ->
       nth_error (heap Session.bothSelected) r = Some o ->
       nth_error (heap s') r
       = Some (attachedTo (graph := stillGraph) (set_children before group) o)) /\
    objectsRef s'
    = filter (fun o => negb (includes (groupMembers Session.bothSelected) o))
             (objectsRef Session.bothSelected) ++ [List.length (heap Session.bothSelected)] /\
    multiSelectedRef s' = [] /\
    selectedEntityRef s' = Some (ShapeRef (List.length (heap Session.bothSelected))) /\
    selectedTypeRef s' = Some TShape /\
    selectedEntity s' = Some (ShapeRef (List.length (heap Session.bothSelected))) /\
    selectedType s' = Some TShape /\
    sketchesRef s' = sketchesRef Session.bothSelected.
Proof.
  apply (@groupSelectedHandler_groups stillGraph Session.bothSelected).
  vm_compute. repeat constructor.
Defined.

(** The selection is no group: nothing happens. *)
Theorem ungroupSelectedHandler_not_a_group {graph : SceneGraph} (s : State) :
  match selectedEntityRef s with
  | Some (ShapeRef entity) =>
      exists o, nth_error (heap s) entity = Some o /\ isGroup o = false
  | _ => True
  end ->
  ungroupSelectedHandler s = (Ok tt, s).
Proof.
  unfold ungroupSelectedHandler, bind at 1, get.
  destruct (selectedEntityRef s) as [[entity| |]|]; try reflexivity.
  intros (o & Ho & Hg). unfold bind, deref. rewrite Ho, Hg. reflexivity.
Qed.

Lemma ungroupSelectedHandler_not_a_group_witness :
  ungroupSelectedHandler (graph := stillGraph) Session.bothSelected = (Ok tt, Session.bothSelected).
Proof.
  apply (@ungroupSelectedHandler_not_a_group stillGraph Session.bothSelected).
  vm_compute. eexists. split; reflexivity.
Defined.

Lemma serializeObjects_group (s : State) (g : nat) (group : Object3D) (objects : list nat) :
  In g objects -> nth_error (heap s) g = Some group -> material group = None ->
  forall index, exists e, fst (serializeObjects index objects s) = Throw e.
Proof.
  intros Hin Hg Hm. induction objects as [|r rest IH]; intros index; [destruct Hin|].
  simpl. unfold bind, deref.
  destruct (nth_error (heap s) r) as [o|] eqn:Eo; [|eexists; reflexivity].
  pose proof (serializeObject_state index o s) as Hst.
  destruct (serializeObject index o s) as [[d|e] s1] eqn:Ed; [|eexists; reflexivity].
  simpl in Hst. subst s1.
  destruct Hin as [->|Hin].
  - exfalso. rewrite Hg in Eo. inversion Eo; subst o.
    unfold serializeObject in Ed. rewrite Hm in Ed. discriminate.
  - destruct (IH Hin (S index)) as [e He].
    pose proof (serializeObjects_state rest (S index) s) as Hst'.
    destruct (serializeObjects (S index) rest s) as [[ds|e'] s2]; simpl in *; [discriminate|].
    eexists; reflexivity.
Qed.

(** With a group in the store, a history push records nothing. *)
Lemma pushHistory_group (s : State) (g : nat) (group : Object3D) :
  In g (objectsRef s) -> nth_error (heap s) g = Some group -> material group = None ->
  pushHistory s = (Ok tt, set_console (console s ++ [console_error "Snapshot failed"]) s).
Proof.
  intros Hin Hg Hm.
  destruct (@serializeObjects_group s g group (objectsRef s) Hin Hg Hm 0) as [e He].
  unfold pushHistory. rewrite (@bind_Ok _ _ snapshotScene _ s None
                                 (set_console (console s ++ [console_error "Snapshot failed"]) s));
    [reflexivity|].
  apply (@snapshotScene_Throw s e).
  unfold saveSceneToJSON, bind.
  destruct (serializeObjects 0 (objectsRef s) s) as [[ds|e'] s1]; simpl in *; [discriminate|].
  now inversion He.
Qed.

Section Ungroup.
Context {graph : SceneGraph}.

(** The loop of [ungroupSelectedHandler] over the children. *)
Lemma ungroup_loop (g : nat) (remaining : list nat) : forall (s : State) (group : Object3D),
  nth_error (heap s) g = Some group ->
  children group = remaining ->
  (forall c, In c remaining -> c < List.length (heap s) /\ c <> g) ->
  exists s' group',
    forEach remaining
            (fun child =>
               parent <- deref g ;;
               modifyObject child
                 (fun o => let '(p, r, k) := reattached parent o in
                           set_scale k (set_rotation r (set_position p o))) ;;
               modifyObject g (fun grp => set_children (removeChild (children grp) child) grp) ;;
               modify (fun s => set_objectsRef (push (objectsRef s) child) s)) s
    = (Ok tt, s') /\
    List.length (heap s') = List.length (heap s) /\
    nth_error (heap s') g = Some group' /\ children group' = [] /\
    objectsRef s' = objectsRef s ++ remaining /\
    besidesStore s' = besidesStore s.
Proof.
  induction remaining as [|child rest IH]; intros s group Hg Hc Hlive.
  - exists s, group. simpl. rewrite app_nil_r. repeat split; assumption.
  - destruct (Hlive child (or_introl eq_refl)) as [Hlt Hne].
    destruct (nth_error (heap s) child) as [oc|] eqn:Eoc;
      [|apply nth_error_None in Eoc; lia].
    assert (Hglt : g < List.length (heap s)) by (apply nth_error_Some; rewrite Hg; discriminate).
    simpl. unfold bind at 1. unfold bind at 1. unfold deref at 1. rewrite Hg.
    unfold bind at 1. erewrite modifyObject_run by exact Eoc.
    unfold bind at 1. erewrite modifyObject_run
      by (rewrite heap_set_heap, assigned_other by (assumption || lia); exact Hg).
    rewrite heap_set_heap.
    unfold modify at 1.
    set (h1 := firstn child (heap s) ++
               [let '(p, r, k) := reattached group oc in
                set_scale k (set_rotation r (set_position p oc))] ++
               skipn (S child) (heap s)).
    assert (Hl1 : List.length h1 = List.length (heap s)) by (apply assigned_length; exact Hlt).
    set (h2 := firstn g h1 ++
               [set_children (removeChild (children group) child) group] ++ skipn (S g) h1).
    assert (Hl2 : List.length h2 = List.length (heap s))
      by (unfold h2; rewrite assigned_length; [exact Hl1 | rewrite Hl1; exact Hglt]).
    match goal with |- context [forEach rest _ ?s1] =>
      destruct (IH s1 (set_children rest group)) as (s' & group' & Hrun & Hlen & Hg' & Hc' & Ho & Hb)
    end.
    + change (nth_error h2 g = Some (set_children rest group)).
      unfold h2. rewrite assigned_same by (rewrite Hl1; exact Hglt).
      rewrite Hc. simpl. rewrite Nat.eqb_refl. reflexivity.
    + destruct group; reflexivity.
    + intros c Hin. destruct (Hlive c (or_intror Hin)) as [H1 H2]. split; [|exact H2].
      change (c < List.length h2). rewrite Hl2. exact H1.
    + exists s', group'. rewrite Hrun. repeat split; try assumption.
      * rewrite Hlen. change (List.length h2 = List.length (heap s)). exact Hl2.
      * rewrite Ho. destruct s; simpl. unfold push. now rewrite <- app_assoc.
Qed.

End Ungroup.

Lemma ungroupSelectedHandler_run {graph : SceneGraph}
        (s : State) (g : nat) (group : Object3D) :
  selectedEntityRef s = Some (ShapeRef g) ->
  nth_error (heap s) g = Some group ->
  isGroup group = true ->
  material group = None ->
  In g (objectsRef s) ->
  (forall c, In c (children group) -> c < List.length (heap s) /\ c <> g) ->
  exists s' group',
    ungroupSelectedHandler s = (Ok tt, s') /\
    objectsRef s' = filter (fun o => negb (Nat.eqb o g)) (objectsRef s ++ children group) /\
    undoStackRef s' = undoStackRef s /\
    redoStackRef s' = redoStackRef s /\
    console s' = console s ++ [console_error "Snapshot failed"] /\
    List.length (heap s') = List.length (heap s) /\
    nth_error (heap s') g = Some group' /\ children group' = [] /\
    selectedEntityRef s' = None /\ selectedTypeRef s' = None /\
    selectedEntity s' = None /\ selectedType s' = None /\
    multiSelectedRef s' = multiSelectedRef s /\
    sketchesRef s' = sketchesRef s.
Proof.
  intros Hsel Hg Hgrp Hmat Hin Hlive.
  unfold ungroupSelectedHandler, bind at 1, get. rewrite Hsel.
  unfold bind at 1, deref at 1. rewrite Hg, Hgrp. change (negb true) with false. cbv iota.
  unfold bind at 1. rewrite (@pushHistory_group s g group Hin Hg Hmat).
  unfold bind at 1.
  destruct (@ungroup_loop graph g (children group)
              (set_console (console s ++ [console_error "Snapshot failed"]) s) group)
    as (s1 & group' & Hrun & Hlen & Hg' & Hc' & Ho & Hb);
    [destruct s; exact Hg | reflexivity | destruct s; exact Hlive |].
  rewrite Hrun.
  exists (snd ((modify (fun s => set_objectsRef
                           (filter (fun o => negb (Nat.eqb o g)) (objectsRef s)) s) ;;
                clearSelection ;;
                dispatchEvent (selectionChanged None None)) s1)), group'.
  split; [reflexivity|].
  assert (Hfields : undoStackRef s1 = undoStackRef s /\ redoStackRef s1 = redoStackRef s /\
                    console s1 = console s ++ [console_error "Snapshot failed"] /\
                    multiSelectedRef s1 = multiSelectedRef s /\ sketchesRef s1 = sketchesRef s).
  { unfold besidesStore in Hb. destruct s, s1; simpl in *. inversion Hb. repeat split. }
  destruct Hfields as (Hu & Hr & Hcon & Hms & Hsk).
  destruct s1; simpl in *. subst.
  repeat split; try reflexivity; destruct s; simpl in *; assumption.
Qed.

(** Ungrouping a group of the store puts its children back into the
    store, after the shapes already there and in the order the group held
    them, and takes the group out; the group keeps no child; the selection
    is cleared.  The history push of the handler runs while the group is
    in the store, so the snapshot fails and neither stack changes: an
    ungrouping is not recorded. *)
Theorem ungroupSelectedHandler_ungroups {graph : SceneGraph}
        (s : State) (g : nat) (group : Object3D) :
  selectedEntityRef s = Some (ShapeRef g) ->
  nth_error (heap s) g = Some group ->
  isGroup group = true ->
  material group = None ->
  In g (objectsRef s) ->
  (forall c, In c (children group) -> c < List.length (heap s) /\ c <> g) ->
  exists s' group',
    ungroupSelectedHandler s = (Ok tt, s') /\
    objectsRef s' = filter (fun o => negb (Nat.eqb o g)) (objectsRef s ++ children group) /\
    undoStackRef s' = undoStackRef s /\
    redoStackRef s' = redoStackRef s /\
    console s' = console s ++ [console_error "Snapshot failed"] /\
    List.length (heap s') = List.length (heap s) /\
    nth_error (heap s') g = Some group' /\ children group' = [] /\
    selectedEntityRef s' = None /\ selectedTypeRef s' = None /\
    selectedEntity s' = None /\ selectedType s' = None /\
    multiSelectedRef s' = multiSelectedRef s /\
    sketchesRef s' = sketchesRef s.
Proof. exact (@ungroupSelectedHandler_run graph s g group). Qed.

Lemma ungroupSelectedHandler_ungroups_witness :
  exists s' group',
    ungroupSelectedHandler (graph := stillGraph) Session.grouped = (Ok tt, s') /\
    objectsRef s' = [0; 1]%nat /\
    undoStackRef s' = undoStackRef Session.grouped /\
    redoStackRef s' = redoStackRef Session.grouped /\
    console s' = console Session.grouped ++ [console_error "Snapshot failed"] /\
    List.length (heap s') = List.length (heap Session.grouped) /\
    nth_error (heap s') 2 = Some group' /\ children group' = [] /\
    selectedEntityRef s' = None /\ selectedTypeRef s' = None /\
    selectedEntity s' = None /\ selectedType s' = None /\
    multiSelectedRef s' = multiSelectedRef Session.grouped /\
    sketchesRef s' = sketchesRef Session.grouped.
Proof.
  apply (@ungroupSelectedHandler_ungroups stillGraph Session.grouped 2
           (nth 2 (heap Session.grouped) newGroup)).
  - vm_compute. reflexivity.
  - vm_compute. reflexivity.
  - vm_compute. reflexivity.
  - vm_compute. reflexivity.
  - vm_compute. now left.
  - intros c Hc. vm_compute in Hc. destruct Hc as [<-|[<-|[]]]; vm_compute; split;
      first [lia | discriminate | repeat constructor].
Defined.

Lemma syncRefs_selectedEntityRef (before after : State) :
  selectedEntityRef after = selectedEntity after ->
  selectedEntityRef (syncRefs before after) = selectedEntityRef after.
Proof.
  intros H. unfold syncRefs.
  repeat match goal with |- context [if ?c then _ else _] => destruct c end;
    destruct after; simpl in *; congruence.
Qed.

Lemma syncRefs_store (before after : State) :
  heap (syncRefs before after) = heap after /\
  objectsRef (syncRefs before after) = objectsRef after.
Proof.
  pose proof (syncRefs_historyView before after) as H. unfold historyView in H.
  inversion H. now split.
Qed.

Lemma filter_all {A} (f : A -> bool) (l : list A) :
  (forall x, In x l -> f x = true) -> filter f l = l.
Proof.
  induction l as [|a l IH]; intros H; [reflexivity|]. simpl.
  rewrite (H a (or_introl eq_refl)), IH; [reflexivity|].
  intros x Hx. apply H. now right.
Qed.

Lemma includes_In (l : list nat) (x : nat) : includes l x = true <-> In x l.
Proof.
  unfold includes. rewrite existsb_exists. split.
  - intros (y & Hy & E). apply Nat.eqb_eq in E. now subst.
  - intros H. exists x. split; [exact H | apply Nat.eqb_refl].
Qed.

(** Grouping and then ungrouping gives the store its shapes back: the
    shapes that were not grouped keep their places and the members follow
    them, in the order of the set.  The history keeps the one snapshot
    taken by the grouping. *)
Theorem group_then_ungroup {graph : SceneGraph} (s : State) :
  2 <= List.length (groupMembers s) ->
  (forall r, In r (objectsRef s) -> r < List.length (heap s)) ->
  (forall r, In r (groupMembers s) -> r < List.length (heap s)) ->
  let s' := dispatch ungroupSelectedHandler (dispatch groupSelectedHandler s) in
  objectsRef s'
  = filter (fun o => negb (includes (groupMembers s) o)) (objectsRef s) ++ groupMembers s /\
  (NoDup (objectsRef s) -> NoDup (groupMembers s) -> incl (groupMembers s) (objectsRef s) ->
   Permutation (objectsRef s) (objectsRef s')).
Proof.
  intros H2 Hstore Hmem s'.
  destruct (@groupSelectedHandler_run graph s H2)
    as (group & s1 & Hrun & Hlen & Hnth & Hgrp & Hmat & _ & Hch & _ & _ & _ & Ho & _
        & Hser & _ & Hse & _).
  set (g := List.length (heap s)) in *.
  set (s1' := dispatch groupSelectedHandler s).
  assert (Hsync : heap s1' = heap s1 /\ objectsRef s1' = objectsRef s1 /\
                  selectedEntityRef s1' = Some (ShapeRef g)).
  { unfold s1', dispatch. rewrite Hrun. simpl snd.
    destruct (syncRefs_store s s1) as [-> ->].
    rewrite syncRefs_selectedEntityRef by congruence. repeat split. exact Hser. }
  destruct Hsync as (Hh' & Ho' & Hsel').
  destruct (@ungroupSelectedHandler_run graph s1' g group) as (s2 & group' & Hrun2 & Ho2 & _).
  - exact Hsel'.
  - rewrite Hh'. exact Hnth.
  - exact Hgrp.
  - exact Hmat.
  - rewrite Ho', Ho. apply in_or_app. right. now left.
  - intros c Hc. rewrite Hch in Hc. apply Hmem in Hc. rewrite Hh', Hlen.
    fold g in Hc. lia.
  - assert (Hres : objectsRef s'
                   = filter (fun o => negb (includes (groupMembers s) o)) (objectsRef s)
                     ++ groupMembers s).
    { unfold s'. unfold dispatch at 1. fold s1'. rewrite Hrun2. simpl snd.
      destruct (syncRefs_store s1' s2) as [_ ->].
      rewrite Ho2, Ho', Ho, Hch, !filter_app. simpl. rewrite Nat.eqb_refl. simpl.
      rewrite app_nil_r.
      rewrite (@filter_all _ (fun o => negb (Nat.eqb o g)) (groupMembers s)).
      - rewrite (@filter_all _ (fun o => negb (Nat.eqb o g))); [reflexivity|].
        intros x Hx. apply filter_In in Hx. destruct Hx as [Hx _]. apply Hstore in Hx.
        fold g in Hx. apply negb_true_iff, Nat.eqb_neq. lia.
      - intros x Hx. apply Hmem in Hx. fold g in Hx.
        apply negb_true_iff, Nat.eqb_neq. lia. }
    split; [exact Hres|].
    intros Hnd Hndm Hincl. rewrite Hres.
    apply NoDup_Permutation; [exact Hnd | |].
    + apply NoDup_app; [now apply NoDup_filter | exact Hndm |].
      intros x Hx Hx'. apply filter_In in Hx. destruct Hx as [_ Hx].
      apply negb_true_iff in Hx. apply includes_In in Hx'. congruence.
    + intros x. rewrite in_app_iff, filter_In. split.
      * intros Hx. destruct (includes (groupMembers s) x) eqn:E.
        -- right. now apply includes_In.
        -- left. now split.
      * intros [[Hx _]|Hx]; [exact Hx | now apply Hincl].
Qed.

Lemma group_then_ungroup_witness :
  objectsRef (dispatch (ungroupSelectedHandler (graph := stillGraph))
                       (dispatch (groupSelectedHandler (graph := stillGraph))
                                 Session.bothSelected))
  = [0; 1]%nat /\
  (NoDup (objectsRef Session.bothSelected) -> NoDup [0; 1]%nat ->
   incl [0; 1]%nat (objectsRef Session.bothSelected) ->
   Permutation (objectsRef Session.bothSelected)
               (objectsRef (dispatch (ungroupSelectedHandler (graph := stillGraph))
                                     (dispatch (groupSelectedHandler (graph := stillGraph))
                                               Session.bothSelected)))).
Proof.
  apply (@group_then_ungroup stillGraph Session.bothSelected).
  - vm_compute. repeat constructor.
  - intros r Hr. vm_compute in Hr. destruct Hr as [<-|[<-|[]]]; vm_compute; repeat constructor.
  - intros r Hr. vm_compute in Hr. destruct Hr as [<-|[<-|[]]]; vm_compute; repeat constructor.
Defined.


(** ** Undoing a recorded action *)

Lemma snapshotScene_run (s : State) :
  exists logs, snapshotScene s = (Ok (snapshotOf s), set_console logs s).
Proof.
  unfold snapshotOf.
  destruct (fst (saveSceneToJSON (objectsRef s) (sketchesRef s) s)) as [d|e] eqn:E.
  - exists (console s). rewrite (snapshotScene_Ok s E). destruct s; reflexivity.
  - exists (console s ++ [console_error "Snapshot failed"]).
    now rewrite (@snapshotScene_Throw s e E).
Qed.

(** What a history push does, by the outcome of the snapshot. *)
Lemma pushHistory_run (s : State) :
  exists logs,
    pushHistory s
    = (Ok tt,
       match snapshotOf s with
       | Some snap => set_redoStackRef [] (set_undoStackRef (undoStackRef s ++ [snap])
                                                            (set_console logs s))
       | None => set_console logs s
       end).
Proof.
  destruct (snapshotScene_run s) as [logs Hrun]. exists logs.
  unfold pushHistory, bind at 1. rewrite Hrun.
  destruct (snapshotOf s); [destruct s|]; reflexivity.
Qed.

Section UndoOne.
Context {three : ThreeJS}.

(** One undo with a snapshot to pop: the store is the one the snapshot
    holds, whether or not the current scene could be snapshotted for the
    redo stack. *)
Lemma undo_restores (s : State) (older : list Snapshot) (snap : Snapshot) :
  undoStackRef s = older ++ [snap] ->
  undoStackRef (dispatch undoHandler s) = older /\
  observeStore (dispatch undoHandler s) = restoredView snap /\
  redoStackRef (dispatch undoHandler s)
  = match snapshotOf s with
    | Some current => redoStackRef s ++ [current]
    | None => redoStackRef s
    end.
Proof.
  intros Hu.
  assert (Hv : historyView (dispatch undoHandler s)
               = (heap s ++ restoredShapes snap,
                  seq (List.length (heap s)) (List.length (restoredShapes snap)),
                  restoredSketches snap, older,
                  match snapshotOf s with
                  | Some current => redoStackRef s ++ [current]
                  | None => redoStackRef s
                  end)).
  { unfold dispatch. rewrite syncRefs_historyView.
    unfold undoHandler, bind at 1, get. rewrite Hu.
    change (older ++ [snap]) with (push older snap). rewrite pop_push.
    unfold bind at 1, modify. unfold bind at 1.
    destruct (snapshotScene_run (set_undoStackRef older s)) as [logs Hrun]. rewrite Hrun.
    replace (snapshotOf (set_undoStackRef older s)) with (snapshotOf s)
      by (apply snapshotOf_store; destruct s; reflexivity).
    unfold bind at 1.
    destruct (snapshotOf s) as [current|]; unfold modify, ret;
      rewrite restoreSceneFromSnapshot_historyView; destruct s; reflexivity. }
  unfold historyView in Hv. inversion Hv as [[Hh Ho Hk Hun Hre]].
  repeat split; try reflexivity.
  eapply restored_observeStore; eassumption.
Qed.

(** The snapshot of a serialisable store of clean numbers restores a
    store observably equal to it. *)
Lemma snapshot_restores (s : State) :
  serializable_store s -> json_clean_store s ->
  exists d, snapshotOf s = Some d /\ restoredView d = observeStore s.
Proof.
  intros Hser Hjson.
  destruct (roundtrip_from_any_state Hser) as (d & shapes & sketches & Hsave & Hload & Hobs).
  exists d. split.
  - unfold snapshotOf. rewrite Hsave. simpl.
    now rewrite (JSON_parse_stringify_saved Hjson Hsave).
  - unfold restoredView, restoredShapes, restoredSketches.
    rewrite (Hload initialState). exact Hobs.
Qed.

(** Undo after any action that left the snapshot of [s] on top of the
    undo stack. *)
Lemma undo_after_push (s s1 : State) :
  serializable_store s -> json_clean_store s ->
  (forall d, snapshotOf s = Some d -> undoStackRef s1 = undoStackRef s ++ [d]) ->
  observeStore (dispatch undoHandler s1) = observeStore s.
Proof.
  intros Hser Hjson Hstack.
  destruct (snapshot_restores Hser Hjson) as (d & Hd & Hview).
  destruct (@undo_restores s1 (undoStackRef s) d (Hstack d Hd)) as (_ & Hobs & _).
  now rewrite Hobs.
Qed.

End UndoOne.

Lemma syncRefs_stacks (before after : State) :
  undoStackRef (syncRefs before after) = undoStackRef after /\
  redoStackRef (syncRefs before after) = redoStackRef after.
Proof.
  pose proof (syncRefs_historyView before after) as H. unfold historyView in H.
  inversion H. now split.
Qed.

(** The Delete key on a selected shape, then undo: the store is
    observably the one before the deletion. *)
Theorem delete_then_undo {three : ThreeJS} (s : State) (selected : Entity) :
  serializable_store s -> json_clean_store s ->
  selectedEntityRef s = Some selected -> selectedTypeRef s = Some TShape ->
  observeStore (dispatch undoHandler (dispatch handleKeyDown_delete s)) = observeStore s.
Proof.
  intros Hser Hjson Hsel Hty.
  apply undo_after_push; try assumption.
  intros d Hd. unfold dispatch.
  destruct (syncRefs_stacks s (snd (handleKeyDown_delete s))) as [-> _].
  unfold handleKeyDown_delete, bind at 1, get. rewrite Hsel, Hty.
  destruct (pushHistory_run s) as [logs Hp]. rewrite Hd in Hp.
  unfold bind at 1. rewrite Hp. destruct s; reflexivity.
Qed.

Lemma delete_then_undo_witness :
  observeStore (dispatch (undoHandler (three := Sample.three))
                         (dispatch handleKeyDown_delete Gallery.scene))
  = observeStore Gallery.scene.
Proof.
  apply (@delete_then_undo Sample.three Gallery.scene (ShapeRef 3)).
  - exact Gallery.scene_serializable.
  - exact Gallery_scene_json_clean.
  - vm_compute. reflexivity.
  - vm_compute. reflexivity.
Defined.

(** After its guard and its history push, [handleExtrude] leaves the undo
    stack alone, however it ends. *)
Lemma handleExtrude_undoStack {three : ThreeJS} (s : State) (sketchIndex : Z) (height : jsnum) :
  (0 <= sketchIndex < Z.of_nat (List.length (sketchesRef s)))%Z ->
  undoStackRef (snd (handleExtrude sketchIndex height s)) = undoStackRef (snd (pushHistory s)).
Proof.
  intros Hi. unfold handleExtrude, bind at 1, get.
  replace ((sketchIndex <? 0)%Z || (sketchIndex >=? Z.of_nat (List.length (sketchesRef s)))%Z)
    with false
    by (symmetry; apply orb_false_iff; split;
        [apply Z.ltb_ge | rewrite Z.geb_leb; apply Z.leb_gt]; lia).
  destruct (pushHistory_frame s) as (undo & redo & logs & Hp).
  unfold bind at 1. rewrite Hp. simpl snd. unfold bind at 1, get.
  set (s1 := set_console logs (set_redoStackRef redo (set_undoStackRef undo s))).
  destruct (nth_error (sketchesRef s1) (Z.to_nat sketchIndex)) as [sketch|]; [|reflexivity].
  unfold bind at 1.
  destruct (type_is (sk_type sketch) "rectangle");
    [| destruct (type_is (sk_type sketch) "circle")];
    try (destruct (sk_center sketch) as [center|]); try reflexivity;
    unfold s1; destruct s; reflexivity.
Qed.

(** An extrusion, then undo: the store is observably the one before the
    extrusion; the consumed sketch is back in the sketch list. *)
Theorem extrude_then_undo {three : ThreeJS} (s : State) (index : Z) (height : jsnum) :
  serializable_store s -> json_clean_store s ->
  (0 <= index < Z.of_nat (List.length (sketchesRef s)))%Z ->
  observeStore (dispatch undoHandler (dispatch (extrudeHandler index height) s)) = observeStore s.
Proof.
  intros Hser Hjson Hi.
  apply undo_after_push; try assumption.
  intros d Hd. unfold dispatch, extrudeHandler.
  destruct (syncRefs_stacks s (snd (handleExtrude index height s))) as [-> _].
  rewrite handleExtrude_undoStack by exact Hi.
  destruct (pushHistory_run s) as [logs Hp]. rewrite Hd in Hp. rewrite Hp.
  destruct s; reflexivity.
Qed.

Lemma extrude_then_undo_witness :
  observeStore (dispatch (undoHandler (three := Sample.three))
                         (dispatch (extrudeHandler (three := Sample.three) 0 (Num 3)) Gallery.scene))
  = observeStore Gallery.scene.
Proof.
  apply (@extrude_then_undo Sample.three Gallery.scene 0 (Num 3)).
  - exact Gallery.scene_serializable.
  - exact Gallery_scene_json_clean.
  - vm_compute. split; [discriminate | reflexivity].
Defined.

(** Serialisation reads the heap at the references of the list only. *)
Lemma serializeObjects_heap_at (objects : list nat) : forall index s s',
  (forall r, In r objects -> nth_error (heap s) r = nth_error (heap s') r) ->
  fst (serializeObjects index objects s) = fst (serializeObjects index objects s').
Proof.
  induction objects as [|r rest IH]; intros index s s' Hh; simpl; [reflexivity|].
  unfold bind, deref. rewrite <- (Hh r (or_introl eq_refl)).
  destruct (nth_error (heap s) r) as [o|]; [|reflexivity].
  pose proof (serializeObject_fst index o s s') as Hf.
  pose proof (serializeObject_state index o s) as Hs.
  pose proof (serializeObject_state index o s') as Hs'.
  destruct (serializeObject index o s) as [[d|e] s1], (serializeObject index o s') as [[d'|e'] s1'];
    simpl in *; subst; try discriminate; [|now inversion Hf].
  inversion Hf; subst d'.
  pose proof (IH (S index) s s' (fun r' Hr' => Hh r' (or_intror Hr'))) as Hr.
  pose proof (serializeObjects_state rest (S index) s) as Hrs.
  pose proof (serializeObjects_state rest (S index) s') as Hrs'.
  destruct (serializeObjects (S index) rest s) as [[ds|e] s2],
           (serializeObjects (S index) rest s') as [[ds'|e'] s2'];
    simpl in *; subst; try discriminate; now inversion Hr.
Qed.

Lemma snapshotOf_heap_at (s s' : State) :
  (forall r, In r (objectsRef s) -> nth_error (heap s) r = nth_error (heap s') r) ->
  objectsRef s = objectsRef s' -> sketchesRef s = sketchesRef s' ->
  snapshotOf s = snapshotOf s'.
Proof.
  intros Hh Ho Hk. unfold snapshotOf, saveSceneToJSON, bind. rewrite <- Ho, <- Hk.
  pose proof (serializeObjects_heap_at (objectsRef s) 0 s s' Hh) as Hf.
  destruct (serializeObjects 0 (objectsRef s) s) as [[ds|e] s1],
           (serializeObjects 0 (objectsRef s) s') as [[ds'|e'] s1'];
    simpl in *; try discriminate; [now inversion Hf | reflexivity].
Qed.

Lemma snapshotOf_group (s : State) (g : nat) (group : Object3D) :
  In g (objectsRef s) -> nth_error (heap s) g = Some group -> material group = None ->
  snapshotOf s = None.
Proof.
  intros Hin Hg Hm.
  destruct (@serializeObjects_group s g group (objectsRef s) Hin Hg Hm 0) as [e He].
  unfold snapshotOf, saveSceneToJSON, bind.
  destruct (serializeObjects 0 (objectsRef s) s) as [[ds|e'] s1]; simpl in *;
    [discriminate | reflexivity].
Qed.

(** What the group handler leaves on the stacks. *)
Lemma groupSelectedHandler_stacks {graph : SceneGraph} (s : State) :
  2 <= List.length (groupMembers s) ->
  (forall r, In r (objectsRef s) -> r < List.length (heap s)) ->
  exists s',
    groupSelectedHandler s = (Ok tt, s') /\
    match snapshotOf s with
    | Some snap => undoStackRef s' = undoStackRef s ++ [snap] /\ redoStackRef s' = []
    | None => undoStackRef s' = undoStackRef s /\ redoStackRef s' = redoStackRef s
    end.
Proof.
  intros H Hlive.
  destruct (groupSelectedHandler_result s H) as (undo & redo & logs & Hp & Hrun).
  eexists. split; [exact Hrun|].
  match type of Hp with pushHistory ?s1 = _ =>
    destruct (pushHistory_run s1) as (logs' & Hp');
    replace (snapshotOf s1) with (snapshotOf s) in Hp'
  end.
  - rewrite Hp in Hp'. apply (f_equal snd) in Hp'. simpl snd in Hp'.
    assert (Hur : match snapshotOf s with
                  | Some snap => undo = undoStackRef s ++ [snap] /\ redo = []
                  | None => undo = undoStackRef s /\ redo = redoStackRef s
                  end).
    { destruct (snapshotOf s) as [snap|]; destruct s; simpl in Hp'; inversion Hp'; split;
        reflexivity. }
    destruct (snapshotOf s) as [snap|]; destruct Hur as [-> ->]; destruct s; split; reflexivity.
  - apply snapshotOf_heap_at; try (destruct s; reflexivity).
    intros r Hr. apply Hlive in Hr. destruct s; simpl in *.
    now rewrite nth_error_app1.
Qed.

Lemma serializable_live (s : State) :
  serializable_store s -> forall r, In r (objectsRef s) -> r < List.length (heap s).
Proof.
  intros [H _] r Hr. destruct (H r Hr) as (o & Ho & _).
  apply nth_error_Some. rewrite Ho. discriminate.
Qed.

(** A grouping, then undo: the store is observably the one before the
    grouping.  The undo finds a group in the store, its snapshot fails,
    and the redo stack stays empty: the grouping cannot be redone. *)
Theorem group_then_undo {three : ThreeJS} {graph : SceneGraph} (s : State) :
  serializable_store s -> json_clean_store s ->
  2 <= List.length (groupMembers s) ->
  observeStore (dispatch undoHandler (dispatch groupSelectedHandler s)) = observeStore s /\
  redoStackRef (dispatch undoHandler (dispatch groupSelectedHandler s)) = [].
Proof.
  intros Hser Hjson H2.
  pose proof (serializable_live Hser) as Hlive.
  destruct (@groupSelectedHandler_stacks graph s H2 Hlive) as (s1 & Hrun & Hst).
  destruct (snapshot_restores (three := three) Hser Hjson) as (d & Hd & Hview).
  rewrite Hd in Hst. destruct Hst as [Hu Hr].
  destruct (@groupSelectedHandler_run graph s H2)
    as (group & s1x & Hrunx & _ & Hnth & _ & Hmat & _ & _ & _ & _ & _ & Ho & _).
  rewrite Hrun in Hrunx. inversion Hrunx; subst s1x. clear Hrunx.
  set (s1' := dispatch groupSelectedHandler s).
  assert (Hs1' : undoStackRef s1' = undoStackRef s ++ [d] /\ redoStackRef s1' = [] /\
                 nth_error (heap s1') (List.length (heap s)) = Some group /\
                 In (List.length (heap s)) (objectsRef s1')).
  { unfold s1', dispatch.
    destruct (syncRefs_stacks s (snd (groupSelectedHandler s))) as [-> ->].
    destruct (syncRefs_store s (snd (groupSelectedHandler s))) as [-> ->].
    rewrite Hrun in *. simpl snd in *. repeat split; try assumption.
    rewrite Ho. apply in_or_app. right. now left. }
  destruct Hs1' as (Hu' & Hr' & Hh' & Hin').
  destruct (@undo_restores three s1' (undoStackRef s) d Hu') as (_ & Hobs & Hredo).
  split; [now rewrite Hobs|].
  rewrite Hredo, (@snapshotOf_group s1' (List.length (heap s)) group); try assumption.
Qed.

(** The session with the box and the sphere selected can be
    snapshotted. *)
Lemma bothSelected_objects : objectsRef Session.bothSelected = [0; 1]%nat.
Proof. vm_compute. reflexivity. Qed.

Lemma bothSelected_sketches : sketchesRef Session.bothSelected = [].
Proof. vm_compute. reflexivity. Qed.

Lemma bothSelected_serializable : serializable_store Session.bothSelected.
Proof.
  split.
  - intros r Hr. rewrite bothSelected_objects in Hr.
    exists (nth r (heap Session.bothSelected) newGroup).
    destruct Hr as [<-|[<-|[]]]; (split; [vm_compute; reflexivity|]);
      (split; [eexists; split; [vm_compute; reflexivity | vm_compute; split; reflexivity]|]);
      (split; [vm_compute; split; discriminate|]).
    + left. split; [vm_compute; reflexivity|].
      eexists. split; [vm_compute; reflexivity|]. vm_compute. repeat split; discriminate.
    + right; left. split; vm_compute; reflexivity.
  - intros k Hk. rewrite bothSelected_sketches in Hk. destruct Hk.
Qed.

Lemma bothSelected_json_clean : json_clean_store Session.bothSelected.
Proof.
  split.
  - intros r o Hr Ho. rewrite bothSelected_objects in Hr.
    destruct Hr as [<-|[<-|[]]];
      apply (nth_error_nth _ _ newGroup) in Ho; subst o;
      vm_compute;
      repeat split; first [ left; reflexivity | right; split; reflexivity ].
  - intros k Hk. rewrite bothSelected_sketches in Hk. destruct Hk.
Qed.

Lemma group_then_undo_witness :
  observeStore (dispatch (undoHandler (three := Sample.three))
                         (dispatch (groupSelectedHandler (graph := stillGraph))
                                   Session.bothSelected))
  = observeStore Session.bothSelected /\
  redoStackRef (dispatch (undoHandler (three := Sample.three))
                         (dispatch (groupSelectedHandler (graph := stillGraph))
                                   Session.bothSelected)) = [].
Proof.
  apply (@group_then_undo Sample.three stillGraph Session.bothSelected).
  - exact bothSelected_serializable.
  - exact bothSelected_json_clean.
  - vm_compute. repeat constructor.
Defined.

(** ** Export, then import *)

(** What [importHandler] does after a load that returned. *)
Lemma importHandler_after_load {three : ThreeJS} (data : SceneData) (s loaded : State) :
  loadSceneFromJSON data s = (Ok tt, loaded) ->
  exists s3,
    importHandler (Some data) s = (Ok tt, s3) /\
    heap s3 = heap loaded /\ objectsRef s3 = objectsRef loaded /\
    sketchesRef s3 = sketchesRef loaded.
Proof.
  intros Hload. eexists. split.
  - unfold importHandler, try_catch.
    rewrite (@bind_Ok _ _ (loadSceneFromJSON data) _ s tt loaded Hload). reflexivity.
  - destruct loaded; repeat split.
Qed.

(** [exportHandler] never changes the scene: at most it adds a line to
    the console.  From a store the codec carries it produces a file, and
    importing that file, into whatever state the component is in, gives a
    store observably equal to the exported one. *)
Theorem export_then_import {three : ThreeJS} (s s2 : State) :
  serializable_store s -> json_clean_store s ->
  exists file,
    exportHandler s = (Ok (Some file), s) /\
    fst (importHandler (Some file) s2) = Ok tt /\
    observeStore (dispatch (importHandler (Some file)) s2) = observeStore s.
Proof.
  intros Hser Hjson.
  destruct (roundtrip_from_any_state Hser) as (d & shapes & sketches & Hsave & Hload & Hobs).
  destruct (@importHandler_after_load three d s2 _ (Hload s2)) as (s3 & Hrun & Hh & Ho & Hs).
  exists d. split; [|split].
  - unfold exportHandler, try_catch, bind, get. rewrite Hsave.
    now rewrite (JSON_parse_stringify_saved Hjson Hsave).
  - now rewrite Hrun.
  - rewrite <- Hobs, <- (observeStore_loadEffect shapes sketches [] s2).
    unfold dispatch. rewrite Hrun. cbn [snd]. unfold observeStore.
    destruct (syncRefs_store s2 s3) as [-> ->].
    assert (Hk : sketchesRef (syncRefs s2 s3) = sketchesRef s3).
    { pose proof (syncRefs_historyView s2 s3) as H.
      unfold historyView in H. now inversion H. }
    now rewrite Hk, Hh, Ho, Hs.
Qed.

Lemma export_then_import_witness :
  exists file,
    exportHandler Gallery.scene = (Ok (Some file), Gallery.scene) /\
    fst (importHandler (three := Sample.three) (Some file) Session.grouped) = Ok tt /\
    observeStore (dispatch (importHandler (three := Sample.three) (Some file)) Session.grouped)
    = observeStore Gallery.scene.
Proof.
  apply (@export_then_import Sample.three Gallery.scene Session.grouped).
  - exact Gallery.scene_serializable.
  - exact Gallery_scene_json_clean.
Defined.

(** An export of a store that holds an object without material (a group)
    fails: no file is produced and the console gets the line of the catch
    block; the scene is untouched. *)
Theorem exportHandler_group (s : State) (g : nat) (group : Object3D) :
  In g (objectsRef s) -> nth_error (heap s) g = Some group -> material group = None ->
  exportHandler s = (Ok None, set_console (console s ++ [console_error "Export failed:"]) s).
Proof.
  intros Hin Hg Hm.
  destruct (@serializeObjects_group s g group (objectsRef s) Hin Hg Hm 0) as [e He].
  pose proof (serializeObjects_state (objectsRef s) 0 s) as Hst.
  unfold exportHandler, try_catch, bind, get, saveSceneToJSON, bind.
  destruct (serializeObjects 0 (objectsRef s) s) as [[ds|e'] s1]; simpl in *; [discriminate|].
  subst s1. reflexivity.
Qed.

Lemma exportHandler_group_witness :
  exportHandler Session.grouped
  = (Ok None,
     set_console (console Session.grouped ++ [console_error "Export failed:"]) Session.grouped).
Proof.
  apply (@exportHandler_group Session.grouped 2 (nth 2 (heap Session.grouped) newGroup)).
  - vm_compute. now left.
  - vm_compute. reflexivity.
  - vm_compute. reflexivity.
Defined.


(** ** Creating a shape *)

(** The history stacks and the sketch list. *)
Definition recorded (s : State) : list Snapshot * list Snapshot * list Sketch :=
  (undoStackRef s, redoStackRef s, sketchesRef s).

(** [handleSelection] reads and writes neither history stack, and leaves
    the sketch list alone. *)
Lemma handleSelection_recorded {three : ThreeJS} (view : Viewport) (event : MouseEvent) (s : State) :
  recorded (snd (handleSelection view event s)) = recorded s.
Proof.
  unfold handleSelection, bind at 1, get.
  destruct (isDraggingRef s); [reflexivity|].
  destruct (sketchModeRef s && truthy_string (sketchToolRef s)); [reflexivity|].
  destruct (truthy_string (pendingShapeTypeRef s)) eqn:Ep.
  - destruct (pendingShapeTypeRef s) as [type|] eqn:Et; [|discriminate].
    destruct (mouseOnPlane view) as [pos|].
    + unfold createShapeAtPosition.
      destruct (String.eqb type "box"); [destruct s; reflexivity|].
      destruct (String.eqb type "sphere"); [destruct s; reflexivity|].
      destruct (String.eqb type "cylinder"); destruct s; reflexivity.
    + unfold bind at 1, when, modify at 1.
      destruct (candidateOf view (objectsRef s)) as [c|]; [|destruct s; reflexivity].
      unfold bind at 1, deref.
      match goal with |- context [nth_error ?h c] => destruct (nth_error h c) as [obj|] end;
        [|destruct s; reflexivity].
      destruct (resolvePick view event c obj) as [selected selectedType].
      destruct (shiftKey event);
        [destruct (selectedEntityRef s) as [[primary| |]|];
         try destruct (includes (objectsRef s) primary && negb (includes (multiSelectedRef s) primary))|];
        destruct s; reflexivity.
  - unfold bind at 1, when, ret.
    destruct (candidateOf view (objectsRef s)) as [c|]; [|destruct s; reflexivity].
    unfold bind at 1, deref.
    destruct (nth_error (heap s) c) as [obj|]; [|destruct s; reflexivity].
    destruct (resolvePick view event c obj) as [selected selectedType].
    destruct (shiftKey event);
      [destruct (selectedEntityRef s) as [[primary| |]|];
       try destruct (includes (objectsRef s) primary && negb (includes (multiSelectedRef s) primary))|];
      destruct s; reflexivity.
Qed.

(** The height at which [createShapeAtPosition] puts a shape. *)
Definition restingHeight (type : string) : float :=
  if String.eqb type "sphere" then 0.7%float else 0.5%float.

(** One run of [handleSelection] while a shape type is pending, with the
    pointer over the ground plane: for ['box'], ['sphere'] and
    ['cylinder'] exactly one shape of that type is added to the store, at
    the clicked point and at the fixed height of its kind, and it becomes
    the selection held in the React state; for any other type nothing is
    added and an error is logged.  In both cases the pending type is
    cleared, and this run selects nothing else. *)
Lemma handleSelection_places {three : ThreeJS}
        (view : Viewport) (event : MouseEvent) (s : State) (type : string) (pos : Vec3) :
  isDraggingRef s = false ->
  sketchModeRef s && truthy_string (sketchToolRef s) = false ->
  pendingShapeTypeRef s = Some type ->
  truthy_string (Some type) = true ->
  mouseOnPlane view = Some pos ->
  exists s',
    handleSelection view event s = (Ok tt, s') /\
    pendingShapeTypeRef s' = None /\
    multiSelectedRef s' = multiSelectedRef s /\
    selectedEntityRef s' = selectedEntityRef s /\
    (type = "box" \/ type = "sphere" \/ type = "cylinder" ->
     exists shape,
       heap s' = heap s ++ [shape] /\
       objectsRef s' = objectsRef s ++ [List.length (heap s)] /\
       ud_type (userData shape) = Some type /\
       position shape = vec3 (Num (px pos)) (Num (restingHeight type)) (Num (pz pos)) /\
       selectedEntity s' = Some (ShapeRef (List.length (heap s))) /\
       selectedType s' = Some TShape) /\
    (type <> "box" -> type <> "sphere" -> type <> "cylinder" ->
     heap s' = heap s /\ objectsRef s' = objectsRef s /\
     selectedEntity s' = selectedEntity s /\
     console s' = console s ++ [console_error "Unknown shape type:"]).
Proof.
  intros Hd Hk Hp Ht Hm.
  unfold handleSelection, bind at 1, get. rewrite Hd, Hk, Hp, Ht, Hm.
  unfold createShapeAtPosition, restingHeight.
  destruct (String.eqb type "box") eqn:Eb;
    [| destruct (String.eqb type "sphere") eqn:Es;
       [| destruct (String.eqb type "cylinder") eqn:Ec]].
  - apply String.eqb_eq in Eb. subst type.
    eexists. split; [reflexivity|]. destruct s; simpl.
    do 3 (split; [reflexivity|]). split.
    + intros _. eexists. repeat split.
    + intros Hne. now elim Hne.
  - apply String.eqb_eq in Es. subst type.
    eexists. split; [reflexivity|]. destruct s; simpl.
    do 3 (split; [reflexivity|]). split.
    + intros _. eexists. repeat split.
    + intros _ Hne. now elim Hne.
  - apply String.eqb_eq in Ec. subst type.
    eexists. split; [reflexivity|]. destruct s; simpl.
    do 3 (split; [reflexivity|]). split.
    + intros _. eexists. repeat split.
    + intros _ _ Hne. now elim Hne.
  - apply String.eqb_neq in Eb, Es, Ec.
    eexists. split; [reflexivity|]. destruct s; simpl.
    do 3 (split; [reflexivity|]). split.
    + intros [Hne|[Hne|Hne]]; congruence.
    + intros _ _ _. repeat split.
Qed.

(** The creation of a shape (the button, then the click that places it),
    then undo: the store is observably the one before the button was
    pressed, whatever the click did. *)
Theorem create_then_undo {three : ThreeJS}
        (s : State) (detail : string) (view : Viewport) (event : MouseEvent) :
  serializable_store s -> json_clean_store s ->
  observeStore (dispatch undoHandler
                  (dispatch (handleSelection view event)
                     (dispatch (createShapeHandler detail) s)))
  = observeStore s.
Proof.
  intros Hser Hjson.
  apply undo_after_push; try assumption.
  intros d Hd. unfold dispatch at 1.
  destruct (syncRefs_stacks (dispatch (createShapeHandler detail) s)
              (snd (handleSelection view event (dispatch (createShapeHandler detail) s))))
    as [-> _].
  pose proof (handleSelection_recorded view event (dispatch (createShapeHandler detail) s)) as Hr.
  apply (f_equal (fun r => fst (fst r))) in Hr. unfold recorded in Hr. cbn [fst] in Hr. rewrite Hr.
  unfold dispatch.
  destruct (syncRefs_stacks s (snd (createShapeHandler detail s))) as [-> _].
  unfold createShapeHandler, bind at 1.
  destruct (pushHistory_run s) as [logs Hp]. rewrite Hd in Hp. rewrite Hp.
  unfold handleShapeCreation, bind, get.
  match goal with |- context [if ?b then _ else _] => destruct b end;
    destruct s; reflexivity.
Qed.

Lemma create_then_undo_witness :
  observeStore (dispatch (undoHandler (three := Sample.three))
                  (dispatch (handleSelection (three := Sample.three) (Session.ground 5 5) Session.plain)
                     (dispatch (createShapeHandler "cylinder") Gallery.scene)))
  = observeStore Gallery.scene.
Proof.
  apply (@create_then_undo Sample.three Gallery.scene "cylinder" (Session.ground 5 5) Session.plain).
  - exact Gallery.scene_serializable.
  - exact Gallery_scene_json_clean.
Defined.

(* ===================================================================== *)
(** ** Editing a sketch *)
(* ===================================================================== *)

(** The state a history push leaves: the stacks and the console apart, it
    is the state before. *)
Lemma pushHistory_store (s : State) :
  exists s1,
    pushHistory s = (Ok tt, s1) /\
    heap s1 = heap s /\ objectsRef s1 = objectsRef s /\ sketchesRef s1 = sketchesRef s /\
    (forall d, snapshotOf s = Some d -> undoStackRef s1 = undoStackRef s ++ [d]).
Proof.
  destruct (pushHistory_run s) as [logs Hp]. eexists. split; [exact Hp|].
  destruct (snapshotOf s) as [d|]; (repeat split; [destruct s; reflexivity ..|]).
  - intros d' Hd. inversion Hd. destruct s; reflexivity.
  - discriminate.
Qed.

Lemma updateSketchHandler_run (index : Z) (width height radius : jsnum) (s : State) (sketch : Sketch) :
  (0 <= index)%Z -> nth_error (sketchesRef s) (Z.to_nat index) = Some sketch ->
  exists sketch' s',
    snd (updateSketchHandler (Some index) width height radius s) = s' /\
    heap s' = heap s /\ objectsRef s' = objectsRef s /\
    sketchesRef s' = assigned (sketchesRef s) (Z.to_nat index) sketch' /\
    (forall d, snapshotOf s = Some d -> undoStackRef s' = undoStackRef s ++ [d]) /\
    sketch' =
      (if type_is (sk_type sketch) "rectangle" then
         let sketch := if isFinitePositive width then set_sk_width width sketch else sketch in
         if isFinitePositive height then set_sk_height height sketch else sketch
       else if type_is (sk_type sketch) "circle" then
         if isFinitePositive radius then set_sk_radius radius sketch else sketch
       else sketch).
Proof.
  intros H0 Hn.
  assert (Hlt : Z.to_nat index < List.length (sketchesRef s)).
  { apply nth_error_Some. rewrite Hn. discriminate. }
  unfold updateSketchHandler, bind at 1, get.
  replace (index <? 0)%Z with false by (symmetry; apply Z.ltb_ge; lia).
  replace (index >=? Z.of_nat (List.length (sketchesRef s)))%Z with false
    by (symmetry; rewrite Z.geb_leb; apply Z.leb_gt; lia).
  cbn [orb].
  destruct (pushHistory_store s) as (s1 & Hp & Hh & Ho & Hk & Hu).
  unfold bind at 1. rewrite Hp. unfold bind at 1, get. rewrite Hk, Hn.
  eexists. eexists. split; [reflexivity|].
  set (sketch' := if type_is (sk_type sketch) "rectangle" then _ else _).
  unfold bind, modify, get, dispatchEvent, throw, ret.
  destruct (type_is (sk_type sketch') "rectangle" || type_is (sk_type sketch') "circle");
    [destruct (sk_center sketch')|]; cbn [snd];
    (repeat split; [destruct s1; simpl in *; try rewrite Hk; try assumption; reflexivity ..|]);
    try (intros d Hd; rewrite <- (Hu d Hd); destruct s1; reflexivity).
Qed.

(** [updateSketchHandler] with an index inside the list: the objects are
    left alone, the list of sketches keeps its length and its other
    elements, and the sketch at the index keeps its id, type, centre and
    corners; only its dimensions can change, and one that was finite and
    positive is finite and positive afterwards (a value that is not, is
    ignored).  This holds as well when the handler ends on the exception
    of a sketch without centre. *)
Theorem updateSketchHandler_edits
        (index : Z) (width height radius : jsnum) (s : State) (sketch : Sketch) :
  (0 <= index)%Z -> nth_error (sketchesRef s) (Z.to_nat index) = Some sketch ->
  exists sketch',
    heap (snd (updateSketchHandler (Some index) width height radius s)) = heap s /\
    objectsRef (snd (updateSketchHandler (Some index) width height radius s)) = objectsRef s /\
    List.length (sketchesRef (snd (updateSketchHandler (Some index) width height radius s)))
    = List.length (sketchesRef s) /\
    (forall k, k <> Z.to_nat index ->
               nth_error (sketchesRef (snd (updateSketchHandler (Some index) width height radius s))) k
               = nth_error (sketchesRef s) k) /\
    nth_error (sketchesRef (snd (updateSketchHandler (Some index) width height radius s)))
              (Z.to_nat index) = Some sketch' /\
    sk_id sketch' = sk_id sketch /\ sk_type sketch' = sk_type sketch /\
    sk_center sketch' = sk_center sketch /\
    sk_start sketch' = sk_start sketch /\ sk_end sketch' = sk_end sketch /\
    (isFinitePositive (sk_width sketch) = true -> isFinitePositive (sk_width sketch') = true) /\
    (isFinitePositive (sk_height sketch) = true -> isFinitePositive (sk_height sketch') = true) /\
    (isFinitePositive (sk_radius sketch) = true -> isFinitePositive (sk_radius sketch') = true).
Proof.
  intros H0 Hn.
  assert (Hlt : Z.to_nat index < List.length (sketchesRef s)).
  { apply nth_error_Some. rewrite Hn. discriminate. }
  destruct (@updateSketchHandler_run index width height radius s sketch H0 Hn)
    as (sketch' & s' & -> & Hh & Ho & Hk & _ & Hs).
  exists sketch'. rewrite Hh, Ho, Hk. unfold assigned.
  split; [reflexivity|]. split; [reflexivity|].
  split; [now apply assigned_length|].
  split; [intros k Hne; now apply assigned_other|].
  split; [now apply assigned_same|].
  subst sketch'.
  destruct (type_is (sk_type sketch) "rectangle");
    [| destruct (type_is (sk_type sketch) "circle")];
    destruct (isFinitePositive width) eqn:Ew;
    destruct (isFinitePositive height) eqn:Eh;
    destruct (isFinitePositive radius) eqn:Er;
    cbn; repeat split; auto.
Qed.

Lemma updateSketchHandler_edits_witness :
  exists sketch',
    heap (snd (updateSketchHandler (Some 0%Z) (Num 4) (Num (-1)) (Num 5) Gallery.scene))
    = heap Gallery.scene /\
    objectsRef (snd (updateSketchHandler (Some 0%Z) (Num 4) (Num (-1)) (Num 5) Gallery.scene))
    = objectsRef Gallery.scene /\
    List.length (sketchesRef (snd (updateSketchHandler (Some 0%Z) (Num 4) (Num (-1)) (Num 5)
                                                       Gallery.scene)))
    = List.length (sketchesRef Gallery.scene) /\
    (forall k, k <> Z.to_nat 0 ->
               nth_error (sketchesRef (snd (updateSketchHandler (Some 0%Z) (Num 4) (Num (-1)) (Num 5)
                                                                Gallery.scene))) k
               = nth_error (sketchesRef Gallery.scene) k) /\
    nth_error (sketchesRef (snd (updateSketchHandler (Some 0%Z) (Num 4) (Num (-1)) (Num 5)
                                                     Gallery.scene)))
              (Z.to_nat 0) = Some sketch' /\
    sk_id sketch' = sk_id (Gallery.circleAt 0 (-3) 2) /\ sk_type sketch' = sk_type (Gallery.circleAt 0 (-3) 2) /\
    sk_center sketch' = sk_center (Gallery.circleAt 0 (-3) 2) /\
    sk_start sketch' = sk_start (Gallery.circleAt 0 (-3) 2) /\ sk_end sketch' = sk_end (Gallery.circleAt 0 (-3) 2) /\
    (isFinitePositive (sk_width (Gallery.circleAt 0 (-3) 2)) = true -> isFinitePositive (sk_width sketch') = true) /\
    (isFinitePositive (sk_height (Gallery.circleAt 0 (-3) 2)) = true -> isFinitePositive (sk_height sketch') = true) /\
    (isFinitePositive (sk_radius (Gallery.circleAt 0 (-3) 2)) = true -> isFinitePositive (sk_radius sketch') = true).
Proof.
  apply (@updateSketchHandler_edits 0%Z (Num 4) (Num (-1)) (Num 5) Gallery.scene (Gallery.circleAt 0 (-3) 2)).
  - lia.
  - reflexivity.
Defined.

(** An edit of a sketch, then undo: the store is observably the one
    before the edit. *)
Theorem updateSketch_then_undo {three : ThreeJS}
        (index : Z) (width height radius : jsnum) (s : State) :
  serializable_store s -> json_clean_store s ->
  (0 <= index < Z.of_nat (List.length (sketchesRef s)))%Z ->
  observeStore (dispatch undoHandler
                  (dispatch (updateSketchHandler (Some index) width height radius) s))
  = observeStore s.
Proof.
  intros Hser Hjson Hi.
  apply undo_after_push; try assumption.
  intros d Hd. unfold dispatch.
  destruct (syncRefs_stacks s (snd (updateSketchHandler (Some index) width height radius s)))
    as [-> _].
  destruct (nth_error (sketchesRef s) (Z.to_nat index)) as [sketch|] eqn:Hn.
  - destruct (@updateSketchHandler_run index width height radius s sketch (proj1 Hi) Hn)
      as (sketch' & s' & -> & _ & _ & _ & Hu & _).
    now apply Hu.
  - apply nth_error_None in Hn. lia.
Qed.

Lemma updateSketch_then_undo_witness :
  observeStore (dispatch (undoHandler (three := Sample.three))
                  (dispatch (updateSketchHandler (Some 0%Z) (Num 4) (Num 2) (Num 5)) Gallery.scene))
  = observeStore Gallery.scene.
Proof.
  apply (@updateSketch_then_undo Sample.three 0%Z (Num 4) (Num 2) (Num 5) Gallery.scene).
  - exact Gallery.scene_serializable.
  - exact Gallery_scene_json_clean.
  - vm_compute. split; [discriminate|reflexivity].
Defined.

(* ===================================================================== *)
(** ** Pointer and keyboard events on the whole component *)
(* ===================================================================== *)

(** The effects change nothing after a handler that left the selection
    refs equal to the React state and did not touch the sketch tool. *)
Lemma syncRefs_settled (before after : State) :
  selectedEntityRef after = selectedEntity after ->
  selectedTypeRef after = selectedType after ->
  sketchTool after = sketchTool before ->
  syncRefs before after = after.
Proof.
  intros He Ht Hk. unfold syncRefs.
  repeat match goal with |- context [if ?c then _ else _] => destruct c eqn:? end;
    destruct after; simpl in *; subst; try reflexivity;
    try (rewrite Hk in *);
    match goal with
    | H : option_eqb String.eqb ?a ?a = false |- _ =>
        exfalso; clear - H; destruct a as [x|]; simpl in H;
        [rewrite String.eqb_refl in H|]; discriminate
    end.
Qed.


(** How the handlers of the component run, one statement at a time. *)
Lemma bindC_getS {B} (k : State -> MC B) (c : Canvas) : bindC getS k c = k (core c) c.
Proof. destruct c; reflexivity. Qed.

Lemma bindC_getT {B} (k : Tools -> MC B) (c : Canvas) : bindC getT k c = k (tools c) c.
Proof. reflexivity. Qed.

Lemma bindC_modifyT {B} (f : Tools -> Tools) (k : unit -> MC B) (c : Canvas) :
  bindC (modifyT f) k c = k tt {| core := core c; tools := f (tools c) |}.
Proof. reflexivity. Qed.

Lemma bindC_liftM {A B} (m : M A) (k : A -> MC B) (c : Canvas) (a : A) (s' : State) :
  m (core c) = (Ok a, s') ->
  bindC (liftM m) k c = k a {| core := s'; tools := tools c |}.
Proof. intros H. unfold bindC, liftM. now rewrite H. Qed.


Lemma bindC_Ok {A B} (m : MC A) (k : A -> MC B) (c c' : Canvas) (a : A) :
  m c = (Ok a, c') -> bindC m k c = k a c'.
Proof. intros H. unfold bindC. now rewrite H. Qed.

(** The multi-selection set after a shift-click that resolves to the
    shape [x]. *)
Definition shiftToggled (s : State) (x : nat) : list nat :=
  let set :=
    match selectedEntityRef s with
    | Some (ShapeRef primary) =>
        if includes (objectsRef s) primary && negb (includes (multiSelectedRef s) primary)
        then Set_add (multiSelectedRef s) primary
        else multiSelectedRef s
    | _ => multiSelectedRef s
    end in
  if includes set x then Set_delete set x else Set_add set x.

Lemma handleSelection_shift {three : ThreeJS}
      (view : Viewport) (event : MouseEvent) (s : State) (x : nat) :
  isDraggingRef s = false ->
  sketchModeRef s && truthy_string (sketchToolRef s) = false ->
  truthy_string (pendingShapeTypeRef s) = false ->
  shiftKey event = true ->
  candidateOf view (objectsRef s) = Some x ->
  nth_error (heap s) x <> None ->
  exists n,
    handleSelection view event s
    = (Ok tt,
       set_events (events s ++ [n])
         (set_selectedTypeRef (Some TShape)
            (set_selectedEntityRef (Some (ShapeRef x))
               (set_selectedType (Some TShape)
                  (set_selectedEntity (Some (ShapeRef x))
                     (set_multiSelectedRef (shiftToggled s x) s)))))).
Proof.
  intros Hd Hk Hp Hs Hc Hx.
  destruct (nth_error (heap s) x) as [obj|] eqn:Ho; [clear Hx | now elim Hx].
  unfold handleSelection, bind at 1, get. rewrite Hd, Hk, Hp, Hs, Hc.
  unfold when. cbv iota.
  unfold bind at 1, ret. unfold bind at 1, deref, get, bind at 1. rewrite Ho.
  unfold ret. destruct (resolvePick view event x obj) as [selected selectedType].
  exists (selectionChanged (Some selected) (Some selectedType)).
  unfold shiftToggled.
  destruct (selectedEntityRef s) as [[primary| |]|] eqn:Hsel; unfold when;
    try destruct (includes (objectsRef s) primary && negb (includes (multiSelectedRef s) primary));
    destruct s; reflexivity.
Qed.

Lemma includes_Set_delete (set : list nat) (x : nat) : includes (Set_delete set x) x = false.
Proof.
  destruct (includes (Set_delete set x) x) eqn:E; [|reflexivity].
  apply includes_In in E. unfold Set_delete in E. apply filter_In in E.
  destruct E as [_ E]. now rewrite Nat.eqb_refl in E.
Qed.

Lemma includes_Set_add (set : list nat) (x : nat) : includes (Set_add set x) x = true.
Proof.
  unfold Set_add. destruct (includes set x) eqn:E; [exact E|].
  apply includes_In, in_or_app. right. now left.
Qed.

Lemma candidateOf_includes (view : Viewport) (objects : list nat) (x : nat) :
  candidateOf view objects = Some x -> includes objects x = true.
Proof.
  unfold candidateOf. destruct (recursiveIntersects view) as [|hit rest]; [discriminate|].
  intros H. now apply find_some in H.
Qed.

(** A shift-click on the shape that is the primary selection takes it out
    of the multi-selection set. *)
Lemma shiftToggled_primary (s : State) (x : nat) :
  selectedEntityRef s = Some (ShapeRef x) -> includes (objectsRef s) x = true ->
  includes (shiftToggled s x) x = false.
Proof.
  intros Hsel Hin. unfold shiftToggled. rewrite Hsel, Hin. cbn [andb].
  destruct (includes (multiSelectedRef s) x) eqn:E; cbn [negb].
  - rewrite E. apply includes_Set_delete.
  - rewrite includes_Set_add. apply includes_Set_delete.
Qed.

Section Clicks.
Context {three : ThreeJS} {graph : SceneGraph}.

(** The state of the scene after the listener of a pointer press that
    goes to the selection with the shift key held, and after its effects. *)
Lemma step_shift_select (c : Canvas) (e : Event) (view : Viewport) (event : MouseEvent) (x : nat) :
  core (snd (listener e c)) = snd (handleSelection view event (core c)) ->
  isDraggingRef (core c) = false ->
  sketchModeRef (core c) && truthy_string (sketchToolRef (core c)) = false ->
  truthy_string (pendingShapeTypeRef (core c)) = false ->
  shiftKey event = true ->
  candidateOf view (objectsRef (core c)) = Some x ->
  nth_error (heap (core c)) x <> None ->
  exists n,
    core (step c e)
    = set_events (events (core c) ++ [n])
        (set_selectedTypeRef (Some TShape)
           (set_selectedEntityRef (Some (ShapeRef x))
              (set_selectedType (Some TShape)
                 (set_selectedEntity (Some (ShapeRef x))
                    (set_multiSelectedRef (shiftToggled (core c) x) (core c)))))).
Proof.
  intros Hl Hd Hk Hp Hs Hc Hx.
  destruct (@handleSelection_shift three view event (core c) x Hd Hk Hp Hs Hc Hx) as [n Hn].
  exists n. unfold step. cbn [core]. rewrite Hl, Hn. cbn [snd].
  apply syncRefs_settled; destruct (core c); reflexivity.
Qed.

Lemma handlePointerDown_selects (c : Canvas) (view : Viewport) (event : MouseEvent) :
  truthy_string (transformModeRef (tools c)) = false ->
  sketchModeRef (core c) && truthy_string (sketchToolRef (core c)) = false ->
  handlePointerDown view event c = liftM (handleSelection view event) c.
Proof.
  intros Ht Hk. unfold handlePointerDown, bindC at 1, getS, liftM at 1, get.
  unfold bindC at 1, getT. cbn [tools core]. rewrite Ht, Hk. destruct c; reflexivity.
Qed.

Lemma core_liftM {A} (m : M A) (c : Canvas) : core (snd (liftM m c)) = snd (m (core c)).
Proof. unfold liftM. now destruct (m (core c)). Qed.

Lemma tools_liftM {A} (m : M A) (c : Canvas) : tools (snd (liftM m c)) = tools c.
Proof. unfold liftM. now destruct (m (core c)). Qed.

Lemma onMouseDown_selects (c : Canvas) (view : Viewport) (event : MouseEvent) :
  truthy_string (pendingShapeTypeRef (core c)) = false ->
  truthy_string (transformModeRef (tools c)) = false ->
  sketchModeRef (core c) && truthy_string (sketchToolRef (core c)) = false ->
  core (snd (onMouseDown 0 view event c)) = snd (handleSelection view event (core c)).
Proof.
  intros Hp Ht Hk. unfold onMouseDown. cbn [Z.eqb].
  unfold bindC at 1, getS, liftM at 1, get. unfold bindC at 1, getT. cbn [tools core].
  rewrite Hp, Ht, Hk. cbn [orb andb].
  unfold bindC, liftM, modifyT. cbn [core tools].
  destruct (handleSelection view event (core c)) as [[[]|err] s']; reflexivity.
Qed.

End Clicks.

(** A press of the left button on the canvas reaches the two listeners of
    the element, [pointerdown] and then [mousedown], and outside the
    sketch and transform tools both run the selection.  With the shift key
    held and the ray on the shape [x], the first toggles [x] in the
    multi-selection set and makes it the primary selection; the second
    then finds it in the set and takes it out: after the press, [x] is the
    selection and is not in the multi-selection set, whatever the set was
    before. *)
Theorem shift_click_leaves_shape_out {three : ThreeJS} {graph : SceneGraph}
        (c : Canvas) (view1 view2 : Viewport) (event1 event2 : MouseEvent) (x : nat) :
  isDraggingRef (core c) = false ->
  sketchModeRef (core c) && truthy_string (sketchToolRef (core c)) = false ->
  truthy_string (pendingShapeTypeRef (core c)) = false ->
  truthy_string (transformModeRef (tools c)) = false ->
  shiftKey event1 = true -> shiftKey event2 = true ->
  candidateOf view1 (objectsRef (core c)) = Some x ->
  candidateOf view2 (objectsRef (core c)) = Some x ->
  nth_error (heap (core c)) x <> None ->
  includes (multiSelectedRef
              (core (step (step c (pointerdown view1 event1)) (mousedown 0 view2 event2)))) x
  = false /\
  selectedEntityRef
    (core (step (step c (pointerdown view1 event1)) (mousedown 0 view2 event2)))
  = Some (ShapeRef x).
Proof.
  intros Hd Hk Hp Ht Hs1 Hs2 Hc1 Hc2 Hx.
  assert (Hl1 : core (snd (listener (pointerdown view1 event1) c))
                = snd (handleSelection view1 event1 (core c))).
  { cbn [listener]. rewrite handlePointerDown_selects by assumption. apply core_liftM. }
  destruct (@step_shift_select three graph c _ view1 event1 x Hl1 Hd Hk Hp Hs1 Hc1 Hx)
    as [n1 H1].
  set (c1 := step c (pointerdown view1 event1)) in *.
  assert (Ht1 : tools c1 = tools c).
  { unfold c1, step. cbn [tools listener].
    rewrite handlePointerDown_selects by assumption. apply tools_liftM. }
  assert (Hl2 : core (snd (listener (mousedown 0 view2 event2) c1))
                = snd (handleSelection view2 event2 (core c1))).
  { cbn [listener]. apply onMouseDown_selects; rewrite ?Ht1, ?H1; assumption. }
  assert (Hd1 : isDraggingRef (core c1) = false) by (rewrite H1; exact Hd).
  assert (Hk1 : sketchModeRef (core c1) && truthy_string (sketchToolRef (core c1)) = false)
    by (rewrite H1; exact Hk).
  assert (Hp1 : truthy_string (pendingShapeTypeRef (core c1)) = false) by (rewrite H1; exact Hp).
  assert (Hc3 : candidateOf view2 (objectsRef (core c1)) = Some x) by (rewrite H1; exact Hc2).
  assert (Hx1 : nth_error (heap (core c1)) x <> None) by (rewrite H1; exact Hx).
  destruct (@step_shift_select three graph c1 _ view2 event2 x Hl2 Hd1 Hk1 Hp1 Hs2 Hc3 Hx1)
    as [n2 H2].
  rewrite H2. split.
  - transitivity (includes (shiftToggled (core c1) x) x); [destruct (core c1); reflexivity|].
    apply shiftToggled_primary.
    + rewrite H1. reflexivity.
    + apply (@candidateOf_includes view2). exact Hc3.
  - destruct (core c1); reflexivity.
Qed.

Lemma shift_click_leaves_shape_out_witness :
  includes (multiSelectedRef
              (core (step (three := Sample.three) (graph := stillGraph)
                       (step (three := Sample.three) (graph := stillGraph)
                          {| core := Session.twoShapes; tools := initialTools |}
                          (pointerdown (Session.body 1 0) Session.shift))
                       (mousedown 0 (Session.body 1 0) Session.shift)))) 1
  = false /\
  selectedEntityRef
    (core (step (three := Sample.three) (graph := stillGraph)
             (step (three := Sample.three) (graph := stillGraph)
                {| core := Session.twoShapes; tools := initialTools |}
                (pointerdown (Session.body 1 0) Session.shift))
             (mousedown 0 (Session.body 1 0) Session.shift)))
  = Some (ShapeRef 1).
Proof.
  apply (@shift_click_leaves_shape_out Sample.three stillGraph
           {| core := Session.twoShapes; tools := initialTools |}
           (Session.body 1 0) (Session.body 1 0) Session.shift Session.shift 1);
    try (vm_compute; reflexivity).
  vm_compute. discriminate.
Defined.

(* ===================================================================== *)
(** ** Placing a pending shape: the whole press *)
(* ===================================================================== *)

(** What the guards of the pointer listeners read. *)
Definition guards (s : State) : bool * bool * option string * option string :=
  (isDraggingRef s, sketchModeRef s, sketchToolRef s, sketchTool s).

(** What a selection with no shape type pending leaves alone. *)
Definition stored (s : State) : list Object3D * list nat * option string * list LogEntry :=
  (heap s, objectsRef s, pendingShapeTypeRef s, console s).

Lemma guards_eq (a b : State) :
  guards a = guards b ->
  isDraggingRef a = isDraggingRef b /\ sketchModeRef a = sketchModeRef b /\
  sketchToolRef a = sketchToolRef b /\ sketchTool a = sketchTool b.
Proof. unfold guards. intros H. injection H as H1 H2 H3 H4. now repeat split. Qed.

Lemma stored_eq (a b : State) :
  stored a = stored b ->
  heap a = heap b /\ objectsRef a = objectsRef b /\
  pendingShapeTypeRef a = pendingShapeTypeRef b /\ console a = console b.
Proof. unfold stored. intros H. injection H as H1 H2 H3 H4. now repeat split. Qed.

Lemma syncRefs_guards (before after : State) :
  sketchTool after = sketchTool before ->
  guards (syncRefs before after) = guards after.
Proof.
  intros Hk. unfold syncRefs. rewrite Hk.
  replace (option_eqb String.eqb (sketchTool before) (sketchTool before)) with true
    by (destruct (sketchTool before); simpl; [now rewrite String.eqb_refl | reflexivity]).
  repeat match goal with |- context [if ?b then _ else _] => destruct b end;
    destruct after; reflexivity.
Qed.

Lemma syncRefs_stored (before after : State) :
  stored (syncRefs before after) = stored after /\
  multiSelectedRef (syncRefs before after) = multiSelectedRef after /\
  selectedEntity (syncRefs before after) = selectedEntity after /\
  selectedType (syncRefs before after) = selectedType after.
Proof.
  unfold syncRefs.
  repeat match goal with |- context [if ?b then _ else _] => destruct b end;
    destruct after; repeat split.
Qed.

Section Press.
Context {three : ThreeJS} {graph : SceneGraph}.

Lemma handleSelection_guards (view : Viewport) (event : MouseEvent) (s : State) :
  guards (snd (handleSelection view event s)) = guards s.
Proof.
  unfold handleSelection, bind at 1, get.
  destruct (isDraggingRef s); [reflexivity|].
  destruct (sketchModeRef s && truthy_string (sketchToolRef s)); [reflexivity|].
  destruct (truthy_string (pendingShapeTypeRef s)) eqn:Ep.
  - destruct (pendingShapeTypeRef s) as [type|] eqn:Et; [|discriminate].
    destruct (mouseOnPlane view) as [pos|].
    + unfold createShapeAtPosition.
      destruct (String.eqb type "box"); [destruct s; reflexivity|].
      destruct (String.eqb type "sphere"); [destruct s; reflexivity|].
      destruct (String.eqb type "cylinder"); destruct s; reflexivity.
    + unfold bind at 1, when, modify at 1.
      destruct (candidateOf view (objectsRef s)) as [c|]; [|destruct s; reflexivity].
      unfold bind at 1, deref.
      match goal with |- context [nth_error ?h c] => destruct (nth_error h c) as [obj|] end;
        [|destruct s; reflexivity].
      destruct (resolvePick view event c obj) as [selected selectedType].
      destruct (shiftKey event);
        [destruct (selectedEntityRef s) as [[primary| |]|];
         try destruct (includes (objectsRef s) primary && negb (includes (multiSelectedRef s) primary))|];
        destruct s; reflexivity.
  - unfold bind at 1, when, ret.
    destruct (candidateOf view (objectsRef s)) as [c|]; [|destruct s; reflexivity].
    unfold bind at 1, deref.
    destruct (nth_error (heap s) c) as [obj|]; [|destruct s; reflexivity].
    destruct (resolvePick view event c obj) as [selected selectedType].
    destruct (shiftKey event);
      [destruct (selectedEntityRef s) as [[primary| |]|];
       try destruct (includes (objectsRef s) primary && negb (includes (multiSelectedRef s) primary))|];
      destruct s; reflexivity.
Qed.

Lemma handleSelection_stored (view : Viewport) (event : MouseEvent) (s : State) :
  truthy_string (pendingShapeTypeRef s) = false ->
  stored (snd (handleSelection view event s)) = stored s.
Proof.
  intros Hp. unfold handleSelection, bind at 1, get. rewrite Hp.
  destruct (isDraggingRef s); [reflexivity|].
  destruct (sketchModeRef s && truthy_string (sketchToolRef s)); [reflexivity|].
  unfold bind at 1, when, ret.
  destruct (candidateOf view (objectsRef s)) as [c|]; [|destruct s; reflexivity].
  unfold bind at 1, deref.
  destruct (nth_error (heap s) c) as [obj|]; [|destruct s; reflexivity].
  destruct (resolvePick view event c obj) as [selected selectedType].
  destruct (shiftKey event);
    [destruct (selectedEntityRef s) as [[primary| |]|];
     try destruct (includes (objectsRef s) primary && negb (includes (multiSelectedRef s) primary))|];
    destruct s; reflexivity.
Qed.

(** The ray resolves to no shape of the store: the selection is cleared. *)
Lemma handleSelection_nothing (view : Viewport) (event : MouseEvent) (s : State) :
  isDraggingRef s = false ->
  sketchModeRef s && truthy_string (sketchToolRef s) = false ->
  truthy_string (pendingShapeTypeRef s) = false ->
  candidateOf view (objectsRef s) = None ->
  handleSelection view event s
  = (Ok tt,
     set_events (events s ++ [selectionChanged None None])
       (set_selectedType None (set_selectedEntity None s))).
Proof.
  intros Hd Hk Hp Hc.
  unfold handleSelection, bind at 1, get. rewrite Hd, Hk, Hp, Hc.
  destruct s; reflexivity.
Qed.

(** The ray resolves to the shape [x], the shift key is not held: the
    multi-selection set is emptied and the pick becomes the selection. *)
Lemma handleSelection_plain (view : Viewport) (event : MouseEvent) (s : State)
      (x : nat) (obj : Object3D) :
  isDraggingRef s = false ->
  sketchModeRef s && truthy_string (sketchToolRef s) = false ->
  truthy_string (pendingShapeTypeRef s) = false ->
  shiftKey event = false ->
  candidateOf view (objectsRef s) = Some x ->
  nth_error (heap s) x = Some obj ->
  handleSelection view event s
  = (Ok tt,
     set_events (events s ++ [selectionChanged (Some (fst (resolvePick view event x obj)))
                                               (Some (snd (resolvePick view event x obj)))])
       (set_selectedTypeRef (Some (snd (resolvePick view event x obj)))
          (set_selectedEntityRef (Some (fst (resolvePick view event x obj)))
             (set_selectedType (Some (snd (resolvePick view event x obj)))
                (set_selectedEntity (Some (fst (resolvePick view event x obj)))
                   (set_multiSelectedRef [] s)))))).
Proof.
  intros Hd Hk Hp Hs Hc Ho.
  unfold handleSelection, bind at 1, get. rewrite Hd, Hk, Hp, Hs, Hc.
  unfold when. cbv iota.
  unfold bind at 1, ret. unfold bind at 1, deref. rewrite Ho.
  destruct (resolvePick view event x obj) as [selected selectedType].
  destruct s; reflexivity.
Qed.

(** The effects after a selection that cleared a selection there was. *)
Lemma syncRefs_cleared (s : State) (e : Entity) (n : Notification) :
  selectedEntity s = Some e ->
  selectedEntityRef
    (syncRefs s (set_events (events s ++ [n]) (set_selectedType None (set_selectedEntity None s))))
  = None.
Proof.
  intros He. unfold syncRefs.
  replace (selectedEntity (set_events (events s ++ [n])
                             (set_selectedType None (set_selectedEntity None s))))
    with (@None Entity) by (destruct s; reflexivity).
  rewrite He. cbn [option_eqb].
  repeat match goal with |- context [if ?b then _ else _] => destruct b end;
    destruct s; reflexivity.
Qed.

Lemma press_places (c : Canvas) (view1 view2 : Viewport) (event1 event2 : MouseEvent)
      (type : string) (pos : Vec3) :
  isDraggingRef (core c) = false ->
  sketchModeRef (core c) && truthy_string (sketchToolRef (core c)) = false ->
  truthy_string (transformModeRef (tools c)) = false ->
  pendingShapeTypeRef (core c) = Some type ->
  truthy_string (Some type) = true ->
  mouseOnPlane view1 = Some pos ->
  let placed := step c (pointerdown view1 event1) in
  let pressed := step placed (mousedown 0 view2 event2) in
  pendingShapeTypeRef (core pressed) = None /\
  heap (core pressed) = heap (core placed) /\
  objectsRef (core pressed) = objectsRef (core placed) /\
  multiSelectedRef (core placed) = multiSelectedRef (core c) /\
  (type = "box" \/ type = "sphere" \/ type = "cylinder" ->
   (exists shape,
       heap (core pressed) = heap (core c) ++ [shape] /\
       ud_type (userData shape) = Some type /\
       position shape = vec3 (Num (px pos)) (Num (restingHeight type)) (Num (pz pos))) /\
   objectsRef (core pressed) = objectsRef (core c) ++ [List.length (heap (core c))] /\
   selectedEntity (core placed) = Some (ShapeRef (List.length (heap (core c)))) /\
   (candidateOf view2 (objectsRef (core pressed)) = None ->
    selectedEntity (core pressed) = None /\
    selectedEntityRef (core pressed) = None /\
    multiSelectedRef (core pressed) = multiSelectedRef (core c)) /\
   (forall x obj,
       candidateOf view2 (objectsRef (core pressed)) = Some x ->
       nth_error (heap (core pressed)) x = Some obj ->
       if shiftKey event2
       then selectedEntityRef (core pressed) = Some (ShapeRef x) /\
            multiSelectedRef (core pressed) = shiftToggled (core placed) x
       else selectedEntityRef (core pressed) = Some (fst (resolvePick view2 event2 x obj)) /\
            selectedTypeRef (core pressed) = Some (snd (resolvePick view2 event2 x obj)) /\
            multiSelectedRef (core pressed) = [])) /\
  (type <> "box" -> type <> "sphere" -> type <> "cylinder" ->
   heap (core pressed) = heap (core c) /\
   objectsRef (core pressed) = objectsRef (core c) /\
   console (core pressed) = console (core c) ++ [console_error "Unknown shape type:"]).
Proof.
  intros Hd Hk Ht Hp Hty Hm placed pressed.
  pose proof (eq_refl : placed = step c (pointerdown view1 event1)) as Eplaced.
  pose proof (eq_refl : pressed = step placed (mousedown 0 view2 event2)) as Epressed.
  clearbody pressed. clearbody placed.
  destruct (@handleSelection_places three view1 event1 (core c) type pos Hd Hk Hp Hty Hm)
    as (s1 & Hrun & Hpend & Hms & _ & Hknown & Hunknown).
  assert (Hl1 : core (snd (listener (pointerdown view1 event1) c)) = s1).
  { cbn [listener]. rewrite handlePointerDown_selects by assumption.
    rewrite core_liftM, Hrun. reflexivity. }
  assert (Hc1 : core placed = syncRefs (core c) s1).
  { rewrite Eplaced. unfold step. cbn [core]. now rewrite Hl1. }
  assert (Ht1 : tools placed = tools c).
  { rewrite Eplaced. unfold step. cbn [tools listener].
    rewrite handlePointerDown_selects by assumption. apply tools_liftM. }
  pose proof (handleSelection_guards view1 event1 (core c)) as Hg1.
  rewrite Hrun in Hg1. cbn [snd] in Hg1.
  assert (Hgp : guards (core placed) = guards (core c)).
  { rewrite Hc1, syncRefs_guards; [exact Hg1|]. now apply guards_eq in Hg1. }
  destruct (syncRefs_stored (core c) s1) as (Hst1 & Hms1 & Hse1 & _).
  rewrite <- Hc1 in Hst1, Hms1, Hse1.
  destruct (stored_eq Hst1) as (Hh1 & Ho1 & Hp1 & Hcon1). clear Hst1.
  destruct (guards_eq Hgp) as (Hd1 & Hm1 & Hk1 & Hkk1). clear Hgp.
  assert (Hpp : truthy_string (pendingShapeTypeRef (core placed)) = false)
    by (rewrite Hp1, Hpend; reflexivity).
  assert (Hdp : isDraggingRef (core placed) = false) by (rewrite Hd1; exact Hd).
  assert (Hkp : sketchModeRef (core placed) && truthy_string (sketchToolRef (core placed)) = false)
    by (rewrite Hm1, Hk1; exact Hk).
  assert (Hl2 : core (snd (listener (mousedown 0 view2 event2) placed))
                = snd (handleSelection view2 event2 (core placed))).
  { cbn [listener]. apply onMouseDown_selects; rewrite ?Ht1; assumption. }
  assert (Hc2 : core pressed
                = syncRefs (core placed) (snd (handleSelection view2 event2 (core placed)))).
  { rewrite Epressed. unfold step. cbn [core]. now rewrite Hl2. }
  destruct (syncRefs_stored (core placed) (snd (handleSelection view2 event2 (core placed))))
    as (Hst2 & Hms2 & Hse2 & _).
  rewrite <- Hc2 in Hst2, Hms2, Hse2.
  rewrite (@handleSelection_stored view2 event2 (core placed) Hpp) in Hst2.
  destruct (stored_eq Hst2) as (Hh2 & Ho2 & Hp2 & Hcon2). clear Hst2.
  split; [rewrite Hp2, Hp1, Hpend; reflexivity|].
  split; [exact Hh2|]. split; [exact Ho2|].
  split; [rewrite Hms1; exact Hms|].
  split.
  - intros Hkind. destruct (Hknown Hkind) as (shape & Hh & Ho & Hu & Hpos & Hsel & _).
    split; [exists shape; rewrite Hh2, Hh1, Hh; repeat split; assumption|].
    split; [rewrite Ho2, Ho1; exact Ho|].
    split; [rewrite Hse1; exact Hsel|].
    split.
    + intros Hnone. rewrite Ho2 in Hnone.
      rewrite (@handleSelection_nothing view2 event2 (core placed) Hdp Hkp Hpp Hnone) in *.
      cbn [snd] in *. split; [|split].
      * rewrite Hse2. destruct (core placed); reflexivity.
      * rewrite Hc2. apply (@syncRefs_cleared _ (ShapeRef (List.length (heap (core c))))).
        rewrite Hse1. exact Hsel.
      * rewrite Hms2, <- Hms, <- Hms1. destruct (core placed); reflexivity.
    + intros x obj Hx Hobj. rewrite Ho2 in Hx. rewrite Hh2 in Hobj.
      destruct (shiftKey event2) eqn:Es.
      * assert (Hlive : nth_error (heap (core placed)) x <> None) by (rewrite Hobj; discriminate).
        destruct (@step_shift_select three graph placed _ view2 event2 x Hl2 Hdp Hkp Hpp Es Hx Hlive)
          as [n Hn].
        rewrite <- Epressed in Hn. rewrite Hn. split; destruct (core placed); reflexivity.
      * rewrite (@handleSelection_plain view2 event2 (core placed) x obj Hdp Hkp Hpp Es Hx Hobj)
          in Hc2.
        cbn [snd] in Hc2. rewrite syncRefs_settled in Hc2.
        -- rewrite Hc2. destruct (core placed); repeat split.
        -- destruct (core placed); reflexivity.
        -- destruct (core placed); reflexivity.
        -- destruct (core placed); reflexivity.
  - intros H1 H2 H3. destruct (Hunknown H1 H2 H3) as (Hh & Ho & _ & Hcon).
    rewrite Hh2, Ho2, Hcon2, Hh1, Ho1, Hcon1, Hh, Ho, Hcon. repeat split.
Qed.

End Press.

(** A press of the left button with a shape type pending and the pointer
    over the ground plane, outside the sketch and transform tools.  The
    press reaches [handleSelection] twice, from the [pointerdown] and then
    from the [mousedown] listener.  The first run clears the pending type
    and, for ['box'], ['sphere'] and ['cylinder'], adds exactly one shape
    of that type to the store, at the clicked point and at the fixed
    height of its kind, and makes it the selection of the React state,
    with the multi-selection set as it was; for any other type it adds
    nothing and logs an error.  The second run adds nothing: it selects,
    on the scene that has the new shape.  When its ray resolves to no
    shape of the store the selection is cleared and the set is kept; when
    it resolves to a shape and the shift key is not held, the set is
    emptied and the pick becomes the selection; with the shift key held,
    the shape is toggled in the set and becomes the selection. *)
Theorem click_places_pending_shape {three : ThreeJS} {graph : SceneGraph}
        (c : Canvas) (view1 view2 : Viewport) (event1 event2 : MouseEvent)
        (type : string) (pos : Vec3) :
  isDraggingRef (core c) = false ->
  sketchModeRef (core c) && truthy_string (sketchToolRef (core c)) = false ->
  truthy_string (transformModeRef (tools c)) = false ->
  pendingShapeTypeRef (core c) = Some type ->
  truthy_string (Some type) = true ->
  mouseOnPlane view1 = Some pos ->
  let placed := step c (pointerdown view1 event1) in
  let pressed := step placed (mousedown 0 view2 event2) in
  pendingShapeTypeRef (core pressed) = None /\
  heap (core pressed) = heap (core placed) /\
  objectsRef (core pressed) = objectsRef (core placed) /\
  multiSelectedRef (core placed) = multiSelectedRef (core c) /\
  (type = "box" \/ type = "sphere" \/ type = "cylinder" ->
   (exists shape,
       heap (core pressed) = heap (core c) ++ [shape] /\
       ud_type (userData shape) = Some type /\
       position shape = vec3 (Num (px pos)) (Num (restingHeight type)) (Num (pz pos))) /\
   objectsRef (core pressed) = objectsRef (core c) ++ [List.length (heap (core c))] /\
   selectedEntity (core placed) = Some (ShapeRef (List.length (heap (core c)))) /\
   (candidateOf view2 (objectsRef (core pressed)) = None ->
    selectedEntity (core pressed) = None /\
    selectedEntityRef (core pressed) = None /\
    multiSelectedRef (core pressed) = multiSelectedRef (core c)) /\
   (forall x obj,
       candidateOf view2 (objectsRef (core pressed)) = Some x ->
       nth_error (heap (core pressed)) x = Some obj ->
       if shiftKey event2
       then selectedEntityRef (core pressed) = Some (ShapeRef x) /\
            multiSelectedRef (core pressed) = shiftToggled (core placed) x
       else selectedEntityRef (core pressed) = Some (fst (resolvePick view2 event2 x obj)) /\
            selectedTypeRef (core pressed) = Some (snd (resolvePick view2 event2 x obj)) /\
            multiSelectedRef (core pressed) = [])) /\
  (type <> "box" -> type <> "sphere" -> type <> "cylinder" ->
   heap (core pressed) = heap (core c) /\
   objectsRef (core pressed) = objectsRef (core c) /\
   console (core pressed) = console (core c) ++ [console_error "Unknown shape type:"]).
Proof. exact (@press_places three graph c view1 view2 event1 event2 type pos). Qed.

(** The sphere of the session is placed by a press whose second ray hits
    the sphere it has just placed. *)
Definition spherePendingCanvas : Canvas :=
  {| core := Session.spherePending; tools := initialTools |}.

Definition spherePoint : Vec3 := pt 3 0 0.

Lemma click_places_pending_shape_witness :
  let placed := step (three := Sample.three) (graph := stillGraph) spherePendingCanvas
                     (pointerdown (Session.ground 3 0) Session.plain) in
  let pressed := step (three := Sample.three) (graph := stillGraph) placed
                      (mousedown 0 (Session.body 1 0) Session.plain) in
  pendingShapeTypeRef (core pressed) = None /\
  heap (core pressed) = heap (core placed) /\
  objectsRef (core pressed) = objectsRef (core placed) /\
  multiSelectedRef (core placed) = multiSelectedRef (core spherePendingCanvas) /\
  ("sphere" = "box" \/ "sphere" = "sphere" \/ "sphere" = "cylinder" ->
   (exists shape,
       heap (core pressed) = heap (core spherePendingCanvas) ++ [shape] /\
       ud_type (userData shape) = Some "sphere" /\
       position shape
       = vec3 (Num (px spherePoint)) (Num (restingHeight "sphere")) (Num (pz spherePoint))) /\
   objectsRef (core pressed)
   = objectsRef (core spherePendingCanvas) ++ [List.length (heap (core spherePendingCanvas))] /\
   selectedEntity (core placed)
   = Some (ShapeRef (List.length (heap (core spherePendingCanvas)))) /\
   (candidateOf (Session.body 1 0) (objectsRef (core pressed)) = None ->
    selectedEntity (core pressed) = None /\
    selectedEntityRef (core pressed) = None /\
    multiSelectedRef (core pressed) = multiSelectedRef (core spherePendingCanvas)) /\
   (forall x obj,
       candidateOf (Session.body 1 0) (objectsRef (core pressed)) = Some x ->
       nth_error (heap (core pressed)) x = Some obj ->
       if shiftKey Session.plain
       then selectedEntityRef (core pressed) = Some (ShapeRef x) /\
            multiSelectedRef (core pressed) = shiftToggled (core placed) x
       else selectedEntityRef (core pressed)
            = Some (fst (resolvePick (Session.body 1 0) Session.plain x obj)) /\
            selectedTypeRef (core pressed)
            = Some (snd (resolvePick (Session.body 1 0) Session.plain x obj)) /\
            multiSelectedRef (core pressed) = [])) /\
  ("sphere" <> "box" -> "sphere" <> "sphere" -> "sphere" <> "cylinder" ->
   heap (core pressed) = heap (core spherePendingCanvas) /\
   objectsRef (core pressed) = objectsRef (core spherePendingCanvas) /\
   console (core pressed)
   = console (core spherePendingCanvas) ++ [console_error "Unknown shape type:"]).
Proof.
  apply (@click_places_pending_shape Sample.three stillGraph spherePendingCanvas
           (Session.ground 3 0) (Session.body 1 0) Session.plain Session.plain
           "sphere" spherePoint);
    vm_compute; reflexivity.
Defined.

(* ===================================================================== *)
(** ** Drawing a sketch: press, moves, release *)
(* ===================================================================== *)

(** The events the listeners of the canvas element get from one drag with
    the left button: the press, the moves, the release.  With [mouse] the
    press and the release come as a pointer event followed by the mouse
    event; without, as the pointer event alone (what a browser delivers
    after a [pointerdown] whose default was prevented). *)
Definition drag (mouse : bool) (down : Viewport) (event : MouseEvent)
           (moves : list (Viewport * MouseEvent)) (up : Viewport) : list Event :=
  pointerdown down event :: (if mouse then [mousedown 0 down event] else []) ++
  map (fun m => pointermove (fst m) (snd m)) moves ++
  pointerup up :: (if mouse then [mouseup] else []).

(** The last point of the ground plane the moves of a drag went over,
    [p] when there was none. *)
Definition lastOnPlane (p : Vec3) (moves : list (Viewport * MouseEvent)) : Vec3 :=
  fold_left (fun last m => match mouseOnPlane (fst m) with
                           | Some pos => pos
                           | None => last
                           end) moves p.

Definition rectangleFrom (p last : Vec3) : Sketch :=
  {| sk_id := None; sk_type := Some "rectangle";
     sk_start := Some (Vec.toVector3 p); sk_end := Some (Vec.toVector3 last);
     sk_width := Undefined; sk_height := Undefined;
     sk_radius := Undefined; sk_center := None |}.

Definition circleFrom (p : Vec3) (radius : jsnum) : Sketch :=
  {| sk_id := None; sk_type := Some "circle";
     sk_start := None; sk_end := None;
     sk_width := Undefined; sk_height := Undefined;
     sk_radius := radius; sk_center := Some (Vec.toVector3 p) |}.

(** The radius the preview of a circle has after the moves of a drag from
    [p]: [radius] when no move went over the ground plane. *)
Definition lastRadius (p : Vec3) (radius : jsnum) (moves : list (Viewport * MouseEvent)) : jsnum :=
  fold_left (fun last m => match mouseOnPlane (fst m) with
                           | Some pos => Num (Vec.distanceTo p pos)
                           | None => last
                           end) moves radius.

Section Drawing.
Context {three : ThreeJS} {graph : SceneGraph}.

Lemma handlePointerDown_rectangle (c : Canvas) (view : Viewport) (event : MouseEvent) (p : Vec3) :
  truthy_string (transformModeRef (tools c)) = false ->
  sketchModeRef (core c) = true -> sketchToolRef (core c) = Some "rectangle" ->
  mouseOnPlane view = Some p ->
  handlePointerDown view event c
  = (Ok tt, {| core := set_isDraggingRef true (core c);
               tools := set_currentSketchRef (Some (rectangleFrom p p))
                          (set_dragStartRef (Some p) (tools c)) |}).
Proof.
  intros Ht Hm Hk Hp.
  unfold handlePointerDown, bindC at 1, getS, liftM at 1, get.
  unfold bindC at 1, getT. cbn [tools core]. rewrite Ht, Hm, Hk. cbn [truthy_string andb].
  unfold handleSketchStart, bindC at 1, getS, liftM at 1, get. cbn [core].
  rewrite Hm, Hk, Hp. reflexivity.
Qed.

Lemma step_rectangle_start (c : Canvas) (view : Viewport) (event : MouseEvent) (p : Vec3) :
  truthy_string (transformModeRef (tools c)) = false ->
  sketchModeRef (core c) = true -> sketchToolRef (core c) = Some "rectangle" ->
  mouseOnPlane view = Some p ->
  step c (pointerdown view event)
  = {| core := set_isDraggingRef true (core c);
       tools := set_currentSketchRef (Some (rectangleFrom p p))
                  (set_dragStartRef (Some p) (tools c)) |}.
Proof.
  intros Ht Hm Hk Hp. unfold step. cbn [listener].
  rewrite (@handlePointerDown_rectangle c view event p Ht Hm Hk Hp). cbn [snd core tools].
  f_equal. apply syncRefs_unchanged; reflexivity.
Qed.

(** The component while a rectangle is drawn from [p], the pointer last
    seen at [last]. *)
Definition drawingRectangle (c : Canvas) (p last : Vec3) : Canvas :=
  {| core := set_isDraggingRef true (core c);
     tools := set_currentSketchRef (Some (rectangleFrom p last))
                (set_dragStartRef (Some p) (tools c)) |}.

Lemma step_sketching_mousedown (c : Canvas) (view : Viewport) (event : MouseEvent) :
  isDraggingRef (core c) = true ->
  sketchModeRef (core c) = true -> truthy_string (sketchToolRef (core c)) = true ->
  step c (mousedown 0 view event) = c.
Proof.
  intros Hd Hm Hk. unfold step. cbn [listener].
  assert (Hrun : onMouseDown 0 view event c = (Ok tt, c)).
  { destruct c as [s t]. cbn [core tools] in *. unfold onMouseDown. cbn [Z.eqb].
    unfold bindC at 1, getS, liftM at 1, get. unfold bindC at 1, getT. cbn [tools core].
    rewrite Hm, Hk. cbn [andb orb].
    destruct (truthy_string (pendingShapeTypeRef s)); [|reflexivity].
    unfold liftM, handleSelection, bind, get. cbn [core tools]. rewrite Hd. reflexivity. }
  rewrite Hrun. cbn [snd]. rewrite syncRefs_unchanged by reflexivity. destruct c; reflexivity.
Qed.

Lemma step_rectangle_move (c : Canvas) (p last : Vec3) (view : Viewport) (event : MouseEvent) :
  isTransformDraggingRef (tools c) = false -> sketchModeRef (core c) = true ->
  step (drawingRectangle c p last) (pointermove view event)
  = drawingRectangle c p (match mouseOnPlane view with
                          | Some pos => pos
                          | None => last
                          end).
Proof.
  intros Ht Hm. unfold step. cbn [listener].
  assert (Hrun : handlePointerMove view event (drawingRectangle c p last)
                 = (Ok tt, drawingRectangle c p (match mouseOnPlane view with
                                                 | Some pos => pos
                                                 | None => last
                                                 end))).
  { unfold handlePointerMove, bindC at 1, getS, liftM at 1, get.
    unfold bindC at 1, getT. cbn [tools core drawingRectangle].
    change (isTransformDraggingRef (set_currentSketchRef (Some (rectangleFrom p last))
                                      (set_dragStartRef (Some p) (tools c))))
      with (isTransformDraggingRef (tools c)).
    rewrite Ht.
    change (sketchModeRef (set_isDraggingRef true (core c))) with (sketchModeRef (core c)).
    rewrite Hm. cbn [andb isDraggingRef set_isDraggingRef].
    unfold handleSketchMove, bindC at 1, getS, liftM at 1, get.
    unfold bindC at 1, getT. cbn [tools core isDraggingRef set_isDraggingRef].
    cbn [currentSketchRef set_currentSketchRef].
    destruct (mouseOnPlane view) as [pos|]; reflexivity. }
  rewrite Hrun. cbn [snd]. unfold drawingRectangle at 1. cbn [core tools].
  rewrite syncRefs_unchanged by reflexivity. reflexivity.
Qed.

Lemma moves_rectangle (c : Canvas) (p : Vec3) (moves : list (Viewport * MouseEvent)) :
  isTransformDraggingRef (tools c) = false -> sketchModeRef (core c) = true ->
  forall last,
    fold_left step (map (fun m => pointermove (fst m) (snd m)) moves) (drawingRectangle c p last)
    = drawingRectangle c p (lastOnPlane last moves).
Proof.
  intros Ht Hm. induction moves as [|m moves IH]; intros last; [reflexivity|].
  cbn [map fold_left]. rewrite step_rectangle_move by assumption. apply IH.
Qed.

(** The rectangle the release at [q] stores after a drag from [p]. *)
Definition rectangleDrawn (p last q : Vec3) : Sketch :=
  {| sk_id := None; sk_type := Some "rectangle";
     sk_start := Some (Vec.toVector3 p); sk_end := Some (Vec.toVector3 last);
     sk_width := Num (PrimFloat.abs (px q - px p));
     sk_height := Num (PrimFloat.abs (pz q - pz p));
     sk_radius := Undefined;
     sk_center := Some (vec3 (Num ((px p + px q) / 2)) (Num 0) (Num ((pz p + pz q) / 2))) |}.

(** Whether the release at [q] stores the rectangle. *)
Definition rectangleKept (p q : Vec3) : bool :=
  (0.01 <? PrimFloat.abs (px q - px p))%float && (0.01 <? PrimFloat.abs (pz q - pz p))%float.

Lemma handleSketchEnd_rectangle (c : Canvas) (p last q : Vec3) (up : Viewport) :
  mouseOnPlane up = Some q ->
  exists logs,
    let s1 := match snapshotOf (core c) with
              | Some snap => set_redoStackRef []
                               (set_undoStackRef (undoStackRef (core c) ++ [snap])
                                  (set_console logs (set_isDraggingRef true (core c))))
              | None => set_console logs (set_isDraggingRef true (core c))
              end in
    handleSketchEnd up (drawingRectangle c p last)
    = (Ok tt,
       {| core := set_isDraggingRef false
                    (if rectangleKept p q
                     then set_events
                            (events s1 ++ [sketchesUpdated (sketchesRef s1 ++ [rectangleDrawn p last q])])
                            (set_sketchesRef (sketchesRef s1 ++ [rectangleDrawn p last q]) s1)
                     else s1);
          tools := set_currentSketchRef None (set_dragStartRef None (tools c)) |}).
Proof.
  intros Hq.
  destruct (pushHistory_run (set_isDraggingRef true (core c))) as [logs Hp].
  rewrite (@snapshotOf_store (set_isDraggingRef true (core c)) (core c)) in Hp
    by (destruct (core c); reflexivity).
  exists logs. cbv zeta. unfold drawingRectangle, handleSketchEnd.
  rewrite bindC_getS, bindC_getT. cbn [core tools].
  change (isDraggingRef (set_isDraggingRef true (core c))) with true.
  change (currentSketchRef (set_currentSketchRef (Some (rectangleFrom p last))
                              (set_dragStartRef (Some p) (tools c))))
    with (Some (rectangleFrom p last)).
  cbv iota. rewrite Hq.
  rewrite (@bindC_liftM _ _ pushHistory _ {| core := set_isDraggingRef true (core c); tools := set_currentSketchRef (Some (rectangleFrom p last)) (set_dragStartRef (Some p) (tools c)) |} tt _ Hp). cbn [tools].
  change (type_is (sk_type (rectangleFrom p last)) "rectangle") with true. cbv iota.
  change (dragStartRef (set_currentSketchRef (Some (rectangleFrom p last))
                          (set_dragStartRef (Some p) (tools c))))
    with (Some p).
  cbv iota zeta. fold (rectangleKept p q).
  destruct (rectangleKept p q); destruct (snapshotOf (core c)); reflexivity.
Qed.

Lemma step_rectangle_end (c : Canvas) (p last q : Vec3) (up : Viewport) :
  isTransformDraggingRef (tools c) = false -> sketchModeRef (core c) = true ->
  mouseOnPlane up = Some q ->
  exists s',
    step (drawingRectangle c p last) (pointerup up)
    = {| core := s'; tools := set_currentSketchRef None (set_dragStartRef None (tools c)) |} /\
    heap s' = heap (core c) /\ objectsRef s' = objectsRef (core c) /\
    sketchesRef s'
    = (if rectangleKept p q then sketchesRef (core c) ++ [rectangleDrawn p last q]
       else sketchesRef (core c)) /\
    (forall d, snapshotOf (core c) = Some d -> undoStackRef s' = undoStackRef (core c) ++ [d]) /\
    isDraggingRef s' = false.
Proof.
  intros Htd Hm Hq.
  destruct (@handleSketchEnd_rectangle c p last q up Hq) as [logs Hend].
  cbv zeta in Hend. eexists. split.
  - unfold step. cbn [listener]. unfold handlePointerUp.
    rewrite bindC_getT.
    change (isTransformDraggingRef (tools (drawingRectangle c p last)))
      with (isTransformDraggingRef (tools c)).
    rewrite Htd. rewrite bindC_getS.
    change (sketchModeRef (core (drawingRectangle c p last))) with (sketchModeRef (core c)).
    change (isDraggingRef (core (drawingRectangle c p last))) with true.
    rewrite Hm. cbn [andb].
    rewrite (@bindC_Ok _ _ (handleSketchEnd up) _ (drawingRectangle c p last) _ tt Hend).
    reflexivity.
  - destruct (rectangleKept p q); destruct (snapshotOf (core c)) as [d0|];
      rewrite syncRefs_unchanged by reflexivity;
      (repeat split; try reflexivity);
      intros d Hd; inversion Hd; reflexivity.
Qed.

Lemma step_mouseup (c : Canvas) :
  step c mouseup
  = {| core := core c;
       tools := set_orbit false false (previousMousePosition (tools c)) (pt2 0 0) (tools c) |}.
Proof.
  unfold step. cbn [listener]. unfold onMouseUp, modifyT. cbn [snd core tools].
  now rewrite syncRefs_unchanged.
Qed.

Lemma fold_left_step_app (events1 events2 : list Event) (c : Canvas) :
  fold_left step (events1 ++ events2) c = fold_left step events2 (fold_left step events1 c).
Proof. apply fold_left_app. Qed.

(** *** The same for a circle *)

Definition drawingCircle (c : Canvas) (p : Vec3) (radius : jsnum) : Canvas :=
  {| core := set_isDraggingRef true (core c);
     tools := set_currentSketchRef (Some (circleFrom p radius))
                (set_dragStartRef (Some p) (tools c)) |}.

Lemma step_circle_start (c : Canvas) (view : Viewport) (event : MouseEvent) (p : Vec3) :
  truthy_string (transformModeRef (tools c)) = false ->
  sketchModeRef (core c) = true -> sketchToolRef (core c) = Some "circle" ->
  mouseOnPlane view = Some p ->
  step c (pointerdown view event) = drawingCircle c p (Num 0).
Proof.
  intros Ht Hm Hk Hp. unfold step. cbn [listener].
  assert (Hrun : handlePointerDown view event c = (Ok tt, drawingCircle c p (Num 0))).
  { unfold handlePointerDown. rewrite bindC_getS, bindC_getT. rewrite Ht, Hm, Hk.
    cbn [truthy_string andb].
    unfold handleSketchStart. rewrite bindC_getS. rewrite Hm, Hk, Hp. reflexivity. }
  rewrite Hrun. cbn [snd]. unfold drawingCircle. cbn [core tools].
  now rewrite syncRefs_unchanged.
Qed.

Lemma step_circle_move (c : Canvas) (p : Vec3) (radius : jsnum) (view : Viewport) (event : MouseEvent) :
  isTransformDraggingRef (tools c) = false -> sketchModeRef (core c) = true ->
  step (drawingCircle c p radius) (pointermove view event)
  = drawingCircle c p (match mouseOnPlane view with
                       | Some pos => Num (Vec.distanceTo p pos)
                       | None => radius
                       end).
Proof.
  intros Ht Hm. unfold step. cbn [listener].
  assert (Hrun : handlePointerMove view event (drawingCircle c p radius)
                 = (Ok tt, drawingCircle c p (match mouseOnPlane view with
                                              | Some pos => Num (Vec.distanceTo p pos)
                                              | None => radius
                                              end))).
  { unfold handlePointerMove. rewrite bindC_getS, bindC_getT.
    change (isTransformDraggingRef (tools (drawingCircle c p radius)))
      with (isTransformDraggingRef (tools c)).
    rewrite Ht.
    change (sketchModeRef (core (drawingCircle c p radius))) with (sketchModeRef (core c)).
    change (isDraggingRef (core (drawingCircle c p radius))) with true.
    rewrite Hm. cbn [andb].
    unfold handleSketchMove. rewrite bindC_getS, bindC_getT.
    change (isDraggingRef (core (drawingCircle c p radius))) with true.
    change (currentSketchRef (tools (drawingCircle c p radius)))
      with (Some (circleFrom p radius)).
    cbv iota.
    destruct (mouseOnPlane view) as [pos|]; reflexivity. }
  rewrite Hrun. cbn [snd]. unfold drawingCircle at 1. cbn [core tools].
  rewrite syncRefs_unchanged by reflexivity. reflexivity.
Qed.

Lemma moves_circle (c : Canvas) (p : Vec3) (moves : list (Viewport * MouseEvent)) :
  isTransformDraggingRef (tools c) = false -> sketchModeRef (core c) = true ->
  forall radius,
    fold_left step (map (fun m => pointermove (fst m) (snd m)) moves) (drawingCircle c p radius)
    = drawingCircle c p (lastRadius p radius moves).
Proof.
  intros Ht Hm. induction moves as [|m moves IH]; intros radius; [reflexivity|].
  cbn [map fold_left]. rewrite step_circle_move by assumption. apply IH.
Qed.

(** The circle the release at [q] stores after a drag from [p]. *)
Definition circleDrawn (p q : Vec3) : Sketch :=
  {| sk_id := None; sk_type := Some "circle";
     sk_start := None; sk_end := None;
     sk_width := Undefined; sk_height := Undefined;
     sk_radius := Num (Vec.distanceTo p q);
     sk_center := Some (Vec.toVector3 p) |}.

Lemma handleSketchEnd_circle (c : Canvas) (p q : Vec3) (radius : jsnum) (up : Viewport) :
  mouseOnPlane up = Some q ->
  exists logs,
    let s1 := match snapshotOf (core c) with
              | Some snap => set_redoStackRef []
                               (set_undoStackRef (undoStackRef (core c) ++ [snap])
                                  (set_console logs (set_isDraggingRef true (core c))))
              | None => set_console logs (set_isDraggingRef true (core c))
              end in
    handleSketchEnd up (drawingCircle c p radius)
    = (Ok tt,
       {| core := set_isDraggingRef false
                    (if (0.01 <? Vec.distanceTo p q)%float
                     then set_events
                            (events s1 ++ [sketchesUpdated (sketchesRef s1 ++ [circleDrawn p q])])
                            (set_sketchesRef (sketchesRef s1 ++ [circleDrawn p q]) s1)
                     else s1);
          tools := set_currentSketchRef None (set_dragStartRef None (tools c)) |}).
Proof.
  intros Hq.
  destruct (pushHistory_run (set_isDraggingRef true (core c))) as [logs Hp].
  rewrite (@snapshotOf_store (set_isDraggingRef true (core c)) (core c)) in Hp
    by (destruct (core c); reflexivity).
  exists logs. cbv zeta. unfold drawingCircle, handleSketchEnd.
  rewrite bindC_getS, bindC_getT. cbn [core tools].
  change (isDraggingRef (set_isDraggingRef true (core c))) with true.
  change (currentSketchRef (set_currentSketchRef (Some (circleFrom p radius))
                              (set_dragStartRef (Some p) (tools c))))
    with (Some (circleFrom p radius)).
  cbv iota. rewrite Hq.
  rewrite (@bindC_liftM _ _ pushHistory _
             {| core := set_isDraggingRef true (core c);
                tools := set_currentSketchRef (Some (circleFrom p radius))
                           (set_dragStartRef (Some p) (tools c)) |} tt _ Hp).
  cbn [tools].
  change (type_is (sk_type (circleFrom p radius)) "rectangle") with false.
  change (type_is (sk_type (circleFrom p radius)) "circle") with true. cbv iota.
  change (dragStartRef (set_currentSketchRef (Some (circleFrom p radius))
                          (set_dragStartRef (Some p) (tools c))))
    with (Some p).
  cbv iota zeta.
  destruct (0.01 <? Vec.distanceTo p q)%float; destruct (snapshotOf (core c)); reflexivity.
Qed.

Lemma step_circle_end (c : Canvas) (p q : Vec3) (radius : jsnum) (up : Viewport) :
  isTransformDraggingRef (tools c) = false -> sketchModeRef (core c) = true ->
  mouseOnPlane up = Some q ->
  exists s',
    step (drawingCircle c p radius) (pointerup up)
    = {| core := s'; tools := set_currentSketchRef None (set_dragStartRef None (tools c)) |} /\
    heap s' = heap (core c) /\ objectsRef s' = objectsRef (core c) /\
    sketchesRef s'
    = (if (0.01 <? Vec.distanceTo p q)%float then sketchesRef (core c) ++ [circleDrawn p q]
       else sketchesRef (core c)) /\
    (forall d, snapshotOf (core c) = Some d -> undoStackRef s' = undoStackRef (core c) ++ [d]) /\
    isDraggingRef s' = false.
Proof.
  intros Htd Hm Hq.
  destruct (@handleSketchEnd_circle c p q radius up Hq) as [logs Hend].
  cbv zeta in Hend. eexists. split.
  - unfold step. cbn [listener]. unfold handlePointerUp.
    rewrite bindC_getT.
    change (isTransformDraggingRef (tools (drawingCircle c p radius)))
      with (isTransformDraggingRef (tools c)).
    rewrite Htd. rewrite bindC_getS.
    change (sketchModeRef (core (drawingCircle c p radius))) with (sketchModeRef (core c)).
    change (isDraggingRef (core (drawingCircle c p radius))) with true.
    rewrite Hm. cbn [andb].
    rewrite (@bindC_Ok _ _ (handleSketchEnd up) _ (drawingCircle c p radius) _ tt Hend).
    reflexivity.
  - destruct (0.01 <? Vec.distanceTo p q)%float; destruct (snapshotOf (core c)) as [d0|];
      rewrite syncRefs_unchanged by reflexivity;
      (repeat split; try reflexivity);
      intros d Hd; inversion Hd; reflexivity.
Qed.

End Drawing.

Lemma drag_rectangle {three : ThreeJS} {graph : SceneGraph}
        (c : Canvas) (mouse : bool) (down up : Viewport) (event : MouseEvent)
        (moves : list (Viewport * MouseEvent)) (p q : Vec3) :
  truthy_string (transformModeRef (tools c)) = false ->
  isTransformDraggingRef (tools c) = false ->
  sketchModeRef (core c) = true -> sketchToolRef (core c) = Some "rectangle" ->
  mouseOnPlane down = Some p -> mouseOnPlane up = Some q ->
  exists c',
    fold_left step (drag mouse down event moves up) c = c' /\
    heap (core c') = heap (core c) /\ objectsRef (core c') = objectsRef (core c) /\
    sketchesRef (core c')
    = (if rectangleKept p q
       then sketchesRef (core c) ++ [rectangleDrawn p (lastOnPlane p moves) q]
       else sketchesRef (core c)) /\
    (forall d, snapshotOf (core c) = Some d ->
               undoStackRef (core c') = undoStackRef (core c) ++ [d]) /\
    isDraggingRef (core c') = false /\
    currentSketchRef (tools c') = None /\ dragStartRef (tools c') = None.
Proof.
  intros Ht Htd Hm Hk Hp Hq. eexists. split; [reflexivity|].
  destruct (@step_rectangle_end three graph c p (lastOnPlane p moves) q up Htd Hm Hq)
    as (s' & Hstep & Hh & Ho & Hs & Hu & Hd).
  unfold drag. destruct mouse; cbn [app fold_left];
    rewrite (@step_rectangle_start three graph c down event p Ht Hm Hk Hp);
    fold (drawingRectangle c p p).
  1: rewrite step_sketching_mousedown;
    [| reflexivity | exact Hm
     | change (sketchToolRef (core (drawingRectangle c p p))) with (sketchToolRef (core c));
       now rewrite Hk].
  all: rewrite fold_left_step_app, (@moves_rectangle three graph c p moves Htd Hm p);
    cbn [fold_left]; rewrite Hstep, ?step_mouseup; cbn [core tools];
    repeat split; assumption || reflexivity.
Qed.

(** A rectangle drawn with the rectangle tool, from the press at the point
    [p] of the ground plane to the release at [q]: the release records a
    history entry, and stores one sketch when the two sides are above
    0.01, nothing otherwise.  The sketch has the sides and the centre of
    the rectangle from [p] to [q]; its [end] corner is the last point the
    moves went over, not [q].  The objects are left alone and the drawing
    state is cleared. *)
Theorem draw_rectangle {three : ThreeJS} {graph : SceneGraph}
        (c : Canvas) (mouse : bool) (down up : Viewport) (event : MouseEvent)
        (moves : list (Viewport * MouseEvent)) (p q : Vec3) :
  truthy_string (transformModeRef (tools c)) = false ->
  isTransformDraggingRef (tools c) = false ->
  sketchModeRef (core c) = true -> sketchToolRef (core c) = Some "rectangle" ->
  mouseOnPlane down = Some p -> mouseOnPlane up = Some q ->
  exists c',
    fold_left step (drag mouse down event moves up) c = c' /\
    heap (core c') = heap (core c) /\ objectsRef (core c') = objectsRef (core c) /\
    sketchesRef (core c')
    = (if rectangleKept p q
       then sketchesRef (core c) ++ [rectangleDrawn p (lastOnPlane p moves) q]
       else sketchesRef (core c)) /\
    (forall d, snapshotOf (core c) = Some d ->
               undoStackRef (core c') = undoStackRef (core c) ++ [d]) /\
    isDraggingRef (core c') = false /\
    currentSketchRef (tools c') = None /\ dragStartRef (tools c') = None.
Proof. exact (@drag_rectangle three graph c mouse down up event moves p q). Qed.

Lemma draw_rectangle_witness :
  exists c',
    fold_left (step (three := Sample.three) (graph := stillGraph))
              (drag true (Session.ground 0 0) Session.plain
                    [(Session.ground 1 1, Session.plain)] (Session.ground 2 1))
              (run (three := Sample.three) (graph := stillGraph)
                   [setSketchMode true; setSketchTool (Some "rectangle")]) = c' /\
    heap (core c') = [] /\ objectsRef (core c') = [] /\
    sketchesRef (core c')
    = (if rectangleKept (pt 0 0 0) (pt 2 0 1)
       then [] ++ [rectangleDrawn (pt 0 0 0)
                     (lastOnPlane (pt 0 0 0) [(Session.ground 1 1, Session.plain)])
                     (pt 2 0 1)]
       else []) /\
    (forall d, snapshotOf initialState = Some d ->
               undoStackRef (core c') = [] ++ [d]) /\
    isDraggingRef (core c') = false /\
    currentSketchRef (tools c') = None /\ dragStartRef (tools c') = None.
Proof.
  apply (@draw_rectangle Sample.three stillGraph
           (run (three := Sample.three) (graph := stillGraph)
                [setSketchMode true; setSketchTool (Some "rectangle")])
           true (Session.ground 0 0) (Session.ground 2 1) Session.plain
           [(Session.ground 1 1, Session.plain)] (pt 0 0 0) (pt 2 0 1));
    reflexivity.
Defined.

Lemma drag_circle {three : ThreeJS} {graph : SceneGraph}
        (c : Canvas) (mouse : bool) (down up : Viewport) (event : MouseEvent)
        (moves : list (Viewport * MouseEvent)) (p q : Vec3) :
  truthy_string (transformModeRef (tools c)) = false ->
  isTransformDraggingRef (tools c) = false ->
  sketchModeRef (core c) = true -> sketchToolRef (core c) = Some "circle" ->
  mouseOnPlane down = Some p -> mouseOnPlane up = Some q ->
  exists c',
    fold_left step (drag mouse down event moves up) c = c' /\
    heap (core c') = heap (core c) /\ objectsRef (core c') = objectsRef (core c) /\
    sketchesRef (core c')
    = (if (0.01 <? Vec.distanceTo p q)%float
       then sketchesRef (core c) ++
            [ {| sk_id := None; sk_type := Some "circle";
                 sk_start := None; sk_end := None;
                 sk_width := Undefined; sk_height := Undefined;
                 sk_radius := Num (Vec.distanceTo p q);
                 sk_center := Some (Vec.toVector3 p) |} ]
       else sketchesRef (core c)) /\
    (forall d, snapshotOf (core c) = Some d ->
               undoStackRef (core c') = undoStackRef (core c) ++ [d]) /\
    isDraggingRef (core c') = false /\
    currentSketchRef (tools c') = None /\ dragStartRef (tools c') = None.
Proof.
  intros Ht Htd Hm Hk Hp Hq. eexists. split; [reflexivity|].
  destruct (@step_circle_end three graph c p q (lastRadius p (Num 0) moves) up Htd Hm Hq)
    as (s' & Hstep & Hh & Ho & Hs & Hu & Hd).
  unfold drag. destruct mouse; cbn [app fold_left];
    rewrite (@step_circle_start three graph c down event p Ht Hm Hk Hp).
  1: rewrite step_sketching_mousedown;
    [| reflexivity | exact Hm
     | change (sketchToolRef (core (drawingCircle c p (Num 0)))) with (sketchToolRef (core c));
       now rewrite Hk].
  all: rewrite fold_left_step_app, (@moves_circle three graph c p moves Htd Hm (Num 0));
    cbn [fold_left]; rewrite Hstep, ?step_mouseup; cbn [core tools];
    repeat split; assumption || reflexivity.
Qed.

(** A circle drawn with the circle tool, from the press at [p] to the
    release at [q]: the release records a history entry, and stores one
    sketch when the distance from [p] to [q] is above 0.01, nothing
    otherwise.  The sketch has its centre at [p] and that distance as its
    radius, whatever the moves between were. *)
Theorem draw_circle {three : ThreeJS} {graph : SceneGraph}
        (c : Canvas) (mouse : bool) (down up : Viewport) (event : MouseEvent)
        (moves : list (Viewport * MouseEvent)) (p q : Vec3) :
  truthy_string (transformModeRef (tools c)) = false ->
  isTransformDraggingRef (tools c) = false ->
  sketchModeRef (core c) = true -> sketchToolRef (core c) = Some "circle" ->
  mouseOnPlane down = Some p -> mouseOnPlane up = Some q ->
  exists c',
    fold_left step (drag mouse down event moves up) c = c' /\
    heap (core c') = heap (core c) /\ objectsRef (core c') = objectsRef (core c) /\
    sketchesRef (core c')
    = (if (0.01 <? Vec.distanceTo p q)%float
       then sketchesRef (core c) ++
            [ {| sk_id := None; sk_type := Some "circle";
                 sk_start := None; sk_end := None;
                 sk_width := Undefined; sk_height := Undefined;
                 sk_radius := Num (Vec.distanceTo p q);
                 sk_center := Some (Vec.toVector3 p) |} ]
       else sketchesRef (core c)) /\
    (forall d, snapshotOf (core c) = Some d ->
               undoStackRef (core c') = undoStackRef (core c) ++ [d]) /\
    isDraggingRef (core c') = false /\
    currentSketchRef (tools c') = None /\ dragStartRef (tools c') = None.
Proof. exact (@drag_circle three graph c mouse down up event moves p q). Qed.

Lemma draw_circle_witness :
  exists c',
    fold_left (step (three := Sample.three) (graph := stillGraph))
              (drag true (Session.ground 0 0) Session.plain
                    [(Session.ground 1 1, Session.plain)] (Session.ground 3 4))
              (run (three := Sample.three) (graph := stillGraph)
                   [setSketchMode true; setSketchTool (Some "circle")]) = c' /\
    heap (core c') = [] /\ objectsRef (core c') = [] /\
    sketchesRef (core c')
    = (if (0.01 <? Vec.distanceTo (pt 0 0 0) (pt 3 0 4))%float
       then [] ++
            [ {| sk_id := None; sk_type := Some "circle";
                 sk_start := None; sk_end := None;
                 sk_width := Undefined; sk_height := Undefined;
                 sk_radius := Num (Vec.distanceTo (pt 0 0 0) (pt 3 0 4));
                 sk_center := Some (Vec.toVector3 (pt 0 0 0)) |} ]
       else []) /\
    (forall d, snapshotOf initialState = Some d ->
               undoStackRef (core c') = [] ++ [d]) /\
    isDraggingRef (core c') = false /\
    currentSketchRef (tools c') = None /\ dragStartRef (tools c') = None.
Proof.
  apply (@draw_circle Sample.three stillGraph
           (run (three := Sample.three) (graph := stillGraph)
                [setSketchMode true; setSketchTool (Some "circle")])
           true (Session.ground 0 0) (Session.ground 3 4) Session.plain
           [(Session.ground 1 1, Session.plain)] (pt 0 0 0) (pt 3 0 4));
    reflexivity.
Defined.

(* ===================================================================== *)
(** ** The keyboard *)
(* ===================================================================== *)

(** The key [Z] with Ctrl or Cmd held undoes, with or without the shift
    key: the test for undo comes first, so the [z]-with-shift case of the
    redo test is never reached and Ctrl+Shift+Z is an undo, not a redo. *)
Theorem ctrl_shift_z_undoes {three : ThreeJS} {graph : SceneGraph} (c : Canvas) (event : KeyEvent) :
  String.eqb (target_tagName event) "INPUT" = false ->
  String.eqb (target_tagName event) "TEXTAREA" = false ->
  key_ctrlKey event || key_metaKey event = true ->
  toLowerCase (key event) = "z" ->
  step c (keydown event) = step c undo.
Proof.
  intros Hi Ha Hc Hz. unfold step. cbn [listener]. unfold handleKeyDown.
  rewrite Hi, Ha, Hc, Hz. reflexivity.
Qed.

Lemma ctrl_shift_z_undoes_witness :
  step (three := Sample.three) (graph := stillGraph)
       {| core := Session.grouped; tools := initialTools |}
       (keydown {| target_tagName := "BODY"; key := "Z"; key_ctrlKey := true;
                   key_metaKey := false; key_shiftKey := true |})
  = step (three := Sample.three) (graph := stillGraph)
         {| core := Session.grouped; tools := initialTools |} undo.
Proof.
  apply (@ctrl_shift_z_undoes Sample.three stillGraph
           {| core := Session.grouped; tools := initialTools |}
           {| target_tagName := "BODY"; key := "Z"; key_ctrlKey := true;
              key_metaKey := false; key_shiftKey := true |}); reflexivity.
Defined.

(** The key [S] always toggles the scale mode and leaves the scene alone,
    with any modifier and in any mode: the [s] of the translate and scale
    branches ("down" and "shrink") is never reached. *)
Theorem key_s_toggles_scale_mode {three : ThreeJS} {graph : SceneGraph}
        (c : Canvas) (event : KeyEvent) :
  String.eqb (target_tagName event) "INPUT" = false ->
  String.eqb (target_tagName event) "TEXTAREA" = false ->
  toLowerCase (key event) = "s" ->
  step c (keydown event)
  = {| core := core c;
       tools := set_transformModeRef
                  (if type_is (transformModeRef (tools c)) "scale" then None else Some "scale")
                  (tools c) |}.
Proof.
  intros Hi Ha Hs. unfold step. cbn [listener]. unfold handleKeyDown.
  rewrite Hi, Ha, Hs. cbn [orb String.eqb Ascii.eqb Bool.eqb andb].
  rewrite !Bool.andb_false_r. cbv iota.
  unfold toggleMode. rewrite bindC_getT, bindC_modifyT. unfold setTransformModeHandler, modifyT.
  cbn [snd core tools]. rewrite syncRefs_unchanged by reflexivity. reflexivity.
Qed.

Lemma key_s_toggles_scale_mode_witness :
  step (three := Sample.three) (graph := stillGraph)
       {| core := Session.boxSelected; tools := set_transformModeRef (Some "translate") initialTools |}
       (keydown {| target_tagName := "BODY"; key := "s"; key_ctrlKey := false;
                   key_metaKey := false; key_shiftKey := false |})
  = {| core := core {| core := Session.boxSelected;
                       tools := set_transformModeRef (Some "translate") initialTools |};
       tools := set_transformModeRef
                  (if type_is (transformModeRef
                                 (tools {| core := Session.boxSelected;
                                           tools := set_transformModeRef (Some "translate")
                                                      initialTools |})) "scale"
                   then None else Some "scale")
                  (tools {| core := Session.boxSelected;
                            tools := set_transformModeRef (Some "translate") initialTools |}) |}.
Proof.
  apply (@key_s_toggles_scale_mode Sample.three stillGraph
           {| core := Session.boxSelected;
              tools := set_transformModeRef (Some "translate") initialTools |}
           {| target_tagName := "BODY"; key := "s"; key_ctrlKey := false;
              key_metaKey := false; key_shiftKey := false |}); reflexivity.
Defined.

(* ===================================================================== *)
(** ** Moving a shape by a drag in translate mode *)
(* ===================================================================== *)


Lemma pushHistory_stacks (s : State) :
  exists undoStack redoStack logs,
    pushHistory s
    = (Ok tt, set_console logs (set_redoStackRef redoStack (set_undoStackRef undoStack s))) /\
    (forall d, snapshotOf s = Some d -> undoStack = undoStackRef s ++ [d]).
Proof.
  destruct (pushHistory_run s) as [logs Hp].
  destruct (snapshotOf s) as [d|].
  - exists (undoStackRef s ++ [d]), [], logs. split.
    + rewrite Hp. destruct s; reflexivity.
    + intros d' Hd. now inversion Hd.
  - exists (undoStackRef s), (redoStackRef s), logs. split.
    + rewrite Hp. destruct s; reflexivity.
    + discriminate.
Qed.








Section Translate.
Context {three : ThreeJS} {graph : SceneGraph}.






End Translate.




(* ===================================================================== *)
(** ** From a drawing to a solid *)
(* ===================================================================== *)

Lemma splice1_last {A} (l : list A) (x : A) : splice1 (l ++ [x]) (List.length l) = l.
Proof.
  unfold splice1. rewrite firstn_app, firstn_all, Nat.sub_diag. cbn [firstn].
  rewrite skipn_all2 by (rewrite length_app; simpl; lia). now rewrite !app_nil_r.
Qed.

(** The extrusion of the last sketch of the list, an outline with its
    centre. *)
Lemma handleExtrude_last {three : ThreeJS}
      (s : State) (l : list Sketch) (sketch : Sketch) (center : Vector3) (height : jsnum) :
  sketchesRef s = l ++ [sketch] ->
  type_is (sk_type sketch) "rectangle" || type_is (sk_type sketch) "circle" = true ->
  sk_center sketch = Some center ->
  exists shape s',
    handleExtrude (Z.of_nat (List.length l)) height s = (Ok tt, s') /\
    sketchesRef s' = l /\
    heap s' = heap s ++ [shape] /\
    objectsRef s' = objectsRef s ++ [List.length (heap s)] /\
    ud_type (userData shape) = Some "extruded" /\
    ud_sketchData (userData shape) = Some sketch /\
    position shape = vec3 (vx center) (Num (ToNumber (default_param height 2) / 2)%float)
                          (vz center) /\
    selectedEntity s' = Some (ShapeRef (List.length (heap s))).
Proof.
  intros Hk Ht Hc.
  destruct (pushHistory_stacks s) as (undo & redo & logs & Hp & _).
  unfold handleExtrude, bind at 1, get.
  replace ((Z.of_nat (List.length l) <? 0)%Z ||
           (Z.of_nat (List.length l) >=? Z.of_nat (List.length (sketchesRef s)))%Z)
    with false
    by (symmetry; apply orb_false_iff; split;
        [apply Z.ltb_ge | rewrite Z.geb_leb; apply Z.leb_gt; rewrite Hk, length_app; simpl]; lia).
  unfold bind at 1. rewrite Hp. unfold bind at 1, get.
  rewrite Nat2Z.id.
  replace (sketchesRef (set_console logs (set_redoStackRef redo (set_undoStackRef undo s))))
    with (sketchesRef s) by reflexivity.
  rewrite Hk, nth_error_app2, Nat.sub_diag by lia. cbn [nth_error]. rewrite Hc.
  destruct (type_is (sk_type sketch) "rectangle") eqn:Er;
    [| destruct (type_is (sk_type sketch) "circle") eqn:Ec; [|discriminate]].
  all: eexists; eexists; split; [reflexivity|];
    unfold set_sketchesRef at 1 2 3 4 5 6 7 8.
  all: destruct s; cbn in Hk |- *; subst; rewrite splice1_last; repeat split;
    unfold updateShapeGeometry;
    match goal with |- context [geometry ?o] => destruct (geometry o) end; reflexivity.
Qed.

(** Every sketch the drawing tools store can be extruded.  After a drag
    with the rectangle or the circle tool that was long enough to store a
    sketch, the extrusion of the new (last) sketch completes normally: it
    takes the sketch out again, so the sketch list is the one before the
    drag, and adds one ['extruded'] shape to the store, centred on the
    rectangle (for a circle, at the point of the press) and raised by
    half the height. *)
Theorem drawn_sketch_extrudes {three : ThreeJS} {graph : SceneGraph}
        (c : Canvas) (mouse : bool) (down up : Viewport) (event : MouseEvent)
        (moves : list (Viewport * MouseEvent)) (p q : Vec3) (tool : string) (height : jsnum) :
  truthy_string (transformModeRef (tools c)) = false ->
  isTransformDraggingRef (tools c) = false ->
  sketchModeRef (core c) = true -> sketchToolRef (core c) = Some tool ->
  mouseOnPlane down = Some p -> mouseOnPlane up = Some q ->
  (tool = "rectangle" /\ rectangleKept p q = true) \/
  (tool = "circle" /\ (0.01 <? Vec.distanceTo p q)%float = true) ->
  exists shape s',
    handleExtrude (Z.of_nat (List.length (sketchesRef (core c)))) height
                  (core (fold_left step (drag mouse down event moves up) c))
    = (Ok tt, s') /\
    sketchesRef s' = sketchesRef (core c) /\
    heap s' = heap (core c) ++ [shape] /\
    objectsRef s' = objectsRef (core c) ++ [List.length (heap (core c))] /\
    ud_type (userData shape) = Some "extruded" /\
    position shape
    = (if String.eqb tool "rectangle"
       then vec3 (Num ((px p + px q) / 2)%float)
                 (Num (ToNumber (default_param height 2) / 2)%float)
                 (Num ((pz p + pz q) / 2)%float)
       else vec3 (Num (px p)) (Num (ToNumber (default_param height 2) / 2)%float)
                 (Num (pz p))) /\
    selectedEntity s' = Some (ShapeRef (List.length (heap (core c)))).
Proof.
  intros Ht Htd Hm Hk Hp Hq [[-> Hkept] | [-> Hkept]].
  - destruct (@drag_rectangle three graph c mouse down up event moves p q Ht Htd Hm Hk Hp Hq)
      as (c' & -> & Hh & Ho & Hs & _).
    rewrite Hkept in Hs.
    destruct (@handleExtrude_last three (core c') (sketchesRef (core c))
                (rectangleDrawn p (lastOnPlane p moves) q)
                (vec3 (Num ((px p + px q) / 2)%float) (Num 0) (Num ((pz p + pz q) / 2)%float))
                height Hs eq_refl eq_refl)
      as (shape & s' & Hrun & Hs' & Hh' & Ho' & Hty & _ & Hpos & Hsel).
    exists shape, s'. rewrite Hrun, Hs', Hh', Ho', Hty, Hpos, Hsel, Hh, Ho. repeat split.
  - destruct (@drag_circle three graph c mouse down up event moves p q Ht Htd Hm Hk Hp Hq)
      as (c' & -> & Hh & Ho & Hs & _).
    rewrite Hkept in Hs.
    destruct (@handleExtrude_last three (core c') (sketchesRef (core c)) _
                (Vec.toVector3 p) height Hs eq_refl eq_refl)
      as (shape & s' & Hrun & Hs' & Hh' & Ho' & Hty & _ & Hpos & Hsel).
    exists shape, s'. rewrite Hrun, Hs', Hh', Ho', Hty, Hpos, Hsel, Hh, Ho. repeat split.
Qed.

Lemma drawn_sketch_extrudes_witness :
  exists shape s',
    handleExtrude (three := Sample.three)
                  (Z.of_nat (List.length (sketchesRef (core (run (three := Sample.three)
                                                                 (graph := stillGraph)
                                                                 [setSketchMode true;
                                                                  setSketchTool (Some "circle")])))))
                  (Num 3)
                  (core (fold_left (step (three := Sample.three) (graph := stillGraph))
                                   (drag true (Session.ground 0 0) Session.plain []
                                         (Session.ground 3 4))
                                   (run (three := Sample.three) (graph := stillGraph)
                                        [setSketchMode true; setSketchTool (Some "circle")])))
    = (Ok tt, s') /\
    sketchesRef s'
    = sketchesRef (core (run (three := Sample.three) (graph := stillGraph)
                             [setSketchMode true; setSketchTool (Some "circle")])) /\
    heap s'
    = heap (core (run (three := Sample.three) (graph := stillGraph)
                      [setSketchMode true; setSketchTool (Some "circle")])) ++ [shape] /\
    objectsRef s'
    = objectsRef (core (run (three := Sample.three) (graph := stillGraph)
                            [setSketchMode true; setSketchTool (Some "circle")])) ++
      [List.length (heap (core (run (three := Sample.three) (graph := stillGraph)
                                    [setSketchMode true; setSketchTool (Some "circle")])))] /\
    ud_type (userData shape) = Some "extruded" /\
    position shape
    = (if String.eqb "circle" "rectangle"
       then vec3 (Num ((0 + 3) / 2)%float)
                 (Num (ToNumber (default_param (Num 3) 2) / 2)%float)
                 (Num ((0 + 4) / 2)%float)
       else vec3 (Num 0) (Num (ToNumber (default_param (Num 3) 2) / 2)%float)
                 (Num 0)) /\
    selectedEntity s'
    = Some (ShapeRef (List.length (heap (core (run (three := Sample.three) (graph := stillGraph)
                                                   [setSketchMode true;
                                                    setSketchTool (Some "circle")]))))).
Proof.
  apply (@drawn_sketch_extrudes Sample.three stillGraph
           (run (three := Sample.three) (graph := stillGraph)
                [setSketchMode true; setSketchTool (Some "circle")])
           true (Session.ground 0 0) (Session.ground 3 4) Session.plain []
           (pt 0 0 0) (pt 3 0 4) "circle" (Num 3));
    try reflexivity.
  right. split; [reflexivity | vm_compute; reflexivity].
Defined.
